(** * Fractal Code: cell signatures, circuit breakers and constitutional checks

    A shallow embedding of the TypeScript sources of the Fractal Code
    repository (SDK, validator, .fc parser and FractalClaw skill loader),
    followed by the properties proved about them.

    Conventions of the embedding.
    - A JavaScript string is a [string]: a sequence of UTF-16 code units,
      restricted to units below 256.  Comparison, [length], [slice] and
      [startsWith] all work on code units, as in JavaScript.  The
      signature computation, whose hash reads the UTF-8 encoding of the
      string, is given on strings of all code units as well ([Utf16] and
      [Wide]).
    - A JavaScript number is a [number]: NaN, the two infinities, or a
      finite value held as a rational; arithmetic rounds to binary64.
    - [undefined] for an optional field is [None].
    - Functions that push into a shared [violations] array return the list
      of the violations they push, in push order.
    - The wall clock ([new Date().toISOString()]) is an argument [now].
    - A character above code unit 255 in a message literal (the dash of
      the Safe-Mode error) stands in its UTF-8 bytes. *)

From Stdlib Require Import ZArith NArith QArith Qreduction Qcanon String Ascii List Bool Lia.
From Stdlib Require Import DecimalString Permutation.
From stdpp Require Import base list sorting.
Import ListNotations.

Local Open Scope list_scope.
Local Open Scope string_scope.

(* ===================================================================== *)
(** * JavaScript primitives used by the sources                          *)
(* ===================================================================== *)

Module Js.

(** ** Strings *)

(** [!s] for a string: only the empty string is falsy. *)
Definition falsy (s : string) : bool :=
  match s with EmptyString => true | String _ _ => false end.

Definition truthy (s : string) : bool := negb (falsy s).

(** [s.startsWith(p)] *)
Fixpoint startsWith (s p : string) : bool :=
  match p, s with
  | EmptyString, _ => true
  | String _ _, EmptyString => false
  | String c p', String d s' => Ascii.eqb c d && startsWith s' p'
  end.

(** [s.includes(p)] *)
Fixpoint includes (s p : string) : bool :=
  startsWith s p ||
  match s with
  | EmptyString => false
  | String _ s' => includes s' p
  end.

Fixpoint drop (n : nat) (s : string) : string :=
  match n, s with
  | O, _ => s
  | S _, EmptyString => EmptyString
  | S n', String _ s' => drop n' s'
  end.

Fixpoint take (n : nat) (s : string) : string :=
  match n, s with
  | O, _ => EmptyString
  | S _, EmptyString => EmptyString
  | S n', String c s' => String c (take n' s')
  end.

(** [s.slice(start)] and [s.slice(start, end)] for non-negative literals. *)
Definition slice_from (start : nat) (s : string) : string := drop start s.
Definition slice (start stop : nat) (s : string) : string :=
  take (stop - start) (drop start s).

(** White space and line terminators below code unit 256. *)
Definition isWhiteSpace (c : ascii) : bool :=
  let n := nat_of_ascii c in
  (Nat.leb 9 n && Nat.leb n 13) || Nat.eqb n 32 || Nat.eqb n 160.

Fixpoint trimStart (s : string) : string :=
  match s with
  | EmptyString => EmptyString
  | String c s' => if isWhiteSpace c then trimStart s' else s
  end.

Fixpoint rev_string (s acc : string) : string :=
  match s with
  | EmptyString => acc
  | String c s' => rev_string s' (String c acc)
  end.

Definition trimEnd (s : string) : string :=
  rev_string (trimStart (rev_string s EmptyString)) EmptyString.

(** [s.trim()] *)
Definition trim (s : string) : string := trimEnd (trimStart s).

(** [xs.join("")] *)
Fixpoint join (xs : list string) : string :=
  match xs with
  | [] => EmptyString
  | x :: xs' => x ++ join xs'
  end.

(** [`${n}`] for an array length or index. *)
Definition nat_toString (n : nat) : string :=
  NilZero.string_of_uint (Nat.to_uint n).

(** Code-unit order, the order of the default [Array.prototype.sort]. *)
Definition string_le (a b : string) : Prop := String.leb a b = true.

Global Instance string_le_dec : RelDecision string_le.
Proof.
  intros a b. unfold string_le.
  destruct (String.leb a b); [left | right]; congruence.
Defined.

(** [xs.sort()] on an array of strings.  Any sorting algorithm returns
    the same array, the order being total and antisymmetric. *)
Definition sort (xs : list string) : list string := merge_sort string_le xs.

(** ** Numbers *)

Inductive number : Type :=
| NaN
| PosInfinity
| NegInfinity
| Finite (q : Q).

Definition of_Z (z : Z) : number := Finite (inject_Z z).

(** [x <= 0], [x < 0], [x > y], [x === Infinity]; every comparison with
    NaN is false. *)
Definition le_zero (x : number) : bool :=
  match x with
  | NaN | PosInfinity => false
  | NegInfinity => true
  | Finite q => Qle_bool q 0
  end.

Definition lt_zero (x : number) : bool :=
  match x with
  | NaN | PosInfinity => false
  | NegInfinity => true
  | Finite q => negb (Qle_bool 0 q)
  end.

Definition gt (x y : number) : bool :=
  match x, y with
  | NaN, _ | _, NaN => false
  | PosInfinity, PosInfinity => false
  | PosInfinity, _ => true
  | _, PosInfinity => false
  | NegInfinity, _ => false
  | Finite _, NegInfinity => true
  | Finite p, Finite q => negb (Qle_bool p q)
  end.

Definition is_Infinity (x : number) : bool :=
  match x with PosInfinity => true | _ => false end.

(** [Number.isInteger(x)] *)
Definition isInteger (x : number) : bool :=
  match x with
  | Finite q => Pos.eqb (Qden (Qred q)) 1
  | _ => false
  end.

(** ** Binary64 arithmetic

    A JavaScript number is an IEEE 754 double: the result of an
    arithmetic operation is the exact result rounded to the nearest
    double, a tie going to the double with the even significand. *)

(** [n/d] divided by [2^e], as a fraction. *)
Definition scaled (e n d : Z) : Z * Z :=
  if (0 <=? e)%Z then (n, d * 2 ^ e)%Z else (n * 2 ^ (- e), d)%Z.

(** [n/d >= 2^e] *)
Definition at_least_pow2 (e n d : Z) : Prop :=
  (d * 2 ^ Z.max e 0 <= n * 2 ^ Z.max (- e) 0)%Z.

(** The exponent of the leading bit of [n/d]. *)
Definition floor_log2 (n d : Z) : Z :=
  let k := (Z.log2 n - Z.log2 d)%Z in
  let (a, b) := scaled k n d in
  if (a <? b)%Z then (k - 1)%Z else k.

(** [a/b] rounded to the nearest integer, a tie to the even one. *)
Definition nearest_even (a b : Z) : Z :=
  let m := (a / b)%Z in
  let r := (a mod b)%Z in
  if (2 * r <? b)%Z then m
  else if (b <? 2 * r)%Z then (m + 1)%Z
  else if Z.even m then m else (m + 1)%Z.

(** The double nearest to [n/d]: a significand of 53 bits over the unit
    [2^e], the unit being at least [2^-1074] (subnormal numbers), and
    Infinity from [2^1024] on. *)
Definition round_pos (n d : positive) : number :=
  let e := Z.max (floor_log2 (Zpos n) (Zpos d) - 52) (-1074) in
  let (a, b) := scaled e (Zpos n) (Zpos d) in
  let m := nearest_even a b in
  if (971 <? e)%Z || ((e =? 971)%Z && (m =? 2 ^ 53)%Z) then PosInfinity
  else Finite (if (0 <=? e)%Z then inject_Z (m * 2 ^ e)
               else Qred (m # Z.to_pos (2 ^ (- e)))).

(** [-x] *)
Definition negate (x : number) : number :=
  match x with
  | NaN => NaN
  | PosInfinity => NegInfinity
  | NegInfinity => PosInfinity
  | Finite q => Finite (- q)
  end.

(** The double nearest to a rational. *)
Definition round (q : Q) : number :=
  match Qnum q with
  | Z0 => Finite 0
  | Zpos n => round_pos n (Qden q)
  | Zneg n => negate (round_pos n (Qden q))
  end.

(** The rationals that are doubles: the only finite values a JavaScript
    number takes. *)
Definition is_double (q : Q) : bool :=
  match round q with
  | Finite r => Qeq_bool r q
  | _ => false
  end.

(** [x--] stores [x - 1], rounded; it leaves NaN and the infinities as
    they are. *)
Definition decrement (x : number) : number :=
  match x with
  | Finite q => round (q - 1)
  | other => other
  end.

(** ** Plain objects *)

(** A property read [table[key]] on an object literal finds, under a key
    the literal does not have, what [Object.prototype] has there: one of
    its functions, or itself under [__proto__].  The result is the text a
    template literal prints for that member, [None] when there is none. *)
Definition Object_prototype (key : string) : option string :=
  if String.eqb key "constructor" then Some "function Object() { [native code] }"
  else if existsb (String.eqb key)
            ["__defineGetter__"; "__defineSetter__"; "hasOwnProperty";
             "__lookupGetter__"; "__lookupSetter__"; "isPrototypeOf";
             "propertyIsEnumerable"; "toString"; "valueOf"; "toLocaleString"]
  then Some ("function " ++ key ++ "() { [native code] }")
  else if String.eqb key "__proto__" then Some "[object Object]"
  else None.

(** A JavaScript value that may sit where a number is expected. *)
Inductive prim : Type :=
| PNumber (n : number)
| PString (s : string)
| PBoolean (b : bool)
| PNull.

End Js.

(* ===================================================================== *)
(** * SHA-256 ([createHash("sha256").update(data, "utf8").digest("hex")]) *)
(* ===================================================================== *)

Module Sha256.

Local Open Scope list_scope.
Local Open Scope N_scope.

Definition w32 : N := 4294967296.
Definition wrap (x : N) : N := x mod w32.
Definition add32 (x y : N) : N := wrap (x + y).
Definition rotr (n x : N) : N :=
  N.lor (N.shiftr x n) (wrap (N.shiftl x (32 - n))).
Definition not32 (x : N) : N := w32 - 1 - x.

Definition Ch (x y z : N) : N := N.lxor (N.land x y) (N.land (not32 x) z).
Definition Maj (x y z : N) : N :=
  N.lxor (N.lxor (N.land x y) (N.land x z)) (N.land y z).
Definition Sigma0 (x : N) : N := N.lxor (N.lxor (rotr 2 x) (rotr 13 x)) (rotr 22 x).
Definition Sigma1 (x : N) : N := N.lxor (N.lxor (rotr 6 x) (rotr 11 x)) (rotr 25 x).
Definition sigma0 (x : N) : N := N.lxor (N.lxor (rotr 7 x) (rotr 18 x)) (N.shiftr x 3).
Definition sigma1 (x : N) : N := N.lxor (N.lxor (rotr 17 x) (rotr 19 x)) (N.shiftr x 10).

(** The round constants are the fractional parts of the square and cube
    roots of the first primes; they are computed rather than tabulated. *)
Definition is_prime (n : nat) : bool :=
  Nat.ltb 1 n &&
  forallb (fun d => negb (Nat.eqb (Nat.modulo n d) 0)) (seq 2 (n - 2)).

Definition primes_below (bound : nat) : list N :=
  map N.of_nat (filter is_prime (seq 0 bound)).

Fixpoint cube_root_bits (bits : nat) (n r : N) : N :=
  match bits with
  | O => r
  | S b =>
      let r' := r + N.shiftl 1 (N.of_nat b) in
      cube_root_bits b n (if r' * r' * r' <=? n then r' else r)
  end.

Definition cube_root (n : N) : N := cube_root_bits 40 n 0.

Definition initial_words : list N :=
  Eval vm_compute in
    map (fun p => wrap (N.sqrt (p * 2 ^ 64))) (primes_below 20).

Definition round_constants : list N :=
  Eval vm_compute in
    map (fun p => wrap (cube_root (p * 2 ^ 96))) (primes_below 312).

(** The eight working variables. *)
Record state : Type := mkState {
  va : N; vb : N; vc : N; vd : N; ve : N; vf : N; vg : N; vh : N
}.

Definition initial_state : state :=
  match initial_words with
  | [a; b; c; d; e; f; g; h] => mkState a b c d e f g h
  | _ => mkState 0 0 0 0 0 0 0 0
  end.

Definition round (s : state) (k w : N) : state :=
  let t1 := add32 (add32 (add32 (add32 (vh s) (Sigma1 (ve s))) (Ch (ve s) (vf s) (vg s))) k) w in
  let t2 := add32 (Sigma0 (va s)) (Maj (va s) (vb s) (vc s)) in
  mkState (add32 t1 t2) (va s) (vb s) (vc s) (add32 (vd s) t1) (ve s) (vf s) (vg s).

(** The message schedule is kept as a sliding window of sixteen words. *)
Definition next_window (w : list N) : list N :=
  let at_ i := nth i w 0 in
  tl w ++ [add32 (add32 (add32 (sigma1 (at_ 14%nat)) (at_ 9%nat)) (sigma0 (at_ 1%nat))) (at_ 0%nat)].

Fixpoint rounds (ks : list N) (w : list N) (s : state) : state :=
  match ks with
  | [] => s
  | k :: ks' => rounds ks' (next_window w) (round s k (nth 0 w 0))
  end.

Definition compress (s : state) (block : list N) : state :=
  let r := rounds round_constants block s in
  mkState (add32 (va s) (va r)) (add32 (vb s) (vb r)) (add32 (vc s) (vc r))
          (add32 (vd s) (vd r)) (add32 (ve s) (ve r)) (add32 (vf s) (vf r))
          (add32 (vg s) (vg r)) (add32 (vh s) (vh r)).

(** UTF-8 encoding of code units below 256. *)
Fixpoint utf8 (data : string) : list N :=
  match data with
  | EmptyString => []
  | String c rest =>
      let n := N_of_ascii c in
      if n <? 128 then n :: utf8 rest
      else (192 + n / 64) :: (128 + n mod 64) :: utf8 rest
  end.

Fixpoint be_bytes (count : nat) (x : N) : list N :=
  match count with
  | O => []
  | S c => (N.shiftr x (8 * N.of_nat c)) mod 256 :: be_bytes c x
  end.

Definition pad (bytes : list N) : list N :=
  let len := N.of_nat (List.length bytes) in
  let zeros := N.to_nat ((119 - len mod 64) mod 64) in
  bytes ++ [128] ++ repeat 0 zeros ++ be_bytes 8 (8 * len).

Fixpoint words (fuel : nat) (bytes : list N) : list N :=
  match fuel, bytes with
  | S f, b0 :: b1 :: b2 :: b3 :: rest =>
      (((b0 * 256 + b1) * 256 + b2) * 256 + b3) :: words f rest
  | _, _ => []
  end.

Fixpoint blocks (fuel : nat) (ws : list N) (s : state) : state :=
  match fuel, ws with
  | S f, _ :: _ => blocks f (skipn 16 ws) (compress s (firstn 16 ws))
  | _, _ => s
  end.

(** The digest of a message of bytes. *)
Definition digest_bytes (message : list N) : state :=
  let bytes := pad message in
  let ws := words (List.length bytes) bytes in
  blocks (List.length ws) ws initial_state.

Definition digest (data : string) : state := digest_bytes (utf8 data).

Definition hex_digit (n : N) : ascii :=
  match n with
  | 0 => "0" | 1 => "1" | 2 => "2" | 3 => "3" | 4 => "4" | 5 => "5"
  | 6 => "6" | 7 => "7" | 8 => "8" | 9 => "9" | 10 => "a" | 11 => "b"
  | 12 => "c" | 13 => "d" | 14 => "e" | _ => "f"
  end%char.

Definition nibble (x : N) (i : N) : ascii := hex_digit (N.shiftr x (4 * i) mod 16).

Definition hex32 (x : N) (rest : string) : string :=
  String (nibble x 7) (String (nibble x 6) (String (nibble x 5) (String (nibble x 4)
 (String (nibble x 3) (String (nibble x 2) (String (nibble x 1) (String (nibble x 0) rest))))))).

Definition hex (s : state) : string :=
  hex32 (va s) (hex32 (vb s) (hex32 (vc s) (hex32 (vd s)
 (hex32 (ve s) (hex32 (vf s) (hex32 (vg s) (hex32 (vh s) EmptyString))))))).

(** [digest("hex")]: the lowercase hexadecimal digest of the bytes. *)
Definition sha256_bytes (message : list N) : string := hex (digest_bytes message).

(** [sha256(data)]: the lowercase hexadecimal digest. *)
Definition sha256 (data : string) : string := hex (digest data).

End Sha256.

(* ===================================================================== *)
(** * JavaScript strings of all code units                                *)
(* ===================================================================== *)

(** [update(data, "utf8")] hashes the UTF-8 encoding of [data].  The
    encoder reads the string as UTF-16: a surrogate pair is one code
    point, and a surrogate that has no partner is written as the
    replacement character U+FFFD. *)

Module Utf16.

Local Open Scope N_scope.

(** A JavaScript string in full: its UTF-16 code units, each a number
    below 65536. *)
Definition t : Type := list N.

(** A string of the embedding, unit by unit. *)
Definition of_string (s : string) : t := map N_of_ascii (list_ascii_of_string s).

(** The surrogates: U+D800 to U+DBFF lead a pair, U+DC00 to U+DFFF trail. *)
Definition is_high (u : N) : bool := (55296 <=? u) && (u <? 56320).
Definition is_low (u : N) : bool := (56320 <=? u) && (u <? 57344).

(** The code points that the UTF-8 encoder of Node reads from a string: a
    surrogate pair is the code point above U+FFFF that it stands for, and
    a surrogate without its partner is read as U+FFFD. *)
Fixpoint code_points (s : t) : list N :=
  match s with
  | [] => []
  | u :: rest =>
      if is_high u then
        match rest with
        | v :: rest' =>
            if is_low v
            then (65536 + (u - 55296) * 1024 + (v - 56320)) :: code_points rest'
            else 65533 :: code_points rest
        | [] => [65533]
        end
      else if is_low u then 65533 :: code_points rest
      else u :: code_points rest
  end.

(** The UTF-8 bytes of a code point. *)
Definition encode (c : N) : list N :=
  if c <? 128 then [c]
  else if c <? 2048 then [192 + c / 64; 128 + c mod 64]
  else if c <? 65536 then [224 + c / 4096; 128 + (c / 64) mod 64; 128 + c mod 64]
  else [240 + c / 262144; 128 + (c / 4096) mod 64; 128 + (c / 64) mod 64; 128 + c mod 64].

(** The bytes hashed by [update(data, "utf8")]. *)
Definition utf8 (s : t) : list N := flat_map encode (code_points s).



(** A well-formed string: code units of sixteen bits, and every surrogate
    one half of a pair. *)
Fixpoint well_formed (s : t) : bool :=
  match s with
  | [] => true
  | u :: rest =>
      (u <? 65536) &&
      (if is_high u then
         match rest with
         | v :: rest' => is_low v && well_formed rest'
         | [] => false
         end
       else negb (is_low u) && well_formed rest)
  end.

(** Code-unit order, the order of the default [Array.prototype.sort]. *)
Fixpoint leb (a b : t) : bool :=
  match a, b with
  | [], _ => true
  | _ :: _, [] => false
  | x :: a', y :: b' =>
      match x ?= y with
      | Lt => true
      | Gt => false
      | Eq => leb a' b'
      end
  end.

Definition le (a b : t) : Prop := leb a b = true.

Global Instance le_dec : RelDecision le.
Proof.
  intros a b. unfold le.
  destruct (leb a b); [left | right]; congruence.
Defined.

(** [xs.sort()] and [xs.join("")] *)
Definition sort (xs : list t) : list t := merge_sort le xs.
Definition join (xs : list t) : t := concat xs.

End Utf16.

(* ===================================================================== *)
(** * SDK: the universal contract (sdk/src/contract.ts)                   *)
(* ===================================================================== *)

(** Each TypeScript interface is a record in a module of its own name, so
    that fields keep their source names. *)

Definition quote : string := String (ascii_of_nat 34) EmptyString.

Module CellIdentity.
Record t : Type := make { name : string; cellType : string; version : string }.
End CellIdentity.

Module CellInput.
Record t (Schema : Type) : Type := make { schema : Schema; description : string }.
Arguments make {Schema}.
Arguments schema {Schema}.
Arguments description {Schema}.
End CellInput.

Module CellOutput.
Record t (Schema : Type) : Type := make { schema : Schema; description : string }.
Arguments make {Schema}.
Arguments schema {Schema}.
Arguments description {Schema}.
End CellOutput.

Module CellHealth.
  (** [budgetRemaining] is declared a number, but the validator tests what
      it finds there, so any primitive may sit in the field. *)
#[local] Unset Elimination Schemes.
Inductive t : Type := make {
    status : string;
    message : option string;
    budgetRemaining : option Js.prim;
    children : option (list (string * t))
  }.
End CellHealth.

Definition DEFAULT_COMPLEXITY_BUDGET : Js.number := Js.of_Z 1000.

Module CellLineage.
Record t : Type := make {
    source : string;
    trigger : string;
    justification : string;
    signature : string
  }.
End CellLineage.

Module CellSignature.
Record t : Type := make {
    hash : string;
    children : option (list string);
    timestamp : string
  }.
End CellSignature.

Module ContextMapEntry.
Record t : Type := make {
    identity : CellIdentity.t;
    parent : option string;
    children : option (list string);
    channels : option (list string);
    signature : string
  }.
End ContextMapEntry.

Module UniversalContract.
  (** The data fields of the interface; its methods [health()] and
      [toMap()] are not called by the signature functions. *)
Record t (Schema : Type) : Type := make {
    identity : CellIdentity.t;
    input : CellInput.t Schema;
    output : CellOutput.t Schema;
    lineage : CellLineage.t;
    signature : CellSignature.t
  }.
Arguments make {Schema}.
Arguments identity {Schema}.
Arguments input {Schema}.
Arguments output {Schema}.
Arguments lineage {Schema}.
Arguments signature {Schema}.

  (** [cell.signature = sig] *)
Definition set_signature {Schema} (cell : t Schema) (sig : CellSignature.t) : t Schema :=
    make (identity cell) (input cell) (output cell) (lineage cell) sig.

  (** A copy of the cell with another lineage record. *)
Definition set_lineage {Schema} (cell : t Schema) (l : CellLineage.t) : t Schema :=
    make (identity cell) (input cell) (output cell) l (signature cell).
End UniversalContract.

(* ===================================================================== *)
(** * SDK: structural signatures (sdk/src/signature.ts)                   *)
(* ===================================================================== *)

Module Signature.
Section Signature.

Context {Schema : Type}.
  (** [JSON.stringify] on a schema object. *)
Variable JSON_stringify : Schema -> string.

Definition cellContent (cell : UniversalContract.t Schema) : string :=
    cell.(UniversalContract.identity).(CellIdentity.name) ++
    cell.(UniversalContract.identity).(CellIdentity.cellType) ++
    cell.(UniversalContract.identity).(CellIdentity.version) ++
    JSON_stringify cell.(UniversalContract.input).(CellInput.schema) ++
    JSON_stringify cell.(UniversalContract.output).(CellOutput.schema) ++
    cell.(UniversalContract.lineage).(CellLineage.source) ++
    cell.(UniversalContract.lineage).(CellLineage.trigger) ++
    cell.(UniversalContract.lineage).(CellLineage.justification).

Definition sha256 (data : string) : string := Sha256.sha256 data.

Definition computeLeafSignature (cell : UniversalContract.t Schema) (now : string)
    : CellSignature.t :=
    {| CellSignature.hash := sha256 (cellContent cell);
       CellSignature.children := None;
       CellSignature.timestamp := now |}.

Definition computeComposedSignature (cell : UniversalContract.t Schema)
      (childSignatures : list CellSignature.t) (now : string) : CellSignature.t :=
    let sortedChildHashes := Js.sort (map CellSignature.hash childSignatures) in
    let content := cellContent cell ++ Js.join sortedChildHashes in
    {| CellSignature.hash := sha256 content;
       CellSignature.children := Some sortedChildHashes;
       CellSignature.timestamp := now |}.

  (** [childSignatures] is an optional argument. *)
Definition verifySignature (cell : UniversalContract.t Schema)
      (childSignatures : option (list CellSignature.t)) (now : string) : bool :=
    let fresh :=
      match childSignatures with
      | Some (c :: cs) => computeComposedSignature cell (c :: cs) now
      | _ => computeLeafSignature cell now
      end in
    String.eqb fresh.(CellSignature.hash)
               cell.(UniversalContract.signature).(CellSignature.hash).

End Signature.
End Signature.

(* ===================================================================== *)
(** * SDK: structural signatures on strings of all code units            *)
(* ===================================================================== *)

(** The contract records and the signature functions once more, their
    strings being sequences of arbitrary code units. *)

Module Wide.

Local Open Scope list_scope.

Module CellIdentity.
Record t : Type := make { name : Utf16.t; cellType : Utf16.t; version : Utf16.t }.
End CellIdentity.

Module CellInput.
Record t (Schema : Type) : Type := make { schema : Schema; description : Utf16.t }.
Arguments make {Schema}.
Arguments schema {Schema}.
Arguments description {Schema}.
End CellInput.

Module CellOutput.
Record t (Schema : Type) : Type := make { schema : Schema; description : Utf16.t }.
Arguments make {Schema}.
Arguments schema {Schema}.
Arguments description {Schema}.
End CellOutput.

Module CellLineage.
Record t : Type := make {
    source : Utf16.t;
    trigger : Utf16.t;
    justification : Utf16.t;
    signature : Utf16.t
  }.
End CellLineage.

Module CellSignature.
Record t : Type := make {
    hash : Utf16.t;
    children : option (list Utf16.t);
    timestamp : Utf16.t
  }.
End CellSignature.

Module UniversalContract.
Record t (Schema : Type) : Type := make {
    identity : CellIdentity.t;
    input : CellInput.t Schema;
    output : CellOutput.t Schema;
    lineage : CellLineage.t;
    signature : CellSignature.t
  }.
Arguments make {Schema}.
Arguments identity {Schema}.
Arguments input {Schema}.
Arguments output {Schema}.
Arguments lineage {Schema}.
Arguments signature {Schema}.

  (** A copy of the cell with another lineage record. *)
Definition set_lineage {Schema} (cell : t Schema) (l : CellLineage.t) : t Schema :=
    make (identity cell) (input cell) (output cell) l (signature cell).
End UniversalContract.

Section Signature.

Context {Schema : Type}.
Variable JSON_stringify : Schema -> Utf16.t.

Definition cellContent (cell : UniversalContract.t Schema) : Utf16.t :=
    cell.(UniversalContract.identity).(CellIdentity.name) ++
    cell.(UniversalContract.identity).(CellIdentity.cellType) ++
    cell.(UniversalContract.identity).(CellIdentity.version) ++
    JSON_stringify cell.(UniversalContract.input).(CellInput.schema) ++
    JSON_stringify cell.(UniversalContract.output).(CellOutput.schema) ++
    cell.(UniversalContract.lineage).(CellLineage.source) ++
    cell.(UniversalContract.lineage).(CellLineage.trigger) ++
    cell.(UniversalContract.lineage).(CellLineage.justification).

Definition sha256 (data : Utf16.t) : Utf16.t :=
    Utf16.of_string (Sha256.sha256_bytes (Utf16.utf8 data)).

Definition computeLeafSignature (cell : UniversalContract.t Schema) (now : Utf16.t)
    : CellSignature.t :=
    {| CellSignature.hash := sha256 (cellContent cell);
       CellSignature.children := None;
       CellSignature.timestamp := now |}.

Definition computeComposedSignature (cell : UniversalContract.t Schema)
      (childSignatures : list CellSignature.t) (now : Utf16.t) : CellSignature.t :=
    let sortedChildHashes := Utf16.sort (map CellSignature.hash childSignatures) in
    let content := cellContent cell ++ Utf16.join sortedChildHashes in
    {| CellSignature.hash := sha256 content;
       CellSignature.children := Some sortedChildHashes;
       CellSignature.timestamp := now |}.

End Signature.

End Wide.

(** The contract records of the embedding read as records of full
    strings. *)
Module Widen.

Definition identity (i : CellIdentity.t) : Wide.CellIdentity.t :=
  {| Wide.CellIdentity.name := Utf16.of_string (CellIdentity.name i);
     Wide.CellIdentity.cellType := Utf16.of_string (CellIdentity.cellType i);
     Wide.CellIdentity.version := Utf16.of_string (CellIdentity.version i) |}.

Definition input {Schema} (i : CellInput.t Schema) : Wide.CellInput.t Schema :=
  {| Wide.CellInput.schema := CellInput.schema i;
     Wide.CellInput.description := Utf16.of_string (CellInput.description i) |}.

Definition output {Schema} (o : CellOutput.t Schema) : Wide.CellOutput.t Schema :=
  {| Wide.CellOutput.schema := CellOutput.schema o;
     Wide.CellOutput.description := Utf16.of_string (CellOutput.description o) |}.

Definition lineage (l : CellLineage.t) : Wide.CellLineage.t :=
  {| Wide.CellLineage.source := Utf16.of_string (CellLineage.source l);
     Wide.CellLineage.trigger := Utf16.of_string (CellLineage.trigger l);
     Wide.CellLineage.justification := Utf16.of_string (CellLineage.justification l);
     Wide.CellLineage.signature := Utf16.of_string (CellLineage.signature l) |}.

Definition signature (s : CellSignature.t) : Wide.CellSignature.t :=
  {| Wide.CellSignature.hash := Utf16.of_string (CellSignature.hash s);
     Wide.CellSignature.children :=
       option_map (map Utf16.of_string) (CellSignature.children s);
     Wide.CellSignature.timestamp := Utf16.of_string (CellSignature.timestamp s) |}.

Definition contract {Schema} (cell : UniversalContract.t Schema)
    : Wide.UniversalContract.t Schema :=
  {| Wide.UniversalContract.identity := identity (UniversalContract.identity cell);
     Wide.UniversalContract.input := input (UniversalContract.input cell);
     Wide.UniversalContract.output := output (UniversalContract.output cell);
     Wide.UniversalContract.lineage := lineage (UniversalContract.lineage cell);
     Wide.UniversalContract.signature := signature (UniversalContract.signature cell) |}.

End Widen.

(* ===================================================================== *)
(** * SDK: the Reactor class (sdk/src/reactor.ts)                         *)
(* ===================================================================== *)

(** What an [async] call settles to. *)
Inductive Settled (A : Type) : Type :=
| Resolved (value : A)
| Rejected (error : string).
Arguments Resolved {A}.
Arguments Rejected {A}.

Module ReactorConfig.
  (** The handler runs against the world outside the cell, [World]. *)
Record t (Schema TEvent TResponse World : Type) : Type := make {
    name : string;
    version : string;
    input : CellInput.t Schema;
    output : CellOutput.t Schema;
    lineage : CellLineage.t;
    parent : option string;
    on : TEvent -> World -> Settled TResponse * World;
    listensTo : list string;
    children : option (list (UniversalContract.t Schema));
    complexityBudget : option Js.number
  }.
Arguments make {Schema TEvent TResponse World}.
Arguments name {Schema TEvent TResponse World}.
Arguments version {Schema TEvent TResponse World}.
Arguments input {Schema TEvent TResponse World}.
Arguments output {Schema TEvent TResponse World}.
Arguments lineage {Schema TEvent TResponse World}.
Arguments parent {Schema TEvent TResponse World}.
Arguments on {Schema TEvent TResponse World}.
Arguments listensTo {Schema TEvent TResponse World}.
Arguments children {Schema TEvent TResponse World}.
Arguments complexityBudget {Schema TEvent TResponse World}.
End ReactorConfig.

Module Reactor.
Section Reactor.

Context {Schema TEvent TResponse World : Type}.
Variable JSON_stringify : Schema -> string.

Record t : Type := make {
    identity : CellIdentity.t;
    input : CellInput.t Schema;
    output : CellOutput.t Schema;
    lineage : CellLineage.t;
    signature : CellSignature.t;
    _on : TEvent -> World -> Settled TResponse * World;
    _listensTo : list string;
    _children : list (UniversalContract.t Schema);
    _parent : option string;
    _complexityBudget : Js.number;
    _maxBudget : Js.number
  }.

  (** The cell seen through its contract. *)
Definition contract (this : t) : UniversalContract.t Schema :=
    UniversalContract.make (identity this) (input this) (output this)
                           (lineage this) (signature this).

Definition with_signature (this : t) (sig : CellSignature.t) : t :=
    make (identity this) (input this) (output this) (lineage this) sig
         (_on this) (_listensTo this) (_children this) (_parent this)
         (_complexityBudget this) (_maxBudget this).

Definition with_budget (this : t) (b : Js.number) : t :=
    make (identity this) (input this) (output this) (lineage this) (signature this)
         (_on this) (_listensTo this) (_children this) (_parent this)
         b (_maxBudget this).

Definition computeSignature (this : t) (now : string) : CellSignature.t :=
    match _children this with
    | [] => Signature.computeLeafSignature JSON_stringify (contract this) now
    | _ :: _ =>
        Signature.computeComposedSignature JSON_stringify (contract this)
          (map UniversalContract.signature (_children this)) now
    end.

Definition constructor (config : ReactorConfig.t Schema TEvent TResponse World)
      (now : string) : t :=
    let maxBudget :=
      match config.(ReactorConfig.complexityBudget) with
      | Some b => b
      | None => DEFAULT_COMPLEXITY_BUDGET
      end in
    let this :=
      {| identity := {| CellIdentity.name := config.(ReactorConfig.name);
                        CellIdentity.cellType := "reactor";
                        CellIdentity.version := config.(ReactorConfig.version) |};
         input := config.(ReactorConfig.input);
         output := config.(ReactorConfig.output);
         lineage := config.(ReactorConfig.lineage);
         signature := {| CellSignature.hash := "0000000000000000000000000000000000000000000000000000000000000000";
                         CellSignature.children := None;
                         CellSignature.timestamp := now |};
         _on := config.(ReactorConfig.on);
         _listensTo := config.(ReactorConfig.listensTo);
         _children := match config.(ReactorConfig.children) with
                      | Some cs => cs
                      | None => []
                      end;
         _parent := config.(ReactorConfig.parent);
         _complexityBudget := maxBudget;
         _maxBudget := maxBudget |} in
    with_signature this (computeSignature this now).

Definition safe_mode_error (this : t) : string :=
    "[Circuit Breaker] Reactor " ++ quote ++ this.(identity).(CellIdentity.name) ++ quote ++
    " is in Safe-Mode — complexity budget exhausted".

  (** [await reactor.on(event)]: what the call settles to, the reactor
      after the call and the world after the call. *)
Definition on (this : t) (event : TEvent) (w : World) : Settled TResponse * t * World :=
    if Js.le_zero (_complexityBudget this) then
      (Rejected (safe_mode_error this), this, w)
    else
      let this' := with_budget this (Js.decrement (_complexityBudget this)) in
      let (r, w') := _on this' event w in
      (r, this', w').

Definition listensTo (this : t) : list string := _listensTo this.

Definition resetBudget (this : t) : t := with_budget this (_maxBudget this).

Definition budgetRemaining (this : t) : Js.number := _complexityBudget this.

Definition getChildren (this : t) : list (UniversalContract.t Schema) := _children this.

  (** [n] successive calls with the events of a list; the outcomes are
      returned oldest first. *)
Fixpoint on_each (this : t) (events : list TEvent) (w : World)
    : list (Settled TResponse) * t * World :=
    match events with
    | [] => ([], this, w)
    | e :: es =>
        let '(r, this', w') := on this e w in
        let '(rs, this'', w'') := on_each this' es w' in
        (r :: rs, this'', w'')
    end.

End Reactor.
End Reactor.

(* ===================================================================== *)
(** * Validator: types (validator/src/types/cell.ts)                      *)
(* ===================================================================== *)

(** The validator's copies of the contract interfaces have the shape of
    the SDK's; the records above serve for both. *)

Module Js_array.
(** [xs.includes(x)] on an array of strings. *)
Definition includes (xs : list string) (x : string) : bool :=
  existsb (String.eqb x) xs.

(** [xs ?? []] *)
Definition or_empty {A} (xs : option (list A)) : list A :=
  match xs with Some l => l | None => [] end.
End Js_array.

Module DiscoveredCell.
#[local] Unset Elimination Schemes.
Inductive t (Schema : Type) : Type := make {
  filePath : string;
  identity : CellIdentity.t;
  input : CellInput.t Schema;
  output : CellOutput.t Schema;
  lineage : CellLineage.t;
  signature : CellSignature.t;
  contextMap : ContextMapEntry.t;
  children : list (t Schema);
  hasHealthMethod : bool;
  hasToMapMethod : bool;
  healthReport : option CellHealth.t
}.
Arguments make {Schema}.
Arguments filePath {Schema}.
Arguments identity {Schema}.
Arguments input {Schema}.
Arguments output {Schema}.
Arguments lineage {Schema}.
Arguments signature {Schema}.
Arguments contextMap {Schema}.
Arguments children {Schema}.
Arguments hasHealthMethod {Schema}.
Arguments hasToMapMethod {Schema}.
Arguments healthReport {Schema}.

(** [cell.signature = sig] *)
Definition set_signature {Schema} (cell : t Schema) (sig : CellSignature.t) : t Schema :=
  make (filePath cell) (identity cell) (input cell) (output cell) (lineage cell) sig
       (contextMap cell) (children cell) (hasHealthMethod cell) (hasToMapMethod cell)
       (healthReport cell).

(** [cell.children = cs] *)
Definition set_children {Schema} (cell : t Schema) (cs : list (t Schema)) : t Schema :=
  make (filePath cell) (identity cell) (input cell) (output cell) (lineage cell)
       (signature cell) (contextMap cell) cs (hasHealthMethod cell) (hasToMapMethod cell)
       (healthReport cell).

(** The contract fields of a discovered cell. *)
Definition contract {Schema} (cell : t Schema) : UniversalContract.t Schema :=
  UniversalContract.make (identity cell) (input cell) (output cell) (lineage cell)
                         (signature cell).
End DiscoveredCell.

Module Violation.
Record t : Type := make {
  cell : string;
  file : string;
  message : string;
  principle : string
}.
End Violation.

Module CheckResult.
Record t : Type := make {
  checkName : string;
  passed : bool;
  violations : list Violation.t
}.
End CheckResult.

(* ===================================================================== *)
(** * Validator: the checks                                               *)
(* ===================================================================== *)

Module Validator.
Section Validator.

Context {Schema : Type}.
Variable JSON_stringify : Schema -> string.
(** [`${x}`] for a number. *)
Variable Number_toString : Js.number -> string.

Local Abbreviation Cell := (DiscoveredCell.t Schema).
Local Infix "+++" := (@app Violation.t) (at level 60, right associativity).

Definition cell_name (cell : Cell) : string :=
  cell.(DiscoveredCell.identity).(CellIdentity.name).

Definition cell_type (cell : Cell) : string :=
  cell.(DiscoveredCell.identity).(CellIdentity.cellType).

Definition is_channel (c : Cell) : bool := String.eqb (cell_type c) "channel".

(** ** checks/composition-check.ts *)

Definition topology_message (nonChannel : nat) : string :=
  "Cell has " ++ Js.nat_toString nonChannel ++
  " non-channel children but no Channel to mediate communication. " ++
  "All sibling communication must pass through Channels.".

(** The body of the loop of [compositionCheck] for one cell;
    [compositionCheck([child]).violations] is this body at [child]. *)
Fixpoint compositionCheck_cell (cell : Cell) : list Violation.t :=
  match DiscoveredCell.children cell with
  | [] => []
  | _ :: _ =>
      let ctx msg :=
        {| Violation.cell := cell_name cell; Violation.file := DiscoveredCell.filePath cell;
           Violation.message := msg; Violation.principle := "III" |} in
      let nonChannelChildren :=
        List.filter (fun c => negb (is_channel c)) (DiscoveredCell.children cell) in
      let channelChildren := List.filter is_channel (DiscoveredCell.children cell) in
      (if Nat.leb 2 (List.length nonChannelChildren) && Nat.eqb (List.length channelChildren) 0
       then [ctx (topology_message (List.length nonChannelChildren))]
       else []) +++
      (let contextMapChildren :=
         Js_array.or_empty cell.(DiscoveredCell.contextMap).(ContextMapEntry.children) in
       let actualChildNames := map cell_name (DiscoveredCell.children cell) in
       flat_map (fun childName =>
                   if negb (Js_array.includes contextMapChildren childName)
                   then [ctx ("Child " ++ quote ++ childName ++ quote ++
                              " exists but is not listed in parent's context map")]
                   else []) actualChildNames) +++
      (let contextMapChannels :=
         Js_array.or_empty cell.(DiscoveredCell.contextMap).(ContextMapEntry.channels) in
       let actualChannelNames := map cell_name channelChildren in
       flat_map (fun chanName =>
                   if negb (Js_array.includes contextMapChannels chanName)
                   then [ctx ("Channel " ++ quote ++ chanName ++ quote ++
                              " exists as a child but is not listed in parent's context map channels")]
                   else []) actualChannelNames) +++
      flat_map (fun child =>
                  match DiscoveredCell.children child with
                  | [] => []
                  | _ :: _ => compositionCheck_cell child
                  end) (DiscoveredCell.children cell)
  end.

Definition compositionCheck (cells : list Cell) : CheckResult.t :=
  let violations := flat_map compositionCheck_cell cells in
  {| CheckResult.checkName := "Composition Check";
     CheckResult.passed := Nat.eqb (List.length violations) 0;
     CheckResult.violations := violations |}.

(** ** checks/signature-check.ts *)

Definition is_lower_hex (c : ascii) : bool :=
  let n := nat_of_ascii c in
  (Nat.leb 48 n && Nat.leb n 57) || (Nat.leb 97 n && Nat.leb n 102).

(** [/^[0-9a-f]{64}$/.test(s)] *)
Definition SHA256_REGEX_test (s : string) : bool :=
  Nat.eqb (String.length s) 64 && forallb is_lower_hex (list_ascii_of_string s).

Definition recomputeHash (cell : Cell) : string :=
  let ownContent :=
    cell.(DiscoveredCell.identity).(CellIdentity.name) ++
    cell.(DiscoveredCell.identity).(CellIdentity.cellType) ++
    cell.(DiscoveredCell.identity).(CellIdentity.version) ++
    JSON_stringify cell.(DiscoveredCell.input).(CellInput.schema) ++
    JSON_stringify cell.(DiscoveredCell.output).(CellOutput.schema) ++
    cell.(DiscoveredCell.lineage).(CellLineage.source) ++
    cell.(DiscoveredCell.lineage).(CellLineage.trigger) ++
    cell.(DiscoveredCell.lineage).(CellLineage.justification) in
  match DiscoveredCell.children cell with
  | [] => Sha256.sha256 ownContent
  | _ :: _ =>
      let sortedChildHashes :=
        Js.sort (map (fun c => c.(DiscoveredCell.signature).(CellSignature.hash))
                     (DiscoveredCell.children cell)) in
      let content := ownContent ++ Js.join sortedChildHashes in
      Sha256.sha256 content
  end.

(** The first index at which two arrays of equal length differ. *)
Fixpoint first_mismatch (i : nat) (xs ys : list string) : option nat :=
  match xs, ys with
  | x :: xs', y :: ys' =>
      if String.eqb x y then first_mismatch (S i) xs' ys' else Some i
  | _, _ => None
  end.

(** The body of the loop of [signatureCheck] for one cell. *)
Fixpoint signatureCheck_cell (cell : Cell) : list Violation.t :=
  let ctx msg :=
    {| Violation.cell := cell_name cell; Violation.file := DiscoveredCell.filePath cell;
       Violation.message := msg; Violation.principle := "X" |} in
  let hash := cell.(DiscoveredCell.signature).(CellSignature.hash) in
  if Js.falsy hash || negb (SHA256_REGEX_test hash) then
    [ctx ("Invalid signature hash format: " ++ quote ++ Js.slice 0 20 hash ++ "..." ++ quote)]
  else
    let expected := recomputeHash cell in
    (if negb (String.eqb hash expected)
     then [ctx ("Signature mismatch: stored " ++ Js.slice 0 16 hash ++
                "... != computed " ++ Js.slice 0 16 expected ++ "...")]
     else []) +++
    (match DiscoveredCell.children cell with
     | [] => []
     | _ :: _ =>
         let sortedChildHashes :=
           Js.sort (map (fun c => c.(DiscoveredCell.signature).(CellSignature.hash))
                        (DiscoveredCell.children cell)) in
         let sigChildren :=
           Js_array.or_empty cell.(DiscoveredCell.signature).(CellSignature.children) in
         if negb (Nat.eqb (List.length sigChildren) (List.length sortedChildHashes)) then
           [ctx ("Signature children count mismatch: " ++
                 Js.nat_toString (List.length sigChildren) ++ " in signature vs " ++
                 Js.nat_toString (List.length sortedChildHashes) ++ " actual")]
         else
           match first_mismatch 0 sigChildren sortedChildHashes with
           | Some i => [ctx ("Signature children hash mismatch at index " ++ Js.nat_toString i)]
           | None => []
           end
     end) +++
    (if Js.falsy cell.(DiscoveredCell.signature).(CellSignature.timestamp)
     then [ctx "Missing signature.timestamp"]
     else []) +++
    (match DiscoveredCell.children cell with
     | [] => []
     | _ :: _ => flat_map signatureCheck_cell (DiscoveredCell.children cell)
     end).

Definition signatureCheck (cells : list Cell) : CheckResult.t :=
  let violations := flat_map signatureCheck_cell cells in
  {| CheckResult.checkName := "Signature Check";
     CheckResult.passed := Nat.eqb (List.length violations) 0;
     CheckResult.violations := violations |}.

(** ** checks/circuit-breaker-check.ts *)

(** [`${v}`] *)
Definition prim_toString (v : Js.prim) : string :=
  match v with
  | Js.PNumber n => Number_toString n
  | Js.PString s => s
  | Js.PBoolean true => "true"
  | Js.PBoolean false => "false"
  | Js.PNull => "null"
  end.

(** [typeof v !== "number" || v < 0] *)
Definition not_number_or_negative (v : Js.prim) : bool :=
  match v with
  | Js.PNumber n => Js.lt_zero n
  | _ => true
  end.

(** The inner function [check]; what it pushes, in push order. *)
Fixpoint check (cell : Cell) : list Violation.t :=
  let ctx msg :=
    {| Violation.cell := cell_name cell; Violation.file := DiscoveredCell.filePath cell;
       Violation.message := msg; Violation.principle := "II" |} in
  let needsCircuitBreaker :=
    String.eqb (cell_type cell) "transformer" || String.eqb (cell_type cell) "reactor" in
  (if needsCircuitBreaker then
     (if negb (DiscoveredCell.hasHealthMethod cell) then
        [ctx (cell_type cell ++
              " lacks health() method — cannot report circuit breaker status")]
      else
        match DiscoveredCell.healthReport cell with
        | Some report =>
            match CellHealth.budgetRemaining report with
            | None =>
                [ctx (cell_type cell ++
                      " health() does not report budgetRemaining — circuit breaker not implemented")]
            | Some _ => []
            end
        | None => []
        end) +++
     (match DiscoveredCell.healthReport cell with
      | Some report =>
          match CellHealth.budgetRemaining report with
          | Some v =>
              if not_number_or_negative v
              then [ctx ("budgetRemaining must be a non-negative number, got: " ++
                         prim_toString v)]
              else []
          | None => []
          end
      | None => []
      end)
   else []) +++
  flat_map check (DiscoveredCell.children cell).

Definition circuitBreakerCheck (cells : list Cell) : CheckResult.t :=
  let violations := flat_map check cells in
  {| CheckResult.checkName := "Circuit Breaker Check";
     CheckResult.passed := Nat.eqb (List.length violations) 0;
     CheckResult.violations := violations |}.

End Validator.
End Validator.

(* ===================================================================== *)
(** * Exceptions                                                          *)
(* ===================================================================== *)

Inductive Exn : Type :=
| ParseError (message : string)
| TypeError (message : string)
| YAMLException (message : string)
| SyntaxError (message : string)
| SystemError (message : string).

Definition Exn_message (e : Exn) : string :=
  match e with
  | ParseError m | TypeError m | YAMLException m | SyntaxError m | SystemError m => m
  end.

(** How a call completes: normally, or by throwing. *)
Inductive Completion (A : Type) : Type :=
| Normal (value : A)
| Throw (e : Exn).
Arguments Normal {A}.
Arguments Throw {A}.

Definition bind {A B} (c : Completion A) (k : A -> Completion B) : Completion B :=
  match c with
  | Normal a => k a
  | Throw e => Throw e
  end.

Notation "'let*' x ':=' c 'in' k" := (bind c (fun x => k))
  (at level 10, x name, c at level 100, k at level 200).

(* ===================================================================== *)
(** * Parser: documents and parsed cells (parser/src/types.ts)            *)
(* ===================================================================== *)

Module Yaml.
(** What [yaml.load] returns for a document: YAML scalars, sequences and
    mappings with string keys.  [undefined] (an empty document, a missing
    key) is [None] where a value is looked up. *)
#[local] Unset Elimination Schemes.
Inductive value : Type :=
| Null
| Bool (b : bool)
| Num (n : Js.number)
| Str (s : string)
| Arr (items : list value)
| Obj (fields : list (string * value)).

Fixpoint lookup (fields : list (string * value)) (key : string) : option value :=
  match fields with
  | [] => None
  | (k, v) :: rest => if String.eqb k key then Some v else lookup rest key
  end.

(** [v.key] and [v?.key]: own properties of a mapping; none of the keys
    the parser reads is defined on a prototype. *)
Definition get (v : option value) (key : string) : option value :=
  match v with
  | Some (Obj fields) => lookup fields key
  | _ => None
  end.

(** [!(!v || typeof v !== "object")] *)
Definition is_object (v : option value) : bool :=
  match v with
  | Some (Arr _) | Some (Obj _) => true
  | _ => false
  end.

(** [Array.isArray(v)] *)
Definition as_array (v : option value) : option (list value) :=
  match v with
  | Some (Arr items) => Some items
  | _ => None
  end.

(** [v ?? ""] *)
Definition or_empty_string (v : option value) : value :=
  match v with
  | None | Some Null => Str ""
  | Some x => x
  end.
End Yaml.

Module Parser.

Module CellIdentity.
Record t : Type := make { name : string; version : string; type : string }.
End CellIdentity.

Module CellLineage.
Record t : Type := make {
  source : string;
  trigger : string;
  justification : string;
  parent_context_hash : string
}.
End CellLineage.

Module CircuitBreaker.
Record t : Type := make { complexity_budget : Js.number; safe_mode_action : string }.
End CircuitBreaker.

Module CellContract.
(** The four contract shapes.  [circuit_breaker] is declared mandatory;
    the validators still test for its absence, hence the option. *)
Inductive t : Type :=
| TransformerContract (input output : string) (circuit_breaker : option CircuitBreaker.t)
| ReactorContract (listens_to emits : string) (circuit_breaker : option CircuitBreaker.t)
| KeeperContract (state_schema : string) (operations : list string)
                 (circuit_breaker : option CircuitBreaker.t)
| ChannelContract (carries mode : string) (buffer_size : Js.number)
                  (circuit_breaker : option CircuitBreaker.t).

(** [(contract as any).circuit_breaker] *)
Definition circuit_breaker (c : t) : option CircuitBreaker.t :=
  match c with
  | TransformerContract _ _ cb | ReactorContract _ _ cb
  | KeeperContract _ _ cb | ChannelContract _ _ _ cb => cb
  end.

(** [(contract as any)[key]] for a key that holds a type reference. *)
Definition type_reference (c : t) (key : string) : option string :=
  match c with
  | TransformerContract i o _ =>
      if String.eqb key "input" then Some i
      else if String.eqb key "output" then Some o else None
  | ReactorContract l e _ =>
      if String.eqb key "listens_to" then Some l
      else if String.eqb key "emits" then Some e else None
  | KeeperContract s _ _ => if String.eqb key "state_schema" then Some s else None
  | ChannelContract c' _ _ _ => if String.eqb key "carries" then Some c' else None
  end.
End CellContract.

Module CellLogic.
Record t : Type := make {
  lang : string;
  process : option string;
  on : option string;
  get : option string;
  set : option string;
  delete : option string
}.
End CellLogic.

Module ChildRef.
(** The field [as] is spelled [as_]. *)
Record t : Type := make { ref : string; as_ : string }.
End ChildRef.

Module ChannelTopologyEdge.
(** The fields [from] and [to] are spelled [from_] and [to_]. *)
Record t : Type := make { from_ : string; to_ : string }.
End ChannelTopologyEdge.

Module ChannelDeclaration.
Record t : Type := make { name : string; topology : list ChannelTopologyEdge.t }.
End ChannelDeclaration.

Module ChannelConnects.
Record t : Type := make { from_ : string; to_ : string }.
End ChannelConnects.

Module ParsedCell.
(** [contract] is declared mandatory; the validators still test for its
    absence, hence the option. *)
Record t : Type := make {
  identity : CellIdentity.t;
  contract : option CellContract.t;
  lineage : CellLineage.t;
  logic : option CellLogic.t;
  signature : string;
  children : option (list ChildRef.t);
  channels : option (list ChannelDeclaration.t);
  connects : option ChannelConnects.t
}.

(** [(cell.contract as any)?.circuit_breaker] *)
Definition circuit_breaker (cell : t) : option CircuitBreaker.t :=
  match contract cell with
  | Some c => CellContract.circuit_breaker c
  | None => None
  end.
End ParsedCell.

Module ValidationViolation.
Record t : Type := make { field : string; message : string; line : option nat }.
End ValidationViolation.

Module ValidationResult.
Record t : Type := make {
  valid : bool;
  violations : list ValidationViolation.t;
  cell : option ParsedCell.t
}.
End ValidationResult.

(** The table [SAFE_MODE_ACTIONS], an object literal with one entry for
    each cell type. *)
Definition SAFE_MODE_ACTIONS (type : string) : option string :=
  if String.eqb type "Transformer" then Some "halt"
  else if String.eqb type "Reactor" then Some "halt"
  else if String.eqb type "Keeper" then Some "read_only"
  else if String.eqb type "Channel" then Some "drop_newest"
  else None.

(* --------------------------------------------------------------------- *)
(** ** parser/src/parse.ts                                                *)
(* --------------------------------------------------------------------- *)

Section Parse.

Variable Number_toString : Js.number -> string.
(** [yaml.load], of the js-yaml library. *)
Variable yaml_load : string -> Completion (option Yaml.value).

(** [String(v)].  A mapping that has a key [toString] cannot be converted;
    an array joins its items with commas, null items as empty strings. *)
Fixpoint String_ (v : Yaml.value) : Completion string :=
  match v with
  | Yaml.Null => Normal "null"
  | Yaml.Bool true => Normal "true"
  | Yaml.Bool false => Normal "false"
  | Yaml.Num n => Normal (Number_toString n)
  | Yaml.Str s => Normal s
  | Yaml.Arr items =>
      (fix join_items (xs : list Yaml.value) : Completion string :=
         match xs with
         | [] => Normal ""
         | x :: rest =>
             let* a := match x with Yaml.Null => Normal "" | _ => String_ x end in
             match rest with
             | [] => Normal a
             | _ :: _ => let* b := join_items rest in Normal (a ++ "," ++ b)
             end
         end) items
  | Yaml.Obj fields =>
      match Yaml.lookup fields "toString" with
      | Some _ => Throw (TypeError "Cannot convert object to primitive value")
      | None => Normal "[object Object]"
      end
  end.

(** [String(raw.key ?? "")] *)
Definition string_field (raw : option Yaml.value) (key : string) : Completion string :=
  String_ (Yaml.or_empty_string (Yaml.get raw key)).

(** [xs.map(f)] for an [f] that may throw. *)
Fixpoint map_completion {A B} (f : A -> Completion B) (xs : list A) : Completion (list B) :=
  match xs with
  | [] => Normal []
  | x :: rest =>
      let* y := f x in
      let* ys := map_completion f rest in
      Normal (y :: ys)
  end.

Definition extractIdentity (raw : option Yaml.value) : Completion CellIdentity.t :=
  if negb (Yaml.is_object raw) then
    Normal {| CellIdentity.name := ""; CellIdentity.version := "";
              CellIdentity.type := "Transformer" |}
  else
    let* name := string_field raw "name" in
    let* version := string_field raw "version" in
    let* type := string_field raw "type" in
    Normal {| CellIdentity.name := name; CellIdentity.version := version;
              CellIdentity.type := type |}.

Definition extractLineage (raw : option Yaml.value) : Completion CellLineage.t :=
  if negb (Yaml.is_object raw) then
    Normal {| CellLineage.source := ""; CellLineage.trigger := "";
              CellLineage.justification := ""; CellLineage.parent_context_hash := "" |}
  else
    let* source := string_field raw "source" in
    let* trigger := string_field raw "trigger" in
    let* justification := string_field raw "justification" in
    let* parent_context_hash := string_field raw "parent_context_hash" in
    Normal {| CellLineage.source := source; CellLineage.trigger := trigger;
              CellLineage.justification := justification;
              CellLineage.parent_context_hash := parent_context_hash |}.

(** [if (obj.key !== undefined) logic.key = String(obj.key)] *)
Definition optional_body (raw : option Yaml.value) (key : string)
  : Completion (option string) :=
  match Yaml.get raw key with
  | None => Normal None
  | Some v => let* s := String_ v in Normal (Some s)
  end.

Definition extractLogic (raw : option Yaml.value) : Completion (option CellLogic.t) :=
  if negb (Yaml.is_object raw) then Normal None
  else
    let* lang := string_field raw "lang" in
    let* process := optional_body raw "process" in
    let* on := optional_body raw "on" in
    let* get := optional_body raw "get" in
    let* set := optional_body raw "set" in
    let* delete := optional_body raw "delete" in
    Normal (Some {| CellLogic.lang := lang; CellLogic.process := process;
                    CellLogic.on := on; CellLogic.get := get; CellLogic.set := set;
                    CellLogic.delete := delete |}).

Definition extractSignature (raw : option Yaml.value) : string :=
  match raw with
  | Some (Yaml.Str s) => s
  | _ => ""
  end.

(** [typeof raw.key === "number" ? raw.key : 0] *)
Definition number_field (raw : option Yaml.value) (key : string) : Js.number :=
  match Yaml.get raw key with
  | Some (Yaml.Num n) => n
  | _ => Js.of_Z 0
  end.

Definition extractCircuitBreaker (raw : option Yaml.value) : Completion CircuitBreaker.t :=
  if negb (Yaml.is_object raw) then
    Normal {| CircuitBreaker.complexity_budget := Js.of_Z 0;
              CircuitBreaker.safe_mode_action := "" |}
  else
    let* action := string_field raw "safe_mode_action" in
    Normal {| CircuitBreaker.complexity_budget := number_field raw "complexity_budget";
              CircuitBreaker.safe_mode_action := action |}.

Definition extractContract (cellType : string) (raw : option Yaml.value)
  : Completion CellContract.t :=
  if negb (Yaml.is_object raw) then
    Normal (CellContract.TransformerContract "" ""
              (Some {| CircuitBreaker.complexity_budget := Js.of_Z 0;
                       CircuitBreaker.safe_mode_action := "halt" |}))
  else
    let* cb := extractCircuitBreaker (Yaml.get raw "circuit_breaker") in
    if String.eqb cellType "Transformer" then
      let* input := string_field raw "input" in
      let* output := string_field raw "output" in
      Normal (CellContract.TransformerContract input output (Some cb))
    else if String.eqb cellType "Reactor" then
      let* listens_to := string_field raw "listens_to" in
      let* emits := string_field raw "emits" in
      Normal (CellContract.ReactorContract listens_to emits (Some cb))
    else if String.eqb cellType "Keeper" then
      let* state_schema := string_field raw "state_schema" in
      let* operations :=
        match Yaml.as_array (Yaml.get raw "operations") with
        | Some items => map_completion String_ items
        | None => Normal []
        end in
      Normal (CellContract.KeeperContract state_schema operations (Some cb))
    else if String.eqb cellType "Channel" then
      let* carries := string_field raw "carries" in
      let* mode := string_field raw "mode" in
      Normal (CellContract.ChannelContract carries mode (number_field raw "buffer_size")
                                           (Some cb))
    else
      let* input := string_field raw "input" in
      let* output := string_field raw "output" in
      Normal (CellContract.TransformerContract input output (Some cb)).

Definition extractChildren (raw : option Yaml.value) : Completion (option (list ChildRef.t)) :=
  match Yaml.as_array raw with
  | None => Normal None
  | Some items =>
      let* refs :=
        map_completion (fun item =>
          let* ref := string_field (Some item) "ref" in
          let* as_ := string_field (Some item) "as" in
          Normal {| ChildRef.ref := ref; ChildRef.as_ := as_ |}) items in
      Normal (Some refs)
  end.

Definition extractChannels (raw : option Yaml.value)
  : Completion (option (list ChannelDeclaration.t)) :=
  match Yaml.as_array raw with
  | None => Normal None
  | Some items =>
      let* decls :=
        map_completion (fun item =>
          let* name := string_field (Some item) "name" in
          let* topology :=
            match Yaml.as_array (Yaml.get (Some item) "topology") with
            | Some edges =>
                map_completion (fun edge =>
                  let* from_ := string_field (Some edge) "from" in
                  let* to_ := string_field (Some edge) "to" in
                  Normal {| ChannelTopologyEdge.from_ := from_;
                            ChannelTopologyEdge.to_ := to_ |}) edges
            | None => Normal []
            end in
          Normal {| ChannelDeclaration.name := name;
                    ChannelDeclaration.topology := topology |}) items in
      Normal (Some decls)
  end.

Definition extractConnects (raw : option Yaml.value)
  : Completion (option ChannelConnects.t) :=
  if negb (Yaml.is_object raw) then Normal None
  else
    let* from_ := string_field raw "from" in
    let* to_ := string_field raw "to" in
    Normal (Some {| ChannelConnects.from_ := from_; ChannelConnects.to_ := to_ |}).

Definition extractCell (raw : option Yaml.value) : Completion ParsedCell.t :=
  let* identity := extractIdentity (Yaml.get raw "identity") in
  let* contract := extractContract (CellIdentity.type identity) (Yaml.get raw "contract") in
  let* lineage := extractLineage (Yaml.get raw "lineage") in
  let* logic := extractLogic (Yaml.get raw "logic") in
  let signature := extractSignature (Yaml.get raw "signature") in
  let* children := extractChildren (Yaml.get raw "children") in
  let* channels := extractChannels (Yaml.get raw "channels") in
  let* connects := extractConnects (Yaml.get raw "connects") in
  Normal {| ParsedCell.identity := identity;
            ParsedCell.contract := Some contract;
            ParsedCell.lineage := lineage;
            ParsedCell.logic := logic;
            ParsedCell.signature := signature;
            ParsedCell.children := children;
            ParsedCell.channels := channels;
            ParsedCell.connects := connects |}.

(** [parseFC] after [yaml.load]: from the loaded document on. *)
Definition parseFC_document (doc : option Yaml.value) : Completion ParsedCell.t :=
  if negb (Yaml.is_object doc) then
    Throw (ParseError "File is not a valid YAML document")
  else
    let cell := Yaml.get doc "cell" in
    if negb (Yaml.is_object cell) then
      Throw (ParseError ("Missing root " ++ quote ++ "cell" ++ quote ++ " key"))
    else extractCell cell.

Definition parseFC (content : string) : Completion ParsedCell.t :=
  let* doc := yaml_load content in
  parseFC_document doc.

End Parse.

(* --------------------------------------------------------------------- *)
(** ** parser/src/validate.ts: the circuit breaker                        *)
(* --------------------------------------------------------------------- *)

Section Validate.

Variable Number_toString : Js.number -> string.

Definition validateCircuitBreaker (cell : ParsedCell.t) : list ValidationViolation.t :=
  match ParsedCell.circuit_breaker cell with
  | None =>
      [{| ValidationViolation.field := "contract.circuit_breaker";
          ValidationViolation.message := "circuit_breaker configuration is required";
          ValidationViolation.line := None |}]
  | Some cb =>
      let budget := CircuitBreaker.complexity_budget cb in
      let action := CircuitBreaker.safe_mode_action cb in
      let type := cell.(ParsedCell.identity).(CellIdentity.type) in
      ((if negb (Js.isInteger budget) || Js.le_zero budget then
          [{| ValidationViolation.field := "contract.circuit_breaker.complexity_budget";
              ValidationViolation.message :=
                "complexity_budget must be a positive integer, got " ++ Number_toString budget;
              ValidationViolation.line := None |}]
        else []) ++
       (match SAFE_MODE_ACTIONS type with
        | Some expectedAction =>
            if negb (String.eqb action expectedAction) then
              [{| ValidationViolation.field := "contract.circuit_breaker.safe_mode_action";
                  ValidationViolation.message :=
                    "safe_mode_action for " ++ type ++ " must be " ++ quote ++ expectedAction ++
                    quote ++ ", got " ++ quote ++ action ++ quote;
                  ValidationViolation.line := None |}]
            else []
        | None =>
            (* [SAFE_MODE_ACTIONS[type]] is then inherited or undefined; an
               inherited member is truthy and no string is [===] to it. *)
            match Js.Object_prototype type with
            | Some inherited =>
                [{| ValidationViolation.field := "contract.circuit_breaker.safe_mode_action";
                    ValidationViolation.message :=
                      "safe_mode_action for " ++ type ++ " must be " ++ quote ++ inherited ++
                      quote ++ ", got " ++ quote ++ action ++ quote;
                    ValidationViolation.line := None |}]
            | None => []
            end
        end) ++
       (if Js.falsy action || Js.falsy (Js.trim action) then
          [{| ValidationViolation.field := "contract.circuit_breaker.safe_mode_action";
              ValidationViolation.message := "safe_mode_action is required";
              ValidationViolation.line := None |}]
        else []))%list
  end.

End Validate.

End Parser.

(* ===================================================================== *)
(** * FractalClaw: the skill loader (fractalclaw/src/skill-loader.ts)     *)
(* ===================================================================== *)

Module Js_string.
(** [s.toLowerCase()] on code units below 256. *)
Definition lower (c : ascii) : ascii :=
  let n := nat_of_ascii c in
  if (Nat.leb 65 n && Nat.leb n 90) ||
     (Nat.leb 192 n && Nat.leb n 222 && negb (Nat.eqb n 215))
  then ascii_of_nat (n + 32) else c.

Fixpoint toLowerCase (s : string) : string :=
  match s with
  | EmptyString => EmptyString
  | String c rest => String (lower c) (toLowerCase rest)
  end.
End Js_string.

Module ScanViolation.
Record t : Type := make { pattern : string; principle : string; message : string }.
End ScanViolation.

Module ScanResult.
Record t : Type := make {
  cellName : string;
  passed : bool;
  violations : list ScanViolation.t
}.
End ScanResult.

Module SkillViolation.
Record t : Type := make { principle : string; message : string }.
End SkillViolation.

Module SkillVerdict.
Record t : Type := make {
  name : string;
  cellType : string;
  accepted : bool;
  signature : option string;
  computedSignature : option string;
  allViolationMessages : list SkillViolation.t
}.
End SkillVerdict.

Module FractalClaw.
Import Parser.

Definition MAX_SAFE_BUDGET : Js.number := Js.of_Z 1000000.

Section Loader.

Context {Schema : Type}.
Variable JSON_stringify : Schema -> string.
Variable Number_toString : Js.number -> string.
(** The object literal [{}]. *)
Variable empty_schema : Schema.
(** [resolveTypeSchema(typeName, projectRoot)] reads the project's
    [types/] directory; [typeName] is undefined when the contract has no
    such key.  It throws when the schema file cannot be read
    ([readFileSync]) or does not hold JSON ([JSON.parse]). *)
Variable resolveTypeSchema : option string -> string -> Completion Schema.
(** The file system, [path.basename] and js-yaml. *)
Variable readFileSync : string -> Completion string.
Variable basename : string -> string -> string.
Variable yaml_load : string -> Completion (option Yaml.value).
(** [discoverTypes] lists the [types/] directory. *)
Context {KnownTypes : Type}.
Variable discoverTypes : string -> KnownTypes.
(** The parser's [validateCell] and the static scanner, run as stages 2
    and 3. *)
Variable validateCell : ParsedCell.t -> string -> KnownTypes -> ValidationResult.t.
Variable scanLogicBody : string -> option CellLogic.t -> ScanResult.t.

(** [(cell.contract as C).key]: reading a key of a missing contract
    throws. *)
Definition contract_key (cell : ParsedCell.t) (key : string) : Completion (option string) :=
  match ParsedCell.contract cell with
  | Some c => Normal (CellContract.type_reference c key)
  | None =>
      Throw (TypeError ("Cannot read properties of undefined (reading '" ++ key ++ "')"))
  end.

Definition computeExpectedSignature (cell : ParsedCell.t) (projectRoot : string)
  : Completion string :=
  let name := cell.(ParsedCell.identity).(CellIdentity.name) in
  let type := cell.(ParsedCell.identity).(CellIdentity.type) in
  let cellType := Js_string.toLowerCase type in
  let version := cell.(ParsedCell.identity).(CellIdentity.version) in
  let* schemas :=
    if String.eqb type "Transformer" then
      let* i := contract_key cell "input" in
      let* inputSchema := resolveTypeSchema i projectRoot in
      let* o := contract_key cell "output" in
      let* outputSchema := resolveTypeSchema o projectRoot in
      Normal (inputSchema, outputSchema)
    else if String.eqb type "Reactor" then
      let* l := contract_key cell "listens_to" in
      let* inputSchema := resolveTypeSchema l projectRoot in
      let* e := contract_key cell "emits" in
      let* outputSchema := resolveTypeSchema e projectRoot in
      Normal (inputSchema, outputSchema)
    else if String.eqb type "Keeper" then
      let* s := contract_key cell "state_schema" in
      let* inputSchema := resolveTypeSchema s projectRoot in
      let* s' := contract_key cell "state_schema" in
      let* outputSchema := resolveTypeSchema s' projectRoot in
      Normal (inputSchema, outputSchema)
    else Normal (empty_schema, empty_schema) in
  let content :=
    name ++ cellType ++ version ++
    JSON_stringify (fst schemas) ++ JSON_stringify (snd schemas) ++
    cell.(ParsedCell.lineage).(CellLineage.source) ++
    cell.(ParsedCell.lineage).(CellLineage.trigger) ++
    cell.(ParsedCell.lineage).(CellLineage.justification) in
  Normal (Sha256.sha256 content).

Definition checkBudget (cell : ParsedCell.t) : list SkillViolation.t :=
  match ParsedCell.circuit_breaker cell with
  | None => []
  | Some cb =>
      let budget := CircuitBreaker.complexity_budget cb in
      ((if Js.is_Infinity budget || Js.gt budget MAX_SAFE_BUDGET then
          [{| SkillViolation.principle := "Circuit Breaker";
              SkillViolation.message :=
                "complexity_budget " ++ Number_toString budget ++ " exceeds safe maximum" |}]
        else []) ++
       (if Js.le_zero budget then
          [{| SkillViolation.principle := "Circuit Breaker";
              SkillViolation.message :=
                "complexity_budget " ++ Number_toString budget ++ " must be positive" |}]
        else []))%list
  end.

(** Stage 4 of [loadSingleSkill]: what it pushes. *)
Definition signatureStage (computedSig declaredSig : string) : list SkillViolation.t :=
  if Js.truthy declaredSig && negb (Js.startsWith declaredSig "0x0000") then
    let normalizedDeclared :=
      if Js.startsWith declaredSig "0x" then Js.slice_from 2 declaredSig else declaredSig in
    let normalizedComputed := computedSig in
    if negb (String.eqb normalizedDeclared normalizedComputed) then
      [{| SkillViolation.principle := "Principle X";
          SkillViolation.message :=
            "Signature mismatch — declared " ++ Js.slice 0 16 normalizedDeclared ++
            "... != computed " ++ Js.slice 0 16 normalizedComputed ++ "..." |}]
    else []
  else [].

(** Stage 2 of [loadSingleSkill]: what it pushes. *)
Definition structureStage (parsed : ParsedCell.t) (filePath projectRoot : string)
  : list SkillViolation.t :=
  let knownTypes := discoverTypes projectRoot in
  let validation := validateCell parsed filePath knownTypes in
  if negb (ValidationResult.valid validation) then
    map (fun v => {| SkillViolation.principle := "Structure";
                     SkillViolation.message :=
                       ValidationViolation.field v ++ ": " ++ ValidationViolation.message v |})
        (ValidationResult.violations validation)
  else [].

(** Stage 3 of [loadSingleSkill]: what it pushes. *)
Definition scanStage (cellName : string) (parsed : ParsedCell.t) : list SkillViolation.t :=
  let scanResult := scanLogicBody cellName (ParsedCell.logic parsed) in
  if negb (ScanResult.passed scanResult) then
    map (fun v => {| SkillViolation.principle := "Principle " ++ ScanViolation.principle v;
                     SkillViolation.message := ScanViolation.message v |})
        (ScanResult.violations scanResult)
  else [].

(** Stages 2 to 5, on a skill that parsed.  The computation of the
    signature in stage 4 is outside any [try]: what it throws leaves
    [loadSingleSkill] without a verdict. *)
Definition loadParsedSkill (parsed : ParsedCell.t) (filePath projectRoot : string)
  : Completion SkillVerdict.t :=
  let cellName := parsed.(ParsedCell.identity).(CellIdentity.name) in
  let cellType := parsed.(ParsedCell.identity).(CellIdentity.type) in
  let stage2 := structureStage parsed filePath projectRoot in
  let stage3 := scanStage cellName parsed in
  let* computedSig := computeExpectedSignature parsed projectRoot in
  let declaredSig := ParsedCell.signature parsed in
  let stage4 := signatureStage computedSig declaredSig in
  let budgetViolations := checkBudget parsed in
  let allViolations := (stage2 ++ stage3 ++ stage4 ++ budgetViolations)%list in
  Normal {| SkillVerdict.name := cellName;
            SkillVerdict.cellType := cellType;
            SkillVerdict.accepted := Nat.eqb (List.length allViolations) 0;
            SkillVerdict.signature := Some computedSig;
            SkillVerdict.computedSignature := Some computedSig;
            SkillVerdict.allViolationMessages := allViolations |}.

Definition loadSingleSkill (filePath projectRoot : string) : Completion SkillVerdict.t :=
  let cellName := basename filePath ".fc" in
  let cellType := "unknown" in
  match (let* content := readFileSync filePath in
         parseFC Number_toString yaml_load content) with
  | Throw err =>
      Normal {| SkillVerdict.name := cellName;
                SkillVerdict.cellType := cellType;
                SkillVerdict.accepted := false;
                SkillVerdict.signature := None;
                SkillVerdict.computedSignature := None;
                SkillVerdict.allViolationMessages :=
                  [{| SkillViolation.principle := "Parse";
                      SkillViolation.message := "Parse error: " ++ Exn_message err |}] |}
  | Normal parsed => loadParsedSkill parsed filePath projectRoot
  end.

End Loader.
End FractalClaw.

(* ===================================================================== *)
(** * SDK: the budget of the Transformer class                            *)
(* ===================================================================== *)

Module Transformer.
Section Transformer.

Context {TInput TOutput World : Type}.

(** Modelled from the spec: the Transformer class of the SDK
    (sdk/src/transformer.ts), which is not among the sources.  The
    circuit-breaker specification and the SDK's tests give its budget: the
    constructor takes it from [complexityBudget] or the default,
    [process()] decrements it on every call and runs the function, throws
    the Safe-Mode error at zero without running it, and [resetBudget()]
    restores the initial value.  Only the fields the budget needs are
    kept. *)
Record t : Type := make {
  name : string;
  _process : TInput -> World -> Settled TOutput * World;
  _complexityBudget : Js.number;
  _maxBudget : Js.number
}.

(** Modelled from the spec: the constructor of the missing Transformer
    class, as far as the budget goes. *)
Definition constructor (name : string)
    (process : TInput -> World -> Settled TOutput * World)
    (complexityBudget : option Js.number) : t :=
  let maxBudget :=
    match complexityBudget with
    | Some b => b
    | None => DEFAULT_COMPLEXITY_BUDGET
    end in
  {| name := name; _process := process;
     _complexityBudget := maxBudget; _maxBudget := maxBudget |}.

(** Modelled from the spec: the Safe-Mode error of the missing
    Transformer class, as the circuit-breaker specification quotes it. *)
Definition safe_mode_error (this : t) : string :=
  "[Circuit Breaker] Transformer " ++ quote ++ name this ++ quote ++
  " is in Safe-Mode — complexity budget exhausted".

(** Modelled from the spec: [process()] of the missing Transformer class. *)
Definition process (this : t) (input : TInput) (w : World) : Settled TOutput * t * World :=
  if Js.le_zero (_complexityBudget this) then
    (Rejected (safe_mode_error this), this, w)
  else
    let this' := make (name this) (_process this)
                      (Js.decrement (_complexityBudget this)) (_maxBudget this) in
    let (r, w') := _process this' input w in
    (r, this', w').

(** Modelled from the spec: [resetBudget()] and the getter
    [budgetRemaining] of the missing Transformer class. *)
Definition resetBudget (this : t) : t :=
  make (name this) (_process this) (_maxBudget this) (_maxBudget this).

Definition budgetRemaining (this : t) : Js.number := _complexityBudget this.

(** Successive calls of [process], the outcomes oldest first. *)
Fixpoint process_each (this : t) (inputs : list TInput) (w : World)
  : list (Settled TOutput) * t * World :=
  match inputs with
  | [] => ([], this, w)
  | i :: rest =>
      let '(r, this', w') := process this i w in
      let '(rs, this'', w'') := process_each this' rest w' in
      (r :: rs, this'', w'')
  end.

End Transformer.
End Transformer.

(* ===================================================================== *)
(** * SDK: health reports and context maps of the Reactor                 *)
(* ===================================================================== *)

Module Js_object.

(** A plain object used as a record ([Record<string, V>]) is the list of
    its own properties in enumeration order: the keys that are array
    indices first, in ascending numeric order, then the other keys in the
    order of their creation. *)

Definition is_digit (c : ascii) : bool :=
  let n := nat_of_ascii c in Nat.leb 48 n && Nat.leb n 57.

Fixpoint digits_value (acc : N) (s : string) : N :=
  match s with
  | EmptyString => acc
  | String c s' => digits_value (10 * acc + (N_of_ascii c - 48)) s'
  end.

(** The array index a key denotes, if any: the key is the canonical
    decimal numeral of an integer below 2^32 - 1. *)
Definition array_index (key : string) : option N :=
  match key with
  | EmptyString => None
  | String c rest =>
      if forallb is_digit (list_ascii_of_string key) &&
         (negb (Ascii.eqb c "0") || Js.falsy rest)
      then
        let n := digits_value 0 key in
        if N.ltb n 4294967295 then Some n else None
      else None
  end.

Definition has {V} (o : list (string * V)) (key : string) : bool :=
  existsb (fun p => String.eqb (fst p) key) o.

Definition replace {V} (o : list (string * V)) (key : string) (v : V) : list (string * V) :=
  map (fun p => if String.eqb (fst p) key then (key, v) else p) o.

(** A new array-index key goes before the first key that is no array
    index or is a larger one. *)
Fixpoint insert_index {V} (o : list (string * V)) (i : N) (key : string) (v : V)
  : list (string * V) :=
  match o with
  | [] => [(key, v)]
  | (k, w) :: rest =>
      match array_index k with
      | Some j => if N.ltb j i then (k, w) :: insert_index rest i key v
                  else (key, v) :: o
      | None => (key, v) :: o
      end
  end.

(** [o[key] = v] for an object value [v].  On an object literal the key
    [__proto__] reaches the setter inherited from [Object.prototype],
    which creates no own property. *)
Definition set {V} (o : list (string * V)) (key : string) (v : V) : list (string * V) :=
  if String.eqb key "__proto__" then o
  else if has o key then replace o key v
  else
    match array_index key with
    | Some i => insert_index o i key v
    | None => o ++ [(key, v)]
    end.

(** [Object.values(o)] *)
Definition values {V} (o : list (string * V)) : list V := map snd o.

End Js_object.

Module ReactorCell.
Section ReactorCell.

Context {Schema TEvent TResponse World : Type}.

Local Abbreviation Reactor := (@Reactor.t Schema TEvent TResponse World).

(** [child.health()] for the child at each index of [_children], as the
    children answer at the time of the call. *)
Variable child_health : nat -> CellHealth.t.

(** The loop [for (const child of this._children)] of [health()], from
    the child at index [i] on. *)
Fixpoint collect_health (i : nat) (children : list (UniversalContract.t Schema))
    (childHealth : list (string * CellHealth.t)) : list (string * CellHealth.t) :=
  match children with
  | [] => childHealth
  | child :: rest =>
      collect_health (S i) rest
        (Js_object.set childHealth
           child.(UniversalContract.identity).(CellIdentity.name) (child_health i))
  end.

Definition health (this : Reactor) : CellHealth.t :=
  let inSafeMode := Js.le_zero (Reactor._complexityBudget this) in
  match Reactor._children this with
  | [] =>
      {| CellHealth.status := if inSafeMode then "safe-mode" else "healthy";
         CellHealth.message := None;
         CellHealth.budgetRemaining := Some (Js.PNumber (Reactor._complexityBudget this));
         CellHealth.children := None |}
  | _ :: _ =>
      let childHealth := collect_health 0 (Reactor._children this) [] in
      let statuses := map CellHealth.status (Js_object.values childHealth) in
      let status :=
        if inSafeMode then "safe-mode"
        else if Js_array.includes statuses "unhealthy" then "unhealthy"
        else if Js_array.includes statuses "degraded" ||
                Js_array.includes statuses "safe-mode" then "degraded"
        else "healthy" in
      {| CellHealth.status := status;
         CellHealth.message := None;
         CellHealth.budgetRemaining := Some (Js.PNumber (Reactor._complexityBudget this));
         CellHealth.children := Some childHealth |}
  end.

Definition toMap (this : Reactor) : ContextMapEntry.t :=
  {| ContextMapEntry.identity := Reactor.identity this;
     ContextMapEntry.parent := Reactor._parent this;
     ContextMapEntry.children :=
       Some (map (fun c => c.(UniversalContract.identity).(CellIdentity.name))
                 (Reactor._children this));
     ContextMapEntry.channels :=
       Some (map (fun c => c.(UniversalContract.identity).(CellIdentity.name))
                 (List.filter
                    (fun c => String.eqb c.(UniversalContract.identity).(CellIdentity.cellType)
                                         "channel")
                    (Reactor._children this)));
     ContextMapEntry.signature := (Reactor.signature this).(CellSignature.hash) |}.

End ReactorCell.
End ReactorCell.

(* ===================================================================== *)
(** * SDK: the Channel class (sdk/src/channel.ts)                         *)
(* ===================================================================== *)

Module Js_number.

(** An array length, or a size given as a count, as the JS number it is
    where the code compares it. *)
Definition of_nat (n : nat) : Js.number := Js.of_Z (Z.of_nat n).

(** [x >= y]; false when either side is NaN. *)
Definition ge (x y : Js.number) : bool :=
  match x, y with
  | Js.NaN, _ | _, Js.NaN => false
  | Js.PosInfinity, _ => true
  | _, Js.NegInfinity => true
  | _, Js.PosInfinity => false
  | Js.NegInfinity, _ => false
  | Js.Finite p, Js.Finite q => Qle_bool q p
  end.

End Js_number.

Module ChannelConfig.
Record t (Schema : Type) : Type := make {
  name : string;
  version : string;
  input : CellInput.t Schema;
  output : CellOutput.t Schema;
  lineage : CellLineage.t;
  parent : option string;
  bufferSize : option Js.number;
  children : option (list (UniversalContract.t Schema))
}.
Arguments make {Schema}.
Arguments name {Schema}.
Arguments version {Schema}.
Arguments input {Schema}.
Arguments output {Schema}.
Arguments lineage {Schema}.
Arguments parent {Schema}.
Arguments bufferSize {Schema}.
Arguments children {Schema}.
End ChannelConfig.

Module Channel.
Section Channel.

Context {Schema TData : Type}.
Variable JSON_stringify : Schema -> string.
Variable Number_toString : Js.number -> string.
(** [item === undefined] for a value of the data type. *)
Variable is_undefined : TData -> bool.

Record t : Type := make {
  identity : CellIdentity.t;
  input : CellInput.t Schema;
  output : CellOutput.t Schema;
  lineage : CellLineage.t;
  signature : CellSignature.t;
  _buffer : list TData;
  _bufferSize : Js.number;
  _children : list (UniversalContract.t Schema);
  _parent : option string
}.

Definition contract (this : t) : UniversalContract.t Schema :=
  UniversalContract.make (identity this) (input this) (output this)
                         (lineage this) (signature this).

Definition with_signature (this : t) (sig : CellSignature.t) : t :=
  make (identity this) (input this) (output this) (lineage this) sig
       (_buffer this) (_bufferSize this) (_children this) (_parent this).

(** The buffer array is mutated in place; the other fields stay. *)
Definition with_buffer (this : t) (buffer : list TData) : t :=
  make (identity this) (input this) (output this) (lineage this) (signature this)
       buffer (_bufferSize this) (_children this) (_parent this).

Definition computeSignature (this : t) (now : string) : CellSignature.t :=
  match _children this with
  | [] => Signature.computeLeafSignature JSON_stringify (contract this) now
  | _ :: _ =>
      Signature.computeComposedSignature JSON_stringify (contract this)
        (map UniversalContract.signature (_children this)) now
  end.

Definition constructor (config : ChannelConfig.t Schema) (now : string) : t :=
  let this :=
    {| identity := {| CellIdentity.name := config.(ChannelConfig.name);
                      CellIdentity.cellType := "channel";
                      CellIdentity.version := config.(ChannelConfig.version) |};
       input := config.(ChannelConfig.input);
       output := config.(ChannelConfig.output);
       lineage := config.(ChannelConfig.lineage);
       signature := {| CellSignature.hash := "0000000000000000000000000000000000000000000000000000000000000000";
                       CellSignature.children := None;
                       CellSignature.timestamp := now |};
       _buffer := [];
       _bufferSize := match config.(ChannelConfig.bufferSize) with
                      | Some n => n
                      | None => Js.of_Z 100
                      end;
       _children := Js_array.or_empty config.(ChannelConfig.children);
       _parent := config.(ChannelConfig.parent) |} in
  with_signature this (computeSignature this now).

Definition buffer_full_error (this : t) : string :=
  "Channel " ++ quote ++ this.(identity).(CellIdentity.name) ++ quote ++
  " buffer full (max " ++ Number_toString (_bufferSize this) ++ ")".

Definition buffer_empty_error (this : t) : string :=
  "Channel " ++ quote ++ this.(identity).(CellIdentity.name) ++ quote ++ " buffer empty".

(** [await channel.send(data)]: what the call settles to and the channel
    after it. *)
Definition send (this : t) (data : TData) : Settled unit * t :=
  if Js_number.ge (Js_number.of_nat (List.length (_buffer this))) (_bufferSize this) then
    (Rejected (buffer_full_error this), this)
  else
    (Resolved tt, with_buffer this (_buffer this ++ [data])).

(** [await channel.receive()]: [shift()] takes the first item off the
    buffer before the test for [undefined]. *)
Definition receive (this : t) : Settled TData * t :=
  match _buffer this with
  | [] => (Rejected (buffer_empty_error this), this)
  | item :: rest =>
      if is_undefined item
      then (Rejected (buffer_empty_error this), with_buffer this rest)
      else (Resolved item, with_buffer this rest)
  end.

Definition peek (this : t) : option TData := List.head (_buffer this).

Definition length (this : t) : nat := List.length (_buffer this).

Definition getChildren (this : t) : list (UniversalContract.t Schema) := _children this.

(** Successive [send]s of the items of a list, and [n] successive
    [receive]s; the outcomes oldest first. *)
Fixpoint send_each (this : t) (items : list TData) : list (Settled unit) * t :=
  match items with
  | [] => ([], this)
  | d :: rest =>
      let (r, this') := send this d in
      let (rs, this'') := send_each this' rest in
      (r :: rs, this'')
  end.

Fixpoint receive_each (this : t) (n : nat) : list (Settled TData) * t :=
  match n with
  | O => ([], this)
  | S n' =>
      let (r, this') := receive this in
      let (rs, this'') := receive_each this' n' in
      (r :: rs, this'')
  end.

End Channel.
End Channel.

(* ===================================================================== *)
(** * SDK: the Keeper class (sdk/src/keeper.ts)                           *)
(* ===================================================================== *)

Module KeeperConfig.
Record t (Schema TState : Type) : Type := make {
  name : string;
  version : string;
  input : CellInput.t Schema;
  output : CellOutput.t Schema;
  lineage : CellLineage.t;
  parent : option string;
  initialState : TState;
  children : option (list (UniversalContract.t Schema))
}.
Arguments make {Schema TState}.
Arguments name {Schema TState}.
Arguments version {Schema TState}.
Arguments input {Schema TState}.
Arguments output {Schema TState}.
Arguments lineage {Schema TState}.
Arguments parent {Schema TState}.
Arguments initialState {Schema TState}.
Arguments children {Schema TState}.
End KeeperConfig.

Module Keeper.
Section Keeper.

Context {Schema TState : Type}.
Variable JSON_stringify : Schema -> string.
(** [child.health()] for the child at each index of [_children]. *)
Variable child_health : nat -> CellHealth.t.

Record t : Type := make {
  identity : CellIdentity.t;
  input : CellInput.t Schema;
  output : CellOutput.t Schema;
  lineage : CellLineage.t;
  signature : CellSignature.t;
  _state : TState;
  _children : list (UniversalContract.t Schema);
  _parent : option string
}.

Definition contract (this : t) : UniversalContract.t Schema :=
  UniversalContract.make (identity this) (input this) (output this)
                         (lineage this) (signature this).

Definition with_signature (this : t) (sig : CellSignature.t) : t :=
  make (identity this) (input this) (output this) (lineage this) sig
       (_state this) (_children this) (_parent this).

Definition computeSignature (this : t) (now : string) : CellSignature.t :=
  match _children this with
  | [] => Signature.computeLeafSignature JSON_stringify (contract this) now
  | _ :: _ =>
      Signature.computeComposedSignature JSON_stringify (contract this)
        (map UniversalContract.signature (_children this)) now
  end.

Definition constructor (config : KeeperConfig.t Schema TState) (now : string) : t :=
  let this :=
    {| identity := {| CellIdentity.name := config.(KeeperConfig.name);
                      CellIdentity.cellType := "keeper";
                      CellIdentity.version := config.(KeeperConfig.version) |};
       input := config.(KeeperConfig.input);
       output := config.(KeeperConfig.output);
       lineage := config.(KeeperConfig.lineage);
       signature := {| CellSignature.hash := "0000000000000000000000000000000000000000000000000000000000000000";
                       CellSignature.children := None;
                       CellSignature.timestamp := now |};
       _state := config.(KeeperConfig.initialState);
       _children := Js_array.or_empty config.(KeeperConfig.children);
       _parent := config.(KeeperConfig.parent) |} in
  with_signature this (computeSignature this now).

(** [await keeper.get()] and [await keeper.set(state)]. *)
Definition get (this : t) : Settled TState * t := (Resolved (_state this), this).

Definition set (this : t) (state : TState) : Settled unit * t :=
  (Resolved tt,
   make (identity this) (input this) (output this) (lineage this) (signature this)
        state (_children this) (_parent this)).

Fixpoint collect_health (i : nat) (children : list (UniversalContract.t Schema))
    (childHealth : list (string * CellHealth.t)) : list (string * CellHealth.t) :=
  match children with
  | [] => childHealth
  | child :: rest =>
      collect_health (S i) rest
        (Js_object.set childHealth
           child.(UniversalContract.identity).(CellIdentity.name) (child_health i))
  end.

Definition health (this : t) : CellHealth.t :=
  match _children this with
  | [] =>
      {| CellHealth.status := "healthy"; CellHealth.message := None;
         CellHealth.budgetRemaining := None; CellHealth.children := None |}
  | _ :: _ =>
      let childHealth := collect_health 0 (_children this) [] in
      let statuses := map CellHealth.status (Js_object.values childHealth) in
      let status :=
        if Js_array.includes statuses "unhealthy" then "unhealthy"
        else if Js_array.includes statuses "degraded" then "degraded"
        else "healthy" in
      {| CellHealth.status := status; CellHealth.message := None;
         CellHealth.budgetRemaining := None; CellHealth.children := Some childHealth |}
  end.

Definition toMap (this : t) : ContextMapEntry.t :=
  {| ContextMapEntry.identity := identity this;
     ContextMapEntry.parent := _parent this;
     ContextMapEntry.children :=
       Some (map (fun c => c.(UniversalContract.identity).(CellIdentity.name))
                 (_children this));
     ContextMapEntry.channels :=
       Some (map (fun c => c.(UniversalContract.identity).(CellIdentity.name))
                 (List.filter
                    (fun c => String.eqb c.(UniversalContract.identity).(CellIdentity.cellType)
                                         "channel")
                    (_children this)));
     ContextMapEntry.signature := (signature this).(CellSignature.hash) |}.

Definition getChildren (this : t) : list (UniversalContract.t Schema) := _children this.

End Keeper.
End Keeper.

(* ===================================================================== *)
(** * Validator: the other constitutional checks                          *)
(* ===================================================================== *)

Module Js_regex.

Fixpoint skip_digits (s : string) : string :=
  match s with
  | EmptyString => EmptyString
  | String c s' => if Js_object.is_digit c then skip_digits s' else s
  end.

(** [\d+] at the head of [s]: the rest after the longest run of digits,
    if there is at least one. *)
Definition digits (s : string) : option string :=
  match s with
  | EmptyString => None
  | String c s' => if Js_object.is_digit c then Some (skip_digits s') else None
  end.

(** [\.] at the head of [s]. *)
Definition dot (s : string) : option string :=
  match s with
  | EmptyString => None
  | String c s' => if Ascii.eqb c "." then Some s' else None
  end.

(** What is left of [s] after [^\d+\.\d+\.\d+].  A run of digits is
    followed by a dot or by the end of the pattern, so the longest run is
    the only one that can match. *)
Definition semver_core (s : string) : option string :=
  match digits s with
  | None => None
  | Some r1 =>
      match dot r1 with
      | None => None
      | Some r2 =>
          match digits r2 with
          | None => None
          | Some r3 =>
              match dot r3 with
              | None => None
              | Some r4 => digits r4
              end
          end
      end
  end.

(** [/^\d+\.\d+\.\d+/.test(s)], the pattern of the SDK and of the
    validator: nothing anchors its end. *)
Definition SEMVER_REGEX_test (s : string) : bool :=
  match semver_core s with Some _ => true | None => false end.

End Js_regex.

Module Js_split.

(** [s.split(c)] for a separator of one character: the pieces between
    the separators, at least one. *)
Fixpoint split (c : ascii) (s : string) : list string :=
  match s with
  | EmptyString => [EmptyString]
  | String d s' =>
      match split c s' with
      | piece :: pieces =>
          if Ascii.eqb d c then EmptyString :: piece :: pieces
          else String d piece :: pieces
      | [] => [String d EmptyString]
      end
  end.

(** [xs.pop()] as an expression: the last element, [undefined] on an
    empty array. *)
Definition pop (xs : list string) : option string := List.last (map Some xs) None.

(** [s.endsWith(p)] *)
Definition endsWith (s p : string) : bool :=
  Nat.leb (String.length p) (String.length s) &&
  String.eqb (Js.drop (String.length s - String.length p) s) p.

(** [s.replace(/\.ts$/, "")] *)
Definition strip_ts (s : string) : string :=
  if endsWith s ".ts" then Js.take (String.length s - 3) s else s.

(** No character of [t] is the separator [c]. *)
Definition no_separator (c : ascii) (t : string) : Prop :=
  forallb (fun d => negb (Ascii.eqb d c)) (list_ascii_of_string t) = true.

End Js_split.

Module Checks.
Section Checks.

Context {Schema : Type}.
(** [!!schema] for a schema value. *)
Variable Schema_truthy : Schema -> bool.

Local Abbreviation Cell := (DiscoveredCell.t Schema).
Local Infix "+++" := (@app Violation.t) (at level 60, right associativity).

Definition cell_name (cell : Cell) : string :=
  cell.(DiscoveredCell.identity).(CellIdentity.name).

Definition cell_type (cell : Cell) : string :=
  cell.(DiscoveredCell.identity).(CellIdentity.cellType).

(** [!s || s.trim().length === 0] *)
Definition blank (s : string) : bool :=
  Js.falsy s || Nat.eqb (String.length (Js.trim s)) 0.

(** ** checks/lineage-check.ts *)

(** The inner function [check]; a discovered cell always carries a
    lineage record, so the branch for a missing one is not taken. *)
Fixpoint lineage_check (cell : Cell) : list Violation.t :=
  let ctx msg :=
    {| Violation.cell := cell_name cell; Violation.file := DiscoveredCell.filePath cell;
       Violation.message := msg; Violation.principle := "II" |} in
  (if blank cell.(DiscoveredCell.lineage).(CellLineage.source)
   then [ctx "lineage.source is required — must be an Agent ID (e.g., 'Claude-Opus-4.6', 'Human-Angelo')"]
   else []) +++
  (if blank cell.(DiscoveredCell.lineage).(CellLineage.trigger)
   then [ctx "lineage.trigger is required — must be a Prompt ID, Issue #, or Decision Record"]
   else []) +++
  (if blank cell.(DiscoveredCell.lineage).(CellLineage.justification)
   then [ctx "lineage.justification is required — one sentence explaining structural necessity"]
   else []) +++
  (if blank cell.(DiscoveredCell.lineage).(CellLineage.signature)
   then [ctx "lineage.signature is required — Merkle hash of parent context at creation"]
   else []) +++
  flat_map lineage_check (DiscoveredCell.children cell).

Definition lineageCheck (cells : list Cell) : CheckResult.t :=
  let violations := flat_map lineage_check cells in
  {| CheckResult.checkName := "Intent Ledger Check";
     CheckResult.passed := Nat.eqb (List.length violations) 0;
     CheckResult.violations := violations |}.

(** ** checks/context-map-check.ts *)

(** The body of the loop of [contextMapCheck] for one cell; [continue]
    leaves the body after the first violation. *)
Fixpoint contextMapCheck_cell (cell : Cell) : list Violation.t :=
  let ctx msg principle :=
    {| Violation.cell := cell_name cell; Violation.file := DiscoveredCell.filePath cell;
       Violation.message := msg; Violation.principle := principle |} in
  if negb (DiscoveredCell.hasToMapMethod cell) then
    [ctx "Cell lacks toMap() method — context map is a first-class element (Principle V)" "V"]
  else
    let map := DiscoveredCell.contextMap cell in
    (if Js.falsy map.(ContextMapEntry.identity).(CellIdentity.name)
     then [ctx "Context map missing identity — holographic principle requires self-contained identity (Principle IX)" "IX"]
     else []) +++
    (if Js.falsy map.(ContextMapEntry.signature)
     then [ctx "Context map missing signature reference" "V"]
     else []) +++
    (match DiscoveredCell.children cell with
     | [] => []
     | _ :: _ =>
         (match map.(ContextMapEntry.children) with
          | Some (_ :: _) => []
          | _ => [ctx "Composed cell's context map does not list children — holographic principle violated" "IX"]
          end) +++
         (let channelChildren :=
            List.filter (fun c => String.eqb (cell_type c) "channel")
                        (DiscoveredCell.children cell) in
          if Nat.ltb 0 (List.length channelChildren) &&
             match map.(ContextMapEntry.channels) with
             | Some (_ :: _) => false
             | _ => true
             end
          then [ctx "Composed cell has Channel children but context map does not list channels" "V"]
          else [])
     end) +++
    (match DiscoveredCell.children cell with
     | [] => []
     | _ :: _ => flat_map contextMapCheck_cell (DiscoveredCell.children cell)
     end).

Definition contextMapCheck (cells : list Cell) : CheckResult.t :=
  let violations := flat_map contextMapCheck_cell cells in
  {| CheckResult.checkName := "Context Map Check";
     CheckResult.passed := Nat.eqb (List.length violations) 0;
     CheckResult.violations := violations |}.

(** ** checks/self-similarity-check.ts *)

(** The violations the loop over the children pushes for one child. *)
Definition selfSimilarity_child (cell child : Cell) : list Violation.t :=
  (if Js.falsy (cell_name child)
   then [{| Violation.cell := "unknown"; Violation.file := DiscoveredCell.filePath cell;
            Violation.message := "Child cell within " ++ quote ++ cell_name cell ++ quote ++
                                 " lacks identity";
            Violation.principle := "IV" |}]
   else []) +++
  (if Js.falsy child.(DiscoveredCell.lineage).(CellLineage.justification)
   then [{| Violation.cell := cell_name child; Violation.file := DiscoveredCell.filePath cell;
            Violation.message := "Child cell " ++ quote ++ cell_name child ++ quote ++
                                 " within " ++ quote ++ cell_name cell ++ quote ++
                                 " lacks lineage — self-similarity requires every cell at every scale to have lineage";
            Violation.principle := "IV" |}]
   else []).

(** The body of the loop of [selfSimilarityCheck] for one cell. *)
Fixpoint selfSimilarityCheck_cell (cell : Cell) : list Violation.t :=
  let ctx msg :=
    {| Violation.cell := cell_name cell; Violation.file := DiscoveredCell.filePath cell;
       Violation.message := msg; Violation.principle := "IV" |} in
  match DiscoveredCell.children cell with
  | [] => []
  | _ :: _ =>
      (if blank (cell_name cell)
       then [ctx "Composed cell lacks its own identity.name"]
       else []) +++
      (if Js.falsy cell.(DiscoveredCell.input).(CellInput.description)
       then [ctx "Composed cell lacks its own input declaration — scale must be invisible from outside"]
       else []) +++
      (if Js.falsy cell.(DiscoveredCell.output).(CellOutput.description)
       then [ctx "Composed cell lacks its own output declaration — scale must be invisible from outside"]
       else []) +++
      (match cell.(DiscoveredCell.signature).(CellSignature.children) with
       | Some (_ :: _) => []
       | _ => [ctx "Composed cell's signature does not include child signatures — violates self-similarity"]
       end) +++
      flat_map (selfSimilarity_child cell) (DiscoveredCell.children cell) +++
      flat_map selfSimilarityCheck_cell (DiscoveredCell.children cell)
  end.

Definition selfSimilarityCheck (cells : list Cell) : CheckResult.t :=
  let violations := flat_map selfSimilarityCheck_cell cells in
  {| CheckResult.checkName := "Self-Similarity Check";
     CheckResult.passed := Nat.eqb (List.length violations) 0;
     CheckResult.violations := violations |}.

(** ** checks/contract-check.ts *)

(** The body of the loop of [contractCheck] for one cell.  A discovered
    cell carries its input, output, lineage and signature records, so the
    branches for a missing record are not taken. *)
Fixpoint contractCheck_cell (cell : Cell) : list Violation.t :=
  let ctx msg :=
    {| Violation.cell := cell_name cell; Violation.file := DiscoveredCell.filePath cell;
       Violation.message := msg; Violation.principle := "II" |} in
  let version := cell.(DiscoveredCell.identity).(CellIdentity.version) in
  (if blank (cell_name cell) then [ctx "Missing identity.name"] else []) +++
  (if Js.falsy version || negb (Js_regex.SEMVER_REGEX_test version)
   then [ctx ("Invalid identity.version " ++ quote ++ version ++ quote ++ " — must be semver")]
   else []) +++
  (if negb (Schema_truthy cell.(DiscoveredCell.input).(CellInput.schema))
   then [ctx "Missing input.schema"] else []) +++
  (if blank cell.(DiscoveredCell.input).(CellInput.description)
   then [ctx "Missing input.description"] else []) +++
  (if negb (Schema_truthy cell.(DiscoveredCell.output).(CellOutput.schema))
   then [ctx "Missing output.schema"] else []) +++
  (if blank cell.(DiscoveredCell.output).(CellOutput.description)
   then [ctx "Missing output.description"] else []) +++
  (if negb (DiscoveredCell.hasHealthMethod cell)
   then [ctx "Missing health() method"] else []) +++
  (if Js.falsy cell.(DiscoveredCell.signature).(CellSignature.hash) ||
      negb (Validator.SHA256_REGEX_test cell.(DiscoveredCell.signature).(CellSignature.hash))
   then [ctx "Invalid signature.hash — must be 64-char lowercase hex"] else []) +++
  (if Js.falsy cell.(DiscoveredCell.signature).(CellSignature.timestamp)
   then [ctx "Missing signature.timestamp"] else []) +++
  (match DiscoveredCell.children cell with
   | [] => []
   | _ :: _ => flat_map contractCheck_cell (DiscoveredCell.children cell)
   end).

Definition contractCheck (cells : list Cell) : CheckResult.t :=
  let violations := flat_map contractCheck_cell cells in
  {| CheckResult.checkName := "Contract Check";
     CheckResult.passed := Nat.eqb (List.length violations) 0;
     CheckResult.violations := violations |}.

(** ** checks/cell-type-check.ts *)

Definition VALID_CELL_TYPES : list string := ["transformer"; "reactor"; "keeper"; "channel"].

(** [VALID_CELL_TYPES.join(", ")] *)
Definition VALID_CELL_TYPES_joined : string := "transformer, reactor, keeper, channel".

(** [cell.filePath.split("/").pop() ?? cell.filePath.split("\\").pop() ?? ""] *)
Definition fileName_of (filePath : string) : string :=
  match Js_split.pop (Js_split.split "/" filePath) with
  | Some name => name
  | None =>
      match Js_split.pop (Js_split.split "\" filePath) with
      | Some name => name
      | None => ""
      end
  end.

(** The violation for a file name that suggests another type, if any. *)
Definition fileName_violation (cell : Cell) : list Violation.t :=
  let fileName := fileName_of (DiscoveredCell.filePath cell) in
  if Js.truthy fileName && negb (Js.startsWith fileName "app.") &&
     negb (Js.startsWith fileName "index.")
  then
    let parts := Js_split.split "." (Js_split.strip_ts fileName) in
    if Nat.leb 2 (List.length parts) then
      let declaredType := List.last parts "" in
      if Js_array.includes VALID_CELL_TYPES declaredType &&
         negb (String.eqb declaredType (cell_type cell))
      then [{| Violation.cell := cell_name cell; Violation.file := DiscoveredCell.filePath cell;
               Violation.message := "File name suggests type " ++ quote ++ declaredType ++ quote ++
                                    " but cell declares type " ++ quote ++ cell_type cell ++ quote;
               Violation.principle := "I" |}]
      else []
    else []
  else [].

(** The body of the loop of [cellTypeCheck] for one cell. *)
Fixpoint cellTypeCheck_cell (cell : Cell) : list Violation.t :=
  (if negb (Js_array.includes VALID_CELL_TYPES (cell_type cell))
   then [{| Violation.cell := cell_name cell; Violation.file := DiscoveredCell.filePath cell;
            Violation.message := "Invalid cellType " ++ quote ++ cell_type cell ++ quote ++
                                 ". Must be one of: " ++ VALID_CELL_TYPES_joined;
            Violation.principle := "I" |}]
   else []) +++
  fileName_violation cell +++
  (match DiscoveredCell.children cell with
   | [] => []
   | _ :: _ => flat_map cellTypeCheck_cell (DiscoveredCell.children cell)
   end).

Definition cellTypeCheck (cells : list Cell) : CheckResult.t :=
  let violations := flat_map cellTypeCheck_cell cells in
  {| CheckResult.checkName := "Cell Type Check";
     CheckResult.passed := Nat.eqb (List.length violations) 0;
     CheckResult.violations := violations |}.

(** ** index.ts: the eight checks of [main] *)

Variable JSON_stringify : Schema -> string.
Variable Number_toString : Js.number -> string.

Definition all_checks (cells : list Cell) : list CheckResult.t :=
  [ cellTypeCheck cells;
    contractCheck cells;
    Validator.compositionCheck cells;
    selfSimilarityCheck cells;
    contextMapCheck cells;
    Validator.signatureCheck JSON_stringify cells;
    Validator.circuitBreakerCheck Number_toString cells;
    lineageCheck cells ].

(** [results.every((r) => r.passed)] *)
Definition allPassed (cells : list Cell) : bool :=
  forallb CheckResult.passed (all_checks cells).

End Checks.
End Checks.

(* ===================================================================== *)
(** * Parser: the constitutional constraints (parser/src/validate.ts)     *)
(* ===================================================================== *)

Module Validate.
Import Parser.

Definition CELL_TYPES : list string := ["Transformer"; "Reactor"; "Keeper"; "Channel"].
Definition CHANNEL_MODES : list string := ["fifo"; "lifo"; "pubsub"].
Definition BUILT_IN_PRIMITIVES : list string :=
  ["string"; "number"; "boolean"; "object"; "array"; "any"; "void"].

(** [isPrimitive] of resolve-types.ts *)
Definition isPrimitive (typeRef : string) : bool :=
  Js_array.includes BUILT_IN_PRIMITIVES (Js_string.toLowerCase typeRef).

(** [[a-zA-Z0-9.]] *)
Definition is_tag_char (c : ascii) : bool :=
  let n := nat_of_ascii c in
  (Nat.leb 97 n && Nat.leb n 122) || (Nat.leb 65 n && Nat.leb n 90) ||
  (Nat.leb 48 n && Nat.leb n 57) || Nat.eqb n 46.

Fixpoint skip_tag (s : string) : string :=
  match s with
  | EmptyString => EmptyString
  | String c s' => if is_tag_char c then skip_tag s' else s
  end.

(** [[a-zA-Z0-9.]+] at the head of [s]: the rest after the longest run. *)
Definition tag (s : string) : option string :=
  match s with
  | EmptyString => None
  | String c s' => if is_tag_char c then Some (skip_tag s') else None
  end.

(** [(\+[a-zA-Z0-9.]+)?$] *)
Definition build_then_end (s : string) : bool :=
  match s with
  | EmptyString => true
  | String c s' =>
      if Ascii.eqb c "+" then
        match tag s' with
        | Some rest => Js.falsy rest
        | None => false
        end
      else false
  end.

(** [/^\d+\.\d+\.\d+(-[a-zA-Z0-9.]+)?(\+[a-zA-Z0-9.]+)?$/.test(s)].  The
    characters of a run can start neither the next group nor the end, so
    the longest run is the only one that can match. *)
Definition SEMVER_RE_test (s : string) : bool :=
  match Js_regex.semver_core s with
  | None => false
  | Some rest =>
      match rest with
      | EmptyString => true
      | String c rest' =>
          if Ascii.eqb c "-" then
            match tag rest' with
            | Some rest'' => build_then_end rest''
            | None => false
            end
          else build_then_end rest
      end
  end.

(** [!s || !s.trim()] *)
Definition blank (s : string) : bool := Js.falsy s || Js.falsy (Js.trim s).

(** [!x || !x.trim()] and [!x] for a field that may be undefined. *)
Definition blank_opt (x : option string) : bool :=
  match x with Some s => blank s | None => true end.

Definition falsy_opt (x : option string) : bool :=
  match x with Some s => Js.falsy s | None => true end.

(** [`${x}`] for a string field that may be undefined. *)
Definition show_opt (x : option string) : string :=
  match x with Some s => s | None => "undefined" end.

(** [(contract as KeeperContract).operations] and the fields of a contract
    read as a [ChannelContract]; undefined on another shape. *)
Definition operations (c : CellContract.t) : option (list string) :=
  match c with CellContract.KeeperContract _ ops _ => Some ops | _ => None end.

Definition mode (c : CellContract.t) : option string :=
  match c with CellContract.ChannelContract _ m _ _ => Some m | _ => None end.

Definition buffer_size (c : CellContract.t) : option Js.number :=
  match c with CellContract.ChannelContract _ _ n _ => Some n | _ => None end.

Definition violation (field message : string) : ValidationViolation.t :=
  {| ValidationViolation.field := field;
     ValidationViolation.message := message;
     ValidationViolation.line := None |}.

Section Validate.

Variable Number_toString : Js.number -> string.

Local Infix "+++" := (@app ValidationViolation.t) (at level 60, right associativity).

Definition validateIdentity (cell : ParsedCell.t) : list ValidationViolation.t :=
  let identity := ParsedCell.identity cell in
  (if blank (CellIdentity.name identity)
   then [violation "identity.name" "identity.name is required and must be non-empty"]
   else []) +++
  (if Js.falsy (CellIdentity.version identity) ||
      negb (SEMVER_RE_test (CellIdentity.version identity))
   then [violation "identity.version"
           ("identity.version must be a valid semver string, got " ++ quote ++
            CellIdentity.version identity ++ quote)]
   else []) +++
  (if negb (Js_array.includes CELL_TYPES (CellIdentity.type identity))
   then [violation "identity.type"
           ("identity.type must be one of: Transformer, Reactor, Keeper, Channel. Got " ++
            quote ++ CellIdentity.type identity ++ quote)]
   else []).

Definition validateTransformerContract (contract : CellContract.t) : list ValidationViolation.t :=
  (if blank_opt (CellContract.type_reference contract "input")
   then [violation "contract.input"
           "Transformer contract requires non-empty input type reference"]
   else []) +++
  (if blank_opt (CellContract.type_reference contract "output")
   then [violation "contract.output"
           "Transformer contract requires non-empty output type reference"]
   else []).

Definition validateReactorContract (contract : CellContract.t) : list ValidationViolation.t :=
  (if blank_opt (CellContract.type_reference contract "listens_to")
   then [violation "contract.listens_to"
           "Reactor contract requires non-empty listens_to type reference"]
   else []) +++
  (if blank_opt (CellContract.type_reference contract "emits")
   then [violation "contract.emits"
           "Reactor contract requires non-empty emits type reference"]
   else []).

Definition validateKeeperContract (contract : CellContract.t) : list ValidationViolation.t :=
  (if blank_opt (CellContract.type_reference contract "state_schema")
   then [violation "contract.state_schema"
           "Keeper contract requires non-empty state_schema type reference"]
   else []) +++
  (match operations contract with
   | Some (op :: ops) =>
       (if negb (Js_array.includes (op :: ops) "get")
        then [violation "contract.operations"
                ("Keeper contract operations must include " ++ quote ++ "get" ++ quote)]
        else []) +++
       (if negb (Js_array.includes (op :: ops) "set")
        then [violation "contract.operations"
                ("Keeper contract operations must include " ++ quote ++ "set" ++ quote)]
        else [])
   | _ => [violation "contract.operations"
             "Keeper contract requires non-empty operations array"]
   end).

Definition validateChannelContract (contract : CellContract.t) : list ValidationViolation.t :=
  (if blank_opt (CellContract.type_reference contract "carries")
   then [violation "contract.carries"
           "Channel contract requires non-empty carries type reference"]
   else []) +++
  (if negb (match mode contract with
            | Some m => Js_array.includes CHANNEL_MODES m
            | None => false
            end)
   then [violation "contract.mode"
           ("Channel contract mode must be one of: fifo, lifo, pubsub. Got " ++
            quote ++ show_opt (mode contract) ++ quote)]
   else []) +++
  (match buffer_size contract with
   | Some n =>
       if negb (Js.isInteger n) || Js.le_zero n
       then [violation "contract.buffer_size"
               ("Channel contract buffer_size must be a positive integer, got " ++
                Number_toString n)]
       else []
   | None =>
       [violation "contract.buffer_size"
          "Channel contract buffer_size must be a positive integer, got undefined"]
   end).

Definition validateContract (cell : ParsedCell.t) : list ValidationViolation.t :=
  match ParsedCell.contract cell with
  | None => [violation "contract" "contract section is required"]
  | Some contract =>
      let type := cell.(ParsedCell.identity).(CellIdentity.type) in
      if String.eqb type "Transformer" then validateTransformerContract contract
      else if String.eqb type "Reactor" then validateReactorContract contract
      else if String.eqb type "Keeper" then validateKeeperContract contract
      else if String.eqb type "Channel" then validateChannelContract contract
      else []
  end.

Definition validateLineage (cell : ParsedCell.t) : list ValidationViolation.t :=
  let lineage := ParsedCell.lineage cell in
  (if blank (CellLineage.source lineage)
   then [violation "lineage.source" "lineage.source is required (Agent ID)"]
   else []) +++
  (if blank (CellLineage.trigger lineage)
   then [violation "lineage.trigger"
           "lineage.trigger is required (Prompt ID, Issue #, or Decision Record)"]
   else []) +++
  (if blank (CellLineage.justification lineage)
   then [violation "lineage.justification"
           "lineage.justification is required (one sentence of structural necessity)"]
   else []) +++
  (if blank (CellLineage.parent_context_hash lineage)
   then [violation "lineage.parent_context_hash"
           "lineage.parent_context_hash is required (Merkle hash of parent context)"]
   else []).

Definition validateLogic (cell : ParsedCell.t) : list ValidationViolation.t :=
  let type := cell.(ParsedCell.identity).(CellIdentity.type) in
  if String.eqb type "Channel" then []
  else
    match ParsedCell.logic cell with
    | None => [violation "logic" "logic section is required"]
    | Some logic =>
        (if blank (CellLogic.lang logic)
         then [violation "logic.lang"
                 ("logic.lang is required (e.g., " ++ quote ++ "typescript" ++ quote ++ ")")]
         else []) +++
        (if String.eqb type "Transformer" then
           if falsy_opt (CellLogic.process logic)
           then [violation "logic.process" "Transformer requires a logic.process method"]
           else []
         else if String.eqb type "Reactor" then
           if falsy_opt (CellLogic.on logic)
           then [violation "logic.on" "Reactor requires a logic.on method"]
           else []
         else if String.eqb type "Keeper" then
           (if falsy_opt (CellLogic.get logic)
            then [violation "logic.get" "Keeper requires a logic.get method"]
            else []) +++
           (if falsy_opt (CellLogic.set logic)
            then [violation "logic.set" "Keeper requires a logic.set method"]
            else [])
         else [])
    end.

Definition validateSignature (cell : ParsedCell.t) : list ValidationViolation.t :=
  if blank (ParsedCell.signature cell)
  then [violation "signature" "signature is required (hex string)"]
  else [].

(** The first loop of [validateComposition], from index [i] on. *)
Fixpoint validateChildRefs (i : nat) (children : list ChildRef.t) : list ValidationViolation.t :=
  match children with
  | [] => []
  | child :: rest =>
      (if blank (ChildRef.ref child)
       then [violation ("children[" ++ Js.nat_toString i ++ "].ref")
               ("Child at index " ++ Js.nat_toString i ++ " is missing ref (file path)")]
       else []) +++
      (if blank (ChildRef.as_ child)
       then [violation ("children[" ++ Js.nat_toString i ++ "].as")
               ("Child at index " ++ Js.nat_toString i ++ " is missing as (local alias)")]
       else []) +++
      validateChildRefs (S i) rest
  end.

(** The violations for one edge of a channel's topology. *)
Definition validateEdge (aliases : list string) (edge : ChannelTopologyEdge.t)
  : list ValidationViolation.t :=
  (if negb (Js_array.includes aliases (ChannelTopologyEdge.from_ edge))
   then [violation "channels[].topology[].from"
           ("Topology " ++ quote ++ "from" ++ quote ++ " alias " ++ quote ++
            ChannelTopologyEdge.from_ edge ++ quote ++ " does not match any child alias")]
   else []) +++
  (if negb (Js_array.includes aliases (ChannelTopologyEdge.to_ edge))
   then [violation "channels[].topology[].to"
           ("Topology " ++ quote ++ "to" ++ quote ++ " alias " ++ quote ++
            ChannelTopologyEdge.to_ edge ++ quote ++ " does not match any child alias")]
   else []).

(** The violations for one channel declaration. *)
Definition validateChannelDeclaration (aliases : list string) (ch : ChannelDeclaration.t)
  : list ValidationViolation.t :=
  (if blank (ChannelDeclaration.name ch)
   then [violation "channels[].name" "Channel declaration requires a name"]
   else if negb (Js_array.includes aliases (ChannelDeclaration.name ch))
   then [violation "channels[].name"
           ("Channel name " ++ quote ++ ChannelDeclaration.name ch ++ quote ++
            " does not match any child alias")]
   else []) +++
  flat_map (validateEdge aliases) (ChannelDeclaration.topology ch).

Definition validateComposition (cell : ParsedCell.t) : list ValidationViolation.t :=
  match ParsedCell.children cell with
  | None | Some [] => []
  | Some children =>
      let aliases := List.filter Js.truthy (map ChildRef.as_ children) in
      let nonChannelChildren :=
        List.filter (fun c => negb (Js.includes (ChildRef.ref c) ".channel.")) children in
      validateChildRefs 0 children +++
      (if Nat.leb 2 (List.length nonChannelChildren) then
         match ParsedCell.channels cell with
         | Some (_ :: _) => []
         | _ => [violation "channels"
                   "Composed cell with 2+ non-channel children must declare at least one channel for inter-cell communication (Principle III)"]
         end
       else []) +++
      (match ParsedCell.channels cell with
       | Some channels => flat_map (validateChannelDeclaration aliases) channels
       | None => []
       end)
  end.

(** [if (contract.key) refs.push(contract.key)] *)
Definition push_ref (contract : CellContract.t) (key : string) : list string :=
  match CellContract.type_reference contract key with
  | Some ref => if Js.truthy ref then [ref] else []
  | None => []
  end.

(** [cell.contract as any] is read without a test: a cell of one of the
    four types without a contract makes the property access throw. *)
Definition collectTypeRefsFromContract (cell : ParsedCell.t) : Completion (list string) :=
  let type := cell.(ParsedCell.identity).(CellIdentity.type) in
  let refs_of keys :=
    match ParsedCell.contract cell with
    | Some contract => Normal (flat_map (push_ref contract) keys)
    | None =>
        Throw (TypeError ("Cannot read properties of undefined (reading '" ++
                          List.hd "" keys ++ "')"))
    end in
  if String.eqb type "Transformer" then refs_of ["input"; "output"]
  else if String.eqb type "Reactor" then refs_of ["listens_to"; "emits"]
  else if String.eqb type "Keeper" then refs_of ["state_schema"]
  else if String.eqb type "Channel" then refs_of ["carries"]
  else Normal [].

(** [knownTypes] is a [Set<string>] that is only asked [has]: it is given
    by its membership test. *)
Definition validateTypeRefs (cell : ParsedCell.t) (knownTypes : option (string -> bool))
  : Completion (list ValidationViolation.t) :=
  match knownTypes with
  | None => Normal []
  | Some has =>
      let* refs := collectTypeRefsFromContract cell in
      Normal (flat_map (fun ref =>
                          if negb (isPrimitive ref) && negb (has ref)
                          then [violation "contract"
                                  ("Type reference " ++ quote ++ ref ++ quote ++
                                   " does not resolve to a built-in primitive or a types/" ++
                                   ref ++ ".schema.json file")]
                          else []) refs)
  end.

(** [s.replace(/\.fc$/, "")] *)
Definition strip_fc (s : string) : string :=
  if Js_split.endsWith s ".fc" then Js.take (String.length s - 3) s else s.

(** [filePath.split("/").pop() ?? filePath.split("\\").pop() ?? ""] *)
Definition fileName_of (filePath : string) : string :=
  match Js_split.pop (Js_split.split "/" filePath) with
  | Some name => name
  | None =>
      match Js_split.pop (Js_split.split "\" filePath) with
      | Some name => name
      | None => ""
      end
  end.

Definition validateFileName (cell : ParsedCell.t) (filePath : string)
  : list ValidationViolation.t :=
  let fileName := fileName_of filePath in
  if negb (Js_split.endsWith fileName ".fc") then []
  else
    let withoutExt := strip_fc fileName in
    let parts := Js_split.split "." withoutExt in
    if Nat.ltb (List.length parts) 2 then
      [violation "filename"
         ("File name " ++ quote ++ fileName ++ quote ++
          " should follow <name>.<cell-type>.fc convention")]
    else
      let fileType := List.last parts "" in
      let expectedType := Js_string.toLowerCase cell.(ParsedCell.identity).(CellIdentity.type) in
      if negb (String.eqb fileType expectedType)
      then [violation "filename"
              ("File name type " ++ quote ++ fileType ++ quote ++
               " does not match declared type " ++ quote ++
               cell.(ParsedCell.identity).(CellIdentity.type) ++ quote)]
      else [].

(** The validators run in the order of the source; the one that can throw
    does so before the result is built. *)
Definition validateCell (cell : ParsedCell.t) (filePath : option string)
    (knownTypes : option (string -> bool)) : Completion ValidationResult.t :=
  let* typeRefs := validateTypeRefs cell knownTypes in
  let violations :=
    validateIdentity cell +++
    validateContract cell +++
    validateCircuitBreaker Number_toString cell +++
    validateLineage cell +++
    validateLogic cell +++
    validateSignature cell +++
    validateComposition cell +++
    typeRefs +++
    (match filePath with
     | Some path => if Js.truthy path then validateFileName cell path else []
     | None => []
     end) in
  Normal {| ValidationResult.valid := Nat.eqb (List.length violations) 0;
            ValidationResult.violations := violations;
            ValidationResult.cell := Some cell |}.

End Validate.
End Validate.

(* ===================================================================== *)
(** * FractalClaw: signer, verify command and directory loader            *)
(* ===================================================================== *)

Module SignatureResult.
(** The object [{ parsed, computed, declared }] of the signer. *)
Record t : Type := make {
  parsed : Parser.ParsedCell.t;
  computed : string;
  declared : string
}.
End SignatureResult.

Module Signer.
Import Parser.
Section Signer.

Context {Schema : Type}.
Variable JSON_stringify : Schema -> string.
Variable Number_toString : Js.number -> string.
(** The object literal [{}]. *)
Variable empty_schema : Schema.
(** The signer's own [resolveTypeSchema]; [typeName] is undefined when
    the contract has no such key.  It throws when the schema file cannot
    be read or does not hold JSON. *)
Variable resolveTypeSchema : option string -> string -> Completion Schema.
Variable readFileSync : string -> Completion string.
Variable yaml_load : string -> Completion (option Yaml.value).

(** [(parsed.contract as C).key]: reading a key of a missing contract
    throws. *)
Definition contract_key (cell : ParsedCell.t) (key : string) : Completion (option string) :=
  match ParsedCell.contract cell with
  | Some c => Normal (CellContract.type_reference c key)
  | None =>
      Throw (TypeError ("Cannot read properties of undefined (reading '" ++ key ++ "')"))
  end.

(** signer.ts, [computeSignature(filePath, projectRoot)] *)
Definition computeSignature (filePath projectRoot : string) : Completion SignatureResult.t :=
  let* content := readFileSync filePath in
  let* parsed := parseFC Number_toString yaml_load content in
  let name := parsed.(ParsedCell.identity).(CellIdentity.name) in
  let type := parsed.(ParsedCell.identity).(CellIdentity.type) in
  let cellType := Js_string.toLowerCase type in
  let version := parsed.(ParsedCell.identity).(CellIdentity.version) in
  let* schemas :=
    if String.eqb type "Transformer" then
      let* i := contract_key parsed "input" in
      let* inputSchema := resolveTypeSchema i projectRoot in
      let* o := contract_key parsed "output" in
      let* outputSchema := resolveTypeSchema o projectRoot in
      Normal (inputSchema, outputSchema)
    else if String.eqb type "Reactor" then
      let* l := contract_key parsed "listens_to" in
      let* inputSchema := resolveTypeSchema l projectRoot in
      let* e := contract_key parsed "emits" in
      let* outputSchema := resolveTypeSchema e projectRoot in
      Normal (inputSchema, outputSchema)
    else if String.eqb type "Keeper" then
      let* s := contract_key parsed "state_schema" in
      let* inputSchema := resolveTypeSchema s projectRoot in
      let* s' := contract_key parsed "state_schema" in
      let* outputSchema := resolveTypeSchema s' projectRoot in
      Normal (inputSchema, outputSchema)
    else Normal (empty_schema, empty_schema) in
  let hashContent :=
    name ++ cellType ++ version ++
    JSON_stringify (fst schemas) ++ JSON_stringify (snd schemas) ++
    parsed.(ParsedCell.lineage).(CellLineage.source) ++
    parsed.(ParsedCell.lineage).(CellLineage.trigger) ++
    parsed.(ParsedCell.lineage).(CellLineage.justification) in
  let computed := Sha256.sha256 hashContent in
  let declared := ParsedCell.signature parsed in
  Normal {| SignatureResult.parsed := parsed;
            SignatureResult.computed := computed;
            SignatureResult.declared := declared |}.

(** sign.ts: the test [isValid] of [signCommand] on a signer result. *)
Definition isValid (result : SignatureResult.t) : bool :=
  let normalizedDeclared :=
    if Js.startsWith (SignatureResult.declared result) "0x"
    then Js.slice_from 2 (SignatureResult.declared result)
    else SignatureResult.declared result in
  String.eqb normalizedDeclared (SignatureResult.computed result).

End Signer.
End Signer.

Module Verify.
Import Parser.

Module CheckResult.
Record t : Type := make {
  name : string;
  passed : bool;
  summary : string;
  details : list string
}.
End CheckResult.

Definition VALID_CELL_TYPES : list string := ["Transformer"; "Reactor"; "Keeper"; "Channel"].

(** [/^\d+\.\d+\.\d+$/.test(s)] *)
Definition SEMVER_RE_test (s : string) : bool :=
  match Js_regex.semver_core s with
  | Some rest => Js.falsy rest
  | None => false
  end.

(** [EXPECTED_SAFE_MODE[type]] for a [type] that passed [isCellType]. *)
Definition EXPECTED_SAFE_MODE (type : string) : string :=
  if String.eqb type "Transformer" then "halt"
  else if String.eqb type "Reactor" then "halt"
  else if String.eqb type "Keeper" then "read_only"
  else "drop_newest".

Definition isCellType (value : string) : bool := Js_array.includes VALID_CELL_TYPES value.

Section Verify.

Context {Schema : Type}.
Variable JSON_stringify : Schema -> string.
Variable Number_toString : Js.number -> string.
Variable empty_schema : Schema.
Variable resolveTypeSchema : option string -> string -> Completion Schema.
Variable readFileSync : string -> Completion string.
Variable yaml_load : string -> Completion (option Yaml.value).
(** [s.toUpperCase()] *)
Variable toUpperCase : string -> string.

Local Infix "+++" := (@app string) (at level 60, right associativity).

Definition formatSigShort (sig : string) : string :=
  let hex := if Js.startsWith sig "0x" then Js.slice_from 2 sig else sig in
  "0x" ++ toUpperCase (Js.slice 0 16 hex) ++ "...".

Definition checkCellType (parsed : ParsedCell.t) : CheckResult.t :=
  let type := parsed.(ParsedCell.identity).(CellIdentity.type) in
  if isCellType type then
    {| CheckResult.name := "Cell type"; CheckResult.passed := true;
       CheckResult.summary := type ++ " (valid)"; CheckResult.details := [] |}
  else
    {| CheckResult.name := "Cell type"; CheckResult.passed := false;
       CheckResult.summary := quote ++ type ++ quote ++ " is not a valid cell type";
       CheckResult.details := ["Expected one of: Transformer, Reactor, Keeper, Channel"] |}.

Definition checkIdentity (parsed : ParsedCell.t) : CheckResult.t :=
  let name := parsed.(ParsedCell.identity).(CellIdentity.name) in
  let version := parsed.(ParsedCell.identity).(CellIdentity.version) in
  let type := parsed.(ParsedCell.identity).(CellIdentity.type) in
  let problems :=
    ((if Js.falsy name then ["name is missing or empty"] else []) +++
     (if Js.falsy version then ["version is missing or empty"]
      else if negb (SEMVER_RE_test version)
      then ["version " ++ quote ++ version ++ quote ++ " is not valid semver (expected X.Y.Z)"]
      else []) +++
     (if Js.falsy type then ["type is missing or empty"] else [])) in
  if Nat.eqb (List.length problems) 0 then
    {| CheckResult.name := "Identity"; CheckResult.passed := true;
       CheckResult.summary := "name, version, type present"; CheckResult.details := [] |}
  else
    {| CheckResult.name := "Identity"; CheckResult.passed := false;
       CheckResult.summary := Js.nat_toString (List.length problems) ++ " field(s) invalid";
       CheckResult.details := problems |}.

(** [typeof budget !== "number"] is false of a parsed budget, which is a
    number. *)
Definition checkCircuitBreaker (parsed : ParsedCell.t) : CheckResult.t :=
  let type := parsed.(ParsedCell.identity).(CellIdentity.type) in
  match ParsedCell.circuit_breaker parsed with
  | None =>
      {| CheckResult.name := "Circuit Breaker"; CheckResult.passed := false;
         CheckResult.summary := "circuit_breaker block missing";
         CheckResult.details := ["No circuit_breaker defined in contract"] |}
  | Some cb =>
      let budget := CircuitBreaker.complexity_budget cb in
      let action := CircuitBreaker.safe_mode_action cb in
      let problems :=
        ((if negb (Js.isInteger budget) || Js.le_zero budget then
            ["complexity_budget " ++ Number_toString budget ++ " must be a positive integer"]
          else if Js.gt budget (Js.of_Z 1000000) then
            ["complexity_budget " ++ Number_toString budget ++ " exceeds maximum of 1,000,000"]
          else []) +++
         (if isCellType type then
            let expected := EXPECTED_SAFE_MODE type in
            if negb (String.eqb action expected) then
              ["safe_mode_action " ++ quote ++ action ++ quote ++
               " does not match expected " ++ quote ++ expected ++ quote ++ " for " ++ type]
            else []
          else [])) in
      if Nat.eqb (List.length problems) 0 then
        {| CheckResult.name := "Circuit Breaker"; CheckResult.passed := true;
           CheckResult.summary := "budget: " ++ Number_toString budget ++ ", action: " ++ action;
           CheckResult.details := [] |}
      else
        {| CheckResult.name := "Circuit Breaker"; CheckResult.passed := false;
           CheckResult.summary := Js.nat_toString (List.length problems) ++ " issue(s)";
           CheckResult.details := problems |}
  end.

Definition checkIntentLedger (parsed : ParsedCell.t) : CheckResult.t :=
  let lineage := ParsedCell.lineage parsed in
  let problems :=
    ((if Js.falsy (CellLineage.source lineage) then ["source is missing or empty"] else []) +++
     (if Js.falsy (CellLineage.trigger lineage) then ["trigger is missing or empty"] else []) +++
     (if Js.falsy (CellLineage.justification lineage)
      then ["justification is missing or empty"] else []) +++
     (if Js.falsy (CellLineage.parent_context_hash lineage)
      then ["parent_context_hash is missing or empty"] else [])) in
  if Nat.eqb (List.length problems) 0 then
    {| CheckResult.name := "Intent Ledger"; CheckResult.passed := true;
       CheckResult.summary := "all 4 fields present and non-empty"; CheckResult.details := [] |}
  else
    {| CheckResult.name := "Intent Ledger"; CheckResult.passed := false;
       CheckResult.summary :=
         Js.nat_toString (List.length problems) ++ " field(s) missing or empty";
       CheckResult.details := problems |}.

Definition checkStructuralSignature (filePath projectRoot : string) : CheckResult.t :=
  match Signer.computeSignature JSON_stringify Number_toString empty_schema
          resolveTypeSchema readFileSync yaml_load filePath projectRoot with
  | Normal result =>
      let declared := SignatureResult.declared result in
      let computed := SignatureResult.computed result in
      let normalizedDeclared :=
        if Js.startsWith declared "0x" then Js.slice_from 2 declared else declared in
      let normalizedComputed := computed in
      if String.eqb normalizedDeclared normalizedComputed then
        {| CheckResult.name := "Structural Signature"; CheckResult.passed := true;
           CheckResult.summary := "declared matches computed"; CheckResult.details := [] |}
      else
        {| CheckResult.name := "Structural Signature"; CheckResult.passed := false;
           CheckResult.summary := "declared does not match computed";
           CheckResult.details :=
             [ "Declared:  " ++ formatSigShort declared;
               "Computed:  " ++ formatSigShort computed;
               "Fix: run `npx fractalclaw sign -w` to update" ] |}
  | Throw err =>
      {| CheckResult.name := "Structural Signature"; CheckResult.passed := false;
         CheckResult.summary := "signature computation failed";
         CheckResult.details := [Exn_message err] |}
  end.

End Verify.
End Verify.

Module LoadResult.
Record t : Type := make {
  skills : list SkillVerdict.t;
  accepted : nat;
  rejected : nat;
  totalViolations : nat
}.
End LoadResult.

Module Skills.
Import Parser.
Section Skills.

Context {Schema KnownTypes : Type}.
Variable JSON_stringify : Schema -> string.
Variable Number_toString : Js.number -> string.
Variable empty_schema : Schema.
Variable resolveTypeSchema : option string -> string -> Completion Schema.
Variable readFileSync : string -> Completion string.
Variable basename : string -> string -> string.
Variable yaml_load : string -> Completion (option Yaml.value).
Variable discoverTypes : string -> KnownTypes.
Variable validateCell : ParsedCell.t -> string -> KnownTypes -> ValidationResult.t.
Variable scanLogicBody : string -> option CellLogic.t -> ScanResult.t.
(** [existsSync], [readdirSync] and [path.join]; [readdirSync] throws on
    a path that is no directory or cannot be read. *)
Variable existsSync : string -> bool.
Variable readdirSync : string -> Completion (list string).
Variable join : string -> string -> string.

(** The loop [for (const file of files) skills.push(loadSingleSkill(...))]:
    the files are loaded in turn, and the first call that throws ends the
    loop and [loadSkills] with it. *)
Fixpoint load_each (files : list string) (projectRoot dir : string)
  : Completion (list SkillVerdict.t) :=
  match files with
  | [] => Normal []
  | file :: rest =>
      let* verdict :=
        FractalClaw.loadSingleSkill JSON_stringify Number_toString empty_schema
          resolveTypeSchema readFileSync basename yaml_load discoverTypes
          validateCell scanLogicBody (join dir file) projectRoot in
      let* verdicts := load_each rest projectRoot dir in
      Normal (verdict :: verdicts)
  end.

(** skill-loader.ts, [loadSkills(dir, projectRoot)] *)
Definition loadSkills (dir projectRoot : string) : Completion LoadResult.t :=
  if negb (existsSync dir) then
    Normal {| LoadResult.skills := []; LoadResult.accepted := 0;
              LoadResult.rejected := 0; LoadResult.totalViolations := 0 |}
  else
    let* entries := readdirSync dir in
    let files := Js.sort (List.filter (fun f => Js_split.endsWith f ".fc") entries) in
    let* skills := load_each files projectRoot dir in
    let accepted := List.length (List.filter SkillVerdict.accepted skills) in
    let rejected := List.length (List.filter (fun s => negb (SkillVerdict.accepted s)) skills) in
    let totalViolations :=
      fold_left (fun sum s => sum + List.length (SkillVerdict.allViolationMessages s))
                skills 0 in
    Normal {| LoadResult.skills := skills; LoadResult.accepted := accepted;
              LoadResult.rejected := rejected; LoadResult.totalViolations := totalViolations |}.

End Skills.
End Skills.

(* ===================================================================== *)
(** * SDK: validation of a contract (sdk/src/contract.ts)                 *)
(* ===================================================================== *)

Module Contract.
Section Contract.

Context {Schema : Type}.
(** [!!schema] for a schema value. *)
Variable Schema_truthy : Schema -> bool.

Local Infix "+++" := (@app string) (at level 60, right associativity).

Definition CELL_TYPES : list string := ["transformer"; "reactor"; "keeper"; "channel"].

(** [!s || s.trim().length === 0] *)
Definition blank (s : string) : bool :=
  Js.falsy s || Nat.eqb (String.length (Js.trim s)) 0.

Definition validateIdentity (id : CellIdentity.t) : list string :=
  (if blank (CellIdentity.name id) then ["identity.name is required"] else []) +++
  (if negb (Js_array.includes CELL_TYPES (CellIdentity.cellType id))
   then ["identity.cellType must be one of: transformer, reactor, keeper, channel"]
   else []) +++
  (if Js.falsy (CellIdentity.version id) ||
      negb (Js_regex.SEMVER_REGEX_test (CellIdentity.version id))
   then ["identity.version must be a semver string"] else []).

Definition validateInput (input : CellInput.t Schema) : list string :=
  (if negb (Schema_truthy (CellInput.schema input)) then ["input.schema is required"] else []) +++
  (if blank (CellInput.description input) then ["input.description is required"] else []).

Definition validateOutput (output : CellOutput.t Schema) : list string :=
  (if negb (Schema_truthy (CellOutput.schema output))
   then ["output.schema is required"] else []) +++
  (if blank (CellOutput.description output) then ["output.description is required"] else []).

Definition validateLineage (lineage : CellLineage.t) : list string :=
  (if blank (CellLineage.source lineage)
   then ["lineage.source is required (Agent ID)"] else []) +++
  (if blank (CellLineage.trigger lineage)
   then ["lineage.trigger is required (Prompt ID, Issue #, or Decision Record)"] else []) +++
  (if blank (CellLineage.justification lineage)
   then ["lineage.justification is required (one sentence of structural necessity)"]
   else []) +++
  (if blank (CellLineage.signature lineage)
   then ["lineage.signature is required (Merkle hash of parent context at creation)"]
   else []).

Definition validateSignature (sig : CellSignature.t) : list string :=
  (if Js.falsy (CellSignature.hash sig) ||
      negb (Validator.SHA256_REGEX_test (CellSignature.hash sig))
   then ["signature.hash must be a 64-char hex string"] else []) +++
  (if Js.falsy (CellSignature.timestamp sig)
   then ["signature.timestamp is required"] else []).

Definition validateContract (cell : UniversalContract.t Schema) : list string :=
  validateIdentity (UniversalContract.identity cell) +++
  validateInput (UniversalContract.input cell) +++
  validateOutput (UniversalContract.output cell) +++
  validateLineage (UniversalContract.lineage cell) +++
  validateSignature (UniversalContract.signature cell).

End Contract.
End Contract.

(* ===================================================================== *)
(** * Validator: discovery of live cells (validator/src/index.ts)         *)
(* ===================================================================== *)

Module LiveCell.
(** A cell instance that implements [UniversalContract], as
    [cellToDiscovered] inspects it: the contract fields, what [health()]
    does when called, the result of [toMap()], and what [getChildren()]
    returns where the class has the method. *)
#[local] Unset Elimination Schemes.
Inductive t (Schema : Type) : Type := make {
  contract : UniversalContract.t Schema;
  health : Completion CellHealth.t;
  toMap : ContextMapEntry.t;
  getChildren : option (list (t Schema))
}.
Arguments make {Schema}.
Arguments contract {Schema}.
Arguments health {Schema}.
Arguments toMap {Schema}.
Arguments getChildren {Schema}.
End LiveCell.

Module Discovery.
Section Discovery.

Context {Schema : Type}.

(** [safeHealth]: the report, or undefined when [health()] throws. *)
Definition safeHealth (cell : LiveCell.t Schema) : option CellHealth.t :=
  match LiveCell.health cell with
  | Normal report => Some report
  | Throw _ => None
  end.

(** [cellToDiscovered] on a cell that implements the contract: the
    fields it defaults are present and both methods exist. *)
Fixpoint cellToDiscovered (cell : LiveCell.t Schema) (filePath : string)
  : DiscoveredCell.t Schema :=
  let c := LiveCell.contract cell in
  {| DiscoveredCell.filePath := filePath;
     DiscoveredCell.identity := UniversalContract.identity c;
     DiscoveredCell.input := UniversalContract.input c;
     DiscoveredCell.output := UniversalContract.output c;
     DiscoveredCell.lineage := UniversalContract.lineage c;
     DiscoveredCell.signature := UniversalContract.signature c;
     DiscoveredCell.contextMap := LiveCell.toMap cell;
     DiscoveredCell.children :=
       match LiveCell.getChildren cell with
       | Some children =>
           map (fun child =>
                  cellToDiscovered child
                    (filePath ++ "#" ++
                     (LiveCell.contract child).(UniversalContract.identity).(CellIdentity.name)))
               children
       | None => []
       end;
     DiscoveredCell.hasHealthMethod := true;
     DiscoveredCell.hasToMapMethod := true;
     DiscoveredCell.healthReport := safeHealth cell |}.

(** A [Reactor] instance as [cellToDiscovered] meets it.  [children] are
    the instances held in [_children] and [child_health] gives their
    [health()] answers by index. *)
Definition of_reactor {TEvent TResponse World : Type}
    (child_health : nat -> CellHealth.t)
    (this : @Reactor.t Schema TEvent TResponse World)
    (children : list (LiveCell.t Schema)) : LiveCell.t Schema :=
  {| LiveCell.contract := Reactor.contract this;
     LiveCell.health := Normal (ReactorCell.health child_health this);
     LiveCell.toMap := ReactorCell.toMap this;
     LiveCell.getChildren := Some children |}.

(** A [Keeper] instance as [cellToDiscovered] meets it, like the reactor
    above. *)
Definition of_keeper {TState : Type}
    (child_health : nat -> CellHealth.t)
    (this : @Keeper.t Schema TState)
    (children : list (LiveCell.t Schema)) : LiveCell.t Schema :=
  {| LiveCell.contract := Keeper.contract this;
     LiveCell.health := Normal (Keeper.health child_health this);
     LiveCell.toMap := Keeper.toMap this;
     LiveCell.getChildren := Some children |}.

End Discovery.
End Discovery.

(* ===================================================================== *)
(** * Trees of discovered cells                                           *)
(* ===================================================================== *)

Module Tree.
Section Tree.

Context {Schema : Type}.
Variable JSON_stringify : Schema -> string.

(** A discovered cell and all the cells below it, parents first. *)
Fixpoint nodes (cell : DiscoveredCell.t Schema) : list (DiscoveredCell.t Schema) :=
  cell :: flat_map nodes (DiscoveredCell.children cell).

(** The cells of a forest. *)
Definition all_nodes (cells : list (DiscoveredCell.t Schema)) : list (DiscoveredCell.t Schema) :=
  flat_map nodes cells.

Fixpoint same_strings (xs ys : list string) : bool :=
  match xs, ys with
  | [], [] => true
  | x :: xs', y :: ys' => String.eqb x y && same_strings xs' ys'
  | _, _ => false
  end.

(** The stored signature of a node is the one the SDK computes for it:
    [verifySignature] accepts it against the signatures of the node's
    children, its child list is the sorted list of their hashes when
    there are children, and it carries a time stamp. *)
Definition signed (node : DiscoveredCell.t Schema) (now : string) : bool :=
  Signature.verifySignature JSON_stringify (DiscoveredCell.contract node)
    (Some (map DiscoveredCell.signature (DiscoveredCell.children node))) now &&
  match DiscoveredCell.children node with
  | [] => true
  | _ :: _ =>
      same_strings
        (Js_array.or_empty node.(DiscoveredCell.signature).(CellSignature.children))
        (Js.sort (map (fun c => c.(DiscoveredCell.signature).(CellSignature.hash))
                      (DiscoveredCell.children node)))
  end &&
  Js.truthy node.(DiscoveredCell.signature).(CellSignature.timestamp).

(** A transformer or reactor node reports a budget the circuit breaker
    check takes: it has a health method and its report, if any, carries a
    [budgetRemaining] that is a number not below zero. *)
Definition breaker_reported (node : DiscoveredCell.t Schema) : bool :=
  DiscoveredCell.hasHealthMethod node &&
  match DiscoveredCell.healthReport node with
  | Some report =>
      match CellHealth.budgetRemaining report with
      | Some v => negb (Validator.not_number_or_negative v)
      | None => false
      end
  | None => true
  end.

End Tree.
End Tree.

(* ===================================================================== *)
(** * Documents without a [toString] key                                  *)
(* ===================================================================== *)

Module Document.

(** No mapping in the value has a key [toString]: the one thing that
    makes [String(v)] throw. *)
Fixpoint plain (v : Yaml.value) : bool :=
  match v with
  | Yaml.Arr items => forallb plain items
  | Yaml.Obj fields =>
      negb (existsb (fun kv : string * Yaml.value => String.eqb (fst kv) "toString") fields) &&
      forallb (fun kv : string * Yaml.value => plain (snd kv)) fields
  | _ => true
  end.

(** A value that may be undefined. *)
Definition plain_opt (v : option Yaml.value) : bool :=
  match v with Some x => plain x | None => true end.

(** The loader's call [validateCell(parsed, filePath, knownTypes)] of the
    parser's validator, the set of known types given by its membership
    test.  The call throws only on a cell without a contract; the result
    then has no meaning and is given as an invalid one. *)
Definition validateCell (Number_toString : Js.number -> string)
    (cell : Parser.ParsedCell.t) (filePath : string) (knownTypes : string -> bool)
  : Parser.ValidationResult.t :=
  match Validate.validateCell Number_toString cell (Some filePath) (Some knownTypes) with
  | Normal result => result
  | Throw _ =>
      {| Parser.ValidationResult.valid := false;
         Parser.ValidationResult.violations := [];
         Parser.ValidationResult.cell := None |}
  end.

(** The call completes normally. *)
Definition returns {A} (c : Completion A) : Prop := exists a, c = Normal a.

End Document.

(* ===================================================================== *)
(** * Vocabulary of the statements                                        *)
(* ===================================================================== *)

Module Spec.
Section Spec.

Context {Schema : Type}.
Variable JSON_stringify : Schema -> string.

(** The signature a cell computes for itself: the private method
    [computeSignature] of every cell class, on the cell's contract and the
    signatures of its children. *)
Definition freshSignature (cell : UniversalContract.t Schema)
    (childSignatures : list CellSignature.t) (now : string) : CellSignature.t :=
  match childSignatures with
  | [] => Signature.computeLeafSignature JSON_stringify cell now
  | _ :: _ => Signature.computeComposedSignature JSON_stringify cell childSignatures now
  end.

(** The signatures of the children of a discovered cell. *)
Definition childSignatures (cell : DiscoveredCell.t Schema) : list CellSignature.t :=
  map DiscoveredCell.signature (DiscoveredCell.children cell).

(** A discovered cell right after its signature was computed and stored. *)
Definition resigned (cell : DiscoveredCell.t Schema) (now : string) : DiscoveredCell.t Schema :=
  DiscoveredCell.set_signature cell
    (freshSignature (DiscoveredCell.contract cell) (childSignatures cell) now).

End Spec.

(** A budget the specification admits: a positive integer of at most one
    million. *)
Definition admissible_budget (x : Js.number) : Prop :=
  match x with
  | Js.Finite q => exists z : Z, (0 < z <= 1000000)%Z /\ (q == inject_Z z)%Q
  | _ => False
  end.

(** A budget that is a positive integer. *)
Definition positive_integer (x : Js.number) : Prop :=
  match x with
  | Js.Finite q => exists z : Z, (0 < z)%Z /\ (q == inject_Z z)%Q
  | _ => False
  end.

(** The safe-mode action each kind of cell must declare. *)
Definition kind_actions : list (string * string) :=
  [("Transformer", "halt"); ("Reactor", "halt");
   ("Keeper", "read_only"); ("Channel", "drop_newest")].

(** A call that does not throw a [ParseError]. *)
Definition no_ParseError {A} (c : Completion A) : Prop :=
  match c with
  | Throw (ParseError _) => False
  | _ => True
  end.

(** The invariant of the leaf and the composed signature: no list of
    child hashes beside no children, and otherwise a list as long as the
    children. *)
Definition signature_shape {Schema : Type} (children : list (UniversalContract.t Schema))
    (sig : CellSignature.t) : Prop :=
  match children with
  | [] => CellSignature.children sig = None
  | _ :: _ =>
      exists hashes,
        CellSignature.children sig = Some hashes /\
        List.length hashes = List.length children
  end.

(** The calls a client can make on a Reactor, and a sequence of them run
    in turn. *)
Inductive ReactorCall (TEvent : Type) : Type :=
| CallOn (event : TEvent)
| CallResetBudget.
Arguments CallOn {TEvent}.
Arguments CallResetBudget {TEvent}.

Fixpoint run_reactor {Schema TEvent TResponse World : Type}
    (r : @Reactor.t Schema TEvent TResponse World)
    (calls : list (ReactorCall TEvent)) (w : World)
  : @Reactor.t Schema TEvent TResponse World * World :=
  match calls with
  | [] => (r, w)
  | CallOn event :: rest =>
      let '(_, r', w') := Reactor.on r event w in run_reactor r' rest w'
  | CallResetBudget :: rest => run_reactor (Reactor.resetBudget r) rest w
  end.

(** The loader returned a verdict, and the verdict accepts the skill. *)
Definition accepted (c : Completion SkillVerdict.t) : bool :=
  match c with
  | Normal verdict => SkillVerdict.accepted verdict
  | Throw _ => false
  end.

(** What is left of an integer budget [z] after [k] calls: a budget that
    is not above zero is never touched, another goes down to zero. *)
Definition remaining_budget (z : Z) (k : nat) : Z :=
  if (z <=? 0)%Z then z else Z.max 0 (z - Z.of_nat k).

(** The handler alone, run on the events of a list in turn. *)
Fixpoint handle_each {TEvent TResponse World : Type}
    (handler : TEvent -> World -> Settled TResponse * World)
    (events : list TEvent) (w : World) : list (Settled TResponse) * World :=
  match events with
  | [] => ([], w)
  | e :: es =>
      let (r, w') := handler e w in
      let (rs, w'') := handle_each handler es w' in
      (r :: rs, w'')
  end.

End Spec.

(** The same vocabulary for the signature on strings of all code units. *)
Module WideSpec.

Local Open Scope list_scope.

Section WideSpec.

Context {Schema : Type}.
Variable JSON_stringify : Schema -> Utf16.t.

(** The signature a cell computes for itself. *)
Definition freshSignature (cell : Wide.UniversalContract.t Schema)
    (childSignatures : list Wide.CellSignature.t) (now : Utf16.t) : Wide.CellSignature.t :=
  match childSignatures with
  | [] => Wide.computeLeafSignature JSON_stringify cell now
  | _ :: _ => Wide.computeComposedSignature JSON_stringify cell childSignatures now
  end.

(** The string that the signature computation hashes. *)
Definition hashedContent (cell : Wide.UniversalContract.t Schema)
    (childSignatures : list Wide.CellSignature.t) : Utf16.t :=
  match childSignatures with
  | [] => Wide.cellContent JSON_stringify cell
  | _ :: _ =>
      Wide.cellContent JSON_stringify cell ++
      Utf16.join (Utf16.sort (map Wide.CellSignature.hash childSignatures))
  end.

End WideSpec.

(** Two lineage records that differ in exactly one of the three fields
    that are hashed, and in nothing else. *)
Definition one_provenance_field_changed (old new : Wide.CellLineage.t) : Prop :=
  Wide.CellLineage.signature new = Wide.CellLineage.signature old /\
  ((Wide.CellLineage.source new <> Wide.CellLineage.source old /\
    Wide.CellLineage.trigger new = Wide.CellLineage.trigger old /\
    Wide.CellLineage.justification new = Wide.CellLineage.justification old) \/
   (Wide.CellLineage.source new = Wide.CellLineage.source old /\
    Wide.CellLineage.trigger new <> Wide.CellLineage.trigger old /\
    Wide.CellLineage.justification new = Wide.CellLineage.justification old) \/
   (Wide.CellLineage.source new = Wide.CellLineage.source old /\
    Wide.CellLineage.trigger new = Wide.CellLineage.trigger old /\
    Wide.CellLineage.justification new <> Wide.CellLineage.justification old)).


End WideSpec.

(* ===================================================================== *)
(** * Sample cells                                                        *)
(* ===================================================================== *)

(** Concrete cells on which the statements below are evaluated.  A schema
    is given by its JSON text, so that [JSON.stringify] is the identity. *)
Module Sample.

Definition JSON_stringify (schema : string) : string := schema.

Definition string_schema : string := "{" ++ quote ++ "type" ++ quote ++ ":" ++
                                     quote ++ "string" ++ quote ++ "}".

Definition lineage : CellLineage.t :=
  {| CellLineage.source := "Human-Angelo";
     CellLineage.trigger := "Issue-12";
     CellLineage.justification := "Greets the caller by name.";
     CellLineage.signature := "0xabc" |}.

Definition now : string := "2026-01-01T00:00:00.000Z".

(** A reactor that doubles the number it is sent and logs it. *)
Definition doubling (budget : option Js.number)
    (children : option (list (UniversalContract.t string)))
  : ReactorConfig.t string nat nat (list nat) :=
  {| ReactorConfig.name := "doubler";
     ReactorConfig.version := "1.0.0";
     ReactorConfig.input := {| CellInput.schema := string_schema;
                               CellInput.description := "a number" |};
     ReactorConfig.output := {| CellOutput.schema := string_schema;
                                CellOutput.description := "its double" |};
     ReactorConfig.lineage := lineage;
     ReactorConfig.parent := None;
     ReactorConfig.on := fun (e : nat) (log : list nat) => (Resolved (2 * e)%nat, e :: log);
     ReactorConfig.listensTo := ["number"];
     ReactorConfig.children := children;
     ReactorConfig.complexityBudget := budget |}.

(** The handler of [doubling] on its own. *)
Definition double (e : nat) (log : list nat) : Settled nat * list nat :=
  (Resolved (2 * e)%nat, e :: log).

(** A printer of numbers for the samples: as JavaScript prints them on
    NaN, the infinities and the integers below 1e21; a fraction, which no
    sample prints, is shown as a quotient. *)
Definition Number_toString (x : Js.number) : string :=
  match x with
  | Js.NaN => "NaN"
  | Js.PosInfinity => "Infinity"
  | Js.NegInfinity => "-Infinity"
  | Js.Finite q =>
      let r := Qred q in
      if Pos.eqb (Qden r) 1 then NilZero.string_of_int (Z.to_int (Qnum r))
      else NilZero.string_of_int (Z.to_int (Qnum r)) ++ "/" ++
           NilZero.string_of_uint (Pos.to_uint (Qden r))
  end.

(** A parsed Transformer skill with a given circuit breaker and declared
    signature. *)
Definition skill (type : string) (breaker : option Parser.CircuitBreaker.t)
    (signature : string) : Parser.ParsedCell.t :=
  {| Parser.ParsedCell.identity :=
       {| Parser.CellIdentity.name := "weather-lookup";
          Parser.CellIdentity.version := "1.0.0";
          Parser.CellIdentity.type := type |};
     Parser.ParsedCell.contract :=
       Some (Parser.CellContract.TransformerContract "string" "string" breaker);
     Parser.ParsedCell.lineage :=
       {| Parser.CellLineage.source := "Human-Angelo";
          Parser.CellLineage.trigger := "Issue-12";
          Parser.CellLineage.justification := "Looks up the weather.";
          Parser.CellLineage.parent_context_hash := "0xabc" |};
     Parser.ParsedCell.logic := None;
     Parser.ParsedCell.signature := signature;
     Parser.ParsedCell.children := None;
     Parser.ParsedCell.channels := None;
     Parser.ParsedCell.connects := None |}.

Definition breaker (budget : Js.number) (action : string) : option Parser.CircuitBreaker.t :=
  Some {| Parser.CircuitBreaker.complexity_budget := budget;
          Parser.CircuitBreaker.safe_mode_action := action |}.

(** The same skill as a Transformer complete with its logic section, so
    that only the budget is in question. *)
Definition complete_skill (budget : Js.number) : Parser.ParsedCell.t :=
  {| Parser.ParsedCell.identity :=
       {| Parser.CellIdentity.name := "weather-lookup";
          Parser.CellIdentity.version := "1.0.0";
          Parser.CellIdentity.type := "Transformer" |};
     Parser.ParsedCell.contract :=
       Some (Parser.CellContract.TransformerContract "string" "string"
               (breaker budget "halt"));
     Parser.ParsedCell.lineage :=
       {| Parser.CellLineage.source := "Human-Angelo";
          Parser.CellLineage.trigger := "Issue-12";
          Parser.CellLineage.justification := "Looks up the weather.";
          Parser.CellLineage.parent_context_hash := "0xabc" |};
     Parser.ParsedCell.logic :=
       Some {| Parser.CellLogic.lang := "typescript";
               Parser.CellLogic.process := Some "return input;";
               Parser.CellLogic.on := None;
               Parser.CellLogic.get := None;
               Parser.CellLogic.set := None;
               Parser.CellLogic.delete := None |};
     Parser.ParsedCell.signature := "0xdef";
     Parser.ParsedCell.children := None;
     Parser.ParsedCell.channels := None;
     Parser.ParsedCell.connects := None |}.

(** A discovered cell as [cellToDiscovered] builds it from a live cell:
    freshly signed, its context map listing its children and channels. *)
Definition discovered (name cellType : string) (kids : list (DiscoveredCell.t string))
    (health : option CellHealth.t) : DiscoveredCell.t string :=
  let identity := {| CellIdentity.name := name; CellIdentity.cellType := cellType;
                     CellIdentity.version := "1.0.0" |} in
  let input := {| CellInput.schema := string_schema; CellInput.description := "input" |} in
  let output := {| CellOutput.schema := string_schema; CellOutput.description := "output" |} in
  let placeholder := {| CellSignature.hash := ""; CellSignature.children := None;
                        CellSignature.timestamp := now |} in
  let sig := Spec.freshSignature JSON_stringify
               (UniversalContract.make identity input output lineage placeholder)
               (map DiscoveredCell.signature kids) now in
  {| DiscoveredCell.filePath := "dist/" ++ name ++ "." ++ cellType ++ ".js";
     DiscoveredCell.identity := identity;
     DiscoveredCell.input := input;
     DiscoveredCell.output := output;
     DiscoveredCell.lineage := lineage;
     DiscoveredCell.signature := sig;
     DiscoveredCell.contextMap :=
       {| ContextMapEntry.identity := identity;
          ContextMapEntry.parent := None;
          ContextMapEntry.children :=
            Some (map (fun c => c.(DiscoveredCell.identity).(CellIdentity.name)) kids);
          ContextMapEntry.channels :=
            Some (map (fun c => c.(DiscoveredCell.identity).(CellIdentity.name))
                      (List.filter (fun c => String.eqb
                                      c.(DiscoveredCell.identity).(CellIdentity.cellType)
                                      "channel") kids));
          ContextMapEntry.signature := CellSignature.hash sig |};
     DiscoveredCell.children := kids;
     DiscoveredCell.hasHealthMethod := true;
     DiscoveredCell.hasToMapMethod := true;
     DiscoveredCell.healthReport := health |}.

Definition healthy (budget : option Js.prim) : option CellHealth.t :=
  Some {| CellHealth.status := "healthy"; CellHealth.message := None;
          CellHealth.budgetRemaining := budget; CellHealth.children := None |}.

Definition budget_of (z : Z) : option Js.prim := Some (Js.PNumber (Js.of_Z z)).

Definition parser_cell : DiscoveredCell.t string :=
  discovered "parser" "transformer" [] (healthy (budget_of 100)).
Definition enricher_cell : DiscoveredCell.t string :=
  discovered "enricher" "transformer" [] (healthy (budget_of 100)).
Definition pipe_cell : DiscoveredCell.t string :=
  discovered "pipe" "channel" [] (healthy None).

(** Two transformer siblings, without and with a channel between them. *)
Definition unmediated : DiscoveredCell.t string :=
  discovered "pipeline" "reactor" [parser_cell; enricher_cell] (healthy (budget_of 100)).
Definition mediated : DiscoveredCell.t string :=
  discovered "pipeline" "reactor" [parser_cell; pipe_cell; enricher_cell]
             (healthy (budget_of 100)).

(** The greeter of the hello-fractal example, seen through its contract,
    and the same cell with another source in its lineage. *)
Definition greeter : UniversalContract.t string :=
  {| UniversalContract.identity :=
       {| CellIdentity.name := "greeter"; CellIdentity.cellType := "transformer";
          CellIdentity.version := "1.0.0" |};
     UniversalContract.input :=
       {| CellInput.schema := string_schema; CellInput.description := "a name" |};
     UniversalContract.output :=
       {| CellOutput.schema := string_schema; CellOutput.description := "a greeting" |};
     UniversalContract.lineage := lineage;
     UniversalContract.signature :=
       {| CellSignature.hash := ""; CellSignature.children := None;
          CellSignature.timestamp := now |} |}.

Definition with_source (source : string) : CellLineage.t :=
  {| CellLineage.source := source;
     CellLineage.trigger := CellLineage.trigger lineage;
     CellLineage.justification := CellLineage.justification lineage;
     CellLineage.signature := CellLineage.signature lineage |}.

(** A string of [n] letters. *)
Fixpoint letters (n : nat) : string :=
  match n with
  | O => EmptyString
  | S m => String "a" (letters m)
  end.

(** [JSON.stringify] of the samples, on strings of all code units. *)
Definition wide_JSON_stringify (schema : string) : Utf16.t :=
  Utf16.of_string (JSON_stringify schema).

(** The greeter in full strings, and the same cell with another source
    in its lineage. *)
Definition wide_greeter : Wide.UniversalContract.t string := Widen.contract greeter.

Definition wide_with_source (source : Utf16.t) : Wide.CellLineage.t :=
  {| Wide.CellLineage.source := source;
     Wide.CellLineage.trigger := Wide.CellLineage.trigger (Widen.lineage lineage);
     Wide.CellLineage.justification :=
       Wide.CellLineage.justification (Widen.lineage lineage);
     Wide.CellLineage.signature := Wide.CellLineage.signature (Widen.lineage lineage) |}.


(** The collaborators of the skill loader in a project without a
    [types/] directory: every type reference resolves to the schema of a
    built-in primitive, the structural validation is the circuit-breaker
    part of the parser's, and the scanner is the scanner on a skill
    without logic bodies, which passes. *)
Definition resolveTypeSchema (typeName : option string) (projectRoot : string)
  : Completion string :=
  Normal match typeName with
         | Some t => "{" ++ quote ++ "type" ++ quote ++ ":" ++ quote ++ t ++ quote ++ "}"
         | None => "{}"
         end.

Definition discoverTypes (projectRoot : string) : list string := [].

Definition validateCell (cell : Parser.ParsedCell.t) (filePath : string)
    (knownTypes : list string) : Parser.ValidationResult.t :=
  let violations := Parser.validateCircuitBreaker Number_toString cell in
  {| Parser.ValidationResult.valid := Nat.eqb (List.length violations) 0;
     Parser.ValidationResult.violations := violations;
     Parser.ValidationResult.cell := Some cell |}.

Definition scanLogicBody (cellName : string) (logic : option Parser.CellLogic.t)
  : ScanResult.t :=
  {| ScanResult.cellName := cellName; ScanResult.passed := true;
     ScanResult.violations := [] |}.

Definition load (parsed : Parser.ParsedCell.t) : Completion SkillVerdict.t :=
  FractalClaw.loadParsedSkill JSON_stringify Number_toString "{}" resolveTypeSchema
    discoverTypes validateCell scanLogicBody parsed
    "skills/weather-lookup.transformer.fc" ".".

(** The signature the loader computes for the sample skill. *)
Definition computed_signature : string :=
  match FractalClaw.computeExpectedSignature JSON_stringify "{}" resolveTypeSchema
          (skill "Transformer" (breaker (Js.of_Z 1000) "halt") "") "." with
  | Normal sig => sig
  | Throw _ => ""
  end.

(** A project whose schema files do not hold JSON: every lookup throws
    what [JSON.parse] throws. *)
Definition corrupt_schema (typeName : option string) (projectRoot : string)
  : Completion string :=
  Throw (SyntaxError "Unexpected end of JSON input").

End Sample.

(* ===================================================================== *)
(** * Properties                                                          *)
(* ===================================================================== *)

#[global] Arguments Sha256.sha256 : simpl never.
#[global] Arguments Signature.sha256 : simpl never.
#[global] Arguments Js.sort : simpl never.

(** ** The code-unit order and [sort] *)

Lemma string_compare_le_trans (a b c : string) :
  String.compare a b <> Gt -> String.compare b c <> Gt -> String.compare a c <> Gt.
Proof.
  revert b c. induction a as [|x a IH]; intros [|y b] [|z c]; simpl; try congruence.
  unfold Ascii.compare.
  destruct (N.compare_spec (N_of_ascii x) (N_of_ascii y)) as [Hxy|Hxy|Hxy];
    destruct (N.compare_spec (N_of_ascii y) (N_of_ascii z)) as [Hyz|Hyz|Hyz];
    destruct (N.compare_spec (N_of_ascii x) (N_of_ascii z)) as [Hxz|Hxz|Hxz];
    try congruence; try lia; try apply IH.
Qed.

#[global] Instance string_le_trans : Transitive Js.string_le.
Proof.
  intros a b c. unfold Js.string_le, String.leb. intros Hab Hbc.
  pose proof (string_compare_le_trans a b c) as H.
  destruct (String.compare a b), (String.compare b c), (String.compare a c);
    try reflexivity; try discriminate; exfalso; apply H; congruence.
Qed.

#[global] Instance string_le_total : Total Js.string_le.
Proof. intros a b. apply String.leb_total. Qed.

#[global] Instance string_le_antisym : AntiSymm (=) Js.string_le.
Proof. intros a b. apply String.leb_antisym. Qed.

Lemma sort_permutation (xs : list string) : Permutation (Js.sort xs) xs.
Proof. apply merge_sort_Permutation. Qed.

Lemma sort_sorted (xs : list string) : StronglySorted Js.string_le (Js.sort xs).
Proof. apply StronglySorted_merge_sort; apply _. Qed.

Lemma sort_order_invariant (xs ys : list string) :
  Permutation xs ys -> Js.sort xs = Js.sort ys.
Proof.
  intros H. apply (StronglySorted_unique Js.string_le); try apply sort_sorted.
  rewrite !sort_permutation. exact H.
Qed.

Lemma sort_length (xs : list string) : List.length (Js.sort xs) = List.length xs.
Proof. apply Permutation_length, sort_permutation. Qed.

(** ** SHA-256 digests are well-formed *)

Lemma hex_digit_is_lower_hex (n : N) : Validator.is_lower_hex (Sha256.hex_digit n) = true.
Proof.
  destruct n as [|p]; [reflexivity|].
  do 5 (try destruct p as [p|p|]; try reflexivity).
Qed.

Lemma hex_well_formed (s : Sha256.state) : Validator.SHA256_REGEX_test (Sha256.hex s) = true.
Proof.
  unfold Validator.SHA256_REGEX_test, Sha256.hex, Sha256.hex32, Sha256.nibble.
  cbn [String.length list_ascii_of_string forallb Nat.eqb andb].
  rewrite !hex_digit_is_lower_hex. reflexivity.
Qed.

Lemma sha256_well_formed (data : string) :
  Validator.SHA256_REGEX_test (Sha256.sha256 data) = true.
Proof. apply hex_well_formed. Qed.

Lemma sha256_length (data : string) : String.length (Sha256.sha256 data) = 64.
Proof. reflexivity. Qed.

Lemma sha256_truthy (data : string) : Js.falsy (Sha256.sha256 data) = false.
Proof. reflexivity. Qed.

(** ** Signatures: round trip, order and shape *)

Lemma first_mismatch_same (i : nat) (xs : list string) :
  Validator.first_mismatch i xs xs = None.
Proof.
  revert i. induction xs as [|x xs IH]; intros i; simpl; [reflexivity|].
  rewrite String.eqb_refl. apply IH.
Qed.

Lemma recomputeHash_ignores_signature {Schema} (JSON_stringify : Schema -> string)
    (cell : DiscoveredCell.t Schema) (sig : CellSignature.t) :
  Validator.recomputeHash JSON_stringify (DiscoveredCell.set_signature cell sig) =
  Validator.recomputeHash JSON_stringify cell.
Proof. reflexivity. Qed.

Lemma recomputeHash_fresh {Schema} (JSON_stringify : Schema -> string)
    (cell : DiscoveredCell.t Schema) (now : string) :
  Validator.recomputeHash JSON_stringify cell =
  CellSignature.hash
    (Spec.freshSignature JSON_stringify (DiscoveredCell.contract cell)
                         (Spec.childSignatures cell) now).
Proof.
  unfold Validator.recomputeHash, Spec.freshSignature, Spec.childSignatures.
  destruct (DiscoveredCell.children cell) as [|c cs]; [reflexivity|].
  cbn [map]. unfold Signature.computeComposedSignature, Signature.sha256,
    Signature.cellContent. cbn [CellSignature.hash map].
  rewrite !map_map. reflexivity.
Qed.

Lemma cellContent_ignores_signature {Schema} (JSON_stringify : Schema -> string)
    (cell : UniversalContract.t Schema) (sig : CellSignature.t) :
  Signature.cellContent JSON_stringify (UniversalContract.set_signature cell sig) =
  Signature.cellContent JSON_stringify cell.
Proof. reflexivity. Qed.

Lemma signatureCheck_cell_unfold {Schema} (JSON_stringify : Schema -> string)
    (cell : DiscoveredCell.t Schema) :
  Validator.signatureCheck_cell JSON_stringify cell =
  let ctx msg :=
    {| Violation.cell := Validator.cell_name cell;
       Violation.file := DiscoveredCell.filePath cell;
       Violation.message := msg; Violation.principle := "X" |} in
  let hash := cell.(DiscoveredCell.signature).(CellSignature.hash) in
  if Js.falsy hash || negb (Validator.SHA256_REGEX_test hash) then
    [ctx ("Invalid signature hash format: " ++ quote ++ Js.slice 0 20 hash ++ "..." ++ quote)]
  else
    let expected := Validator.recomputeHash JSON_stringify cell in
    app (if negb (String.eqb hash expected)
      then [ctx ("Signature mismatch: stored " ++ Js.slice 0 16 hash ++
                 "... != computed " ++ Js.slice 0 16 expected ++ "...")]
      else [])
   (app
     (match DiscoveredCell.children cell with
      | [] => []
      | _ :: _ =>
          let sortedChildHashes :=
            Js.sort (map (fun c : DiscoveredCell.t Schema =>
                            c.(DiscoveredCell.signature).(CellSignature.hash))
                         (DiscoveredCell.children cell)) in
          let sigChildren :=
            Js_array.or_empty cell.(DiscoveredCell.signature).(CellSignature.children) in
          if negb (Nat.eqb (List.length sigChildren) (List.length sortedChildHashes)) then
            [ctx ("Signature children count mismatch: " ++
                  Js.nat_toString (List.length sigChildren) ++ " in signature vs " ++
                  Js.nat_toString (List.length sortedChildHashes) ++ " actual")]
          else
            match Validator.first_mismatch 0 sigChildren sortedChildHashes with
            | Some i => [ctx ("Signature children hash mismatch at index " ++
                              Js.nat_toString i)]
            | None => []
            end
      end)
   (app
     (if Js.falsy cell.(DiscoveredCell.signature).(CellSignature.timestamp)
      then [ctx "Missing signature.timestamp"]
      else [])
     (match DiscoveredCell.children cell with
      | [] => []
      | _ :: _ => flat_map (Validator.signatureCheck_cell JSON_stringify)
                           (DiscoveredCell.children cell)
      end))).
Proof. destruct cell; reflexivity. Qed.

Lemma freshSignature_truthy {Schema} (JSON_stringify : Schema -> string)
    (cell : UniversalContract.t Schema) (sigs : list CellSignature.t) (now : string) :
  Js.falsy (CellSignature.hash (Spec.freshSignature JSON_stringify cell sigs now)) = false.
Proof. destruct sigs; reflexivity. Qed.

Lemma freshSignature_well_formed {Schema} (JSON_stringify : Schema -> string)
    (cell : UniversalContract.t Schema) (sigs : list CellSignature.t) (now : string) :
  Validator.SHA256_REGEX_test
    (CellSignature.hash (Spec.freshSignature JSON_stringify cell sigs now)) = true.
Proof. destruct sigs; apply sha256_well_formed. Qed.

Lemma freshSignature_timestamp {Schema} (JSON_stringify : Schema -> string)
    (cell : UniversalContract.t Schema) (sigs : list CellSignature.t) (now : string) :
  CellSignature.timestamp (Spec.freshSignature JSON_stringify cell sigs now) = now.
Proof. destruct sigs; reflexivity. Qed.

(** C1. Round trip: a cell whose signature was just computed from its
    content (the leaf computation without children, the composed one over
    the children's signatures otherwise) and stored passes
    [verifySignature] with the same child signatures; and on a discovered
    cell in that state [signatureCheck] recomputes the stored hash and
    reports nothing for the cell itself but a missing time stamp, should
    the clock have given an empty one, before the reports of its
    children. *)
Theorem signature_round_trip {Schema : Type} (JSON_stringify : Schema -> string) :
  (forall (cell : UniversalContract.t Schema) (childSignatures : list CellSignature.t)
          (now later : string),
      Signature.verifySignature JSON_stringify
        (UniversalContract.set_signature cell
           (Spec.freshSignature JSON_stringify cell childSignatures now))
        (Some childSignatures) later = true) /\
  (forall (cell : UniversalContract.t Schema) (now later : string),
      Signature.verifySignature JSON_stringify
        (UniversalContract.set_signature cell
           (Signature.computeLeafSignature JSON_stringify cell now))
        None later = true) /\
  (forall (cell : DiscoveredCell.t Schema) (now : string),
      let stored := Spec.resigned JSON_stringify cell now in
      Validator.recomputeHash JSON_stringify stored =
        stored.(DiscoveredCell.signature).(CellSignature.hash) /\
      CheckResult.violations (Validator.signatureCheck JSON_stringify [stored]) =
        ((if Js.falsy now
          then [{| Violation.cell := Validator.cell_name cell;
                   Violation.file := DiscoveredCell.filePath cell;
                   Violation.message := "Missing signature.timestamp";
                   Violation.principle := "X" |}]
          else []) ++
         CheckResult.violations
           (Validator.signatureCheck JSON_stringify (DiscoveredCell.children cell)))%list).
Proof.
  split; [|split].
  - intros cell sigs now later. unfold Signature.verifySignature, Spec.freshSignature.
    destruct sigs as [|s sigs];
      unfold Signature.computeLeafSignature, Signature.computeComposedSignature;
      cbn [CellSignature.hash UniversalContract.signature UniversalContract.set_signature];
      rewrite cellContent_ignores_signature; apply String.eqb_refl.
  - intros cell now later.
    unfold Signature.verifySignature, Signature.computeLeafSignature.
    cbn [CellSignature.hash UniversalContract.signature UniversalContract.set_signature].
    rewrite cellContent_ignores_signature. apply String.eqb_refl.
  - intros cell now stored.
    assert (Hhash : Validator.recomputeHash JSON_stringify stored =
                    stored.(DiscoveredCell.signature).(CellSignature.hash)).
    { unfold stored, Spec.resigned. rewrite recomputeHash_ignores_signature.
      apply recomputeHash_fresh. }
    split; [exact Hhash|].
    unfold Validator.signatureCheck. cbn [CheckResult.violations flat_map].
    rewrite app_nil_r, signatureCheck_cell_unfold. cbv zeta.
    rewrite Hhash, String.eqb_refl.
    unfold stored, Spec.resigned in *.
    cbn [DiscoveredCell.signature DiscoveredCell.children DiscoveredCell.filePath
         DiscoveredCell.identity DiscoveredCell.set_signature Validator.cell_name] in *.
    rewrite freshSignature_truthy, freshSignature_well_formed, freshSignature_timestamp.
    change (Validator.cell_name (DiscoveredCell.set_signature cell ?s))
      with (Validator.cell_name cell).
    cbn [negb orb app].
    unfold Spec.freshSignature, Spec.childSignatures.
    destruct (DiscoveredCell.children cell) as [|k ks] eqn:Hk.
    + cbn [app flat_map]. rewrite app_nil_r. reflexivity.
    + cbn [map Signature.computeComposedSignature CellSignature.children Js_array.or_empty].
      rewrite map_map, Nat.eqb_refl. cbn [negb]. rewrite first_mismatch_same.
      cbn [app]. reflexivity.
Qed.

(** A reactor leaves its constructor with a signature that verifies
    against the signatures of its children. *)
Lemma reactor_constructor_verifies {Schema TEvent TResponse World : Type}
    (JSON_stringify : Schema -> string)
    (config : ReactorConfig.t Schema TEvent TResponse World) (now later : string) :
  let reactor := Reactor.constructor JSON_stringify config now in
  Signature.verifySignature JSON_stringify (Reactor.contract reactor)
    (Some (map UniversalContract.signature (Reactor.getChildren reactor))) later = true.
Proof.
  intros reactor. unfold reactor, Reactor.constructor, Reactor.getChildren.
  cbn [Reactor.with_signature Reactor._children Reactor.contract Reactor.identity
       Reactor.input Reactor.output Reactor.lineage Reactor.signature].
  unfold Reactor.computeSignature, Signature.verifySignature.
  cbn [Reactor._children Reactor.contract Reactor.identity Reactor.input Reactor.output
       Reactor.lineage Reactor.signature UniversalContract.signature].
  destruct (match ReactorConfig.children config with Some cs => cs | None => [] end)
    as [|c cs]; cbn [map]; apply String.eqb_refl.
Qed.

(** The sample pipeline passes the signature check; the same pipeline
    with its justification rewritten after signing does not. *)
Example signed_pipeline_passes :
  Validator.signatureCheck Sample.JSON_stringify [Sample.mediated] =
    {| CheckResult.checkName := "Signature Check";
       CheckResult.passed := true;
       CheckResult.violations := [] |}.
Proof. vm_compute. reflexivity. Qed.

Example tampered_pipeline_fails :
  let tampered :=
    DiscoveredCell.make
      (DiscoveredCell.filePath Sample.unmediated) (DiscoveredCell.identity Sample.unmediated)
      (DiscoveredCell.input Sample.unmediated) (DiscoveredCell.output Sample.unmediated)
      (Sample.with_source "Mallory")
      (DiscoveredCell.signature Sample.unmediated) (DiscoveredCell.contextMap Sample.unmediated)
      (DiscoveredCell.children Sample.unmediated) true true None in
  map (fun v => Js.slice 0 18 (Violation.message v))
      (CheckResult.violations (Validator.signatureCheck Sample.JSON_stringify [tampered]))
  = ["Signature mismatch"].
Proof. vm_compute. reflexivity. Qed.

Lemma recomputeHash_children_order {Schema} (JSON_stringify : Schema -> string)
    (cell : DiscoveredCell.t Schema) (reordered : list (DiscoveredCell.t Schema)) :
  Permutation (DiscoveredCell.children cell) reordered ->
  Validator.recomputeHash JSON_stringify (DiscoveredCell.set_children cell reordered) =
  Validator.recomputeHash JSON_stringify cell.
Proof.
  intros Hperm. unfold Validator.recomputeHash.
  cbn [DiscoveredCell.set_children DiscoveredCell.children DiscoveredCell.identity
       DiscoveredCell.input DiscoveredCell.output DiscoveredCell.lineage].
  destruct (DiscoveredCell.children cell) as [|k ks] eqn:Hk.
  - apply Permutation_nil in Hperm. subst reordered. reflexivity.
  - destruct reordered as [|r rs].
    + symmetry in Hperm. apply Permutation_nil in Hperm. discriminate.
    + rewrite (sort_order_invariant _ _
        (Permutation_map (fun c : DiscoveredCell.t Schema =>
                            c.(DiscoveredCell.signature).(CellSignature.hash)) Hperm)).
      reflexivity.
Qed.

(** C2. Order invariance: for a cell and a permutation of its list of
    child signatures, [computeComposedSignature] yields the same hash and
    the same sorted list of child hashes; and a discovered cell whose
    children are reordered is given the same hash by [recomputeHash]. *)
Theorem composed_signature_order_invariant {Schema : Type}
    (JSON_stringify : Schema -> string)
    (cell : UniversalContract.t Schema) (childSignatures reordered : list CellSignature.t)
    (now : string)
    (discovered : DiscoveredCell.t Schema) (moved : list (DiscoveredCell.t Schema)) :
  Permutation childSignatures reordered ->
  Permutation (DiscoveredCell.children discovered) moved ->
  let before := Signature.computeComposedSignature JSON_stringify cell childSignatures now in
  let after := Signature.computeComposedSignature JSON_stringify cell reordered now in
  CellSignature.hash after = CellSignature.hash before /\
  CellSignature.children after = CellSignature.children before /\
  CellSignature.children after = Some (Js.sort (map CellSignature.hash childSignatures)) /\
  Validator.recomputeHash JSON_stringify (DiscoveredCell.set_children discovered moved) =
  Validator.recomputeHash JSON_stringify discovered.
Proof.
  intros Hperm Hmoved before after.
  assert (Hsort : Js.sort (map CellSignature.hash reordered) =
                  Js.sort (map CellSignature.hash childSignatures)).
  { apply sort_order_invariant, Permutation_map. symmetry. exact Hperm. }
  unfold before, after, Signature.computeComposedSignature.
  cbn [CellSignature.hash CellSignature.children]. rewrite Hsort.
  repeat split. apply recomputeHash_children_order, Hmoved.
Qed.

(** Two child signatures swapped, and the first two children of the
    mediated pipeline swapped. *)
Lemma order_invariance_witness :
  let a := CellSignature.make "aa" None Sample.now in
  let b := CellSignature.make "bb" None Sample.now in
  let before := Signature.computeComposedSignature Sample.JSON_stringify Sample.greeter
                  [a; b] Sample.now in
  let after := Signature.computeComposedSignature Sample.JSON_stringify Sample.greeter
                 [b; a] Sample.now in
  CellSignature.hash after = CellSignature.hash before /\
  CellSignature.children after = CellSignature.children before /\
  CellSignature.children after = Some (Js.sort (map CellSignature.hash [a; b])) /\
  Validator.recomputeHash Sample.JSON_stringify
    (DiscoveredCell.set_children Sample.mediated
       [Sample.pipe_cell; Sample.parser_cell; Sample.enricher_cell]) =
  Validator.recomputeHash Sample.JSON_stringify Sample.mediated.
Proof.
  apply (composed_signature_order_invariant Sample.JSON_stringify Sample.greeter
           [CellSignature.make "aa" None Sample.now; CellSignature.make "bb" None Sample.now]
           [CellSignature.make "bb" None Sample.now; CellSignature.make "aa" None Sample.now]
           Sample.now Sample.mediated
           [Sample.pipe_cell; Sample.parser_cell; Sample.enricher_cell]).
  - apply perm_swap.
  - change (Permutation [Sample.parser_cell; Sample.pipe_cell; Sample.enricher_cell]
                        [Sample.pipe_cell; Sample.parser_cell; Sample.enricher_cell]).
    apply perm_swap.
Defined.

Example sorted_child_hashes :
  CellSignature.children
    (Signature.computeComposedSignature Sample.JSON_stringify Sample.greeter
       [CellSignature.make "bb" None Sample.now; CellSignature.make "aa" None Sample.now;
        CellSignature.make "ab" None Sample.now] Sample.now)
  = Some ["aa"; "ab"; "bb"].
Proof. vm_compute. reflexivity. Qed.

(** No call on a Reactor touches its signature or its children. *)
Lemma run_reactor_keeps_signature {Schema TEvent TResponse World : Type}
    (calls : list (Spec.ReactorCall TEvent)) :
  forall (r : @Reactor.t Schema TEvent TResponse World) (w : World),
    Reactor.signature (fst (Spec.run_reactor r calls w)) = Reactor.signature r /\
    Reactor.getChildren (fst (Spec.run_reactor r calls w)) = Reactor.getChildren r.
Proof.
  induction calls as [|[event|] rest IH]; intros r w; cbn [Spec.run_reactor].
  - split; reflexivity.
  - unfold Reactor.on. destruct (Js.le_zero (Reactor._complexityBudget r)).
    + apply IH.
    + destruct (Reactor._on _ event w) as [out w'].
      destruct (IH (Reactor.with_budget r (Js.decrement (Reactor._complexityBudget r))) w')
        as [Hsig Hkids].
      rewrite Hsig, Hkids. destruct r; split; reflexivity.
  - destruct (IH (Reactor.resetBudget r) w) as [Hsig Hkids].
    rewrite Hsig, Hkids. destruct r; split; reflexivity.
Qed.

(** C9. Shape of computed signatures: the leaf computation carries no
    list of child hashes; the composed computation carries the sorted
    child hashes, as many as there are child signatures; hence the
    signature a cell computes for itself carries no list when the cell has
    no children and a list as long as its children otherwise.  Cell
    construction establishes the invariant: a Reactor, a Keeper and a
    Channel leave their constructors with the children of their
    configuration and a signature of that shape.  And it is preserved: no
    call on a cell ([on] and [resetBudget] of a Reactor, in any number and
    order; [get] and [set] of a Keeper; [send] and [receive] of a
    Channel) changes the signature or the children. *)
Theorem signature_children_shape {Schema TEvent TResponse World TState TData : Type}
    (JSON_stringify : Schema -> string) (Number_toString : Js.number -> string)
    (is_undefined : TData -> bool) :
  (forall (cell : UniversalContract.t Schema) (now : string),
      CellSignature.children (Signature.computeLeafSignature JSON_stringify cell now) = None) /\
  (forall (cell : UniversalContract.t Schema) (childSignatures : list CellSignature.t)
          (now : string),
      exists hashes,
        CellSignature.children
          (Signature.computeComposedSignature JSON_stringify cell childSignatures now)
          = Some hashes /\
        hashes = Js.sort (map CellSignature.hash childSignatures) /\
        List.length hashes = List.length childSignatures) /\
  (forall (cell : UniversalContract.t Schema) (childSignatures : list CellSignature.t)
          (now : string),
      match childSignatures with
      | [] =>
          CellSignature.children
            (Spec.freshSignature JSON_stringify cell childSignatures now) = None
      | _ :: _ =>
          exists hashes,
            CellSignature.children
              (Spec.freshSignature JSON_stringify cell childSignatures now) = Some hashes /\
            List.length hashes = List.length childSignatures
      end) /\
  (forall (config : ReactorConfig.t Schema TEvent TResponse World) (now : string)
          (calls : list (Spec.ReactorCall TEvent)) (w : World),
      let reactor := Reactor.constructor JSON_stringify config now in
      let later := fst (Spec.run_reactor reactor calls w) in
      Reactor.getChildren reactor = Js_array.or_empty (ReactorConfig.children config) /\
      Spec.signature_shape (Js_array.or_empty (ReactorConfig.children config))
        (Reactor.signature reactor) /\
      Reactor.getChildren later = Reactor.getChildren reactor /\
      Reactor.signature later = Reactor.signature reactor) /\
  (forall (r : @Reactor.t Schema TEvent TResponse World) (event : TEvent) (w : World),
      Reactor.signature (snd (fst (Reactor.on r event w))) = Reactor.signature r /\
      Reactor.getChildren (snd (fst (Reactor.on r event w))) = Reactor.getChildren r /\
      Reactor.signature (Reactor.resetBudget r) = Reactor.signature r /\
      Reactor.getChildren (Reactor.resetBudget r) = Reactor.getChildren r) /\
  (forall (config : KeeperConfig.t Schema TState) (now : string),
      let keeper := Keeper.constructor JSON_stringify config now in
      Keeper.getChildren keeper = Js_array.or_empty (KeeperConfig.children config) /\
      Spec.signature_shape (Js_array.or_empty (KeeperConfig.children config))
        (Keeper.signature keeper)) /\
  (forall (k : @Keeper.t Schema TState) (state : TState),
      Keeper.signature (snd (Keeper.get k)) = Keeper.signature k /\
      Keeper.getChildren (snd (Keeper.get k)) = Keeper.getChildren k /\
      Keeper.signature (snd (Keeper.set k state)) = Keeper.signature k /\
      Keeper.getChildren (snd (Keeper.set k state)) = Keeper.getChildren k) /\
  (forall (config : ChannelConfig.t Schema) (now : string),
      let channel := @Channel.constructor Schema TData JSON_stringify config now in
      Channel.getChildren channel = Js_array.or_empty (ChannelConfig.children config) /\
      Spec.signature_shape (Js_array.or_empty (ChannelConfig.children config))
        (Channel.signature channel)) /\
  (forall (c : @Channel.t Schema TData) (data : TData),
      Channel.signature (snd (Channel.send Number_toString c data)) = Channel.signature c /\
      Channel.getChildren (snd (Channel.send Number_toString c data)) =
        Channel.getChildren c /\
      Channel.signature (snd (Channel.receive is_undefined c)) = Channel.signature c /\
      Channel.getChildren (snd (Channel.receive is_undefined c)) = Channel.getChildren c).
Proof.
  assert (Hshape : forall (cell : UniversalContract.t Schema)
                          (children : list (UniversalContract.t Schema)) (now : string),
            Spec.signature_shape children
              match children with
              | [] => Signature.computeLeafSignature JSON_stringify cell now
              | _ :: _ =>
                  Signature.computeComposedSignature JSON_stringify cell
                    (map UniversalContract.signature children) now
              end).
  { intros cell [|c cs] now; [reflexivity|].
    eexists. split; [reflexivity|]. rewrite sort_length, !List.length_map. reflexivity. }
  repeat apply conj.
  - reflexivity.
  - intros cell sigs now. eexists. split; [reflexivity|]. split; [reflexivity|].
    rewrite sort_length. apply length_map.
  - intros cell [|s sigs] now; [reflexivity|].
    eexists. split; [reflexivity|]. rewrite sort_length. apply length_map.
  - intros config now calls w reactor later.
    destruct (run_reactor_keeps_signature calls reactor w) as [Hsig Hkids].
    split; [reflexivity|].
    split; [|split; assumption].
    unfold reactor, Reactor.constructor, Reactor.computeSignature.
    cbn [Reactor.with_signature Reactor._children Reactor.signature].
    replace (match ReactorConfig.children config with Some cs => cs | None => [] end)
      with (Js_array.or_empty (ReactorConfig.children config)) by reflexivity.
    apply Hshape.
  - intros r event w.
    destruct (run_reactor_keeps_signature [Spec.CallOn event] r w) as [Hsig Hkids].
    cbn [Spec.run_reactor] in Hsig, Hkids.
    destruct (Reactor.on r event w) as [[out r'] w']. cbn [fst snd] in *.
    repeat split; try assumption; destruct r; reflexivity.
  - intros config now keeper. split; [reflexivity|].
    unfold keeper, Keeper.constructor, Keeper.computeSignature.
    cbn [Keeper.with_signature Keeper._children Keeper.signature].
    apply Hshape.
  - intros k state. repeat split; destruct k; reflexivity.
  - intros config now channel. split; [reflexivity|].
    unfold channel, Channel.constructor, Channel.computeSignature.
    cbn [Channel.with_signature Channel._children Channel.signature].
    apply Hshape.
  - intros c data. unfold Channel.send, Channel.receive.
    destruct (Js_number.ge _ _); destruct (Channel._buffer c) as [|item rest];
      try destruct (is_undefined item); repeat split; destruct c; reflexivity.
Qed.

(** ** The circuit breaker of a Reactor *)

(** *** Binary64 rounding

    Integers up to [2^53] in absolute value are doubles and are counted
    down exactly; above, a decrement can round back to where it started. *)

Section Binary64.

Local Open Scope Z_scope.

Lemma scaled_nonneg (e n d : Z) : (0 <= e)%Z -> Js.scaled e n d = (n, d * 2 ^ e)%Z.
Proof. intros H. unfold Js.scaled. destruct (Z.leb_spec 0 e); [reflexivity|lia]. Qed.

Lemma scaled_neg (e n d : Z) : (e < 0)%Z -> Js.scaled e n d = (n * 2 ^ (- e), d)%Z.
Proof. intros H. unfold Js.scaled. destruct (Z.leb_spec 0 e); [lia|reflexivity]. Qed.

Lemma nearest_even_exact (a : Z) : Js.nearest_even a 1 = a.
Proof.
  unfold Js.nearest_even. rewrite Z.mod_1_r, Z.div_1_r. reflexivity.
Qed.

Lemma floor_log2_integer (z : Z) : (0 < z)%Z -> Js.floor_log2 z 1 = Z.log2 z.
Proof.
  intros Hz. unfold Js.floor_log2. change (Z.log2 1) with 0%Z. rewrite Z.sub_0_r.
  pose proof (Z.log2_nonneg z) as Hp.
  rewrite scaled_nonneg by exact Hp. rewrite Z.mul_1_l.
  destruct (Z.log2_spec z Hz) as [Hlo _].
  destruct (Z.ltb_spec z (2 ^ Z.log2 z)); [lia|reflexivity].
Qed.

Lemma Qred_scaled (z : Z) (p : positive) : Qred (z * Zpos p # p) = inject_Z z.
Proof.
  rewrite (Qred_complete (z * Zpos p # p) (inject_Z z)).
  - apply Qred_identity. simpl. apply Z.gcd_1_r.
  - unfold Qeq, inject_Z. simpl. lia.
Qed.

Lemma round_pos_integer (z : Z) :
  (0 < z <= 2 ^ 53)%Z -> Js.round_pos (Z.to_pos z) 1 = Js.of_Z z.
Proof.
  intros [Hpos Hle].
  destruct (Z.eq_dec z (2 ^ 53)) as [->|Hne]; [vm_compute; reflexivity|].
  assert (Hlt : (z < 2 ^ 53)%Z) by lia.
  unfold Js.round_pos. rewrite Z2Pos.id by exact Hpos.
  rewrite floor_log2_integer by exact Hpos.
  pose proof (Z.log2_nonneg z) as Hp.
  assert (Hp52 : (Z.log2 z < 53)%Z) by (apply Z.log2_lt_pow2; lia).
  rewrite Z.max_l by lia.
  set (e := (Z.log2 z - 52)%Z).
  destruct (Z.eq_dec e 0) as [He|He].
  - rewrite He. cbn [Js.scaled Z.leb Z.compare Z.pow Z.pow_pos Pos.iter Z.mul Pos.mul].
    rewrite nearest_even_exact. cbn [Z.ltb Z.eqb Z.compare orb andb].
    unfold Js.of_Z. rewrite Z.mul_1_r. reflexivity.
  - assert (Hneg : (e < 0)%Z) by lia.
    rewrite scaled_neg by exact Hneg. rewrite nearest_even_exact.
    destruct (Z.ltb_spec 971 e); [lia|]. destruct (Z.eqb_spec e 971); [lia|].
    cbn [orb andb]. destruct (Z.leb_spec 0 e); [lia|].
    unfold Js.of_Z. f_equal.
    assert (H2 : (0 < 2 ^ (- e))%Z) by (apply Z.pow_pos_nonneg; lia).
    rewrite <- (Z2Pos.id (2 ^ (- e)) H2) at 1. apply Qred_scaled.
Qed.

Lemma round_integer (z : Z) :
  (- 2 ^ 53 <= z <= 2 ^ 53)%Z -> Js.round (inject_Z z) = Js.of_Z z.
Proof.
  intros Hz. unfold Js.round, inject_Z. cbn [Qnum Qden].
  destruct z as [|p|p].
  - reflexivity.
  - rewrite <- (Pos2Z.id p) at 1. rewrite round_pos_integer by lia. reflexivity.
  - rewrite <- (Pos2Z.id p) at 1. rewrite round_pos_integer by lia. reflexivity.
Qed.

Lemma decrement_of_Z (z : Z) :
  (- 2 ^ 53 < z <= 2 ^ 53 + 1)%Z -> Js.decrement (Js.of_Z z) = Js.of_Z (z - 1).
Proof.
  intros Hz. unfold Js.decrement, Js.of_Z.
  replace (inject_Z z - 1)%Q with (inject_Z (z - 1)).
  - apply round_integer. lia.
  - unfold inject_Z, Qminus, Qplus, Qopp. cbn [Qnum Qden]. f_equal. lia.
Qed.

Lemma decrement_stuck : Js.decrement (Js.of_Z (2 ^ 54)) = Js.of_Z (2 ^ 54).
Proof. vm_compute. reflexivity. Qed.

Lemma scaled_at_least (e n d a b : Z) :
  Js.scaled e n d = (a, b) -> (Js.at_least_pow2 e n d <-> (b <= a)%Z).
Proof.
  unfold Js.scaled, Js.at_least_pow2. intros H.
  destruct (Z.leb_spec 0 e) as [He|He]; injection H as <- <-.
  - rewrite Z.max_l, Z.max_r by lia. cbn [Z.pow]. rewrite Z.mul_1_r. reflexivity.
  - rewrite Z.max_r, Z.max_l by lia. cbn [Z.pow]. rewrite Z.mul_1_r. reflexivity.
Qed.

Lemma at_least_pow2_mono (e e' n d : Z) :
  (0 < n)%Z -> (0 < d)%Z -> (e' <= e)%Z -> Js.at_least_pow2 e n d -> Js.at_least_pow2 e' n d.
Proof.
  unfold Js.at_least_pow2. intros Hn Hd Hle H.
  set (ep := Z.max e 0) in *. set (en := Z.max (- e) 0) in *.
  set (ep' := Z.max e' 0). set (en' := Z.max (- e') 0).
  assert (Hs : (en <= en')%Z) by lia.
  assert (Ht : (ep' <= ep + (en' - en))%Z) by lia.
  assert (H1 : (d * 2 ^ ep' <= d * 2 ^ (ep + (en' - en)))%Z).
  { apply Z.mul_le_mono_nonneg_l; [lia|]. apply Z.pow_le_mono_r; lia. }
  assert (H2 : (d * 2 ^ (ep + (en' - en)) = d * 2 ^ ep * 2 ^ (en' - en))%Z).
  { rewrite Z.pow_add_r by lia. ring. }
  assert (H3 : (n * 2 ^ en' = n * 2 ^ en * 2 ^ (en' - en))%Z).
  { replace en' with (en + (en' - en))%Z at 1 by lia. rewrite Z.pow_add_r by lia. ring. }
  rewrite H3. rewrite H2 in H1. etransitivity; [exact H1|].
  apply Z.mul_le_mono_nonneg_r; [|exact H].
  apply Z.pow_nonneg. lia.
Qed.

Lemma floor_log2_at_least (n d : Z) :
  (0 < n)%Z -> (0 < d)%Z -> Js.at_least_pow2 (Js.floor_log2 n d) n d.
Proof.
  intros Hn Hd. unfold Js.floor_log2.
  set (k := (Z.log2 n - Z.log2 d)%Z).
  destruct (Js.scaled k n d) as [a b] eqn:Hs.
  destruct (Z.ltb_spec a b) as [Hlt|Hge].
  - (* n/d < 2^k: the bit is k - 1 *)
    destruct (Z.log2_spec n Hn) as [Hnlo _].
    destruct (Z.log2_spec d Hd) as [_ Hdhi].
    pose proof (Z.log2_nonneg n) as Hln. pose proof (Z.log2_nonneg d) as Hld.
    unfold Js.at_least_pow2.
    set (ep := Z.max (k - 1) 0). set (en := Z.max (- (k - 1)) 0).
    assert (Hd' : (d * 2 ^ ep <= 2 ^ (Z.log2 d + 1 + ep))%Z).
    { rewrite (Z.pow_add_r 2 (Z.log2 d + 1) ep) by lia.
      apply Z.mul_le_mono_nonneg_r; [apply Z.pow_nonneg|]; lia. }
    assert (Hn' : (2 ^ (Z.log2 n + en) <= n * 2 ^ en)%Z).
    { rewrite Z.pow_add_r by lia.
      apply Z.mul_le_mono_nonneg_r; [apply Z.pow_nonneg|]; lia. }
    assert (He : (Z.log2 d + 1 + ep = Z.log2 n + en)%Z) by lia.
    rewrite He in Hd'. lia.
  - apply (scaled_at_least k n d a b Hs). exact Hge.
Qed.

Lemma nearest_even_floor (a b : Z) : (0 < b)%Z -> (a / b <= Js.nearest_even a b)%Z.
Proof.
  intros Hb. unfold Js.nearest_even.
  destruct (2 * (a mod b) <? b)%Z; [lia|].
  destruct (b <? 2 * (a mod b))%Z; [lia|].
  destruct (Z.even (a / b)); lia.
Qed.

Lemma scaled_positive (e n d a b : Z) :
  (0 < n)%Z -> (0 < d)%Z -> Js.scaled e n d = (a, b) -> (0 < a)%Z /\ (0 < b)%Z.
Proof.
  intros Hn Hd. unfold Js.scaled.
  destruct (Z.leb_spec 0 e); intros Heq; injection Heq as <- <-; split; try assumption;
    apply Z.mul_pos_pos; try assumption; apply Z.pow_pos_nonneg; lia.
Qed.

(** A value of at least [2^-1074] does not Js.round to zero. *)
Lemma round_pos_positive (n d : positive) :
  Js.at_least_pow2 (-1074) (Zpos n) (Zpos d) ->
  Js.lt_zero (Js.negate (Js.round_pos n d)) = true.
Proof.
  intros Hmin. unfold Js.round_pos.
  set (e := Z.max (Js.floor_log2 (Zpos n) (Zpos d) - 52) (-1074)).
  assert (He : Js.at_least_pow2 e (Zpos n) (Zpos d)).
  { unfold e. destruct (Z.max_spec (Js.floor_log2 (Zpos n) (Zpos d) - 52) (-1074))
      as [[_ ->]|[_ ->]]; [exact Hmin|].
    apply (at_least_pow2_mono (Js.floor_log2 (Zpos n) (Zpos d))); try lia.
    apply floor_log2_at_least; lia. }
  destruct (Js.scaled e (Zpos n) (Zpos d)) as [a b] eqn:Hs.
  apply (scaled_at_least _ _ _ _ _ Hs) in He.
  destruct (scaled_positive _ _ _ _ _ (Pos2Z.is_pos n) (Pos2Z.is_pos d) Hs) as [Ha Hb].
  assert (Hm : (1 <= Js.nearest_even a b)%Z).
  { etransitivity; [|apply nearest_even_floor; exact Hb].
    apply Z.div_le_lower_bound; lia. }
  set (m := Js.nearest_even a b) in *.
  destruct ((971 <? e)%Z || ((e =? 971)%Z && (m =? 2 ^ 53)%Z)); [reflexivity|].
  cbn [Js.negate Js.lt_zero]. apply negb_true_iff.
  destruct (Qle_bool 0 _) eqn:E; [|reflexivity]. exfalso.
  apply Qle_bool_iff in E.
  destruct (Z.leb_spec 0 e) as [Hnn|Hneg].
  - unfold Qle, Qopp, inject_Z in E. cbn [Qnum Qden] in E.
    assert (0 < m * 2 ^ e)%Z by (apply Z.mul_pos_pos; [lia|apply Z.pow_pos_nonneg; lia]).
    lia.
  - rewrite Qred_correct in E. unfold Qle, Qopp in E. cbn [Qnum Qden] in E. lia.
Qed.

(** Every double is a multiple of [2^-1074]. *)
Lemma round_pos_multiple (n d : positive) (r : Q) :
  Js.round_pos n d = Js.Finite r -> exists k : Z, (r == k # Z.to_pos (2 ^ 1074))%Q.
Proof.
  unfold Js.round_pos.
  set (e := Z.max (Js.floor_log2 (Zpos n) (Zpos d) - 52) (-1074)).
  assert (He : (-1074 <= e)%Z) by (unfold e; lia).
  destruct (Js.scaled e (Zpos n) (Zpos d)) as [a b].
  set (m := Js.nearest_even a b).
  destruct ((971 <? e)%Z || ((e =? 971)%Z && (m =? 2 ^ 53)%Z)); [discriminate|].
  assert (H1074 : (0 < 2 ^ 1074)%Z) by (apply Z.pow_pos_nonneg; lia).
  destruct (Z.leb_spec 0 e) as [Hnn|Hneg]; intros H;
    assert (Hr : Js.Finite r = Js.Finite r) by reflexivity;
    rewrite <- H in Hr at 1; clear H;
    exists (m * 2 ^ (e + 1074))%Z.
  - assert (E : r = inject_Z (m * 2 ^ e)) by congruence. rewrite E.
    unfold Qeq, inject_Z. cbn [Qnum Qden]. rewrite Z2Pos.id by exact H1074.
    rewrite Z.pow_add_r by lia. ring.
  - assert (E : r = Qred (m # Z.to_pos (2 ^ (- e)))) by congruence. rewrite E.
    eapply Qeq_trans; [apply Qred_correct|]. unfold Qeq. cbn [Qnum Qden].
    assert (H2 : (0 < 2 ^ (- e))%Z) by (apply Z.pow_pos_nonneg; lia).
    rewrite !Z2Pos.id by assumption.
    replace 1074%Z with ((e + 1074) + - e)%Z at 1 by lia.
    rewrite Z.pow_add_r by lia. ring.
Qed.

Lemma double_multiple (q : Q) :
  Js.is_double q = true -> exists k : Z, (q == k # Z.to_pos (2 ^ 1074))%Q.
Proof.
  unfold Js.is_double, Js.round. destruct q as [num den]. cbn [Qnum Qden].
  destruct num as [|n|n].
  - intros _. exists 0%Z. reflexivity.
  - destruct (Js.round_pos n den) as [| | |r] eqn:Hr; try discriminate.
    intros Heq. apply Qeq_bool_iff in Heq.
    destruct (round_pos_multiple _ _ _ Hr) as [k Hk]. exists k. rewrite <- Heq. exact Hk.
  - destruct (Js.round_pos n den) as [| | |r] eqn:Hr; try discriminate.
    cbn [Js.negate]. intros Heq. apply Qeq_bool_iff in Heq.
    destruct (round_pos_multiple _ _ _ Hr) as [k Hk]. exists (- k)%Z.
    rewrite <- Heq, Hk. reflexivity.
Qed.

(** A double below one falls below zero when one is taken from it. *)
Lemma decrement_below_one (q : Q) :
  Js.is_double q = true -> (q < 1)%Q -> Js.lt_zero (Js.decrement (Js.Finite q)) = true.
Proof.
  intros Hd Hlt. destruct (double_multiple q Hd) as [k Hk].
  unfold Js.decrement, Js.round.
  assert (H1074 : (0 < 2 ^ 1074)%Z) by (apply Z.pow_pos_nonneg; lia).
  destruct q as [num den]. unfold Qeq in Hk. cbn [Qnum Qden] in Hk.
  rewrite Z2Pos.id in Hk by exact H1074.
  unfold Qlt in Hlt. cbn [Qnum Qden] in Hlt.
  unfold Qminus, Qplus, Qopp. cbn [Qnum Qden].
  set (P := (2 ^ 1074)%Z) in *.
  assert (Hk1 : (k < P)%Z) by nia.
  match goal with
  | |- context [match ?x with Z0 => _ | Zpos _ => _ | Zneg _ => _ end] =>
      destruct x as [|n|n] eqn:Hn; try lia
  end.
  apply round_pos_positive. unfold Js.at_least_pow2.
  rewrite Z.max_r, Z.max_l by lia. cbn [Z.pow]. change (- -1074)%Z with 1074%Z.
  fold P. rewrite Pos2Z.inj_mul.
  assert (Hn' : (Zpos n = Zpos den - num)%Z) by lia.
  rewrite Hn'. nia.
Qed.

Lemma le_zero_of_Z (z : Z) : Js.le_zero (Js.of_Z z) = (z <=? 0)%Z.
Proof.
  unfold Js.le_zero, Js.of_Z, Qle_bool, inject_Z. simpl. rewrite Z.mul_1_r. reflexivity.
Qed.

End Binary64.

Section ReactorBudget.

Context {Schema TEvent TResponse World : Type}.
Variable JSON_stringify : Schema -> string.

Local Abbreviation reactor := (@Reactor.t Schema TEvent TResponse World).

Lemma on_below_budget (r : reactor) (n : nat) (e : TEvent) (w : World) :
  (Z.of_nat (S n) <= 2 ^ 53)%Z ->
  Reactor._complexityBudget r = Js.of_Z (Z.of_nat (S n)) ->
  Reactor.on r e w =
    (fst (Reactor._on r e w),
     Reactor.with_budget r (Js.of_Z (Z.of_nat n)),
     snd (Reactor._on r e w)).
Proof.
  intros Hsafe Hb. unfold Reactor.on. rewrite Hb, le_zero_of_Z, decrement_of_Z by lia.
  destruct (Z.leb_spec (Z.of_nat (S n)) 0) as [Hle|_]; [lia|].
  replace (Z.of_nat (S n) - 1)%Z with (Z.of_nat n) by lia.
  destruct r; cbn [Reactor.with_budget Reactor._on].
  match goal with |- context [let (_, _) := ?x in _] => destruct x end. reflexivity.
Qed.

Lemma on_exhausted (r : reactor) (e : TEvent) (w : World) :
  Reactor._complexityBudget r = Js.of_Z 0 ->
  Reactor.on r e w = (Rejected (Reactor.safe_mode_error r), r, w).
Proof. intros Hb. unfold Reactor.on. rewrite Hb. reflexivity. Qed.

Lemma on_each_within_budget (events : list TEvent) :
  forall (r : reactor) (n : nat) (w : World),
    (Z.of_nat n <= 2 ^ 53)%Z ->
    Reactor._complexityBudget r = Js.of_Z (Z.of_nat n) ->
    (List.length events <= n)%nat ->
    Reactor.on_each r events w =
      (fst (Spec.handle_each (Reactor._on r) events w),
       Reactor.with_budget r (Js.of_Z (Z.of_nat (n - List.length events))),
       snd (Spec.handle_each (Reactor._on r) events w)).
Proof.
  induction events as [|e es IH]; intros r n w Hsafe Hb Hlen.
  - cbn [Reactor.on_each Spec.handle_each List.length fst snd].
    rewrite Nat.sub_0_r, <- Hb. destruct r; reflexivity.
  - cbn [List.length] in Hlen. destruct n as [|n]; [lia|].
    cbn [Reactor.on_each Spec.handle_each List.length].
    rewrite (on_below_budget r n e w Hsafe Hb).
    destruct (Reactor._on r e w) as [out w'] eqn:Hon. cbn [fst snd].
    rewrite (IH (Reactor.with_budget r (Js.of_Z (Z.of_nat n))) n w');
      [|lia|destruct r; reflexivity|lia].
    replace (Reactor._on (Reactor.with_budget r (Js.of_Z (Z.of_nat n))))
      with (Reactor._on r) by (destruct r; reflexivity).
    destruct (Spec.handle_each (Reactor._on r) es w') as [outs w''].
    cbn [fst snd]. replace (S n - S (List.length es))%nat with (n - List.length es)%nat by lia.
    destruct r; reflexivity.
Qed.

(** A budget that a decrement leaves where it was is never used up: every
    call is let through and the reactor stays as it is. *)
Lemma on_each_stuck (events : list TEvent) :
  forall (r : reactor) (w : World),
    Js.le_zero (Reactor._complexityBudget r) = false ->
    Js.decrement (Reactor._complexityBudget r) = Reactor._complexityBudget r ->
    Reactor.on_each r events w =
      (fst (Spec.handle_each (Reactor._on r) events w), r,
       snd (Spec.handle_each (Reactor._on r) events w)).
Proof.
  induction events as [|e es IH]; intros r w Hpos Hstuck; [reflexivity|].
  cbn [Reactor.on_each Spec.handle_each]. unfold Reactor.on.
  rewrite Hpos, Hstuck.
  replace (Reactor.with_budget r (Reactor._complexityBudget r)) with r
    by (destruct r; reflexivity).
  destruct (Reactor._on r e w) as [out w'].
  rewrite (IH r w' Hpos Hstuck).
  destruct (Spec.handle_each (Reactor._on r) es w') as [outs w'']. reflexivity.
Qed.

End ReactorBudget.

(** *** The budget of a Transformer *)

Section TransformerBudget.

Context {TInput TOutput World : Type}.

Local Abbreviation transformer := (@Transformer.t TInput TOutput World).

Lemma transformer_process_below_budget (this : transformer) (n : nat)
    (input : TInput) (w : World) :
  (Z.of_nat (S n) <= 2 ^ 53)%Z ->
  Transformer._complexityBudget this = Js.of_Z (Z.of_nat (S n)) ->
  Transformer.process this input w =
    (fst (Transformer._process this input w),
     Transformer.make (Transformer.name this) (Transformer._process this)
                      (Js.of_Z (Z.of_nat n)) (Transformer._maxBudget this),
     snd (Transformer._process this input w)).
Proof.
  intros Hsafe Hb. unfold Transformer.process.
  rewrite Hb, le_zero_of_Z, decrement_of_Z by lia.
  destruct (Z.leb_spec (Z.of_nat (S n)) 0) as [Hle|_]; [lia|].
  replace (Z.of_nat (S n) - 1)%Z with (Z.of_nat n) by lia.
  cbn [Transformer._process].
  destruct (Transformer._process this input w). reflexivity.
Qed.

Lemma transformer_process_exhausted (this : transformer) (input : TInput) (w : World) :
  Transformer._complexityBudget this = Js.of_Z 0 ->
  Transformer.process this input w = (Rejected (Transformer.safe_mode_error this), this, w).
Proof. intros Hb. unfold Transformer.process. rewrite Hb. reflexivity. Qed.

Lemma process_each_within_budget (inputs : list TInput) :
  forall (this : transformer) (n : nat) (w : World),
    (Z.of_nat n <= 2 ^ 53)%Z ->
    Transformer._complexityBudget this = Js.of_Z (Z.of_nat n) ->
    (List.length inputs <= n)%nat ->
    Transformer.process_each this inputs w =
      (fst (Spec.handle_each (Transformer._process this) inputs w),
       Transformer.make (Transformer.name this) (Transformer._process this)
         (Js.of_Z (Z.of_nat (n - List.length inputs))) (Transformer._maxBudget this),
       snd (Spec.handle_each (Transformer._process this) inputs w)).
Proof.
  induction inputs as [|i rest IH]; intros this n w Hsafe Hb Hlen.
  - cbn [Transformer.process_each Spec.handle_each List.length fst snd].
    rewrite Nat.sub_0_r, <- Hb. destruct this; reflexivity.
  - cbn [List.length] in Hlen. destruct n as [|n]; [lia|].
    cbn [Transformer.process_each Spec.handle_each List.length].
    rewrite (transformer_process_below_budget this n i w Hsafe Hb).
    destruct (Transformer._process this i w) as [out w'] eqn:Hrun. cbn [fst snd].
    rewrite (IH _ n w'); [|lia|reflexivity|lia].
    cbn [Transformer._process Transformer.name Transformer._maxBudget].
    destruct (Spec.handle_each (Transformer._process this) rest w') as [outs w''].
    cbn [fst snd].
    replace (S n - S (List.length rest))%nat with (n - List.length rest)%nat by lia.
    reflexivity.
Qed.

End TransformerBudget.

(** C4. Budget state machine of a Reactor, and of a Transformer, built
    with a complexity budget [N] that is an integer of at most [2^53]
    (the integers a JavaScript number counts down exactly): each of the
    first [N] calls of [on] (of [process]) is let through to the handler
    and settles as the handler does, and leaves the remaining budget one
    lower; the call after them is rejected with the Safe-Mode error while
    the cell and the world stay as they were, the handler not being run;
    and [resetBudget] brings the remaining budget back to [N] at any
    point. *)
Theorem reactor_budget_state_machine {Schema TEvent TResponse World : Type}
    (JSON_stringify : Schema -> string)
    (config : ReactorConfig.t Schema TEvent TResponse World) (now : string)
    (name : string) (process : TEvent -> World -> Settled TResponse * World)
    (N : nat) (events : list TEvent) (extra : TEvent) (w : World) :
  (Z.of_nat N <= 2 ^ 53)%Z ->
  ReactorConfig.complexityBudget config = Some (Js.of_Z (Z.of_nat N)) ->
  List.length events = N ->
  (let fresh := Reactor.constructor JSON_stringify config now in
   let after k := Reactor.on_each fresh (firstn k events) w in
   Reactor.budgetRemaining fresh = Js.of_Z (Z.of_nat N) /\
   (forall k, (k <= N)%nat ->
      (fst (fst (after k)), snd (after k)) =
        Spec.handle_each (ReactorConfig.on config) (firstn k events) w /\
      Reactor.budgetRemaining (snd (fst (after k))) = Js.of_Z (Z.of_nat N - Z.of_nat k) /\
      Reactor.budgetRemaining (Reactor.resetBudget (snd (fst (after k)))) =
        Js.of_Z (Z.of_nat N)) /\
   (let exhausted := snd (fst (after N)) in
    let world := snd (after N) in
    Reactor.on exhausted extra world =
      (Rejected (Reactor.safe_mode_error exhausted), exhausted, world))) /\
  (let fresh := Transformer.constructor name process (Some (Js.of_Z (Z.of_nat N))) in
   let after k := Transformer.process_each fresh (firstn k events) w in
   Transformer.budgetRemaining fresh = Js.of_Z (Z.of_nat N) /\
   (forall k, (k <= N)%nat ->
      (fst (fst (after k)), snd (after k)) =
        Spec.handle_each process (firstn k events) w /\
      Transformer.budgetRemaining (snd (fst (after k))) =
        Js.of_Z (Z.of_nat N - Z.of_nat k) /\
      Transformer.budgetRemaining (Transformer.resetBudget (snd (fst (after k)))) =
        Js.of_Z (Z.of_nat N)) /\
   (let exhausted := snd (fst (after N)) in
    let world := snd (after N) in
    Transformer.process exhausted extra world =
      (Rejected (Transformer.safe_mode_error exhausted), exhausted, world))).
Proof.
  intros Hsafe Hbudget Hlen. split.
  - intros fresh after.
    assert (Hfresh : Reactor._complexityBudget fresh = Js.of_Z (Z.of_nat N) /\
                     Reactor._maxBudget fresh = Js.of_Z (Z.of_nat N) /\
                     Reactor._on fresh = ReactorConfig.on config).
    { unfold fresh, Reactor.constructor. rewrite Hbudget. repeat split. }
    destruct Hfresh as (Hb & Hmax & Hon).
    assert (Hafter : forall k, (k <= N)%nat ->
              after k =
                (fst (Spec.handle_each (ReactorConfig.on config) (firstn k events) w),
                 Reactor.with_budget fresh (Js.of_Z (Z.of_nat (N - k))),
                 snd (Spec.handle_each (ReactorConfig.on config) (firstn k events) w))).
    { intros k Hk. unfold after.
      rewrite (on_each_within_budget (firstn k events) fresh N w Hsafe Hb), Hon.
      - rewrite length_firstn, Hlen, Nat.min_l by lia. reflexivity.
      - rewrite length_firstn. lia. }
    split; [exact Hb|]. split.
    + intros k Hk. rewrite (Hafter k Hk). cbn [fst snd].
      split; [destruct (Spec.handle_each _ _ _); reflexivity|].
      split.
      * unfold Reactor.budgetRemaining. destruct fresh; cbn.
        f_equal. lia.
      * unfold Reactor.budgetRemaining, Reactor.resetBudget.
        destruct fresh; cbn in *. exact Hmax.
    + cbv zeta. rewrite (Hafter N (Nat.le_refl N)). cbn [fst snd].
      apply on_exhausted. rewrite Nat.sub_diag. destruct fresh; reflexivity.
  - intros fresh after.
    assert (Hafter : forall k, (k <= N)%nat ->
              after k =
                (fst (Spec.handle_each process (firstn k events) w),
                 Transformer.make name process (Js.of_Z (Z.of_nat (N - k)))
                   (Js.of_Z (Z.of_nat N)),
                 snd (Spec.handle_each process (firstn k events) w))).
    { intros k Hk. unfold after.
      rewrite (process_each_within_budget (firstn k events) fresh N w Hsafe eq_refl).
      - rewrite length_firstn, Hlen, Nat.min_l by lia. reflexivity.
      - rewrite length_firstn. lia. }
    split; [reflexivity|]. split.
    + intros k Hk. rewrite (Hafter k Hk). cbn [fst snd].
      split; [destruct (Spec.handle_each _ _ _); reflexivity|].
      split; [|reflexivity].
      unfold Transformer.budgetRemaining. cbn [Transformer._complexityBudget].
      f_equal. lia.
    + cbv zeta. rewrite (Hafter N (Nat.le_refl N)). cbn [fst snd].
      apply transformer_process_exhausted. rewrite Nat.sub_diag. reflexivity.
Qed.

(** A reactor and a transformer with a budget of three, sent 1, 2, 3 and
    then 4. *)
Lemma reactor_budget_witness :
  (let fresh := Reactor.constructor Sample.JSON_stringify
                  (Sample.doubling (Some (Js.of_Z 3)) None) Sample.now in
   let after k := Reactor.on_each fresh (firstn k [1; 2; 3]%nat) ([] : list nat) in
   Reactor.budgetRemaining fresh = Js.of_Z 3 /\
   (forall k, (k <= 3)%nat ->
      (fst (fst (after k)), snd (after k)) =
        Spec.handle_each (ReactorConfig.on (Sample.doubling (Some (Js.of_Z 3)) None))
                         (firstn k [1; 2; 3]%nat) [] /\
      Reactor.budgetRemaining (snd (fst (after k))) = Js.of_Z (3 - Z.of_nat k) /\
      Reactor.budgetRemaining (Reactor.resetBudget (snd (fst (after k)))) = Js.of_Z 3) /\
   (let exhausted := snd (fst (after 3%nat)) in
    let world := snd (after 3%nat) in
    Reactor.on exhausted 4%nat world =
      (Rejected (Reactor.safe_mode_error exhausted), exhausted, world))) /\
  (let fresh := Transformer.constructor "doubler" Sample.double (Some (Js.of_Z 3)) in
   let after k := Transformer.process_each fresh (firstn k [1; 2; 3]%nat) ([] : list nat) in
   Transformer.budgetRemaining fresh = Js.of_Z 3 /\
   (forall k, (k <= 3)%nat ->
      (fst (fst (after k)), snd (after k)) =
        Spec.handle_each Sample.double (firstn k [1; 2; 3]%nat) [] /\
      Transformer.budgetRemaining (snd (fst (after k))) = Js.of_Z (3 - Z.of_nat k) /\
      Transformer.budgetRemaining (Transformer.resetBudget (snd (fst (after k)))) =
        Js.of_Z 3) /\
   (let exhausted := snd (fst (after 3%nat)) in
    let world := snd (after 3%nat) in
    Transformer.process exhausted 4%nat world =
      (Rejected (Transformer.safe_mode_error exhausted), exhausted, world))).
Proof.
  apply (reactor_budget_state_machine Sample.JSON_stringify
           (Sample.doubling (Some (Js.of_Z 3)) None) Sample.now "doubler" Sample.double
           3 [1; 2; 3]%nat 4%nat []).
  - vm_compute. discriminate.
  - reflexivity.
  - reflexivity.
Defined.

(** The claim without the bound fails: a budget of [2^54] is a double,
    but [2^54 - 1] is not and rounds back to [2^54].  A reactor built with
    that budget lets the first call through and still reports [2^54], not
    [2^54 - 1]; and no call is ever rejected, however many are made: every
    one is handed to the handler and leaves the reactor as it was. *)
Lemma budget_beyond_safe_integers_never_exhausts :
  let config := Sample.doubling (Some (Js.of_Z (2 ^ 54))) None in
  let fresh := Reactor.constructor Sample.JSON_stringify config Sample.now in
  Reactor.on fresh 1%nat [] = (Resolved 2%nat, fresh, [1%nat]) /\
  Reactor.budgetRemaining (snd (fst (Reactor.on fresh 1%nat []))) = Js.of_Z (2 ^ 54) /\
  Js.of_Z (2 ^ 54) <> Js.of_Z (2 ^ 54 - 1) /\
  forall (events : list nat) (w : list nat),
    Reactor.on_each fresh events w =
      (fst (Spec.handle_each (ReactorConfig.on config) events w), fresh,
       snd (Spec.handle_each (ReactorConfig.on config) events w)).
Proof.
  intros config fresh.
  assert (Hstep : forall (events : list nat) (w : list nat),
            Reactor.on_each fresh events w =
              (fst (Spec.handle_each (ReactorConfig.on config) events w), fresh,
               snd (Spec.handle_each (ReactorConfig.on config) events w))).
  { intros events w. apply (on_each_stuck events fresh w).
    - vm_compute. reflexivity.
    - exact decrement_stuck. }
  split; [|split; [|split]].
  - pose proof (Hstep [1%nat] []) as H. cbn [Reactor.on_each] in H.
    destruct (Reactor.on fresh 1%nat []) as [[r this'] w'].
    injection H as Hr Hthis Hw. cbn in Hr, Hw. congruence.
  - pose proof (Hstep [1%nat] []) as H. cbn [Reactor.on_each] in H.
    destruct (Reactor.on fresh 1%nat []) as [[r this'] w'].
    injection H as _ Hthis _. cbn [fst snd]. rewrite Hthis. reflexivity.
  - vm_compute. discriminate.
  - exact Hstep.
Qed.

Example reactor_three_calls :
  let fresh := Reactor.constructor Sample.JSON_stringify
                 (Sample.doubling (Some (Js.of_Z 3)) None) Sample.now in
  let '(outcomes, spent, log) := Reactor.on_each fresh [1; 2; 3; 4]%nat [] in
  outcomes = [Resolved 2; Resolved 4; Resolved 6;
              Rejected ("[Circuit Breaker] Reactor " ++ quote ++ "doubler" ++ quote ++
                        " is in Safe-Mode — complexity budget exhausted")]%nat /\
  log = [3; 2; 1]%nat /\
  Reactor.budgetRemaining spent = Js.of_Z 0 /\
  Reactor.budgetRemaining (Reactor.resetBudget spent) = Js.of_Z 3.
Proof. vm_compute. repeat split. Qed.

(** ** Composition topology *)

Lemma includes_app_r (a b p : string) :
  Js.includes b p = true -> Js.includes (a ++ b) p = true.
Proof.
  intros H. induction a as [|c a IH]; [exact H|].
  cbn [append Js.includes]. rewrite IH. apply orb_true_r.
Qed.

Lemma topology_message_mentions_mediation (n : nat) :
  Js.includes (Validator.topology_message n) "no Channel to mediate" = true.
Proof.
  unfold Validator.topology_message.
  apply includes_app_r, includes_app_r. reflexivity.
Qed.

Lemma compositionCheck_cell_unfold {Schema} (cell : DiscoveredCell.t Schema) :
  Validator.compositionCheck_cell cell =
  match DiscoveredCell.children cell with
  | [] => []
  | _ :: _ =>
      let ctx msg :=
        {| Violation.cell := Validator.cell_name cell;
           Violation.file := DiscoveredCell.filePath cell;
           Violation.message := msg; Violation.principle := "III" |} in
      let nonChannelChildren :=
        List.filter (fun c => negb (Validator.is_channel c)) (DiscoveredCell.children cell) in
      let channelChildren :=
        List.filter Validator.is_channel (DiscoveredCell.children cell) in
      app (if Nat.leb 2 (List.length nonChannelChildren) &&
              Nat.eqb (List.length channelChildren) 0
           then [ctx (Validator.topology_message (List.length nonChannelChildren))]
           else [])
     (app (flat_map (fun childName =>
                   if negb (Js_array.includes
                              (Js_array.or_empty
                                 cell.(DiscoveredCell.contextMap).(ContextMapEntry.children))
                              childName)
                   then [ctx ("Child " ++ quote ++ childName ++ quote ++
                              " exists but is not listed in parent's context map")%string]
                   else [])
                (map Validator.cell_name (DiscoveredCell.children cell)))
     (app (flat_map (fun chanName =>
                   if negb (Js_array.includes
                              (Js_array.or_empty
                                 cell.(DiscoveredCell.contextMap).(ContextMapEntry.channels))
                              chanName)
                   then [ctx ("Channel " ++ quote ++ chanName ++ quote ++
                              " exists as a child but is not listed in parent's context map channels")%string]
                   else [])
                (map Validator.cell_name channelChildren))
          (flat_map (fun child =>
                  match DiscoveredCell.children child with
                  | [] => []
                  | _ :: _ => Validator.compositionCheck_cell child
                  end) (DiscoveredCell.children cell))))
  end.
Proof. destruct cell; reflexivity. Qed.

Lemma compositionCheck_nested {Schema} (kids : list (DiscoveredCell.t Schema)) (v : Violation.t) :
  In v (flat_map (fun child : DiscoveredCell.t Schema =>
                    match DiscoveredCell.children child with
                    | [] => []
                    | _ :: _ => Validator.compositionCheck_cell child
                    end) kids) ->
  In v (CheckResult.violations (Validator.compositionCheck kids)).
Proof.
  unfold Validator.compositionCheck. cbn [CheckResult.violations].
  rewrite !in_flat_map. intros (child & Hin & Hv). exists child. split; [exact Hin|].
  destruct (DiscoveredCell.children child); [destruct Hv | exact Hv].
Qed.

(** C5. Composition topology.  A cell with two or more children that are
    not Channels and no Channel child fails [compositionCheck], and the
    first violation reported is the topology one, for that cell, with a
    message that contains "no Channel to mediate".  For a cell with at
    least one Channel child, and for a cell with at most one child that is
    not a Channel, no topology violation is reported for the cell: every
    violation in the report whose message begins like the topology message
    comes from the check of the children's own subtrees. *)
Theorem composition_topology {Schema : Type} (cell : DiscoveredCell.t Schema) :
  let kids := DiscoveredCell.children cell in
  let nonChannel := List.filter (fun c => negb (Validator.is_channel c)) kids in
  let channel := List.filter Validator.is_channel kids in
  let report := Validator.compositionCheck [cell] in
  ((2 <= List.length nonChannel)%nat -> channel = [] ->
     CheckResult.passed report = false /\
     (exists rest,
        CheckResult.violations report =
          {| Violation.cell := Validator.cell_name cell;
             Violation.file := DiscoveredCell.filePath cell;
             Violation.message := Validator.topology_message (List.length nonChannel);
             Violation.principle := "III" |} :: rest) /\
     Js.includes (Validator.topology_message (List.length nonChannel))
                 "no Channel to mediate" = true) /\
  ((1 <= List.length channel)%nat \/ (List.length nonChannel <= 1)%nat ->
     forall v, In v (CheckResult.violations report) ->
               Js.startsWith (Violation.message v) "Cell has " = true ->
               In v (CheckResult.violations (Validator.compositionCheck kids))).
Proof.
  intros kids nonChannel channel report.
  assert (Hreport : CheckResult.violations report = Validator.compositionCheck_cell cell).
  { unfold report, Validator.compositionCheck. cbn [CheckResult.violations flat_map].
    apply app_nil_r. }
  split.
  - intros Htwo Hnone.
    assert (Hv : exists rest, Validator.compositionCheck_cell cell =
              {| Violation.cell := Validator.cell_name cell;
                 Violation.file := DiscoveredCell.filePath cell;
                 Violation.message := Validator.topology_message (List.length nonChannel);
                 Violation.principle := "III" |} :: rest).
    { rewrite compositionCheck_cell_unfold. fold kids.
      destruct kids as [|k ks] eqn:Hk; [cbn in Htwo; lia|].
      cbv zeta. fold nonChannel channel. rewrite Hnone.
      destruct (Nat.leb_spec 2 (List.length nonChannel)) as [_|Hlt]; [|lia].
      cbn [andb Nat.eqb List.length app]. eexists. reflexivity. }
    destruct Hv as [rest Hrest]. split; [|split].
    + unfold report, Validator.compositionCheck in *. cbn [CheckResult.passed].
      cbn [CheckResult.violations] in Hreport. rewrite Hreport, Hrest. reflexivity.
    + exists rest. rewrite Hreport. exact Hrest.
    + apply topology_message_mentions_mediation.
  - intros Hmediated v Hin Hstarts. rewrite Hreport in Hin.
    rewrite compositionCheck_cell_unfold in Hin. fold kids in Hin.
    destruct kids as [|k ks] eqn:Hk; [destruct Hin|].
    cbv zeta in Hin. fold nonChannel channel in Hin.
    assert (Hoff : Nat.leb 2 (List.length nonChannel) && Nat.eqb (List.length channel) 0 = false).
    { destruct Hmediated as [Hc|Hn].
      - destruct (List.length channel); [lia|]. apply andb_false_r.
      - destruct (Nat.leb_spec 2 (List.length nonChannel)); [lia|reflexivity]. }
    rewrite Hoff in Hin. cbn [app] in Hin.
    apply in_app_or in Hin. destruct Hin as [Hin|Hin].
    { apply in_flat_map in Hin. destruct Hin as (name & _ & Hin).
      destruct (negb _) in Hin; [|destruct Hin].
      destruct Hin as [<-|[]]. cbn in Hstarts. discriminate. }
    apply in_app_or in Hin. destruct Hin as [Hin|Hin].
    { apply in_flat_map in Hin. destruct Hin as (name & _ & Hin).
      destruct (negb _) in Hin; [|destruct Hin].
      destruct Hin as [<-|[]]. cbn in Hstarts. discriminate. }
    apply compositionCheck_nested. exact Hin.
Qed.

(** Two transformer siblings: rejected without a channel, and free of the
    topology violation once a channel sits among them. *)
Lemma composition_topology_witness :
  (CheckResult.passed (Validator.compositionCheck [Sample.unmediated]) = false /\
   (exists rest,
      CheckResult.violations (Validator.compositionCheck [Sample.unmediated]) =
        {| Violation.cell := "pipeline";
           Violation.file := "dist/pipeline.reactor.js";
           Violation.message := Validator.topology_message 2;
           Violation.principle := "III" |} :: rest) /\
   Js.includes (Validator.topology_message 2) "no Channel to mediate" = true) /\
  (forall v, In v (CheckResult.violations (Validator.compositionCheck [Sample.mediated])) ->
             Js.startsWith (Violation.message v) "Cell has " = true ->
             In v (CheckResult.violations
                     (Validator.compositionCheck (DiscoveredCell.children Sample.mediated)))).
Proof.
  split.
  - apply (proj1 (composition_topology Sample.unmediated)).
    + vm_compute. apply le_n.
    + reflexivity.
  - apply (proj2 (composition_topology Sample.mediated)).
    left. vm_compute. apply le_n.
Defined.

Example unmediated_siblings_rejected :
  CheckResult.passed (Validator.compositionCheck [Sample.unmediated]) = false /\
  map Violation.message (CheckResult.violations (Validator.compositionCheck [Sample.unmediated])) =
    ["Cell has 2 non-channel children but no Channel to mediate communication. All sibling communication must pass through Channels."].
Proof. vm_compute. split; reflexivity. Qed.

Example mediated_siblings_accepted :
  Validator.compositionCheck [Sample.mediated] =
    {| CheckResult.checkName := "Composition Check";
       CheckResult.passed := true;
       CheckResult.violations := [] |}.
Proof. vm_compute. reflexivity. Qed.

(** ** The circuit-breaker check of the validator *)

Lemma check_unfold {Schema} (Number_toString : Js.number -> string)
    (cell : DiscoveredCell.t Schema) :
  Validator.check Number_toString cell =
  let ctx msg :=
    {| Violation.cell := Validator.cell_name cell;
       Violation.file := DiscoveredCell.filePath cell;
       Violation.message := msg; Violation.principle := "II" |} in
  app (if String.eqb (Validator.cell_type cell) "transformer" ||
          String.eqb (Validator.cell_type cell) "reactor"
       then
         app (if negb (DiscoveredCell.hasHealthMethod cell) then
                [ctx (Validator.cell_type cell ++
                      " lacks health() method — cannot report circuit breaker status")%string]
              else
                match DiscoveredCell.healthReport cell with
                | Some report =>
                    match CellHealth.budgetRemaining report with
                    | None =>
                        [ctx (Validator.cell_type cell ++
                              " health() does not report budgetRemaining — circuit breaker not implemented")%string]
                    | Some _ => []
                    end
                | None => []
                end)
             (match DiscoveredCell.healthReport cell with
              | Some report =>
                  match CellHealth.budgetRemaining report with
                  | Some v =>
                      if Validator.not_number_or_negative v
                      then [ctx ("budgetRemaining must be a non-negative number, got: " ++
                                 Validator.prim_toString Number_toString v)%string]
                      else []
                  | None => []
                  end
              | None => []
              end)
       else [])
      (flat_map (Validator.check Number_toString) (DiscoveredCell.children cell)).
Proof. destruct cell; reflexivity. Qed.

(** Keeper and Channel cells, and any cell that is neither a transformer
    nor a reactor, get no violation of their own, whatever their health
    says: the report is that of the children. *)
Lemma check_exempt {Schema} (Number_toString : Js.number -> string)
    (cell : DiscoveredCell.t Schema) :
  Validator.cell_type cell <> "transformer" ->
  Validator.cell_type cell <> "reactor" ->
  Validator.check Number_toString cell =
  flat_map (Validator.check Number_toString) (DiscoveredCell.children cell).
Proof.
  intros Ht Hr. rewrite check_unfold. cbv zeta.
  apply String.eqb_neq in Ht. apply String.eqb_neq in Hr. rewrite Ht, Hr. reflexivity.
Qed.

(** What the code reports for a leaf transformer or reactor: nothing
    exactly when the cell has a health method and either no health report
    at all, or a report whose [budgetRemaining] is a number that is not
    below zero; NaN and [Infinity] are such numbers. *)
Lemma check_leaf_silent_iff {Schema} (Number_toString : Js.number -> string)
    (cell : DiscoveredCell.t Schema) :
  Validator.cell_type cell = "transformer" \/ Validator.cell_type cell = "reactor" ->
  DiscoveredCell.children cell = [] ->
  (Validator.check Number_toString cell = [] <->
   DiscoveredCell.hasHealthMethod cell = true /\
   match DiscoveredCell.healthReport cell with
   | None => True
   | Some report =>
       exists n, CellHealth.budgetRemaining report = Some (Js.PNumber n) /\
                 Js.lt_zero n = false
   end).
Proof.
  intros Hkind Hleaf. rewrite check_unfold. cbv zeta. rewrite Hleaf.
  assert (Hneeds : String.eqb (Validator.cell_type cell) "transformer" ||
                   String.eqb (Validator.cell_type cell) "reactor" = true).
  { destruct Hkind as [-> | ->]; reflexivity. }
  rewrite Hneeds. cbn [flat_map]. rewrite app_nil_r.
  destruct (DiscoveredCell.hasHealthMethod cell); cbn [negb].
  - destruct (DiscoveredCell.healthReport cell) as [report|]; [|cbn; tauto].
    destruct (CellHealth.budgetRemaining report) as [v|].
    + cbn [app]. destruct v as [n|s|b|]; cbn [Validator.not_number_or_negative].
      * destruct (Js.lt_zero n) eqn:Hn; split.
        -- discriminate.
        -- intros [_ (m & Hm & Hlt)]. congruence.
        -- intros _. split; [reflexivity|]. exists n. split; [reflexivity|exact Hn].
        -- reflexivity.
      * split; [discriminate|]. intros [_ (m & Hm & _)]. discriminate.
      * split; [discriminate|]. intros [_ (m & Hm & _)]. discriminate.
      * split; [discriminate|]. intros [_ (m & Hm & _)]. discriminate.
    + cbn [app]. split; [discriminate|]. intros [_ (m & Hm & _)]. discriminate.
  - split; [|intros [H _]; discriminate].
    destruct (DiscoveredCell.healthReport cell) as [report|]; cbn; discriminate.
Qed.

(** C7. The code at the inputs where it parts from the specification: a
    transformer whose health reports a [budgetRemaining] of NaN or of
    [Infinity], neither a finite number, passes [circuitBreakerCheck]
    without a violation; so does a transformer that has a health method
    but no health report at all. *)
Theorem circuit_breaker_accepts_non_finite_budget (Number_toString : Js.number -> string) :
  Validator.circuitBreakerCheck Number_toString
    [Sample.discovered "nan-budget" "transformer" [] (Sample.healthy (Some (Js.PNumber Js.NaN)))]
  = {| CheckResult.checkName := "Circuit Breaker Check";
       CheckResult.passed := true; CheckResult.violations := [] |} /\
  Validator.circuitBreakerCheck Number_toString
    [Sample.discovered "infinite" "transformer" []
       (Sample.healthy (Some (Js.PNumber Js.PosInfinity)))]
  = {| CheckResult.checkName := "Circuit Breaker Check";
       CheckResult.passed := true; CheckResult.violations := [] |} /\
  Validator.circuitBreakerCheck Number_toString
    [Sample.discovered "no-report" "transformer" [] None]
  = {| CheckResult.checkName := "Circuit Breaker Check";
       CheckResult.passed := true; CheckResult.violations := [] |}.
Proof. repeat split. Qed.

Example circuit_breaker_rejects_negative (Number_toString : Js.number -> string) :
  map Violation.message
    (CheckResult.violations
       (Validator.circuitBreakerCheck Number_toString
          [Sample.discovered "negative" "transformer" [] (Sample.healthy (Sample.budget_of (-1)))]))
  = ["budgetRemaining must be a non-negative number, got: " ++ Number_toString (Js.of_Z (-1))].
Proof. reflexivity. Qed.

Example circuit_breaker_exempts_keeper (Number_toString : Js.number -> string) :
  CheckResult.passed
    (Validator.circuitBreakerCheck Number_toString
       [Sample.discovered "store" "keeper" [] (Sample.healthy None)]) = true.
Proof. reflexivity. Qed.

(** ** The parser *)

Lemma bind_no_ParseError {A B} (c : Completion A) (k : A -> Completion B) :
  Spec.no_ParseError c -> (forall a, Spec.no_ParseError (k a)) -> Spec.no_ParseError (bind c k).
Proof. destruct c as [a|e]; cbn; auto. Qed.

Section ParserProperties.

Variable Number_toString : Js.number -> string.

Lemma String_no_ParseError : forall v, Spec.no_ParseError (Parser.String_ Number_toString v).
Proof.
  fix IH 1. intros [ |b|n|s|items|fields]; try exact I.
  - destruct b; exact I.
  - cbn [Parser.String_].
    induction items as [|x rest IHrest]; [exact I|].
    apply bind_no_ParseError.
    + pose proof (IH x) as Hx. destruct x; try exact I; exact Hx.
    + intros a. destruct rest; [exact I|].
      apply bind_no_ParseError; [exact IHrest|intros; exact I].
  - cbn [Parser.String_]. destruct (Yaml.lookup fields "toString"); exact I.
Qed.

Lemma string_field_no_ParseError raw key :
  Spec.no_ParseError (Parser.string_field Number_toString raw key).
Proof. apply String_no_ParseError. Qed.

Lemma map_completion_no_ParseError {A B} (f : A -> Completion B) (xs : list A) :
  (forall x, Spec.no_ParseError (f x)) -> Spec.no_ParseError (Parser.map_completion f xs).
Proof.
  intros Hf. induction xs as [|x rest IH]; [exact I|].
  cbn [Parser.map_completion]. apply bind_no_ParseError; [apply Hf|intros y].
  apply bind_no_ParseError; [exact IH|intros; exact I].
Qed.

Ltac no_parse_error :=
  repeat first
    [ exact I
    | apply string_field_no_ParseError
    | apply String_no_ParseError
    | apply bind_no_ParseError; [|intros ?]
    | apply map_completion_no_ParseError; intros ?
    | match goal with
      | |- Spec.no_ParseError (if ?b then _ else _) => destruct b
      | |- Spec.no_ParseError (match ?x with _ => _ end) => destruct x
      end ].

Lemma extractCell_no_ParseError raw :
  Spec.no_ParseError (Parser.extractCell Number_toString raw).
Proof.
  unfold Parser.extractCell, Parser.extractIdentity, Parser.extractContract,
    Parser.extractCircuitBreaker, Parser.extractLineage, Parser.extractLogic,
    Parser.optional_body, Parser.extractChildren, Parser.extractChannels,
    Parser.extractConnects.
  no_parse_error.
Qed.

(** [parseFC] throws a [ParseError] exactly when the document is not an
    object or has no object under the key [cell]. *)
Lemma parseFC_ParseError_iff (doc : option Yaml.value) :
  (exists message, Parser.parseFC_document Number_toString doc = Throw (ParseError message)) <->
  Yaml.is_object doc = false \/ Yaml.is_object (Yaml.get doc "cell") = false.
Proof.
  unfold Parser.parseFC_document.
  destruct (Yaml.is_object doc) eqn:Hdoc; cbn [negb].
  - destruct (Yaml.is_object (Yaml.get doc "cell")) eqn:Hcell; cbn [negb].
    + split; [|intros [H|H]; discriminate].
      intros [message Hthrow].
      pose proof (extractCell_no_ParseError (Yaml.get doc "cell")) as H.
      rewrite Hthrow in H. destruct H.
    + split; [auto|]. intros _. eexists. reflexivity.
  - split; [auto|]. intros _. eexists. reflexivity.
Qed.

(** C8. The code at the input where it parts from the specification: the
    document [{cell: {}}] is accepted, and although it has neither an identity nor a
    contract section the parsed cell has the concrete type "Transformer"
    and a Transformer contract with the concrete safe-mode action "halt". *)
Theorem parseFC_defaults_type_and_action :
  Parser.parseFC_document Number_toString (Some (Yaml.Obj [("cell", Yaml.Obj [])])) =
  Normal
    {| Parser.ParsedCell.identity :=
         {| Parser.CellIdentity.name := ""; Parser.CellIdentity.version := "";
            Parser.CellIdentity.type := "Transformer" |};
       Parser.ParsedCell.contract :=
         Some (Parser.CellContract.TransformerContract "" ""
                 (Some {| Parser.CircuitBreaker.complexity_budget := Js.of_Z 0;
                          Parser.CircuitBreaker.safe_mode_action := "halt" |}));
       Parser.ParsedCell.lineage :=
         {| Parser.CellLineage.source := ""; Parser.CellLineage.trigger := "";
            Parser.CellLineage.justification := "";
            Parser.CellLineage.parent_context_hash := "" |};
       Parser.ParsedCell.logic := None;
       Parser.ParsedCell.signature := "";
       Parser.ParsedCell.children := None;
       Parser.ParsedCell.channels := None;
       Parser.ParsedCell.connects := None |}.
Proof. reflexivity. Qed.

(** The sibling paths do not default: an identity section without a type
    gives the empty type, and a contract section without a circuit breaker
    gives the empty action. *)
Example parseFC_empty_sections :
  Parser.parseFC_document Number_toString
    (Some (Yaml.Obj [("cell", Yaml.Obj [("identity", Yaml.Obj [("name", Yaml.Str "x")]);
                                        ("contract", Yaml.Obj [])])])) =
  Normal
    {| Parser.ParsedCell.identity :=
         {| Parser.CellIdentity.name := "x"; Parser.CellIdentity.version := "";
            Parser.CellIdentity.type := "" |};
       Parser.ParsedCell.contract :=
         Some (Parser.CellContract.TransformerContract "" ""
                 (Some {| Parser.CircuitBreaker.complexity_budget := Js.of_Z 0;
                          Parser.CircuitBreaker.safe_mode_action := "" |}));
       Parser.ParsedCell.lineage :=
         {| Parser.CellLineage.source := ""; Parser.CellLineage.trigger := "";
            Parser.CellLineage.justification := "";
            Parser.CellLineage.parent_context_hash := "" |};
       Parser.ParsedCell.logic := None;
       Parser.ParsedCell.signature := "";
       Parser.ParsedCell.children := None;
       Parser.ParsedCell.channels := None;
       Parser.ParsedCell.connects := None |}.
Proof. reflexivity. Qed.

Example parseFC_rejects_missing_root :
  Parser.parseFC_document Number_toString
    (Some (Yaml.Obj [("notcell", Yaml.Obj [("foo", Yaml.Str "bar")])])) =
  Throw (ParseError ("Missing root " ++ quote ++ "cell" ++ quote ++ " key")).
Proof. reflexivity. Qed.

End ParserProperties.

(** ** The budget spec of a parsed cell *)

Lemma isInteger_iff (q : Q) :
  Js.isInteger (Js.Finite q) = true <-> exists z : Z, (q == inject_Z z)%Q.
Proof.
  unfold Js.isInteger. rewrite Pos.eqb_eq. split.
  - intros Hden. exists (Qnum (Qred q)).
    rewrite <- (Qred_correct q) at 1.
    destruct (Qred q) as [num den]. cbn in *. subst den. reflexivity.
  - intros [z Hz]. rewrite (Qred_complete _ _ Hz).
    rewrite Qred_identity; [reflexivity|]. cbn. apply Z.gcd_1_r.
Qed.

Lemma le_zero_iff (q : Q) : Js.le_zero (Js.Finite q) = true <-> (q <= 0)%Q.
Proof. apply Qle_bool_iff. Qed.

Lemma gt_million_iff (q : Q) :
  Js.gt (Js.Finite q) FractalClaw.MAX_SAFE_BUDGET = true <-> ~ (q <= inject_Z 1000000)%Q.
Proof.
  unfold Js.gt, FractalClaw.MAX_SAFE_BUDGET, Js.of_Z. rewrite negb_true_iff.
  rewrite <- Qle_bool_iff. destruct (Qle_bool q (inject_Z 1000000)); split; congruence.
Qed.

(** A budget that is not admissible is caught by one of the two checks:
    by the parser's when it is not a positive integer, by the loader's
    when it is above the safe maximum. *)
Lemma inadmissible_budget_caught (budget : Js.number) :
  ~ Spec.admissible_budget budget ->
  negb (Js.isInteger budget) || Js.le_zero budget = true \/
  Js.is_Infinity budget || Js.gt budget FractalClaw.MAX_SAFE_BUDGET = true.
Proof.
  intros Hbad. destruct budget as [| | |q]; try (left; reflexivity).
  destruct (Js.isInteger (Js.Finite q)) eqn:Hint; [|left; reflexivity].
  destruct (Js.le_zero (Js.Finite q)) eqn:Hle; [left; reflexivity|].
  right. cbn [Js.is_Infinity orb]. apply gt_million_iff. intros Hsmall.
  apply Hbad. apply isInteger_iff in Hint. destruct Hint as [z Hz].
  exists z. split; [|exact Hz].
  assert (Hpos : ~ (q <= 0)%Q).
  { intros H. apply le_zero_iff in H. congruence. }
  rewrite Hz in Hpos, Hsmall. rewrite <- Zle_Qle in Hsmall.
  change 0%Q with (inject_Z 0) in Hpos. rewrite <- Zle_Qle in Hpos. lia.
Qed.

(** Who reports what: the parser's validation lets a budget of two
    million pass and the loader's budget stage reports it; a budget of one
    and a half is reported by the parser's validation alone. *)
Example budget_two_million :
  Parser.validateCircuitBreaker Sample.Number_toString
    (Sample.skill "Transformer" (Sample.breaker (Js.of_Z 2000000) "halt") "0xdef") = [] /\
  map SkillViolation.message
    (FractalClaw.checkBudget Sample.Number_toString
       (Sample.skill "Transformer" (Sample.breaker (Js.of_Z 2000000) "halt") "0xdef"))
  = ["complexity_budget 2000000 exceeds safe maximum"].
Proof. vm_compute. split; reflexivity. Qed.

Example budget_one_and_a_half :
  map Parser.ValidationViolation.field
    (Parser.validateCircuitBreaker Sample.Number_toString
       (Sample.skill "Transformer" (Sample.breaker (Js.Finite (3 # 2)) "halt") "0xdef"))
  = ["contract.circuit_breaker.complexity_budget"] /\
  FractalClaw.checkBudget Sample.Number_toString
    (Sample.skill "Transformer" (Sample.breaker (Js.Finite (3 # 2)) "halt") "0xdef") = [].
Proof. vm_compute. split; reflexivity. Qed.

(** ** Stage 4 of the skill loader *)

Lemma falsy_iff_empty (s : string) : Js.falsy s = true <-> s = "".
Proof. destruct s; cbn; split; congruence. Qed.

Section LoaderProperties.

Context {Schema KnownTypes : Type}.
Variable JSON_stringify : Schema -> string.
Variable Number_toString : Js.number -> string.
Variable empty_schema : Schema.
Variable resolveTypeSchema : option string -> string -> Completion Schema.
Variable discoverTypes : string -> KnownTypes.
Variable validateCell :
  Parser.ParsedCell.t -> string -> KnownTypes -> Parser.ValidationResult.t.
Variable scanLogicBody : string -> option Parser.CellLogic.t -> ScanResult.t.

Local Abbreviation load :=
  (FractalClaw.loadParsedSkill JSON_stringify Number_toString empty_schema
     resolveTypeSchema discoverTypes validateCell scanLogicBody).

(** C10. Placeholder bypass in stage 4 of [loadSingleSkill].  When the
    declared signature is empty or starts with "0x0000" the stage pushes
    nothing, whatever the computed signature is, so that the violations
    and the verdict of the loader are those of stages 2, 3 and 5 alone;
    the loader ends without a verdict only by the throw of the signature
    computation itself (an unreadable schema file).  Otherwise the stage
    compares the declared signature, without a leading "0x" if it has one,
    with the computed one, and pushes one "Principle X" violation exactly
    when they differ. *)
Theorem placeholder_signature_bypass (computedSig declaredSig : string) :
  (declaredSig = "" \/ Js.startsWith declaredSig "0x0000" = true ->
     FractalClaw.signatureStage computedSig declaredSig = [] /\
     forall (parsed : Parser.ParsedCell.t) (filePath projectRoot : string),
       Parser.ParsedCell.signature parsed = declaredSig ->
       let others :=
         (FractalClaw.structureStage discoverTypes validateCell parsed filePath projectRoot ++
          FractalClaw.scanStage scanLogicBody
            parsed.(Parser.ParsedCell.identity).(Parser.CellIdentity.name) parsed ++
          FractalClaw.checkBudget Number_toString parsed)%list in
       match load parsed filePath projectRoot with
       | Normal verdict =>
           SkillVerdict.allViolationMessages verdict = others /\
           SkillVerdict.accepted verdict = Nat.eqb (List.length others) 0
       | Throw e =>
           FractalClaw.computeExpectedSignature JSON_stringify empty_schema
             resolveTypeSchema parsed projectRoot = Throw e
       end) /\
  (declaredSig <> "" -> Js.startsWith declaredSig "0x0000" = false ->
     let normalizedDeclared :=
       if Js.startsWith declaredSig "0x" then Js.slice_from 2 declaredSig else declaredSig in
     (normalizedDeclared = computedSig ->
        FractalClaw.signatureStage computedSig declaredSig = []) /\
     (normalizedDeclared <> computedSig ->
        exists message,
          FractalClaw.signatureStage computedSig declaredSig =
            [{| SkillViolation.principle := "Principle X";
                SkillViolation.message := message |}])).
Proof.
  assert (Hstage : forall computed,
            declaredSig = "" \/ Js.startsWith declaredSig "0x0000" = true ->
            FractalClaw.signatureStage computed declaredSig = []).
  { intros computed Hplaceholder. unfold FractalClaw.signatureStage, Js.truthy.
    destruct Hplaceholder as [-> | ->]; [reflexivity|].
    rewrite andb_false_r. reflexivity. }
  split.
  - intros Hplaceholder. split; [apply Hstage, Hplaceholder|].
    intros parsed filePath projectRoot Hdeclared others.
    unfold FractalClaw.loadParsedSkill.
    destruct (FractalClaw.computeExpectedSignature JSON_stringify empty_schema
                resolveTypeSchema parsed projectRoot) as [sig|e]; [|reflexivity].
    cbn [bind SkillVerdict.allViolationMessages SkillVerdict.accepted].
    rewrite Hdeclared, (Hstage _ Hplaceholder). cbn [app]. split; reflexivity.
  - intros Hnonempty Hreal normalizedDeclared.
    unfold FractalClaw.signatureStage, Js.truthy.
    assert (Hfalsy : Js.falsy declaredSig = false).
    { destruct declaredSig; [congruence|reflexivity]. }
    rewrite Hfalsy, Hreal. cbn [negb andb]. fold normalizedDeclared. split.
    + intros ->. rewrite String.eqb_refl. reflexivity.
    + intros Hdiff. apply String.eqb_neq in Hdiff. rewrite Hdiff. cbn [negb].
      eexists. reflexivity.
Qed.

End LoaderProperties.

(** A skill that declares the placeholder "0x0000", and one that declares
    a signature of its own. *)
Lemma placeholder_signature_witness :
  (FractalClaw.signatureStage Sample.computed_signature "0x0000" = [] /\
   forall (parsed : Parser.ParsedCell.t) (filePath projectRoot : string),
     Parser.ParsedCell.signature parsed = "0x0000" ->
     let others :=
       (FractalClaw.structureStage Sample.discoverTypes Sample.validateCell
          parsed filePath projectRoot ++
        FractalClaw.scanStage Sample.scanLogicBody
          parsed.(Parser.ParsedCell.identity).(Parser.CellIdentity.name) parsed ++
        FractalClaw.checkBudget Sample.Number_toString parsed)%list in
     match FractalClaw.loadParsedSkill Sample.JSON_stringify Sample.Number_toString "{}"
             Sample.resolveTypeSchema Sample.discoverTypes Sample.validateCell
             Sample.scanLogicBody parsed filePath projectRoot with
     | Normal verdict =>
         SkillVerdict.allViolationMessages verdict = others /\
         SkillVerdict.accepted verdict = Nat.eqb (List.length others) 0
     | Throw e =>
         FractalClaw.computeExpectedSignature Sample.JSON_stringify "{}"
           Sample.resolveTypeSchema parsed projectRoot = Throw e
     end) /\
  ((Js.slice_from 2 "0xdeadbeef" = Sample.computed_signature ->
      FractalClaw.signatureStage Sample.computed_signature "0xdeadbeef" = []) /\
   (Js.slice_from 2 "0xdeadbeef" <> Sample.computed_signature ->
      exists message,
        FractalClaw.signatureStage Sample.computed_signature "0xdeadbeef" =
          [{| SkillViolation.principle := "Principle X";
              SkillViolation.message := message |}])).
Proof.
  split.
  - apply (proj1 (placeholder_signature_bypass Sample.JSON_stringify Sample.Number_toString
                    "{}" Sample.resolveTypeSchema Sample.discoverTypes Sample.validateCell
                    Sample.scanLogicBody Sample.computed_signature "0x0000")).
    right. reflexivity.
  - apply (proj2 (placeholder_signature_bypass Sample.JSON_stringify Sample.Number_toString
                    "{}" Sample.resolveTypeSchema Sample.discoverTypes Sample.validateCell
                    Sample.scanLogicBody Sample.computed_signature "0xdeadbeef")).
    + discriminate.
    + reflexivity.
Defined.

(** A skill with the placeholder is accepted with its fingerprint
    unverified; with a wrong signature it is rejected; with its computed
    signature behind "0x" it is accepted. *)
Example placeholder_skill_accepted :
  Spec.accepted
    (Sample.load (Sample.skill "Transformer" (Sample.breaker (Js.of_Z 1000) "halt")
                    "0x0000000000000000000000000000000000000000000000000000000000000000"))
  = true.
Proof. vm_compute. reflexivity. Qed.

Example forged_skill_rejected :
  exists verdict,
    Sample.load (Sample.skill "Transformer" (Sample.breaker (Js.of_Z 1000) "halt")
                   "0xdeadbeef") = Normal verdict /\
    map SkillViolation.principle (SkillVerdict.allViolationMessages verdict)
    = ["Principle X"].
Proof. eexists. split; [vm_compute; reflexivity|]. vm_compute. reflexivity. Qed.

(** With schema files that do not parse, the same placeholder skill gets
    no verdict at all: the loader throws in stage 4. *)
Example placeholder_skill_corrupt_schema :
  FractalClaw.loadParsedSkill Sample.JSON_stringify Sample.Number_toString "{}"
    Sample.corrupt_schema Sample.discoverTypes Sample.validateCell Sample.scanLogicBody
    (Sample.skill "Transformer" (Sample.breaker (Js.of_Z 1000) "halt") "0x0000")
    "skills/weather-lookup.transformer.fc" "."
  = Throw (SyntaxError "Unexpected end of JSON input").
Proof. vm_compute. reflexivity. Qed.

Example signed_skill_accepted :
  Spec.accepted
    (Sample.load (Sample.skill "Transformer" (Sample.breaker (Js.of_Z 1000) "halt")
                    ("0x" ++ Sample.computed_signature)))
  = true.
Proof. vm_compute. reflexivity. Qed.

(** ** Strings of all code units and their UTF-8 bytes *)

Lemma append_assoc (a b c : string) : (a ++ b) ++ c = a ++ (b ++ c).
Proof. induction a as [|x a IH]; cbn; [reflexivity|]. rewrite IH. reflexivity. Qed.

Lemma append_length (a b : string) :
  String.length (a ++ b) = (String.length a + String.length b)%nat.
Proof. induction a as [|x a IH]; cbn; [reflexivity|]. rewrite IH. reflexivity. Qed.

Section Widening.
Local Open Scope list_scope.
Local Open Scope N_scope.

Lemma encode_below_256 (n : N) :
  n < 256 -> Utf16.encode n = if n <? 128 then [n] else [192 + n / 64; 128 + n mod 64].
Proof.
  intros H. unfold Utf16.encode. destruct (N.ltb_spec n 128); [reflexivity|].
  destruct (N.ltb_spec n 2048); [reflexivity|lia].
Qed.

Lemma N_of_ascii_bounded (c : ascii) : N_of_ascii c < 256.
Proof. destruct c as [[] [] [] [] [] [] [] []]; vm_compute; reflexivity. Qed.

Lemma utf8_of_string (s : string) : Utf16.utf8 (Utf16.of_string s) = Sha256.utf8 s.
Proof.
  unfold Utf16.utf8, Utf16.of_string.
  induction s as [|c s IH]; [reflexivity|].
  cbn [list_ascii_of_string map Utf16.code_points Sha256.utf8].
  pose proof (N_of_ascii_bounded c) as Hc.
  assert (Hh : Utf16.is_high (N_of_ascii c) = false).
  { unfold Utf16.is_high. destruct (N.leb_spec 55296 (N_of_ascii c)); [lia|reflexivity]. }
  assert (Hl : Utf16.is_low (N_of_ascii c) = false).
  { unfold Utf16.is_low. destruct (N.leb_spec 56320 (N_of_ascii c)); [lia|reflexivity]. }
  rewrite Hh, Hl. cbn [flat_map]. rewrite IH, encode_below_256 by exact Hc.
  destruct (N_of_ascii c <? 128); reflexivity.
Qed.

(** ** Encoding is injective on well-formed strings *)







End Widening.

Section FullStrings.
Local Open Scope list_scope.

Lemma of_string_app (a b : string) :
  Utf16.of_string (a ++ b) = Utf16.of_string a ++ Utf16.of_string b.
Proof.
  unfold Utf16.of_string. induction a as [|c a IH]; [reflexivity|].
  cbn [String.append list_ascii_of_string map app]. rewrite IH. reflexivity.
Qed.

Lemma of_string_injective (a b : string) : Utf16.of_string a = Utf16.of_string b -> a = b.
Proof.
  unfold Utf16.of_string. revert b.
  induction a as [|c a IH]; intros [|d b] H; cbn in H; try discriminate; [reflexivity|].
  injection H as Hc H. f_equal; [|apply IH, H].
  rewrite <- (ascii_N_embedding c), <- (ascii_N_embedding d), Hc. reflexivity.
Qed.

Lemma of_string_well_formed (s : string) : Utf16.well_formed (Utf16.of_string s) = true.
Proof.
  unfold Utf16.of_string. induction s as [|c s IH]; [reflexivity|].
  cbn [list_ascii_of_string map Utf16.well_formed].
  pose proof (N_of_ascii_bounded c) as Hc.
  assert (Hh : Utf16.is_high (N_of_ascii c) = false).
  { unfold Utf16.is_high. destruct (N.leb_spec 55296 (N_of_ascii c)); [lia|reflexivity]. }
  assert (Hl : Utf16.is_low (N_of_ascii c) = false).
  { unfold Utf16.is_low. destruct (N.leb_spec 56320 (N_of_ascii c)); [lia|reflexivity]. }
  rewrite Hh, Hl, IH. destruct (N.ltb_spec (N_of_ascii c) 65536); [reflexivity|lia].
Qed.

(** On the strings of the embedding the two digests agree. *)
Lemma wide_sha256_of_string (data : string) :
  Wide.sha256 (Utf16.of_string data) = Utf16.of_string (Sha256.sha256 data).
Proof.
  unfold Wide.sha256, Sha256.sha256, Sha256.sha256_bytes, Sha256.digest.
  rewrite utf8_of_string. reflexivity.
Qed.

Lemma wide_cellContent_of_contract {Schema} (JSON_stringify : Schema -> string)
    (cell : UniversalContract.t Schema) :
  Wide.cellContent (fun s => Utf16.of_string (JSON_stringify s)) (Widen.contract cell) =
  Utf16.of_string (Signature.cellContent JSON_stringify cell).
Proof.
  unfold Wide.cellContent, Signature.cellContent. cbn. rewrite !of_string_app. reflexivity.
Qed.

(** The signature of a leaf cell on full strings is the signature of the
    embedding. *)
Lemma wide_leaf_signature {Schema} (JSON_stringify : Schema -> string)
    (cell : UniversalContract.t Schema) (now : string) :
  Wide.computeLeafSignature (fun s => Utf16.of_string (JSON_stringify s))
    (Widen.contract cell) (Utf16.of_string now) =
  Widen.signature (Signature.computeLeafSignature JSON_stringify cell now).
Proof.
  unfold Wide.computeLeafSignature, Signature.computeLeafSignature, Widen.signature,
    Signature.sha256.
  cbn [CellSignature.hash CellSignature.children CellSignature.timestamp option_map].
  rewrite wide_cellContent_of_contract, wide_sha256_of_string. reflexivity.
Qed.

Lemma leb_of_string (a b : string) :
  Utf16.leb (Utf16.of_string a) (Utf16.of_string b) = String.leb a b.
Proof.
  unfold Utf16.of_string, String.leb. revert b.
  induction a as [|c a IH]; intros [|d b]; try reflexivity.
  cbn [list_ascii_of_string map Utf16.leb String.compare].
  unfold Ascii.compare. destruct (N_of_ascii c ?= N_of_ascii d)%N; try reflexivity.
  apply IH.
Qed.

Section SortOfStrings.

Lemma decide_le_of_string (a b : string) :
  (if decide (Utf16.le (Utf16.of_string a) (Utf16.of_string b)) then true else false) =
  (if decide (Js.string_le a b) then true else false).
Proof.
  destruct (decide (Utf16.le _ _)) as [H|H], (decide (Js.string_le a b)) as [H'|H'];
    try reflexivity; unfold Utf16.le, Js.string_le in *; rewrite leb_of_string in H; congruence.
Qed.

Lemma list_merge_of_string (l1 l2 : list string) :
  list_merge Utf16.le (map Utf16.of_string l1) (map Utf16.of_string l2) = map Utf16.of_string (list_merge Js.string_le l1 l2).
Proof.
  revert l2. induction l1 as [|x1 l1 IH1]; intros l2.
  - destruct l2; reflexivity.
  - induction l2 as [|x2 l2 IH2]; [reflexivity|].
    cbn [map]. rewrite !list_merge_cons.
    pose proof (decide_le_of_string x1 x2) as Hd.
    destruct (decide (Utf16.le (Utf16.of_string x1) (Utf16.of_string x2))), (decide (Js.string_le x1 x2));
      try discriminate Hd; cbn [map]; f_equal.
    + apply (IH1 (x2 :: l2)).
    + exact IH2.
Qed.

Lemma merge_list_to_stack_of_string (st : list (option (list string))) (l : list string) :
  merge_list_to_stack Utf16.le (map (option_map (map Utf16.of_string)) st) (map Utf16.of_string l) =
  map (option_map (map Utf16.of_string)) (merge_list_to_stack Js.string_le st l).
Proof.
  revert l. induction st as [|[l'|] st IH]; intros l; cbn; try reflexivity.
  rewrite list_merge_of_string, IH. reflexivity.
Qed.

Lemma merge_stack_of_string (st : list (option (list string))) :
  merge_stack Utf16.le (map (option_map (map Utf16.of_string)) st) =
  map Utf16.of_string (merge_stack Js.string_le st).
Proof.
  induction st as [|[l|] st IH]; cbn; try reflexivity; [|exact IH].
  rewrite IH, list_merge_of_string. reflexivity.
Qed.

Lemma merge_sort_aux_of_string (st : list (option (list string))) (l : list string) :
  merge_sort_aux Utf16.le (map (option_map (map Utf16.of_string)) st) (map Utf16.of_string l) =
  map Utf16.of_string (merge_sort_aux Js.string_le st l).
Proof.
  revert st. induction l as [|x l IH]; intros st; cbn [map merge_sort_aux].
  - apply merge_stack_of_string.
  - rewrite <- IH. f_equal. apply (merge_list_to_stack_of_string st [x]).
Qed.

(** Sorting by code units is the same on both kinds of strings. *)
Lemma sort_of_string (xs : list string) :
  Utf16.sort (map Utf16.of_string xs) = map Utf16.of_string (Js.sort xs).
Proof. apply (merge_sort_aux_of_string [] xs). Qed.

End SortOfStrings.

Lemma join_of_string (xs : list string) :
  Utf16.join (map Utf16.of_string xs) = Utf16.of_string (Js.join xs).
Proof.
  unfold Utf16.join. induction xs as [|x xs IH]; [reflexivity|].
  cbn [map concat Js.join]. rewrite IH, of_string_app. reflexivity.
Qed.

(** The signature of a composed cell on full strings is the signature of
    the embedding. *)
Lemma wide_composed_signature {Schema} (JSON_stringify : Schema -> string)
    (cell : UniversalContract.t Schema) (childSignatures : list CellSignature.t)
    (now : string) :
  Wide.computeComposedSignature (fun s => Utf16.of_string (JSON_stringify s))
    (Widen.contract cell) (map Widen.signature childSignatures) (Utf16.of_string now) =
  Widen.signature (Signature.computeComposedSignature JSON_stringify cell childSignatures now).
Proof.
  unfold Wide.computeComposedSignature, Signature.computeComposedSignature, Widen.signature,
    Signature.sha256.
  cbn [CellSignature.hash CellSignature.children CellSignature.timestamp option_map].
  rewrite map_map. cbn [Wide.CellSignature.hash].
  rewrite <- (map_map CellSignature.hash Utf16.of_string), sort_of_string, join_of_string.
  rewrite wide_cellContent_of_contract, <- of_string_app, wide_sha256_of_string. reflexivity.
Qed.

(** ** Sensitivity to the provenance fields *)


Lemma wide_fingerprint {Schema} (JSON_stringify : Schema -> Utf16.t)
    (cell : Wide.UniversalContract.t Schema)
    (childSignatures : list Wide.CellSignature.t) (now : Utf16.t) :
  Wide.CellSignature.hash (WideSpec.freshSignature JSON_stringify cell childSignatures now) =
  Utf16.of_string
    (Sha256.sha256_bytes
       (Utf16.utf8 (WideSpec.hashedContent JSON_stringify cell childSignatures))).
Proof. destruct childSignatures; reflexivity. Qed.

End FullStrings.



Example greeter_fingerprints :
  Wide.CellSignature.hash
    (WideSpec.freshSignature Sample.wide_JSON_stringify Sample.wide_greeter []
       (Utf16.of_string Sample.now)) <>
  Wide.CellSignature.hash
    (WideSpec.freshSignature Sample.wide_JSON_stringify
       (Wide.UniversalContract.set_lineage Sample.wide_greeter
          (Sample.wide_with_source (Utf16.of_string "Agent-X")))
       [] (Utf16.of_string Sample.now)).
Proof. vm_compute. discriminate. Qed.


(** There are finitely many strings of a given length. *)
Lemma strings_of_length_listable (len : nat) :
  exists all : list string, forall s, String.length s = len -> In s all.
Proof.
  induction len as [|len [all Hall]].
  - exists [EmptyString]. intros [|c s] H; [left; reflexivity|discriminate].
  - exists (flat_map (fun s => map (fun n => String (ascii_of_nat n) s) (seq 0 256)) all).
    intros [|c s] H; [discriminate|]. injection H as H.
    apply in_flat_map. exists s. split; [apply Hall, H|].
    apply in_map_iff. exists (nat_of_ascii c). split.
    + rewrite ascii_nat_embedding. reflexivity.
    + apply in_seq. pose proof (nat_ascii_bounded c). lia.
Qed.

(** No sequence of strings of one length is free of repetitions. *)
Lemma fixed_length_sequence_repeats (g : nat -> string) (len : nat) :
  (forall n, String.length (g n) = len) ->
  ~ (forall i j, i <> j -> g i <> g j).
Proof.
  intros Hlen Hinj.
  destruct (strings_of_length_listable len) as [all Hall].
  assert (Hnodup : List.NoDup (map g (seq 0 (S (List.length all))))).
  { apply NoDup_map_NoDup_ForallPairs; [|apply seq_NoDup].
    intros i j _ _ Heq. destruct (Nat.eq_dec i j) as [|Hne]; [assumption|].
    exfalso. exact (Hinj i j Hne Heq). }
  apply NoDup_incl_length with (l' := all) in Hnodup.
  - rewrite List.length_map, List.length_seq in Hnodup. lia.
  - intros s Hs. apply in_map_iff in Hs. destruct Hs as (n & <- & _). apply Hall, Hlen.
Qed.

Lemma letters_length (n : nat) : String.length (Sample.letters n) = n.
Proof. induction n; cbn; congruence. Qed.

Lemma sha256_bytes_length (message : list N) :
  String.length (Sha256.sha256_bytes message) = 64%nat.
Proof. reflexivity. Qed.

(** Well-formed contents do not escape collisions either: were every
    change of one provenance field between well-formed contents to change
    the fingerprint, the greeter with sources of one, two, three and more
    letters would have pairwise different fingerprints, which are strings
    of 64 characters. *)
Lemma well_formed_contents_collide :
  ~ (forall (cell : Wide.UniversalContract.t string) (lineage' : Wide.CellLineage.t),
        WideSpec.one_provenance_field_changed (Wide.UniversalContract.lineage cell) lineage' ->
        Utf16.well_formed
          (WideSpec.hashedContent Sample.wide_JSON_stringify cell []) = true ->
        Utf16.well_formed
          (WideSpec.hashedContent Sample.wide_JSON_stringify
             (Wide.UniversalContract.set_lineage cell lineage') []) = true ->
        Wide.CellSignature.hash
          (WideSpec.freshSignature Sample.wide_JSON_stringify
             (Wide.UniversalContract.set_lineage cell lineage') []
             (Utf16.of_string Sample.now)) <>
        Wide.CellSignature.hash
          (WideSpec.freshSignature Sample.wide_JSON_stringify cell []
             (Utf16.of_string Sample.now))).
Proof.
  intros Hsensitive.
  pose (cell := fun n : nat =>
    Widen.contract
      (UniversalContract.set_lineage Sample.greeter (Sample.with_source (Sample.letters n)))).
  pose (g := fun n : nat =>
    Sha256.sha256_bytes
      (Utf16.utf8 (WideSpec.hashedContent Sample.wide_JSON_stringify (cell n) []))).
  assert (Hwf : forall n,
    Utf16.well_formed (WideSpec.hashedContent Sample.wide_JSON_stringify (cell n) []) = true).
  { intros n. unfold WideSpec.hashedContent, cell, Sample.wide_JSON_stringify.
    rewrite (wide_cellContent_of_contract Sample.JSON_stringify).
    apply of_string_well_formed. }
  apply (fixed_length_sequence_repeats g 64).
  - intros n. apply sha256_bytes_length.
  - intros i j Hne Heq.
    apply (Hsensitive (cell j) (Wide.UniversalContract.lineage (cell i))).
    + split; [reflexivity|]. left. repeat split.
      cbn. intros H. apply of_string_injective in H.
      apply (f_equal String.length) in H. rewrite !letters_length in H. auto.
    + apply Hwf.
    + apply (Hwf i).
    + rewrite !wide_fingerprint.
      change (Utf16.of_string (g i) = Utf16.of_string (g j)). rewrite Heq. reflexivity.
Qed.

(** ** The Transformer of the budget demo *)

(** The budget demo: a budget of three and four calls. *)
Example transformer_budget_demo :
  let cell := Transformer.constructor "budget-demo"
                (fun (input : string) (w : unit) => (Resolved ("processed: " ++ input), w))
                (Some (Js.of_Z 3)) in
  let '(outcomes, spent, _) :=
    Transformer.process_each cell ["call-1"; "call-2"; "call-3"; "call-4"] tt in
  outcomes = [Resolved "processed: call-1"; Resolved "processed: call-2";
              Resolved "processed: call-3";
              Rejected ("[Circuit Breaker] Transformer " ++ quote ++ "budget-demo" ++ quote ++
                        " is in Safe-Mode — complexity budget exhausted")] /\
  Transformer.budgetRemaining spent = Js.of_Z 0 /\
  Transformer.budgetRemaining (Transformer.resetBudget spent) = Js.of_Z 3.
Proof. vm_compute. repeat split. Qed.

(** ** SHA-256 on the standard test vectors *)

Example sha_abc : Sha256.sha256 "abc" = "ba7816bf8f01cfea414140de5dae2223b00361a396177a9cb410ff61f20015ad".
Proof. vm_compute. reflexivity. Qed.
Example sha_empty : Sha256.sha256 "" = "e3b0c44298fc1c149afbf4c8996fb92427ae41e4649b934ca495991b7852b855".
Proof. vm_compute. reflexivity. Qed.
Example sha_long : Sha256.sha256 "abcdbcdecdefdefgefghfghighijhijkijkljklmklmnlmnomnopnopq" = "248d6a61d20638b8e5c026930c3e6039a33ce45964ff2167f6ecedd419db06c1".
Proof. vm_compute. reflexivity. Qed.

(* ===================================================================== *)
(** * Further properties of the SDK                                       *)
(* ===================================================================== *)

(** ** Health of a Reactor *)

Section ReactorHealth.

Context {Schema TEvent TResponse World : Type}.
Variable JSON_stringify : Schema -> string.
Variable child_health : nat -> CellHealth.t.

Local Abbreviation reactor := (@Reactor.t Schema TEvent TResponse World).

Lemma health_budgetRemaining (r : reactor) :
  CellHealth.budgetRemaining (ReactorCell.health child_health r) =
  Some (Js.PNumber (Reactor._complexityBudget r)).
Proof. unfold ReactorCell.health. destruct (Reactor._children r); reflexivity. Qed.

Lemma health_safe_mode_iff (r : reactor) :
  CellHealth.status (ReactorCell.health child_health r) = "safe-mode" <->
  Js.le_zero (Reactor._complexityBudget r) = true.
Proof.
  unfold ReactorCell.health.
  destruct (Reactor._children r); cbn [CellHealth.status];
    destruct (Js.le_zero (Reactor._complexityBudget r));
    repeat match goal with |- context [if ?b then _ else _] => destruct b end;
    split; intros H; try reflexivity; discriminate H.
Qed.

(** Whatever the events, [on] changes nothing of a reactor but its
    remaining budget, which goes down by one per event until it is zero;
    a budget that starts at zero or below is left as it is. *)
Lemma on_each_spent (events : list TEvent) :
  forall (r : reactor) (z : Z) (w : World),
    (z <= 2 ^ 53)%Z ->
    Reactor._complexityBudget r = Js.of_Z z ->
    snd (fst (Reactor.on_each r events w)) =
    Reactor.with_budget r (Js.of_Z (Spec.remaining_budget z (List.length events))).
Proof.
  induction events as [|e es IH]; intros r z w Hsafe Hb.
  - cbn [Reactor.on_each List.length fst snd].
    replace (Spec.remaining_budget z 0) with z
      by (unfold Spec.remaining_budget; destruct (Z.leb_spec z 0); lia).
    rewrite <- Hb. destruct r; reflexivity.
  - cbn [Reactor.on_each List.length]. unfold Reactor.on.
    rewrite Hb, le_zero_of_Z. destruct (Z.leb_spec z 0) as [Hle|Hpos].
    + specialize (IH r z w Hsafe Hb).
      destruct (Reactor.on_each r es w) as [[rs r''] w'']. cbn [fst snd] in *.
      rewrite IH. unfold Spec.remaining_budget.
      destruct (Z.leb_spec z 0); [reflexivity|lia].
    + rewrite decrement_of_Z by lia.
      destruct (Reactor._on (Reactor.with_budget r (Js.of_Z (z - 1))) e w) as [out w'].
      specialize (IH (Reactor.with_budget r (Js.of_Z (z - 1))) (z - 1)%Z w').
      destruct (Reactor.on_each (Reactor.with_budget r (Js.of_Z (z - 1))) es w')
        as [[rs r''] w'']. cbn [fst snd] in *.
      rewrite IH; [|lia|destruct r; reflexivity].
      replace (Spec.remaining_budget (z - 1) (List.length es))
        with (Spec.remaining_budget z (S (List.length es)))
        by (unfold Spec.remaining_budget;
            destruct (Z.leb_spec z 0); destruct (Z.leb_spec (z - 1) 0); lia).
      destruct r; reflexivity.
Qed.

End ReactorHealth.

(** X1. The health report of a Reactor follows its circuit breaker.  For
    a reactor built with a budget that is an integer [z] of at most
    [2^53] and then sent [k] events, [health()] reports as
    [budgetRemaining] the number [z] itself when [z] is zero or negative,
    and [z - k], or zero once [k] exceeds [z], otherwise; and its status
    is "safe-mode" exactly when [z <= k], whatever the children report. *)
Theorem reactor_health_tracks_budget {Schema TEvent TResponse World : Type}
    (JSON_stringify : Schema -> string) (child_health : nat -> CellHealth.t)
    (config : ReactorConfig.t Schema TEvent TResponse World) (now : string)
    (z : Z) (events : list TEvent) (w : World) :
  (z <= 2 ^ 53)%Z ->
  ReactorConfig.complexityBudget config = Some (Js.of_Z z) ->
  let fresh := Reactor.constructor JSON_stringify config now in
  let spent := snd (fst (Reactor.on_each fresh events w)) in
  let report := ReactorCell.health child_health spent in
  CellHealth.budgetRemaining report =
    Some (Js.PNumber
            (Js.of_Z (if (z <=? 0)%Z then z
                      else Z.max 0 (z - Z.of_nat (List.length events))))) /\
  (CellHealth.status report = "safe-mode" <-> (z <= Z.of_nat (List.length events))%Z).
Proof.
  intros Hsafe Hbudget fresh spent report.
  assert (Hb : Reactor._complexityBudget fresh = Js.of_Z z).
  { unfold fresh, Reactor.constructor. rewrite Hbudget. reflexivity. }
  assert (Hspent : Reactor._complexityBudget spent =
                   Js.of_Z (Spec.remaining_budget z (List.length events))).
  { unfold spent. rewrite (on_each_spent events fresh z w Hsafe Hb).
    destruct fresh; reflexivity. }
  split.
  - unfold report. rewrite health_budgetRemaining, Hspent. reflexivity.
  - unfold report. rewrite health_safe_mode_iff, Hspent, le_zero_of_Z.
    rewrite Z.leb_le. unfold Spec.remaining_budget.
    destruct (Z.leb_spec z 0); lia.
Qed.

(** A reactor with a budget of three: after four events it reports
    nothing left and is in safe-mode. *)
Lemma reactor_health_witness :
  let fresh := Reactor.constructor Sample.JSON_stringify
                 (Sample.doubling (Some (Js.of_Z 3)) None) Sample.now in
  let spent := snd (fst (Reactor.on_each fresh [1; 2; 3; 4]%nat ([] : list nat))) in
  let report :=
    ReactorCell.health
      (fun _ => {| CellHealth.status := "healthy"; CellHealth.message := None;
                   CellHealth.budgetRemaining := None; CellHealth.children := None |})
      spent in
  CellHealth.budgetRemaining report =
    Some (Js.PNumber
            (Js.of_Z (if (3 <=? 0)%Z then 3%Z
                      else Z.max 0 (3 - Z.of_nat (List.length [1; 2; 3; 4]%nat))))) /\
  (CellHealth.status report = "safe-mode" <->
   (3 <= Z.of_nat (List.length [1; 2; 3; 4]%nat))%Z).
Proof.
  apply (reactor_health_tracks_budget Sample.JSON_stringify _
           (Sample.doubling (Some (Js.of_Z 3)) None) Sample.now 3%Z [1; 2; 3; 4]%nat []).
  - vm_compute. discriminate.
  - reflexivity.
Defined.

(** A budget of minus one is reported as it is, in safe-mode from the
    start. *)
Example reactor_health_negative_budget :
  let fresh := Reactor.constructor Sample.JSON_stringify
                 (Sample.doubling (Some (Js.of_Z (-1))) None) Sample.now in
  let report :=
    ReactorCell.health
      (fun _ => {| CellHealth.status := "healthy"; CellHealth.message := None;
                   CellHealth.budgetRemaining := None; CellHealth.children := None |})
      (snd (fst (Reactor.on_each fresh [1; 2]%nat ([] : list nat)))) in
  CellHealth.budgetRemaining report = Some (Js.PNumber (Js.of_Z (-1))) /\
  CellHealth.status report = "safe-mode".
Proof. vm_compute. split; reflexivity. Qed.

(* ===================================================================== *)
(** * Further properties of the validator                                 *)
(* ===================================================================== *)

(** ** File names *)

Lemma split_nonempty (c : ascii) (s : string) : Js_split.split c s <> [].
Proof.
  destruct s as [|d s]; simpl; [discriminate|].
  destruct (Js_split.split c s); [discriminate|].
  destruct (Ascii.eqb d c); discriminate.
Qed.

Lemma split_no_separator (c : ascii) (t : string) :
  Js_split.no_separator c t -> Js_split.split c t = [t].
Proof.
  unfold Js_split.no_separator. induction t as [|d t IH]; simpl; [reflexivity|].
  intros H. apply andb_prop in H as [Hd Ht].
  rewrite (IH Ht). apply negb_true_iff in Hd. rewrite Hd. reflexivity.
Qed.

Lemma split_app (c : ascii) (s t : string) :
  Js_split.no_separator c t ->
  Js_split.split c (s ++ t) =
  app (removelast (Js_split.split c s)) [List.last (Js_split.split c s) "" ++ t].
Proof.
  intros Ht. induction s as [|d s IH].
  - simpl. apply split_no_separator, Ht.
  - cbn [String.append Js_split.split]. rewrite IH.
    pose proof (split_nonempty c s) as Hne.
    destruct (Js_split.split c s) as [|piece [|p2 ps]]; [congruence| |].
    + cbn. destruct (Ascii.eqb d c); reflexivity.
    + cbn [removelast List.last app].
      destruct (Ascii.eqb d c); reflexivity.
Qed.

Lemma last_split_app (c : ascii) (s t : string) :
  Js_split.no_separator c t ->
  List.last (Js_split.split c (s ++ t)) "" = List.last (Js_split.split c s) "" ++ t.
Proof. intros Ht. rewrite (split_app c s t Ht). apply last_last. Qed.

Lemma split_at_separator (c : ascii) (s t : string) :
  Js_split.split c (s ++ String c t) = app (Js_split.split c s) (Js_split.split c t).
Proof.
  induction s as [|d s IH].
  - simpl. rewrite Ascii.eqb_refl.
    pose proof (split_nonempty c t) as Hne.
    destruct (Js_split.split c t); [congruence|reflexivity].
  - cbn [String.append Js_split.split]. rewrite IH.
    pose proof (split_nonempty c s) as Hne.
    destruct (Js_split.split c s) as [|piece pieces]; [congruence|].
    cbn [app]. destruct (Ascii.eqb d c); reflexivity.
Qed.

Lemma last_app_nonempty {A} (xs ys : list A) (d : A) :
  ys <> [] -> List.last (app xs ys) d = List.last ys d.
Proof.
  intros Hne. destruct ys as [|y ys] using rev_ind; [congruence|].
  rewrite app_assoc, !last_last. reflexivity.
Qed.

Lemma pop_last (xs : list string) :
  xs <> [] -> Js_split.pop xs = Some (List.last xs "").
Proof.
  unfold Js_split.pop. induction xs as [|x [|y ys] IH]; intros Hne; [congruence|reflexivity|].
  cbn [map List.last] in *. apply IH. discriminate.
Qed.

Lemma drop_app_length (f t : string) : Js.drop (String.length f) (f ++ t) = t.
Proof. induction f as [|c f IH]; [destruct t; reflexivity|exact IH]. Qed.

Lemma fileName_of_js (p : string) :
  Checks.fileName_of (p ++ ".js") = List.last (Js_split.split "/" p) "" ++ ".js".
Proof.
  unfold Checks.fileName_of.
  rewrite (pop_last _ (split_nonempty "/" (p ++ ".js"))).
  apply last_split_app. reflexivity.
Qed.

Lemma strip_ts_js (f : string) : Js_split.strip_ts (f ++ ".js") = f ++ ".js".
Proof.
  unfold Js_split.strip_ts, Js_split.endsWith.
  rewrite append_length. cbn [String.length].
  replace (String.length f + 3 - 3)%nat with (String.length f) by lia.
  rewrite drop_app_length. cbn [String.eqb Ascii.eqb]. rewrite andb_false_r. reflexivity.
Qed.

Lemma fileName_violation_js {Schema} (cell : DiscoveredCell.t Schema) (p : string) :
  DiscoveredCell.filePath cell = p ++ ".js" ->
  Checks.fileName_violation cell = [].
Proof.
  intros Hpath. unfold Checks.fileName_violation.
  rewrite Hpath, fileName_of_js. set (f := List.last (Js_split.split "/" p) "").
  destruct (Js.truthy (f ++ ".js") && negb (Js.startsWith (f ++ ".js") "app.") &&
            negb (Js.startsWith (f ++ ".js") "index.")); [|reflexivity].
  rewrite strip_ts_js.
  change (f ++ ".js") with (f ++ String "." "js").
  rewrite split_at_separator.
  rewrite (last_app_nonempty _ (Js_split.split "." "js") "") by discriminate.
  destruct (Nat.leb 2 _); reflexivity.
Qed.

(** X2. The file-name convention is not enforced on compiled cells.  For
    a cell without children whose file path ends in ".js" (the only files
    the validator's discovery loads), [cellTypeCheck] reports the invalid
    cell type if the declared type is none of the four, and nothing else:
    it passes exactly when the declared type is valid, whatever type the
    file name suggests. *)
Theorem cellTypeCheck_ignores_compiled_file_names {Schema : Type}
    (cell : DiscoveredCell.t Schema) (p : string) :
  DiscoveredCell.filePath cell = p ++ ".js" ->
  DiscoveredCell.children cell = [] ->
  CheckResult.violations (Checks.cellTypeCheck [cell]) =
    (if Js_array.includes Checks.VALID_CELL_TYPES (Checks.cell_type cell) then []
     else [{| Violation.cell := Checks.cell_name cell;
              Violation.file := DiscoveredCell.filePath cell;
              Violation.message :=
                "Invalid cellType " ++ quote ++ Checks.cell_type cell ++ quote ++
                ". Must be one of: transformer, reactor, keeper, channel";
              Violation.principle := "I" |}]) /\
  CheckResult.passed (Checks.cellTypeCheck [cell]) =
    Js_array.includes Checks.VALID_CELL_TYPES (Checks.cell_type cell).
Proof.
  intros Hpath Hkids.
  assert (Hown : Checks.cellTypeCheck_cell cell =
                 if Js_array.includes Checks.VALID_CELL_TYPES (Checks.cell_type cell) then []
                 else [{| Violation.cell := Checks.cell_name cell;
                          Violation.file := DiscoveredCell.filePath cell;
                          Violation.message :=
                            "Invalid cellType " ++ quote ++ Checks.cell_type cell ++ quote ++
                            ". Must be one of: transformer, reactor, keeper, channel";
                          Violation.principle := "I" |}]).
  { pose proof (fileName_violation_js cell p Hpath) as Hfile.
    destruct cell as [fp id i o l s m kids hh ht hr]. cbn in Hkids. subst kids.
    cbn [Checks.cellTypeCheck_cell DiscoveredCell.children].
    rewrite Hfile.
    destruct (Js_array.includes Checks.VALID_CELL_TYPES _); reflexivity. }
  unfold Checks.cellTypeCheck.
  cbn [CheckResult.violations CheckResult.passed flat_map]. rewrite app_nil_r, Hown.
  destruct (Js_array.includes Checks.VALID_CELL_TYPES (Checks.cell_type cell));
    split; reflexivity.
Qed.

(** The ingester of the data pipeline, compiled, declared a reactor in a
    file named as a keeper: the check passes. *)
Lemma cellTypeCheck_compiled_witness :
  let cell :=
    DiscoveredCell.set_children
      (DiscoveredCell.make "dist/ingester.keeper.js"
         (DiscoveredCell.identity Sample.unmediated) (DiscoveredCell.input Sample.unmediated)
         (DiscoveredCell.output Sample.unmediated) (DiscoveredCell.lineage Sample.unmediated)
         (DiscoveredCell.signature Sample.unmediated)
         (DiscoveredCell.contextMap Sample.unmediated) [] true true None) [] in
  CheckResult.violations (Checks.cellTypeCheck [cell]) = [] /\
  CheckResult.passed (Checks.cellTypeCheck [cell]) = true.
Proof.
  exact (cellTypeCheck_ignores_compiled_file_names
           (DiscoveredCell.set_children
              (DiscoveredCell.make "dist/ingester.keeper.js"
                 (DiscoveredCell.identity Sample.unmediated)
                 (DiscoveredCell.input Sample.unmediated)
                 (DiscoveredCell.output Sample.unmediated)
                 (DiscoveredCell.lineage Sample.unmediated)
                 (DiscoveredCell.signature Sample.unmediated)
                 (DiscoveredCell.contextMap Sample.unmediated) [] true true None) [])
           "dist/ingester.keeper" eq_refl eq_refl).
Defined.

(** The same cell under its source path is reported, as the validator's
    tests expect. *)
Example cellTypeCheck_source_file_mismatch :
  map Violation.message
    (CheckResult.violations
       (Checks.cellTypeCheck
          [DiscoveredCell.make "src/ingester.keeper.ts"
             (DiscoveredCell.identity Sample.unmediated)
             (DiscoveredCell.input Sample.unmediated)
             (DiscoveredCell.output Sample.unmediated)
             (DiscoveredCell.lineage Sample.unmediated)
             (DiscoveredCell.signature Sample.unmediated)
             (DiscoveredCell.contextMap Sample.unmediated) [] true true None])) =
  ["File name suggests type " ++ quote ++ "keeper" ++ quote ++
   " but cell declares type " ++ quote ++ "reactor" ++ quote].
Proof. vm_compute. reflexivity. Qed.

(** ** A reactor of the SDK under the eight checks *)

Lemma if_singleton_nil {A} (b : bool) (x : A) : (if b then [x] else []) = [] -> b = false.
Proof. destruct b; [discriminate|reflexivity]. Qed.

Ltac split_nil :=
  repeat match goal with
         | H : @app _ _ _ = [] |- _ => apply app_eq_nil in H; destruct H
         | H : (if _ then [_] else []) = [] |- _ => apply if_singleton_nil in H
         end.

Section LeafReactor.

Context {Schema TEvent TResponse World : Type}.
Variable Schema_truthy : Schema -> bool.
Variable JSON_stringify : Schema -> string.
Variable Number_toString : Js.number -> string.
Variable child_health : nat -> CellHealth.t.

Local Abbreviation reactor := (@Reactor.t Schema TEvent TResponse World).

Lemma leaf_reactor_checks (r : reactor) (p : string) :
  Reactor._children r = [] ->
  Contract.validateContract Schema_truthy (Reactor.contract r) = [] ->
  CellSignature.hash (Reactor.signature r) =
    Signature.sha256 (Signature.cellContent JSON_stringify (Reactor.contract r)) ->
  Js.lt_zero (Reactor._complexityBudget r) = false ->
  Checks.allPassed Schema_truthy JSON_stringify Number_toString
    [Discovery.cellToDiscovered (Discovery.of_reactor child_health r []) (p ++ ".js")] = true.
Proof.
  intros Hleaf Hvalid Hhash Hbudget.
  unfold Contract.validateContract, Contract.validateIdentity, Contract.validateInput,
    Contract.validateOutput, Contract.validateLineage, Contract.validateSignature in Hvalid.
  split_nil.
  destruct r as [id inp out lin sig on_ listens kids parent budget maxBudget].
  cbn [Reactor.contract Reactor._children Reactor.signature Reactor._complexityBudget
       Reactor.identity Reactor.input Reactor.output Reactor.lineage
       UniversalContract.identity UniversalContract.input UniversalContract.output
       UniversalContract.lineage UniversalContract.signature] in *.
  subst kids.
  unfold Checks.allPassed, Checks.all_checks.
  set (cell := Discovery.cellToDiscovered _ _).
  assert (Hpath : DiscoveredCell.filePath cell = p ++ ".js") by reflexivity.
  pose proof (fileName_violation_js cell p Hpath) as Hfile.
  unfold Contract.blank in *. unfold Contract.CELL_TYPES in *.
  apply negb_false_iff in H10, H0, H1.
  apply orb_false_iff in H11 as [Hv1 Hv2], H3 as [Hs1 Hs2].
  apply negb_false_iff in Hv2, Hs2.
  unfold Checks.cellTypeCheck, Checks.contractCheck, Validator.compositionCheck,
    Checks.selfSimilarityCheck, Checks.contextMapCheck, Validator.signatureCheck,
    Validator.circuitBreakerCheck, Checks.lineageCheck.
  cbn [forallb CheckResult.passed flat_map].
  rewrite !app_nil_r.
  unfold Checks.cell_type, Checks.cell_name, Validator.cell_type, Validator.cell_name in *.
  assert (Hc1 : Checks.cellTypeCheck_cell cell = []).
  { unfold cell. cbn. cbn in Hfile. unfold Checks.cell_type, Checks.cell_name in *.
    cbn in *. rewrite Hfile. rewrite H10. reflexivity. }
  assert (Hc2 : Checks.contractCheck_cell Schema_truthy cell = []).
  { unfold cell. cbn. unfold Checks.blank, Checks.cell_name. cbn.
    rewrite H, Hv1, Hv2, H0, H9, H1, H8, Hs1, Hs2, H4. reflexivity. }
  assert (Hc3 : Validator.compositionCheck_cell cell = []) by reflexivity.
  assert (Hc4 : Checks.selfSimilarityCheck_cell cell = []) by reflexivity.
  assert (Hc5 : Checks.contextMapCheck_cell cell = []).
  { apply orb_false_iff in H as [Hn _].
    unfold cell. cbn. rewrite Hn, Hs1. reflexivity. }
  assert (Hc6 : Validator.signatureCheck_cell JSON_stringify cell = []).
  { rewrite signatureCheck_cell_unfold. unfold cell. cbn.
    rewrite Hs1, Hs2, H4. cbn.
    unfold Signature.sha256, Signature.cellContent in Hhash. cbn in Hhash.
    rewrite <- Hhash, String.eqb_refl. reflexivity. }
  assert (Hc7 : Validator.check Number_toString cell = []).
  { rewrite check_unfold. unfold cell. cbn. rewrite Hbudget.
    destruct (String.eqb _ "transformer" || String.eqb _ "reactor"); reflexivity. }
  assert (Hc8 : Checks.lineage_check cell = []).
  { unfold cell. cbn. unfold Checks.blank. cbn. rewrite H2, H5, H6, H7. reflexivity. }
  rewrite Hc1, Hc2, Hc3, Hc4, Hc5, Hc6, Hc7, Hc8. reflexivity.
Qed.

End LeafReactor.

Lemma lt_zero_of_Z (z : Z) : Js.lt_zero (Js.of_Z z) = (z <? 0)%Z.
Proof.
  unfold Js.lt_zero, Js.of_Z, Qle_bool, inject_Z. simpl. rewrite Z.mul_1_r.
  destruct (Z.ltb_spec z 0); [apply negb_true_iff, Z.leb_gt|apply negb_false_iff, Z.leb_le];
    lia.
Qed.

Section ReactorBreaker.

Context {Schema TEvent TResponse World : Type}.
Variable Number_toString : Js.number -> string.
Variable child_health : nat -> CellHealth.t.

(** A reactor whose remaining budget is below zero fails the circuit
    breaker check, whatever its children. *)
Lemma negative_budget_rejected (r : @Reactor.t Schema TEvent TResponse World)
    (children : list (LiveCell.t Schema)) (filePath : string) :
  CellIdentity.cellType (Reactor.identity r) = "reactor" ->
  Js.lt_zero (Reactor._complexityBudget r) = true ->
  CheckResult.passed
    (Validator.circuitBreakerCheck Number_toString
       [Discovery.cellToDiscovered (Discovery.of_reactor child_health r children)
          filePath]) = false.
Proof.
  intros Hty Hneg.
  unfold Validator.circuitBreakerCheck. cbn [CheckResult.passed flat_map].
  rewrite app_nil_r, check_unfold.
  destruct r as [id inp out lin sig on_ listens kids parent budget maxBudget].
  cbn in Hty, Hneg. cbn. unfold Validator.cell_type. cbn. rewrite Hty. cbn.
  rewrite health_budgetRemaining. cbn. rewrite Hneg. reflexivity.
Qed.

End ReactorBreaker.

(** X3. A leaf Reactor that the SDK's own [validateContract] accepts
    passes the validator unless its budget is negative.  Built by the
    constructor with no children and a budget that is an integer [z] of
    at most [2^53], then sent any events, and discovered from a compiled
    file, the reactor passes all eight constitutional checks exactly when
    [z] is not negative: its signature is the one the validator
    recomputes, its context map and health report are the ones the checks
    ask for, and its remaining budget stops at zero; a negative budget is
    reported as it is and fails the circuit breaker check. *)
Theorem sdk_leaf_reactor_passes_validator {Schema TEvent TResponse World : Type}
    (Schema_truthy : Schema -> bool) (JSON_stringify : Schema -> string)
    (Number_toString : Js.number -> string) (child_health : nat -> CellHealth.t)
    (config : ReactorConfig.t Schema TEvent TResponse World) (now p : string)
    (z : Z) (events : list TEvent) (w : World) :
  (z <= 2 ^ 53)%Z ->
  Js_array.or_empty (ReactorConfig.children config) = [] ->
  ReactorConfig.complexityBudget config = Some (Js.of_Z z) ->
  Contract.validateContract Schema_truthy
    (Reactor.contract (Reactor.constructor JSON_stringify config now)) = [] ->
  let fresh := Reactor.constructor JSON_stringify config now in
  let spent := snd (fst (Reactor.on_each fresh events w)) in
  Checks.allPassed Schema_truthy JSON_stringify Number_toString
    [Discovery.cellToDiscovered (Discovery.of_reactor child_health spent [])
       (p ++ ".js")] = (0 <=? z)%Z.
Proof.
  intros Hsafe Hleaf Hbudget Hvalid fresh spent.
  assert (Hb : Reactor._complexityBudget fresh = Js.of_Z z).
  { unfold fresh, Reactor.constructor. rewrite Hbudget. reflexivity. }
  assert (Hkids : Reactor._children fresh = []).
  { unfold fresh, Reactor.constructor. cbn [Reactor.with_signature Reactor._children].
    exact Hleaf. }
  assert (Hsig : CellSignature.hash (Reactor.signature fresh) =
                 Signature.sha256 (Signature.cellContent JSON_stringify
                                     (Reactor.contract fresh))).
  { unfold fresh, Reactor.constructor, Reactor.computeSignature.
    cbn [Reactor.with_signature Reactor._children Reactor.signature].
    unfold Js_array.or_empty in Hleaf. rewrite Hleaf. reflexivity. }
  assert (Hty : CellIdentity.cellType (Reactor.identity fresh) = "reactor") by reflexivity.
  unfold spent. rewrite (on_each_spent events fresh z w Hsafe Hb).
  assert (Hleft : Js.lt_zero (Js.of_Z (Spec.remaining_budget z (List.length events))) =
                  (z <? 0)%Z).
  { rewrite lt_zero_of_Z. unfold Spec.remaining_budget.
    destruct (Z.leb_spec z 0); [reflexivity|].
    destruct (Z.ltb_spec (Z.max 0 (z - Z.of_nat (List.length events))) 0);
      destruct (Z.ltb_spec z 0); try reflexivity; lia. }
  change (Contract.validateContract Schema_truthy (Reactor.contract fresh) = []) in Hvalid.
  clearbody fresh.
  destruct (Z.leb_spec 0 z) as [Hnn|Hneg].
  - apply leaf_reactor_checks.
    + destruct fresh; exact Hkids.
    + replace (Reactor.contract (Reactor.with_budget fresh _))
        with (Reactor.contract fresh) by (destruct fresh; reflexivity).
      exact Hvalid.
    + replace (Reactor.contract (Reactor.with_budget fresh _))
        with (Reactor.contract fresh) by (destruct fresh; reflexivity).
      replace (Reactor.signature (Reactor.with_budget fresh _))
        with (Reactor.signature fresh) by (destruct fresh; reflexivity).
      exact Hsig.
    + replace (Reactor._complexityBudget (Reactor.with_budget fresh _))
        with (Js.of_Z (Spec.remaining_budget z (List.length events)))
        by (destruct fresh; reflexivity).
      rewrite Hleft. apply Z.ltb_ge. exact Hnn.
  - apply not_true_is_false. intros Hall.
    unfold Checks.allPassed in Hall. rewrite List.forallb_forall in Hall.
    specialize (Hall (Validator.circuitBreakerCheck Number_toString
                        [Discovery.cellToDiscovered
                           (Discovery.of_reactor child_health
                              (Reactor.with_budget fresh
                                 (Js.of_Z (Spec.remaining_budget z (List.length events))))
                              [])
                           (p ++ ".js")])).
    rewrite negative_budget_rejected in Hall.
    + discriminate Hall. unfold Checks.all_checks. cbn [In]. tauto.
    + destruct fresh; exact Hty.
    + replace (Reactor._complexityBudget (Reactor.with_budget fresh _))
        with (Js.of_Z (Spec.remaining_budget z (List.length events)))
        by (destruct fresh; reflexivity).
      rewrite Hleft. apply Z.ltb_lt. exact Hneg.
Qed.

(** The doubling reactor with a budget of three, after four events. *)
Lemma sdk_leaf_reactor_witness :
  let fresh := Reactor.constructor Sample.JSON_stringify
                 (Sample.doubling (Some (Js.of_Z 3)) None) Sample.now in
  let spent := snd (fst (Reactor.on_each fresh [1; 2; 3; 4]%nat ([] : list nat))) in
  Checks.allPassed (fun _ => true) Sample.JSON_stringify Sample.Number_toString
    [Discovery.cellToDiscovered
       (Discovery.of_reactor
          (fun _ => {| CellHealth.status := "healthy"; CellHealth.message := None;
                       CellHealth.budgetRemaining := None; CellHealth.children := None |})
          spent [])
       ("dist/doubler.reactor" ++ ".js")] = (0 <=? 3)%Z.
Proof.
  apply (sdk_leaf_reactor_passes_validator (fun _ => true) Sample.JSON_stringify
           Sample.Number_toString _ (Sample.doubling (Some (Js.of_Z 3)) None)
           Sample.now "dist/doubler.reactor" 3%Z [1; 2; 3; 4]%nat []).
  - vm_compute. discriminate.
  - reflexivity.
  - reflexivity.
  - vm_compute. reflexivity.
Defined.

(** X4. The Reactor constructor takes any number as budget.  With a
    fractional budget between 0 and 1 (a double, as every JavaScript
    number is) the first event is still handled (the budget is above
    zero) and leaves the remaining budget below zero: [health()] then
    reports "safe-mode" with a negative [budgetRemaining], and the
    validator's circuit breaker check rejects the discovered reactor. *)
Theorem reactor_fractional_budget_goes_negative {Schema TEvent TResponse World : Type}
    (JSON_stringify : Schema -> string) (Number_toString : Js.number -> string)
    (child_health : nat -> CellHealth.t)
    (config : ReactorConfig.t Schema TEvent TResponse World) (now filePath : string)
    (children : list (LiveCell.t Schema)) (q : Q) (e : TEvent) (w : World) :
  Js.is_double q = true ->
  (0 < q)%Q -> (q < 1)%Q ->
  ReactorConfig.complexityBudget config = Some (Js.Finite q) ->
  let fresh := Reactor.constructor JSON_stringify config now in
  let spent := snd (fst (Reactor.on fresh e w)) in
  (fst (fst (Reactor.on fresh e w)), snd (Reactor.on fresh e w)) =
    ReactorConfig.on config e w /\
  Js.lt_zero (Reactor.budgetRemaining spent) = true /\
  CellHealth.status (ReactorCell.health child_health spent) = "safe-mode" /\
  CheckResult.passed
    (Validator.circuitBreakerCheck Number_toString
       [Discovery.cellToDiscovered (Discovery.of_reactor child_health spent children)
          filePath]) = false.
Proof.
  intros Hdouble Hpos Hlt Hbudget fresh spent.
  assert (Hb : Reactor._complexityBudget fresh = Js.Finite q).
  { unfold fresh, Reactor.constructor. rewrite Hbudget. reflexivity. }
  assert (Hon : Reactor._on fresh = ReactorConfig.on config) by reflexivity.
  assert (Hty : CellIdentity.cellType (Reactor.identity fresh) = "reactor") by reflexivity.
  assert (Hle : Js.le_zero (Js.Finite q) = false).
  { destruct (Js.le_zero (Js.Finite q)) eqn:E; [|reflexivity].
    apply Qle_bool_iff in E. exfalso. apply (Qlt_not_le _ _ Hpos E). }
  pose proof (decrement_below_one q Hdouble Hlt) as Hneg.
  assert (Hexhausted : Js.le_zero (Js.decrement (Js.Finite q)) = true).
  { destruct (Js.decrement (Js.Finite q)) as [| | |d]; try discriminate Hneg;
      [reflexivity|].
    cbn [Js.lt_zero Js.le_zero] in *. apply negb_true_iff in Hneg.
    apply Qle_bool_iff. destruct (Qlt_le_dec 0 d) as [H0|H0]; [|exact H0].
    exfalso. apply Qlt_le_weak, Qle_bool_iff in H0. congruence. }
  assert (Hspent : Reactor.on fresh e w =
                   (fst (ReactorConfig.on config e w),
                    Reactor.with_budget fresh (Js.decrement (Js.Finite q)),
                    snd (ReactorConfig.on config e w))).
  { unfold Reactor.on. rewrite Hb, Hle.
    replace (Reactor._on (Reactor.with_budget fresh (Js.decrement (Js.Finite q))))
      with (ReactorConfig.on config) by reflexivity.
    destruct (ReactorConfig.on config e w); reflexivity. }
  unfold spent. rewrite Hspent. cbn [fst snd]. clearbody fresh.
  split; [destruct (ReactorConfig.on config e w); reflexivity|].
  split; [destruct fresh; exact Hneg|].
  split.
  - apply health_safe_mode_iff. destruct fresh; exact Hexhausted.
  - apply negative_budget_rejected; destruct fresh; assumption.
Qed.

(** The doubling reactor built with a budget of one half, sent one event. *)
Lemma reactor_fractional_budget_witness :
  let config := Sample.doubling (Some (Js.Finite (1 # 2))) None in
  let fresh := Reactor.constructor Sample.JSON_stringify config Sample.now in
  let spent := snd (fst (Reactor.on fresh 1%nat ([] : list nat))) in
  let report :=
    ReactorCell.health
      (fun _ => {| CellHealth.status := "healthy"; CellHealth.message := None;
                   CellHealth.budgetRemaining := None; CellHealth.children := None |})
      spent in
  (fst (fst (Reactor.on fresh 1%nat [])), snd (Reactor.on fresh 1%nat [])) =
    ReactorConfig.on config 1%nat [] /\
  Js.lt_zero (Reactor.budgetRemaining spent) = true /\
  CellHealth.status report = "safe-mode" /\
  CheckResult.passed
    (Validator.circuitBreakerCheck Sample.Number_toString
       [Discovery.cellToDiscovered
          (Discovery.of_reactor
             (fun _ => {| CellHealth.status := "healthy"; CellHealth.message := None;
                          CellHealth.budgetRemaining := None;
                          CellHealth.children := None |})
             spent [])
          "dist/doubler.reactor.js"]) = false.
Proof.
  apply (reactor_fractional_budget_goes_negative Sample.JSON_stringify
           Sample.Number_toString _ (Sample.doubling (Some (Js.Finite (1 # 2))) None)
           Sample.now "dist/doubler.reactor.js" [] (1 # 2) 1%nat []).
  - vm_compute. reflexivity.
  - reflexivity.
  - reflexivity.
  - reflexivity.
Defined.

(** ** The Channel *)

Section ChannelProperties.

Context {Schema TData : Type}.
Variable JSON_stringify : Schema -> string.
Variable Number_toString : Js.number -> string.
Variable is_undefined : TData -> bool.

Local Abbreviation channel := (@Channel.t Schema TData).
Local Abbreviation send := (Channel.send Number_toString).
Local Abbreviation receive := (Channel.receive is_undefined).
Local Abbreviation send_each := (Channel.send_each Number_toString).
Local Abbreviation receive_each := (Channel.receive_each is_undefined).

Lemma ge_of_nat (n m : nat) :
  Js_number.ge (Js_number.of_nat n) (Js_number.of_nat m) = Nat.leb m n.
Proof.
  unfold Js_number.ge, Js_number.of_nat, Js.of_Z, Qle_bool, inject_Z. simpl.
  rewrite !Z.mul_1_r. destruct (Nat.leb_spec m n) as [H|H].
  - apply Z.leb_le. lia.
  - apply Z.leb_gt. lia.
Qed.

Lemma with_buffer_buffer (c : channel) (b : list TData) :
  Channel._buffer (Channel.with_buffer c b) = b.
Proof. reflexivity. Qed.

Lemma with_buffer_twice (c : channel) (b b' : list TData) :
  Channel.with_buffer (Channel.with_buffer c b) b' = Channel.with_buffer c b'.
Proof. reflexivity. Qed.

Lemma with_buffer_same (c : channel) : Channel.with_buffer c (Channel._buffer c) = c.
Proof. destruct c; reflexivity. Qed.

(** Sends that fit are all accepted and append to the buffer. *)
Lemma send_each_fits (items : list TData) :
  forall (c : channel) (size : nat),
    Channel._bufferSize c = Js_number.of_nat size ->
    (List.length (Channel._buffer c) + List.length items <= size)%nat ->
    send_each c items =
      (map (fun _ => Resolved tt) items,
       Channel.with_buffer c (app (Channel._buffer c) items)).
Proof.
  induction items as [|d items IH]; intros c size Hsize Hfit.
  - cbn. rewrite app_nil_r, with_buffer_same. reflexivity.
  - cbn [Channel.send_each List.length map] in *.
    unfold Channel.send at 1. rewrite Hsize, ge_of_nat.
    destruct (Nat.leb_spec size (List.length (Channel._buffer c))) as [H|H]; [lia|].
    rewrite (IH (Channel.with_buffer c (app (Channel._buffer c) [d])) size).
    + rewrite with_buffer_buffer, with_buffer_twice, <- app_assoc. reflexivity.
    + destruct c; exact Hsize.
    + rewrite with_buffer_buffer, length_app. cbn. lia.
Qed.

(** Receiving as many items as the buffer holds gives them back in
    order, none of them being [undefined]. *)
Lemma receive_each_all (items : list TData) :
  forall (c : channel),
    Channel._buffer c = items ->
    forallb (fun d => negb (is_undefined d)) items = true ->
    receive_each c (List.length items) =
      (map Resolved items, Channel.with_buffer c []).
Proof.
  induction items as [|d items IH]; intros c Hbuf Hdef.
  - cbn. rewrite <- Hbuf, with_buffer_same. reflexivity.
  - cbn [List.length Channel.receive_each map forallb] in *.
    apply andb_prop in Hdef as [Hd Hrest]. apply negb_true_iff in Hd.
    unfold Channel.receive at 1. rewrite Hbuf, Hd.
    rewrite (IH (Channel.with_buffer c items)); [|reflexivity|exact Hrest].
    reflexivity.
Qed.

End ChannelProperties.

(** X5. A Channel is a first-in first-out buffer.  Into a channel fresh
    from its constructor, with a buffer size of [size], any items that
    fit (none of them [undefined]) are all accepted by [send]; [length]
    then counts them; as many [receive]s return them in the order they
    were sent; and the channel is then as it left the constructor. *)
Theorem channel_fifo_round_trip {Schema TData : Type}
    (JSON_stringify : Schema -> string) (Number_toString : Js.number -> string)
    (is_undefined : TData -> bool)
    (config : ChannelConfig.t Schema) (now : string) (size : nat) (items : list TData) :
  ChannelConfig.bufferSize config = Some (Js_number.of_nat size) ->
  (List.length items <= size)%nat ->
  forallb (fun d => negb (is_undefined d)) items = true ->
  let fresh := Channel.constructor JSON_stringify config now in
  let loaded := snd (Channel.send_each Number_toString fresh items) in
  let drained := Channel.receive_each is_undefined loaded (List.length items) in
  fst (Channel.send_each Number_toString fresh items) = map (fun _ => Resolved tt) items /\
  Channel.length loaded = List.length items /\
  Channel.peek loaded = List.head items /\
  fst drained = map Resolved items /\
  snd drained = fresh.
Proof.
  intros Hsize Hfit Hdef fresh loaded drained.
  assert (Hb : Channel._bufferSize fresh = Js_number.of_nat size).
  { unfold fresh, Channel.constructor. rewrite Hsize. reflexivity. }
  assert (Hempty : Channel._buffer fresh = []) by reflexivity.
  assert (Hsend : Channel.send_each Number_toString fresh items =
                  (map (fun _ => Resolved tt) items, Channel.with_buffer fresh items)).
  { rewrite (send_each_fits Number_toString items fresh size Hb).
    - rewrite Hempty. reflexivity.
    - rewrite Hempty. cbn. exact Hfit. }
  unfold drained, loaded. rewrite Hsend. cbn [fst snd].
  rewrite (receive_each_all is_undefined items (Channel.with_buffer fresh items)
             eq_refl Hdef).
  cbn [fst snd]. repeat split.
Qed.

(** A channel of size 3 carrying the numbers 7, 8, 9. *)
Lemma channel_fifo_witness :
  let config :=
    {| ChannelConfig.name := "pipe"; ChannelConfig.version := "1.0.0";
       ChannelConfig.input := {| CellInput.schema := Sample.string_schema;
                                 CellInput.description := "a number" |};
       ChannelConfig.output := {| CellOutput.schema := Sample.string_schema;
                                  CellOutput.description := "the number" |};
       ChannelConfig.lineage := Sample.lineage;
       ChannelConfig.parent := None;
       ChannelConfig.bufferSize := Some (Js_number.of_nat 3);
       ChannelConfig.children := None |} in
  let fresh := Channel.constructor Sample.JSON_stringify config Sample.now in
  let loaded := snd (Channel.send_each Sample.Number_toString fresh [7; 8; 9]%nat) in
  let drained := Channel.receive_each (fun _ : nat => false) loaded 3 in
  fst (Channel.send_each Sample.Number_toString fresh [7; 8; 9]%nat) =
    [Resolved tt; Resolved tt; Resolved tt] /\
  Channel.length loaded = 3%nat /\
  Channel.peek loaded = Some 7%nat /\
  fst drained = [Resolved 7; Resolved 8; Resolved 9]%nat /\
  snd drained = fresh.
Proof.
  exact (channel_fifo_round_trip Sample.JSON_stringify Sample.Number_toString
           (fun _ : nat => false)
           {| ChannelConfig.name := "pipe"; ChannelConfig.version := "1.0.0";
              ChannelConfig.input := {| CellInput.schema := Sample.string_schema;
                                        CellInput.description := "a number" |};
              ChannelConfig.output := {| CellOutput.schema := Sample.string_schema;
                                         CellOutput.description := "the number" |};
              ChannelConfig.lineage := Sample.lineage;
              ChannelConfig.parent := None;
              ChannelConfig.bufferSize := Some (Js_number.of_nat 3);
              ChannelConfig.children := None |}
           Sample.now 3 [7; 8; 9]%nat eq_refl (le_n 3) eq_refl).
Defined.

(** X6. A Channel never holds more than its buffer size.  When the size
    is a non-negative integer and the buffer is within it, the buffer is
    still within it after [send] and after [receive]; [send] on a full
    buffer is rejected with the buffer-full error and leaves the channel
    as it was, and below the size it appends the item at the end. *)
Theorem channel_never_exceeds_buffer_size {Schema TData : Type}
    (Number_toString : Js.number -> string) (is_undefined : TData -> bool)
    (c : @Channel.t Schema TData) (size : nat) (data : TData) :
  Channel._bufferSize c = Js_number.of_nat size ->
  (Channel.length c <= size)%nat ->
  (Channel.length (snd (Channel.send Number_toString c data)) <= size)%nat /\
  (Channel.length (snd (Channel.receive is_undefined c)) <= size)%nat /\
  (Channel.length c = size ->
   Channel.send Number_toString c data =
     (Rejected (Channel.buffer_full_error Number_toString c), c)) /\
  ((Channel.length c < size)%nat ->
   Channel.send Number_toString c data =
     (Resolved tt, Channel.with_buffer c (app (Channel._buffer c) [data]))).
Proof.
  intros Hsize Hlen. unfold Channel.length in *.
  unfold Channel.send. rewrite Hsize, ge_of_nat.
  destruct (Nat.leb_spec size (List.length (Channel._buffer c))) as [H|H].
  - repeat split; try (intros; lia || reflexivity).
    + exact Hlen.
    + unfold Channel.receive. destruct (Channel._buffer c) as [|d rest] eqn:E.
      * cbn. rewrite E. cbn. lia.
      * destruct (is_undefined d); cbn in *; lia.
  - repeat split; try (intros; lia || reflexivity).
    + cbn. rewrite length_app. cbn. lia.
    + unfold Channel.receive. destruct (Channel._buffer c) as [|d rest] eqn:E.
      * cbn. rewrite E. cbn. lia.
      * destruct (is_undefined d); cbn in *; lia.
Qed.

(** A full channel of size 3 refuses a fourth item. *)
Lemma channel_capacity_witness :
  let config :=
    {| ChannelConfig.name := "pipe"; ChannelConfig.version := "1.0.0";
       ChannelConfig.input := {| CellInput.schema := Sample.string_schema;
                                 CellInput.description := "a number" |};
       ChannelConfig.output := {| CellOutput.schema := Sample.string_schema;
                                  CellOutput.description := "the number" |};
       ChannelConfig.lineage := Sample.lineage;
       ChannelConfig.parent := None;
       ChannelConfig.bufferSize := Some (Js_number.of_nat 3);
       ChannelConfig.children := None |} in
  let full :=
    snd (Channel.send_each Sample.Number_toString
           (Channel.constructor Sample.JSON_stringify config Sample.now) [7; 8; 9]%nat) in
  (Channel.length (snd (Channel.send Sample.Number_toString full 10%nat)) <= 3)%nat /\
  (Channel.length (snd (Channel.receive (fun _ : nat => false) full)) <= 3)%nat /\
  (Channel.length full = 3%nat ->
   Channel.send Sample.Number_toString full 10%nat =
     (Rejected (Channel.buffer_full_error Sample.Number_toString full), full)) /\
  ((Channel.length full < 3)%nat ->
   Channel.send Sample.Number_toString full 10%nat =
     (Resolved tt, Channel.with_buffer full (app (Channel._buffer full) [10%nat]))).
Proof.
  intros config full.
  apply (channel_never_exceeds_buffer_size Sample.Number_toString (fun _ : nat => false)
           full 3 10%nat).
  - reflexivity.
  - vm_compute. lia.
Defined.

Example channel_full_message :
  let config :=
    {| ChannelConfig.name := "pipe"; ChannelConfig.version := "1.0.0";
       ChannelConfig.input := {| CellInput.schema := Sample.string_schema;
                                 CellInput.description := "a number" |};
       ChannelConfig.output := {| CellOutput.schema := Sample.string_schema;
                                  CellOutput.description := "the number" |};
       ChannelConfig.lineage := Sample.lineage;
       ChannelConfig.parent := None;
       ChannelConfig.bufferSize := Some (Js_number.of_nat 1);
       ChannelConfig.children := None |} in
  fst (Channel.send_each Sample.Number_toString
         (Channel.constructor Sample.JSON_stringify config Sample.now) [7; 8]%nat) =
  [Resolved tt;
   Rejected ("Channel " ++ quote ++ "pipe" ++ quote ++ " buffer full (max 1)")].
Proof. vm_compute. reflexivity. Qed.

(** ** Checks over a tree of cells *)

Lemma DiscoveredCell_tree_ind {Schema} (P : DiscoveredCell.t Schema -> Prop) :
  (forall cell, Forall P (DiscoveredCell.children cell) -> P cell) ->
  forall cell, P cell.
Proof.
  intros H. fix IH 1. intros cell. apply H.
  destruct cell as [fp id i o l s m kids hh ht hr]. cbn [DiscoveredCell.children].
  induction kids as [|k kids IHkids]; constructor; [apply IH|exact IHkids].
Qed.

Lemma flat_map_nil_iff {A B} (f : A -> list B) (xs : list A) :
  flat_map f xs = [] <-> forall x, In x xs -> f x = [].
Proof.
  induction xs as [|x xs IH]; cbn [flat_map].
  - split; [intros _ x []|reflexivity].
  - split.
    + intros H. apply app_eq_nil in H as [Hx Hxs]. intros y [<-|Hy]; [exact Hx|].
      apply IH; assumption.
    + intros H. rewrite (H x (or_introl eq_refl)). cbn [app].
      apply IH. intros y Hy. apply H. right. exact Hy.
Qed.

Lemma passed_iff_nil {A} (xs : list A) : Nat.eqb (List.length xs) 0 = true <-> xs = [].
Proof. destruct xs; cbn; split; intros H; congruence. Qed.

(** A check that is silent on a cell exactly when the cell is in order
    and the check is silent on its children is silent on a forest exactly
    when every cell of the forest is in order. *)
Lemma tree_check_silent {Schema V} (f : DiscoveredCell.t Schema -> list V)
    (ok : DiscoveredCell.t Schema -> Prop) :
  (forall cell, f cell = [] <-> ok cell /\ flat_map f (DiscoveredCell.children cell) = []) ->
  forall cells,
    flat_map f cells = [] <-> forall node, In node (Tree.all_nodes cells) -> ok node.
Proof.
  intros Hlocal.
  assert (Hone : forall cell, f cell = [] <-> forall node, In node (Tree.nodes cell) -> ok node).
  { induction cell as [cell IH] using DiscoveredCell_tree_ind.
    rewrite Hlocal, flat_map_nil_iff.
    replace (Tree.nodes cell)
      with (cell :: flat_map Tree.nodes (DiscoveredCell.children cell))
      by (destruct cell; reflexivity).
    rewrite List.Forall_forall in IH. split.
    - intros [Hok Hkids] node [<-|Hin]; [exact Hok|].
      apply in_flat_map in Hin as (kid & Hkid & Hnode).
      apply (IH kid Hkid); [apply Hkids, Hkid|exact Hnode].
    - intros H. split; [apply H; left; reflexivity|].
      intros kid Hkid. apply (IH kid Hkid). intros node Hnode.
      apply H. right. apply in_flat_map. exists kid. split; assumption. }
  intros cells. rewrite flat_map_nil_iff. unfold Tree.all_nodes. split.
  - intros H node Hin. apply in_flat_map in Hin as (cell & Hcell & Hnode).
    apply (Hone cell); [apply H, Hcell|exact Hnode].
  - intros H cell Hcell. apply Hone. intros node Hnode. apply H.
    apply in_flat_map. exists cell. split; assumption.
Qed.

(** ** Signature check and the SDK *)

Lemma verifySignature_recomputeHash {Schema} (JSON_stringify : Schema -> string)
    (cell : DiscoveredCell.t Schema) (now : string) :
  Signature.verifySignature JSON_stringify (DiscoveredCell.contract cell)
    (Some (map DiscoveredCell.signature (DiscoveredCell.children cell))) now =
  String.eqb (Validator.recomputeHash JSON_stringify cell)
             cell.(DiscoveredCell.signature).(CellSignature.hash).
Proof.
  rewrite (recomputeHash_fresh JSON_stringify cell now).
  unfold Signature.verifySignature, Spec.freshSignature, Spec.childSignatures.
  destruct (map DiscoveredCell.signature (DiscoveredCell.children cell)); reflexivity.
Qed.

Lemma same_strings_iff (xs : list string) :
  forall (ys : list string) (i : nat),
    Tree.same_strings xs ys = true <->
    List.length xs = List.length ys /\ Validator.first_mismatch i xs ys = None.
Proof.
  induction xs as [|x xs IH]; intros [|y ys] i; cbn.
  - split; [split; reflexivity|reflexivity].
  - split; [discriminate|intros [H _]; discriminate H].
  - split; [discriminate|intros [H _]; discriminate H].
  - destruct (String.eqb x y); cbn.
    + rewrite (IH ys (S i)). split; intros [H1 H2]; split; congruence.
    + split; [discriminate|intros [_ H]; discriminate H].
Qed.

Lemma malformed_is_not_digest (stored data : string) :
  Js.falsy stored || negb (Validator.SHA256_REGEX_test stored) = true ->
  String.eqb (Sha256.sha256 data) stored = false.
Proof.
  intros Hbad. apply String.eqb_neq. intros <-.
  rewrite sha256_truthy, sha256_well_formed in Hbad. discriminate Hbad.
Qed.

Lemma recomputeHash_is_digest {Schema} (JSON_stringify : Schema -> string)
    (cell : DiscoveredCell.t Schema) :
  exists data, Validator.recomputeHash JSON_stringify cell = Sha256.sha256 data.
Proof.
  unfold Validator.recomputeHash.
  destruct (DiscoveredCell.children cell); eexists; reflexivity.
Qed.

Lemma signatureCheck_cell_silent {Schema} (JSON_stringify : Schema -> string)
    (now : string) (cell : DiscoveredCell.t Schema) :
  Validator.signatureCheck_cell JSON_stringify cell = [] <->
  Tree.signed JSON_stringify cell now = true /\
  flat_map (Validator.signatureCheck_cell JSON_stringify) (DiscoveredCell.children cell) = [].
Proof.
  rewrite signatureCheck_cell_unfold. cbv zeta.
  unfold Tree.signed. rewrite verifySignature_recomputeHash.
  destruct (recomputeHash_is_digest JSON_stringify cell) as [data Hdata].
  destruct (Js.falsy (CellSignature.hash (DiscoveredCell.signature cell)) ||
            negb (Validator.SHA256_REGEX_test
                    (CellSignature.hash (DiscoveredCell.signature cell)))) eqn:Hbad.
  - rewrite Hdata, (malformed_is_not_digest _ data Hbad). cbn.
    split; [discriminate|intros [H _]; discriminate H].
  - rewrite (String.eqb_sym (CellSignature.hash (DiscoveredCell.signature cell))).
    destruct (String.eqb (Validator.recomputeHash JSON_stringify cell)
                (CellSignature.hash (DiscoveredCell.signature cell))); cbn [negb app andb];
      [|split; [discriminate|intros [H _]; discriminate H]].
    unfold Js.truthy.
    destruct (Js.falsy (CellSignature.timestamp (DiscoveredCell.signature cell)));
      cbn [negb].
    + rewrite andb_false_r. split.
      * intros H. apply app_eq_nil in H as [_ H]. discriminate H.
      * intros [H _]. discriminate H.
    + rewrite andb_true_r. cbn [app].
      destruct (DiscoveredCell.children cell) as [|k kids] eqn:Hkids.
      * cbn. split; [intros _; split; reflexivity|reflexivity].
      * set (stored := Js_array.or_empty _). set (sorted := Js.sort _).
        set (rest := flat_map _ (k :: kids)).
        pose proof (same_strings_iff stored sorted 0) as Hsame.
        destruct (Nat.eqb_spec (List.length stored) (List.length sorted)) as [Hlen|Hlen];
          cbn [negb].
        -- destruct (Validator.first_mismatch 0 stored sorted) eqn:Hfm.
           ++ split; [discriminate|]. intros [H _]. apply Hsame in H as [_ H]. discriminate H.
           ++ cbn [app]. split.
              ** intros H. split; [apply Hsame; split; [exact Hlen|reflexivity]|exact H].
              ** intros [_ H]. exact H.
        -- split; [discriminate|]. intros [H _]. apply Hsame in H as [H _]. contradiction.
Qed.

(** X7. The signature check agrees with the SDK.  [signatureCheck]
    passes on a forest of discovered cells exactly when every cell in it,
    at every depth, carries a signature that the SDK's [verifySignature]
    accepts against the signatures of the cell's children, lists the
    sorted hashes of its children when it has any, and has a time stamp. *)
Theorem signatureCheck_passes_iff_signed {Schema : Type} (JSON_stringify : Schema -> string)
    (cells : list (DiscoveredCell.t Schema)) (now : string) :
  CheckResult.passed (Validator.signatureCheck JSON_stringify cells) = true <->
  forall node, In node (Tree.all_nodes cells) -> Tree.signed JSON_stringify node now = true.
Proof.
  unfold Validator.signatureCheck. cbn [CheckResult.passed].
  rewrite passed_iff_nil.
  apply (tree_check_silent (Validator.signatureCheck_cell JSON_stringify)
           (fun node => Tree.signed JSON_stringify node now = true)).
  intros cell. apply signatureCheck_cell_silent.
Qed.

(** ** Lineage and circuit breaker checks over a tree *)

Lemma lineage_check_unfold {Schema} (cell : DiscoveredCell.t Schema) :
  Checks.lineage_check cell =
  let ctx msg :=
    {| Violation.cell := Checks.cell_name cell; Violation.file := DiscoveredCell.filePath cell;
       Violation.message := msg; Violation.principle := "II" |} in
  app (if Checks.blank cell.(DiscoveredCell.lineage).(CellLineage.source)
       then [ctx "lineage.source is required — must be an Agent ID (e.g., 'Claude-Opus-4.6', 'Human-Angelo')"]
       else [])
   (app (if Checks.blank cell.(DiscoveredCell.lineage).(CellLineage.trigger)
         then [ctx "lineage.trigger is required — must be a Prompt ID, Issue #, or Decision Record"]
         else [])
    (app (if Checks.blank cell.(DiscoveredCell.lineage).(CellLineage.justification)
          then [ctx "lineage.justification is required — one sentence explaining structural necessity"]
          else [])
     (app (if Checks.blank cell.(DiscoveredCell.lineage).(CellLineage.signature)
           then [ctx "lineage.signature is required — Merkle hash of parent context at creation"]
           else [])
          (flat_map Checks.lineage_check (DiscoveredCell.children cell))))).
Proof. destruct cell; reflexivity. Qed.

Lemma lineage_check_silent {Schema} (cell : DiscoveredCell.t Schema) :
  Checks.lineage_check cell = [] <->
  Contract.validateLineage (DiscoveredCell.lineage cell) = [] /\
  flat_map Checks.lineage_check (DiscoveredCell.children cell) = [].
Proof.
  rewrite lineage_check_unfold. cbv zeta.
  unfold Contract.validateLineage, Checks.blank, Contract.blank.
  destruct (Js.falsy (CellLineage.source (DiscoveredCell.lineage cell)) || _);
  destruct (Js.falsy (CellLineage.trigger (DiscoveredCell.lineage cell)) || _);
  destruct (Js.falsy (CellLineage.justification (DiscoveredCell.lineage cell)) || _);
  destruct (Js.falsy (CellLineage.signature (DiscoveredCell.lineage cell)) || _);
  cbn [app]; split; try discriminate; try (intros [H _]; discriminate H).
  - intros H. split; [reflexivity|exact H].
  - intros [_ H]. exact H.
Qed.

(** X8. The lineage check agrees with the SDK.  [lineageCheck] passes on
    a forest of discovered cells exactly when the SDK's [validateLineage]
    finds nothing wrong with the lineage of any cell in it, at any depth:
    all four Intent Ledger fields hold more than white space. *)
Theorem lineageCheck_passes_iff_sdk_valid {Schema : Type}
    (cells : list (DiscoveredCell.t Schema)) :
  CheckResult.passed (Checks.lineageCheck cells) = true <->
  forall node, In node (Tree.all_nodes cells) ->
    Contract.validateLineage (DiscoveredCell.lineage node) = [].
Proof.
  unfold Checks.lineageCheck. cbn [CheckResult.passed].
  rewrite passed_iff_nil.
  apply (tree_check_silent Checks.lineage_check
           (fun node => Contract.validateLineage (DiscoveredCell.lineage node) = [])).
  intros cell. apply lineage_check_silent.
Qed.

Lemma check_silent {Schema} (Number_toString : Js.number -> string)
    (cell : DiscoveredCell.t Schema) :
  Validator.check Number_toString cell = [] <->
  (String.eqb (Validator.cell_type cell) "transformer" ||
   String.eqb (Validator.cell_type cell) "reactor" = true ->
   Tree.breaker_reported cell = true) /\
  flat_map (Validator.check Number_toString) (DiscoveredCell.children cell) = [].
Proof.
  rewrite check_unfold. cbv zeta. unfold Tree.breaker_reported.
  destruct (String.eqb (Validator.cell_type cell) "transformer" ||
            String.eqb (Validator.cell_type cell) "reactor").
  - destruct (DiscoveredCell.hasHealthMethod cell); cbn [negb andb].
    + destruct (DiscoveredCell.healthReport cell) as [report|].
      * destruct (CellHealth.budgetRemaining report) as [v|].
        -- destruct (Validator.not_number_or_negative v); cbn [app negb].
           ++ split; [discriminate|]. intros [H _]. discriminate (H eq_refl).
           ++ split; [intros H; split; [reflexivity|exact H]|intros [_ H]; exact H].
        -- cbn [app]. split; [discriminate|]. intros [H _]. discriminate (H eq_refl).
      * cbn [app]. split; [intros H; split; [reflexivity|exact H]|intros [_ H]; exact H].
    + cbn [app]. split; [discriminate|]. intros [H _]. discriminate (H eq_refl).
  - cbn [app]. split; [intros H; split; [discriminate|exact H]|intros [_ H]; exact H].
Qed.

(** X9. The circuit breaker check over a tree.  [circuitBreakerCheck]
    passes on a forest of discovered cells exactly when every transformer
    and every reactor in it, at any depth, has a health method and, if a
    health report was obtained, reports a [budgetRemaining] that is a
    number for which [< 0] is false (NaN and Infinity included); keepers,
    channels and cells of any other type are never looked at. *)
Theorem circuitBreakerCheck_passes_iff {Schema : Type} (Number_toString : Js.number -> string)
    (cells : list (DiscoveredCell.t Schema)) :
  CheckResult.passed (Validator.circuitBreakerCheck Number_toString cells) = true <->
  forall node, In node (Tree.all_nodes cells) ->
    String.eqb (Validator.cell_type node) "transformer" ||
    String.eqb (Validator.cell_type node) "reactor" = true ->
    Tree.breaker_reported node = true.
Proof.
  unfold Validator.circuitBreakerCheck. cbn [CheckResult.passed].
  rewrite passed_iff_nil.
  apply (tree_check_silent (Validator.check Number_toString)
           (fun node => String.eqb (Validator.cell_type node) "transformer" ||
                        String.eqb (Validator.cell_type node) "reactor" = true ->
                        Tree.breaker_reported node = true)).
  intros cell. apply check_silent.
Qed.

(** ** Contract check and the SDK *)

Lemma app_nil_iff {A} (l l' : list A) : app l l' = [] <-> l = [] /\ l' = [].
Proof. split; [apply app_eq_nil|intros [-> ->]; reflexivity]. Qed.

Lemma if_singleton_nil_iff {A} (b : bool) (x : A) :
  (if b then [x] else []) = [] <-> b = false.
Proof. destruct b; split; intros H; congruence. Qed.

Lemma contractCheck_cell_unfold {Schema} (Schema_truthy : Schema -> bool)
    (cell : DiscoveredCell.t Schema) :
  Checks.contractCheck_cell Schema_truthy cell =
  let ctx msg :=
    {| Violation.cell := Checks.cell_name cell; Violation.file := DiscoveredCell.filePath cell;
       Violation.message := msg; Violation.principle := "II" |} in
  let version := cell.(DiscoveredCell.identity).(CellIdentity.version) in
  app (if Checks.blank (Checks.cell_name cell) then [ctx "Missing identity.name"] else [])
  (app (if Js.falsy version || negb (Js_regex.SEMVER_REGEX_test version)
        then [ctx ("Invalid identity.version " ++ quote ++ version ++ quote ++
                   " — must be semver")]
        else [])
  (app (if negb (Schema_truthy cell.(DiscoveredCell.input).(CellInput.schema))
        then [ctx "Missing input.schema"] else [])
  (app (if Checks.blank cell.(DiscoveredCell.input).(CellInput.description)
        then [ctx "Missing input.description"] else [])
  (app (if negb (Schema_truthy cell.(DiscoveredCell.output).(CellOutput.schema))
        then [ctx "Missing output.schema"] else [])
  (app (if Checks.blank cell.(DiscoveredCell.output).(CellOutput.description)
        then [ctx "Missing output.description"] else [])
  (app (if negb (DiscoveredCell.hasHealthMethod cell)
        then [ctx "Missing health() method"] else [])
  (app (if Js.falsy cell.(DiscoveredCell.signature).(CellSignature.hash) ||
           negb (Validator.SHA256_REGEX_test
                   cell.(DiscoveredCell.signature).(CellSignature.hash))
        then [ctx "Invalid signature.hash — must be 64-char lowercase hex"] else [])
  (app (if Js.falsy cell.(DiscoveredCell.signature).(CellSignature.timestamp)
        then [ctx "Missing signature.timestamp"] else [])
       (flat_map (Checks.contractCheck_cell Schema_truthy)
                 (DiscoveredCell.children cell)))))))))).
Proof. destruct cell as [fp id i o l s m kids hh ht hr]; destruct kids; reflexivity. Qed.

(** What [contractCheck] asks of one cell, in the SDK's terms. *)
Lemma contractCheck_cell_silent {Schema} (Schema_truthy : Schema -> bool)
    (cell : DiscoveredCell.t Schema) :
  Checks.contractCheck_cell Schema_truthy cell = [] <->
  (Contract.blank (Checks.cell_name cell) = false /\
   Js.falsy cell.(DiscoveredCell.identity).(CellIdentity.version) ||
     negb (Js_regex.SEMVER_REGEX_test cell.(DiscoveredCell.identity).(CellIdentity.version))
     = false /\
   Contract.validateInput Schema_truthy (DiscoveredCell.input cell) = [] /\
   Contract.validateOutput Schema_truthy (DiscoveredCell.output cell) = [] /\
   DiscoveredCell.hasHealthMethod cell = true /\
   Contract.validateSignature (DiscoveredCell.signature cell) = []) /\
  flat_map (Checks.contractCheck_cell Schema_truthy) (DiscoveredCell.children cell) = [].
Proof.
  rewrite contractCheck_cell_unfold. cbv zeta.
  unfold Contract.validateInput, Contract.validateOutput, Contract.validateSignature.
  change Checks.blank with Contract.blank.
  rewrite !app_nil_iff, !if_singleton_nil_iff, !negb_false_iff. tauto.
Qed.

Lemma validateContract_nil_iff {Schema} (Schema_truthy : Schema -> bool)
    (cell : UniversalContract.t Schema) :
  Contract.validateContract Schema_truthy cell = [] <->
  (Contract.blank (CellIdentity.name (UniversalContract.identity cell)) = false /\
   Js_array.includes Contract.CELL_TYPES
     (CellIdentity.cellType (UniversalContract.identity cell)) = true /\
   Js.falsy (CellIdentity.version (UniversalContract.identity cell)) ||
     negb (Js_regex.SEMVER_REGEX_test (CellIdentity.version (UniversalContract.identity cell)))
     = false) /\
  Contract.validateInput Schema_truthy (UniversalContract.input cell) = [] /\
  Contract.validateOutput Schema_truthy (UniversalContract.output cell) = [] /\
  Contract.validateLineage (UniversalContract.lineage cell) = [] /\
  Contract.validateSignature (UniversalContract.signature cell) = [].
Proof.
  unfold Contract.validateContract, Contract.validateIdentity.
  rewrite !app_nil_iff, !if_singleton_nil_iff, !negb_false_iff. tauto.
Qed.

(** X10. The contract and lineage checks agree with the SDK.  On a forest
    of discovered cells that all declare one of the four cell types,
    [contractCheck] and [lineageCheck] both pass exactly when every cell
    in it, at any depth, has a [health()] method and is accepted by the
    SDK's [validateContract]. *)
Theorem contract_checks_agree_with_sdk {Schema : Type} (Schema_truthy : Schema -> bool)
    (cells : list (DiscoveredCell.t Schema)) :
  (forall node, In node (Tree.all_nodes cells) ->
     Js_array.includes Contract.CELL_TYPES
       (CellIdentity.cellType (DiscoveredCell.identity node)) = true) ->
  (CheckResult.passed (Checks.contractCheck Schema_truthy cells) = true /\
   CheckResult.passed (Checks.lineageCheck cells) = true <->
   forall node, In node (Tree.all_nodes cells) ->
     DiscoveredCell.hasHealthMethod node = true /\
     Contract.validateContract Schema_truthy (DiscoveredCell.contract node) = []).
Proof.
  intros Htypes.
  unfold Checks.contractCheck, Checks.lineageCheck. cbn [CheckResult.passed].
  rewrite !passed_iff_nil.
  rewrite (tree_check_silent (Checks.contractCheck_cell Schema_truthy) _
             (contractCheck_cell_silent Schema_truthy)).
  rewrite (tree_check_silent Checks.lineage_check _ lineage_check_silent).
  split.
  - intros [Hc Hl] node Hin. specialize (Hc node Hin). specialize (Hl node Hin).
    specialize (Htypes node Hin). rewrite validateContract_nil_iff.
    unfold DiscoveredCell.contract, Checks.cell_name in *.
    cbn [UniversalContract.identity UniversalContract.input UniversalContract.output
         UniversalContract.lineage UniversalContract.signature]. tauto.
  - intros H. split; intros node Hin; specialize (H node Hin);
      rewrite validateContract_nil_iff in H;
      unfold DiscoveredCell.contract, Checks.cell_name in *;
      cbn [UniversalContract.identity UniversalContract.input UniversalContract.output
           UniversalContract.lineage UniversalContract.signature] in H; tauto.
Qed.

(** The parser cell of the sample pipeline. *)
Lemma contract_checks_witness :
  CheckResult.passed (Checks.contractCheck (fun _ : string => true) [Sample.parser_cell]) = true /\
  CheckResult.passed (Checks.lineageCheck [Sample.parser_cell]) = true <->
  forall node, In node (Tree.all_nodes [Sample.parser_cell]) ->
    DiscoveredCell.hasHealthMethod node = true /\
    Contract.validateContract (fun _ : string => true) (DiscoveredCell.contract node) = [].
Proof.
  apply (contract_checks_agree_with_sdk (fun _ : string => true) [Sample.parser_cell]).
  intros node Hin. cbn in Hin. destruct Hin as [<-|[]]. reflexivity.
Defined.

(** ** Checks that stop at the first violation of a cell *)

(** X11. A cell that fails the first test hides its children.  For a
    cell whose stored hash is not 64 lower-case hex digits,
    [signatureCheck] reports that one violation and nothing about the
    cells below it; for a cell without a [toMap()] method,
    [contextMapCheck] likewise reports that one violation and skips the
    children, whatever state they are in. *)
Theorem first_violation_hides_children {Schema : Type} (JSON_stringify : Schema -> string)
    (cell : DiscoveredCell.t Schema) :
  (Validator.SHA256_REGEX_test cell.(DiscoveredCell.signature).(CellSignature.hash) = false ->
   CheckResult.violations (Validator.signatureCheck JSON_stringify [cell]) =
     [{| Violation.cell := cell.(DiscoveredCell.identity).(CellIdentity.name);
         Violation.file := DiscoveredCell.filePath cell;
         Violation.message :=
           "Invalid signature hash format: " ++ quote ++
           Js.slice 0 20 cell.(DiscoveredCell.signature).(CellSignature.hash) ++
           "..." ++ quote;
         Violation.principle := "X" |}]) /\
  (DiscoveredCell.hasToMapMethod cell = false ->
   CheckResult.violations (Checks.contextMapCheck [cell]) =
     [{| Violation.cell := cell.(DiscoveredCell.identity).(CellIdentity.name);
         Violation.file := DiscoveredCell.filePath cell;
         Violation.message :=
           "Cell lacks toMap() method — context map is a first-class element (Principle V)";
         Violation.principle := "V" |}]).
Proof.
  split.
  - intros Hbad. unfold Validator.signatureCheck. cbn [CheckResult.violations flat_map].
    rewrite app_nil_r, signatureCheck_cell_unfold. cbv zeta.
    rewrite Hbad, orb_true_r. reflexivity.
  - intros Hmap. unfold Checks.contextMapCheck. cbn [CheckResult.violations flat_map].
    rewrite app_nil_r.
    destruct cell as [fp id i o l s m kids hh ht hr]. cbn in Hmap. subst ht. reflexivity.
Qed.

(** The sample pipeline with its hash wiped and its [toMap()] removed,
    over children whose hashes were wiped as well. *)
Lemma first_violation_witness :
  let wiped (c : DiscoveredCell.t string) :=
    DiscoveredCell.set_signature c
      {| CellSignature.hash := ""; CellSignature.children := None;
         CellSignature.timestamp := "" |} in
  let cell :=
    DiscoveredCell.make "dist/app.js" (DiscoveredCell.identity Sample.mediated)
      (DiscoveredCell.input Sample.mediated) (DiscoveredCell.output Sample.mediated)
      (DiscoveredCell.lineage Sample.mediated)
      {| CellSignature.hash := "tampered"; CellSignature.children := None;
         CellSignature.timestamp := "" |}
      (DiscoveredCell.contextMap Sample.mediated)
      (map wiped (DiscoveredCell.children Sample.mediated)) true false None in
  List.length (CheckResult.violations (Validator.signatureCheck Sample.JSON_stringify [cell]))
    = 1%nat /\
  List.length (CheckResult.violations (Checks.contextMapCheck [cell])) = 1%nat.
Proof.
  intros wiped cell.
  destruct (first_violation_hides_children Sample.JSON_stringify cell) as [Hsig Hmap].
  rewrite Hsig by reflexivity. rewrite Hmap by reflexivity. split; reflexivity.
Defined.

(** ** The context map of a Reactor under the checks *)

Lemma includes_In (xs : list string) (x : string) : In x xs -> Js_array.includes xs x = true.
Proof.
  intros Hin. unfold Js_array.includes. apply existsb_exists.
  exists x. split; [exact Hin|apply String.eqb_refl].
Qed.

Lemma listed_names_silent {V} (listed names : list string) (v : string -> V) :
  (forall n, In n names -> In n listed) ->
  flat_map (fun n => if negb (Js_array.includes listed n) then [v n] else []) names = [].
Proof.
  intros Hincl. apply flat_map_nil_iff. intros n Hn.
  rewrite (includes_In listed n (Hincl n Hn)). reflexivity.
Qed.

Lemma cellToDiscovered_identity {Schema} (cell : LiveCell.t Schema) (filePath : string) :
  DiscoveredCell.identity (Discovery.cellToDiscovered cell filePath) =
  UniversalContract.identity (LiveCell.contract cell).
Proof. destruct cell; reflexivity. Qed.

Lemma cellToDiscovered_children {Schema} (cell : LiveCell.t Schema) (filePath : string) :
  DiscoveredCell.children (Discovery.cellToDiscovered cell filePath) =
  match LiveCell.getChildren cell with
  | Some children =>
      map (fun child =>
             Discovery.cellToDiscovered child
               (filePath ++ "#" ++
                (LiveCell.contract child).(UniversalContract.identity).(CellIdentity.name)))
          children
  | None => []
  end.
Proof. destruct cell; reflexivity. Qed.

Lemma discovered_names {Schema} (children : list (LiveCell.t Schema)) (filePath : string) :
  map Validator.cell_name
    (map (fun child =>
            Discovery.cellToDiscovered child
              (filePath ++ "#" ++
               (LiveCell.contract child).(UniversalContract.identity).(CellIdentity.name)))
         children) =
  map (fun c => c.(UniversalContract.identity).(CellIdentity.name))
      (map LiveCell.contract children).
Proof.
  rewrite !map_map. apply map_ext. intros child.
  unfold Validator.cell_name. rewrite cellToDiscovered_identity. reflexivity.
Qed.

Lemma discovered_channel_names {Schema} (children : list (LiveCell.t Schema))
    (filePath : string) :
  map Validator.cell_name
    (List.filter Validator.is_channel
       (map (fun child =>
               Discovery.cellToDiscovered child
                 (filePath ++ "#" ++
                  (LiveCell.contract child).(UniversalContract.identity).(CellIdentity.name)))
            children)) =
  map (fun c => c.(UniversalContract.identity).(CellIdentity.name))
      (List.filter
         (fun c => String.eqb c.(UniversalContract.identity).(CellIdentity.cellType) "channel")
         (map LiveCell.contract children)).
Proof.
  induction children as [|child children IH]; [reflexivity|].
  cbn [map List.filter]. unfold Validator.is_channel at 1, Validator.cell_type.
  rewrite cellToDiscovered_identity.
  destruct (String.eqb _ "channel"); cbn [map]; rewrite IH; [|reflexivity].
  unfold Validator.cell_name at 1. rewrite cellToDiscovered_identity. reflexivity.
Qed.

(** X12. The context map of a Reactor satisfies the validator.  For a
    Reactor discovered with the instances it holds as children, the map
    returned by [toMap()] lists every child and every channel child, so
    [compositionCheck] reports for the reactor at most the topology
    violation (two or more non-channel children and no channel), followed
    by the reports of its children, and never a child or channel missing
    from the context map. *)
Theorem reactor_context_map_lists_children {Schema TEvent TResponse World : Type}
    (child_health : nat -> CellHealth.t)
    (r : @Reactor.t Schema TEvent TResponse World)
    (children : list (LiveCell.t Schema)) (filePath : string) :
  map LiveCell.contract children = Reactor._children r ->
  let cell :=
    Discovery.cellToDiscovered (Discovery.of_reactor child_health r children) filePath in
  let nonChannelChildren :=
    List.filter (fun c => negb (Validator.is_channel c)) (DiscoveredCell.children cell) in
  let channelChildren := List.filter Validator.is_channel (DiscoveredCell.children cell) in
  Validator.compositionCheck_cell cell =
    app (if Nat.leb 2 (List.length nonChannelChildren) &&
            Nat.eqb (List.length channelChildren) 0
         then [{| Violation.cell := r.(Reactor.identity).(CellIdentity.name);
                  Violation.file := filePath;
                  Violation.message :=
                    Validator.topology_message (List.length nonChannelChildren);
                  Violation.principle := "III" |}]
         else [])
        (flat_map Validator.compositionCheck_cell (DiscoveredCell.children cell)).
Proof.
  intros Hcoh cell nonChannelChildren channelChildren.
  assert (Hnested : forall kids : list (DiscoveredCell.t Schema),
            flat_map (fun child => match DiscoveredCell.children child with
                                   | [] => []
                                   | _ :: _ => Validator.compositionCheck_cell child
                                   end) kids =
            flat_map Validator.compositionCheck_cell kids).
  { intros kids. apply flat_map_ext. intros child.
    rewrite (compositionCheck_cell_unfold child).
    destruct (DiscoveredCell.children child); reflexivity. }
  rewrite compositionCheck_cell_unfold.
  assert (Hkids : DiscoveredCell.children cell =
                  map (fun child =>
                         Discovery.cellToDiscovered child
                           (filePath ++ "#" ++
                            (LiveCell.contract child).(UniversalContract.identity).(CellIdentity.name)))
                      children).
  { unfold cell. rewrite cellToDiscovered_children. reflexivity. }
  assert (Hmap : DiscoveredCell.contextMap cell = ReactorCell.toMap r) by reflexivity.
  assert (Hname : Validator.cell_name cell = r.(Reactor.identity).(CellIdentity.name))
    by reflexivity.
  assert (Hfile : DiscoveredCell.filePath cell = filePath) by reflexivity.
  unfold nonChannelChildren, channelChildren. clearbody cell.
  destruct (DiscoveredCell.children cell) as [|k kids] eqn:Hshape; [reflexivity|].
  cbv zeta. rewrite Hmap, Hname, Hfile. f_equal.
  unfold ReactorCell.toMap. cbn [ContextMapEntry.children ContextMapEntry.channels
                                 Js_array.or_empty].
  rewrite <- Hcoh, Hkids, discovered_names, discovered_channel_names.
  rewrite !listed_names_silent by (intros n Hn; exact Hn).
  cbn [app]. rewrite <- Hkids. apply Hnested.
Qed.

(** The doubling reactor holding the greeter as its only child. *)
Lemma reactor_context_map_witness :
  let health := {| CellHealth.status := "healthy"; CellHealth.message := None;
                   CellHealth.budgetRemaining := Some (Js.PNumber (Js.of_Z 10));
                   CellHealth.children := None |} in
  let greeter :=
    {| LiveCell.contract := Sample.greeter;
       LiveCell.health := Normal health;
       LiveCell.toMap :=
         {| ContextMapEntry.identity := UniversalContract.identity Sample.greeter;
            ContextMapEntry.parent := Some "doubler";
            ContextMapEntry.children := Some [];
            ContextMapEntry.channels := Some [];
            ContextMapEntry.signature := "" |};
       LiveCell.getChildren := None |} in
  let r := Reactor.constructor Sample.JSON_stringify
             (Sample.doubling None (Some [Sample.greeter])) Sample.now in
  let cell :=
    Discovery.cellToDiscovered (Discovery.of_reactor (fun _ => health) r [greeter])
      "dist/app.js" in
  Validator.compositionCheck_cell cell =
    app (if Nat.leb 2 (List.length
                         (List.filter (fun c => negb (Validator.is_channel c))
                                      (DiscoveredCell.children cell))) &&
            Nat.eqb (List.length (List.filter Validator.is_channel
                                              (DiscoveredCell.children cell))) 0
         then [{| Violation.cell := r.(Reactor.identity).(CellIdentity.name);
                  Violation.file := "dist/app.js";
                  Violation.message :=
                    Validator.topology_message
                      (List.length
                         (List.filter (fun c => negb (Validator.is_channel c))
                                      (DiscoveredCell.children cell)));
                  Violation.principle := "III" |}]
         else [])
        (flat_map Validator.compositionCheck_cell (DiscoveredCell.children cell)).
Proof.
  intros health greeter r cell.
  exact (reactor_context_map_lists_children (fun _ => health) r [greeter] "dist/app.js"
           eq_refl).
Defined.

(* ===================================================================== *)
(** * Further properties of the parser                                    *)
(* ===================================================================== *)

Lemma bind_Normal_inv {A B} (c : Completion A) (k : A -> Completion B) (b : B) :
  bind c k = Normal b -> exists a, c = Normal a /\ k a = Normal b.
Proof. destruct c as [a|e]; cbn; [eauto|discriminate]. Qed.

Section ParsedCells.

Variable Number_toString : Js.number -> string.

(** The budget [extractContract] stores, read off the raw contract. *)
Lemma extractCircuitBreaker_budget (raw : option Yaml.value) (cb : Parser.CircuitBreaker.t) :
  Parser.extractCircuitBreaker Number_toString raw = Normal cb ->
  Parser.CircuitBreaker.complexity_budget cb =
    if Yaml.is_object raw then Parser.number_field raw "complexity_budget" else Js.of_Z 0.
Proof.
  unfold Parser.extractCircuitBreaker. destruct (Yaml.is_object raw); cbn [negb].
  - intros H. apply bind_Normal_inv in H as (action & _ & H).
    injection H as <-. reflexivity.
  - intros H. injection H as <-. reflexivity.
Qed.

Lemma extractContract_breaker (cellType : string) (raw : option Yaml.value)
    (contract : Parser.CellContract.t) :
  Parser.extractContract Number_toString cellType raw = Normal contract ->
  exists cb,
    Parser.CellContract.circuit_breaker contract = Some cb /\
    Parser.CircuitBreaker.complexity_budget cb =
      if Yaml.is_object raw && Yaml.is_object (Yaml.get raw "circuit_breaker")
      then Parser.number_field (Yaml.get raw "circuit_breaker") "complexity_budget"
      else Js.of_Z 0.
Proof.
  unfold Parser.extractContract. destruct (Yaml.is_object raw); cbn [negb andb].
  - intros H. apply bind_Normal_inv in H as (cb & Hcb & H).
    apply extractCircuitBreaker_budget in Hcb.
    exists cb. split; [|exact Hcb].
    repeat match type of H with
           | (if ?b then _ else _) = _ => destruct b
           | bind _ _ = Normal _ => apply bind_Normal_inv in H as (? & _ & H)
           end;
      injection H as <-; reflexivity.
  - intros H. injection H as <-. eexists. split; reflexivity.
Qed.

Lemma extractCell_contract (raw : option Yaml.value) (cell : Parser.ParsedCell.t) :
  Parser.extractCell Number_toString raw = Normal cell ->
  exists contract,
    Parser.ParsedCell.contract cell = Some contract /\
    Parser.extractContract Number_toString
      (Parser.CellIdentity.type (Parser.ParsedCell.identity cell))
      (Yaml.get raw "contract") = Normal contract.
Proof.
  unfold Parser.extractCell. intros H.
  apply bind_Normal_inv in H as (identity & _ & H).
  apply bind_Normal_inv in H as (contract & Hcontract & H).
  repeat (apply bind_Normal_inv in H as (? & _ & H)).
  injection H as <-. exists contract. split; [reflexivity|exact Hcontract].
Qed.

Lemma parseFC_document_cell (doc : option Yaml.value) (cell : Parser.ParsedCell.t) :
  Parser.parseFC_document Number_toString doc = Normal cell ->
  Parser.extractCell Number_toString (Yaml.get doc "cell") = Normal cell.
Proof.
  unfold Parser.parseFC_document.
  destruct (Yaml.is_object doc); cbn [negb]; [|discriminate].
  destruct (Yaml.is_object (Yaml.get doc "cell")); cbn [negb]; [|discriminate].
  exact (fun H => H).
Qed.

End ParsedCells.

Lemma parsed_cell_normal_validate (Number_toString : Js.number -> string)
    (doc : option Yaml.value) (cell : Parser.ParsedCell.t)
    (filePath : option string) (knownTypes : option (string -> bool)) :
  Parser.parseFC_document Number_toString doc = Normal cell ->
  exists result,
    Validate.validateCell Number_toString cell filePath knownTypes = Normal result.
Proof.
  intros Hparse. apply parseFC_document_cell in Hparse.
  apply extractCell_contract in Hparse as (contract & Hcontract & _).
  unfold Validate.validateCell, Validate.validateTypeRefs,
    Validate.collectTypeRefsFromContract.
  rewrite Hcontract. destruct knownTypes as [has|]; [|eexists; reflexivity].
  repeat match goal with
         | |- context [if String.eqb ?a ?b then _ else _] => destruct (String.eqb a b)
         end; eexists; reflexivity.
Qed.

(** X13. Every parsed cell carries a contract with a circuit breaker.
    Whatever the document, a cell returned by [parseFC] has a contract
    and the contract has a circuit breaker.  So [validateCell] cannot
    throw on the parser's output (its unguarded read of the contract
    always finds one), and its reports of a missing contract section and
    of a missing circuit breaker never occur for a parsed cell. *)
Theorem parsed_cell_has_contract_and_breaker (Number_toString : Js.number -> string)
    (doc : option Yaml.value) (cell : Parser.ParsedCell.t)
    (filePath : option string) (knownTypes : option (string -> bool)) :
  Parser.parseFC_document Number_toString doc = Normal cell ->
  (exists contract cb,
     Parser.ParsedCell.contract cell = Some contract /\
     Parser.ParsedCell.circuit_breaker cell = Some cb) /\
  (exists result,
     Validate.validateCell Number_toString cell filePath knownTypes = Normal result) /\
  (forall v, In v (Validate.validateContract Number_toString cell) ->
     Parser.ValidationViolation.field v <> "contract") /\
  (forall v, In v (Parser.validateCircuitBreaker Number_toString cell) ->
     Parser.ValidationViolation.field v <> "contract.circuit_breaker").
Proof.
  intros Hparse. apply parseFC_document_cell in Hparse.
  apply extractCell_contract in Hparse as (contract & Hcontract & Hextract).
  apply extractContract_breaker in Hextract as (cb & Hcb & _).
  assert (Hbreaker : Parser.ParsedCell.circuit_breaker cell = Some cb).
  { unfold Parser.ParsedCell.circuit_breaker. rewrite Hcontract. exact Hcb. }
  split; [exists contract, cb; split; assumption|].
  split; [|split].
  - unfold Validate.validateCell, Validate.validateTypeRefs,
      Validate.collectTypeRefsFromContract.
    rewrite Hcontract. destruct knownTypes as [has|]; [|eexists; reflexivity].
    repeat match goal with
           | |- context [if String.eqb ?a ?b then _ else _] => destruct (String.eqb a b)
           end; eexists; reflexivity.
  - intros v. unfold Validate.validateContract. rewrite Hcontract.
    unfold Validate.validateTransformerContract, Validate.validateReactorContract,
      Validate.validateKeeperContract, Validate.validateChannelContract.
    repeat match goal with
           | |- context [if ?b then _ else _] => destruct b
           | |- context [match ?x with _ => _ end] => destruct x
           end;
      cbn; intros Hin;
      repeat match goal with
             | H : _ \/ _ |- _ => destruct H as [H|H]
             | H : False |- _ => destruct H
             | H : _ = v |- _ => subst v; cbn; discriminate
             end.
  - intros v. unfold Parser.validateCircuitBreaker. rewrite Hbreaker.
    repeat match goal with
           | |- context [if ?b then _ else _] => destruct b
           | |- context [match ?x with _ => _ end] => destruct x
           end;
      cbn; intros Hin;
      repeat match goal with
             | H : _ \/ _ |- _ => destruct H as [H|H]
             | H : False |- _ => destruct H
             | H : _ = v |- _ => subst v; cbn; discriminate
             end.
Qed.

(** The document [{cell: {}}]. *)
Lemma parsed_cell_witness :
  let cell :=
    {| Parser.ParsedCell.identity :=
         {| Parser.CellIdentity.name := ""; Parser.CellIdentity.version := "";
            Parser.CellIdentity.type := "Transformer" |};
       Parser.ParsedCell.contract :=
         Some (Parser.CellContract.TransformerContract "" ""
                 (Some {| Parser.CircuitBreaker.complexity_budget := Js.of_Z 0;
                          Parser.CircuitBreaker.safe_mode_action := "halt" |}));
       Parser.ParsedCell.lineage :=
         {| Parser.CellLineage.source := ""; Parser.CellLineage.trigger := "";
            Parser.CellLineage.justification := "";
            Parser.CellLineage.parent_context_hash := "" |};
       Parser.ParsedCell.logic := None;
       Parser.ParsedCell.signature := "";
       Parser.ParsedCell.children := None;
       Parser.ParsedCell.channels := None;
       Parser.ParsedCell.connects := None |} in
  (exists contract cb,
     Parser.ParsedCell.contract cell = Some contract /\
     Parser.ParsedCell.circuit_breaker cell = Some cb) /\
  (exists result,
     Validate.validateCell Sample.Number_toString cell None None = Normal result) /\
  (forall v, In v (Validate.validateContract Sample.Number_toString cell) ->
     Parser.ValidationViolation.field v <> "contract") /\
  (forall v, In v (Parser.validateCircuitBreaker Sample.Number_toString cell) ->
     Parser.ValidationViolation.field v <> "contract.circuit_breaker").
Proof.
  intros cell.
  apply (parsed_cell_has_contract_and_breaker Sample.Number_toString
           (Some (Yaml.Obj [("cell", Yaml.Obj [])])) cell None None).
  reflexivity.
Defined.

(** X14. A budget that is not a YAML number never validates.  When the
    [complexity_budget] of the document is missing or is not a number
    (a quoted numeral, a boolean, a list), or the [circuit_breaker] or
    [contract] section is missing, the parsed budget is 0 and
    [validateCircuitBreaker] reports it, so [validateCell] declares the
    cell invalid. *)
Theorem missing_budget_never_validates (Number_toString : Js.number -> string)
    (doc : option Yaml.value) (cell : Parser.ParsedCell.t)
    (filePath : option string) (knownTypes : option (string -> bool)) :
  Parser.parseFC_document Number_toString doc = Normal cell ->
  (forall n,
     Yaml.get (Yaml.get (Yaml.get (Yaml.get doc "cell") "contract") "circuit_breaker")
              "complexity_budget" <> Some (Yaml.Num n)) ->
  In {| Parser.ValidationViolation.field := "contract.circuit_breaker.complexity_budget";
        Parser.ValidationViolation.message :=
          "complexity_budget must be a positive integer, got " ++ Number_toString (Js.of_Z 0);
        Parser.ValidationViolation.line := None |}
     (Parser.validateCircuitBreaker Number_toString cell) /\
  exists result,
    Validate.validateCell Number_toString cell filePath knownTypes = Normal result /\
    Parser.ValidationResult.valid result = false.
Proof.
  intros Hparse Hraw.
  destruct (parsed_cell_normal_validate Number_toString doc cell filePath knownTypes Hparse)
    as (result & Hresult).
  apply parseFC_document_cell in Hparse.
  apply extractCell_contract in Hparse as (contract & Hcontract & Hextract).
  apply extractContract_breaker in Hextract as (cb & Hcb & Hbudget).
  assert (Hzero : Parser.CircuitBreaker.complexity_budget cb = Js.of_Z 0).
  { rewrite Hbudget.
    destruct (Yaml.is_object (Yaml.get (Yaml.get doc "cell") "contract") &&
              Yaml.is_object (Yaml.get (Yaml.get (Yaml.get doc "cell") "contract")
                                       "circuit_breaker")); [|reflexivity].
    unfold Parser.number_field.
    destruct (Yaml.get _ "complexity_budget") as [[ |b|n|s|items|fields]|] eqn:E;
      try reflexivity.
    exfalso. exact (Hraw n eq_refl). }
  assert (Hin : In {| Parser.ValidationViolation.field :=
                        "contract.circuit_breaker.complexity_budget";
                      Parser.ValidationViolation.message :=
                        "complexity_budget must be a positive integer, got " ++
                        Number_toString (Js.of_Z 0);
                      Parser.ValidationViolation.line := None |}
                   (Parser.validateCircuitBreaker Number_toString cell)).
  { unfold Parser.validateCircuitBreaker, Parser.ParsedCell.circuit_breaker.
    rewrite Hcontract, Hcb, Hzero. cbn. left. reflexivity. }
  split; [exact Hin|].
  exists result. split; [exact Hresult|].
  unfold Validate.validateCell in Hresult.
  apply bind_Normal_inv in Hresult as (refs & _ & Hresult).
  injection Hresult as <-. cbn [Parser.ValidationResult.valid].
  apply Nat.eqb_neq. intros Hlen. apply List.length_zero_iff_nil in Hlen.
  apply app_eq_nil in Hlen as [_ Hlen]. apply app_eq_nil in Hlen as [_ Hlen].
  apply app_eq_nil in Hlen as [Hnil _]. rewrite Hnil in Hin. destruct Hin.
Qed.

(** A contract whose budget is the quoted numeral ["1000"]. *)
Lemma missing_budget_witness :
  let cell :=
    {| Parser.ParsedCell.identity :=
         {| Parser.CellIdentity.name := ""; Parser.CellIdentity.version := "";
            Parser.CellIdentity.type := "Transformer" |};
       Parser.ParsedCell.contract :=
         Some (Parser.CellContract.TransformerContract "" ""
                 (Some {| Parser.CircuitBreaker.complexity_budget := Js.of_Z 0;
                          Parser.CircuitBreaker.safe_mode_action := "halt" |}));
       Parser.ParsedCell.lineage :=
         {| Parser.CellLineage.source := ""; Parser.CellLineage.trigger := "";
            Parser.CellLineage.justification := "";
            Parser.CellLineage.parent_context_hash := "" |};
       Parser.ParsedCell.logic := None;
       Parser.ParsedCell.signature := "";
       Parser.ParsedCell.children := None;
       Parser.ParsedCell.channels := None;
       Parser.ParsedCell.connects := None |} in
  In {| Parser.ValidationViolation.field := "contract.circuit_breaker.complexity_budget";
        Parser.ValidationViolation.message :=
          "complexity_budget must be a positive integer, got " ++
          Sample.Number_toString (Js.of_Z 0);
        Parser.ValidationViolation.line := None |}
     (Parser.validateCircuitBreaker Sample.Number_toString cell) /\
  exists result,
    Validate.validateCell Sample.Number_toString cell None None = Normal result /\
    Parser.ValidationResult.valid result = false.
Proof.
  intros cell.
  apply (missing_budget_never_validates Sample.Number_toString
           (Some (Yaml.Obj
              [("cell",
                Yaml.Obj
                  [("contract",
                    Yaml.Obj
                      [("circuit_breaker",
                        Yaml.Obj [("complexity_budget", Yaml.Str "1000");
                                  ("safe_mode_action", Yaml.Str "halt")])])])]))
           cell None None).
  - reflexivity.
  - intros n H. discriminate H.
Defined.

(** ** Documents the parser accepts *)

Lemma bind_returns {A B} (c : Completion A) (k : A -> Completion B) :
  Document.returns c -> (forall a, Document.returns (k a)) -> Document.returns (bind c k).
Proof. intros [a ->] Hk. exact (Hk a). Qed.

Lemma Normal_returns {A} (a : A) : Document.returns (Normal a).
Proof. exists a. reflexivity. Qed.

Lemma map_completion_returns {A B} (f : A -> Completion B) (xs : list A) :
  (forall x, In x xs -> Document.returns (f x)) ->
  Document.returns (Parser.map_completion f xs).
Proof.
  induction xs as [|x rest IH]; intros Hf; [apply Normal_returns|].
  cbn [Parser.map_completion]. apply bind_returns; [apply Hf; left; reflexivity|intros y].
  apply bind_returns; [apply IH; intros z Hz; apply Hf; right; exact Hz|intros ys].
  apply Normal_returns.
Qed.

Lemma lookup_toString (fields : list (string * Yaml.value)) :
  existsb (fun kv : string * Yaml.value => String.eqb (fst kv) "toString") fields = false ->
  Yaml.lookup fields "toString" = None.
Proof.
  induction fields as [|[k v] rest IH]; [reflexivity|].
  cbn [existsb Yaml.lookup fst]. intros H. apply orb_false_iff in H as [Hk Hrest].
  rewrite Hk. apply IH, Hrest.
Qed.

Lemma lookup_plain (fields : list (string * Yaml.value)) (key : string) (v : Yaml.value) :
  forallb (fun kv : string * Yaml.value => Document.plain (snd kv)) fields = true ->
  Yaml.lookup fields key = Some v -> Document.plain v = true.
Proof.
  induction fields as [|[k w] rest IH]; [discriminate|].
  cbn [forallb Yaml.lookup snd]. intros H. apply andb_prop in H as [Hw Hrest].
  destruct (String.eqb k key); [intros E; injection E as <-; exact Hw|apply IH, Hrest].
Qed.

Lemma plain_Obj (fields : list (string * Yaml.value)) :
  Document.plain (Yaml.Obj fields) =
  negb (existsb (fun kv : string * Yaml.value => String.eqb (fst kv) "toString") fields) &&
  forallb (fun kv : string * Yaml.value => Document.plain (snd kv)) fields.
Proof. reflexivity. Qed.

Lemma plain_Arr (items : list Yaml.value) :
  Document.plain (Yaml.Arr items) = forallb Document.plain items.
Proof. reflexivity. Qed.

Lemma get_plain (raw : option Yaml.value) (key : string) :
  Document.plain_opt raw = true -> Document.plain_opt (Yaml.get raw key) = true.
Proof.
  destruct raw as [[ |b|n|s|items|fields]|]; try reflexivity.
  cbn [Document.plain_opt Yaml.get]. rewrite plain_Obj. intros H.
  apply andb_prop in H as [_ H].
  destruct (Yaml.lookup fields key) as [v|] eqn:E; [|reflexivity].
  exact (lookup_plain fields key v H E).
Qed.

Lemma as_array_plain (raw : option Yaml.value) (items : list Yaml.value) :
  Document.plain_opt raw = true -> Yaml.as_array raw = Some items ->
  forall item, In item items -> Document.plain_opt (Some item) = true.
Proof.
  destruct raw as [[ |b|n|s|xs|fields]|]; try discriminate.
  cbn [Document.plain_opt Yaml.as_array]. rewrite plain_Arr.
  intros H E item Hin. injection E as <-.
  rewrite forallb_forall in H. exact (H item Hin).
Qed.

Section PlainDocuments.

Variable Number_toString : Js.number -> string.

Lemma String_returns : forall v,
  Document.plain v = true -> Document.returns (Parser.String_ Number_toString v).
Proof.
  fix IH 1. intros [ |b|n|s|items|fields] Hplain; try apply Normal_returns.
  - destruct b; apply Normal_returns.
  - cbn [Parser.String_]. rewrite plain_Arr in Hplain.
    induction items as [|x rest IHrest]; [apply Normal_returns|].
    cbn [forallb] in Hplain. apply andb_prop in Hplain as [Hx Hrest].
    apply bind_returns.
    + pose proof (IH x Hx) as Hret. destruct x; try exact Hret; apply Normal_returns.
    + intros a. destruct rest; [apply Normal_returns|].
      apply bind_returns; [exact (IHrest Hrest)|intros; apply Normal_returns].
  - cbn [Parser.String_]. rewrite plain_Obj in Hplain.
    apply andb_prop in Hplain as [Hkey _]. apply negb_true_iff in Hkey.
    rewrite (lookup_toString fields Hkey). apply Normal_returns.
Qed.

Lemma string_field_returns (raw : option Yaml.value) (key : string) :
  Document.plain_opt raw = true ->
  Document.returns (Parser.string_field Number_toString raw key).
Proof.
  intros Hraw. unfold Parser.string_field. apply String_returns.
  pose proof (get_plain raw key Hraw) as H.
  destruct (Yaml.get raw key) as [[ | | | | | ]|]; try reflexivity; exact H.
Qed.

Lemma optional_body_returns (raw : option Yaml.value) (key : string) :
  Document.plain_opt raw = true ->
  Document.returns (Parser.optional_body Number_toString raw key).
Proof.
  intros Hraw. unfold Parser.optional_body.
  pose proof (get_plain raw key Hraw) as H.
  destruct (Yaml.get raw key) as [v|]; [|apply Normal_returns].
  apply bind_returns; [apply String_returns, H|intros; apply Normal_returns].
Qed.

End PlainDocuments.

Section PlainCells.

Variable Number_toString : Js.number -> string.

Ltac returns_step :=
  first
    [ apply Normal_returns
    | apply string_field_returns; auto using get_plain
    | apply optional_body_returns; auto using get_plain
    | apply bind_returns; [|intros ?]
    | match goal with
      | |- Document.returns (if ?b then _ else _) => destruct b
      end ].

Lemma extractCell_returns (raw : option Yaml.value) :
  Document.plain_opt raw = true ->
  Document.returns (Parser.extractCell Number_toString raw).
Proof.
  intros Hraw.
  pose proof (get_plain raw "identity" Hraw) as Hidentity.
  pose proof (get_plain raw "contract" Hraw) as Hcontract.
  pose proof (get_plain (Yaml.get raw "contract") "circuit_breaker" Hcontract) as Hbreaker.
  pose proof (get_plain (Yaml.get raw "contract") "operations" Hcontract) as Hoperations.
  pose proof (get_plain raw "lineage" Hraw) as Hlineage.
  pose proof (get_plain raw "logic" Hraw) as Hlogic.
  pose proof (get_plain raw "children" Hraw) as Hchildren.
  pose proof (get_plain raw "channels" Hraw) as Hchannels.
  pose proof (get_plain raw "connects" Hraw) as Hconnects.
  unfold Parser.extractCell. apply bind_returns; [|intros identity].
  { unfold Parser.extractIdentity. repeat returns_step. }
  apply bind_returns; [|intros contract].
  { unfold Parser.extractContract, Parser.extractCircuitBreaker.
    repeat returns_step.
    destruct (Yaml.as_array (Yaml.get (Yaml.get raw "contract") "operations"))
      as [items|] eqn:E; [|apply Normal_returns].
    apply map_completion_returns. intros item Hin. apply String_returns.
    exact (as_array_plain _ items Hoperations E item Hin). }
  apply bind_returns; [|intros lineage].
  { unfold Parser.extractLineage. repeat returns_step. }
  apply bind_returns; [|intros logic].
  { unfold Parser.extractLogic. repeat returns_step. }
  apply bind_returns; [|intros children].
  { unfold Parser.extractChildren.
    destruct (Yaml.as_array (Yaml.get raw "children")) as [items|] eqn:E;
      [|apply Normal_returns].
    apply bind_returns; [|intros; apply Normal_returns].
    apply map_completion_returns. intros item Hin.
    pose proof (as_array_plain _ items Hchildren E item Hin) as Hitem.
    repeat returns_step. }
  apply bind_returns; [|intros channels].
  { unfold Parser.extractChannels.
    destruct (Yaml.as_array (Yaml.get raw "channels")) as [items|] eqn:E;
      [|apply Normal_returns].
    apply bind_returns; [|intros; apply Normal_returns].
    apply map_completion_returns. intros item Hin.
    pose proof (as_array_plain _ items Hchannels E item Hin) as Hitem.
    apply bind_returns; [repeat returns_step|intros name].
    apply bind_returns; [|intros; apply Normal_returns].
    pose proof (get_plain (Some item) "topology" Hitem) as Htopology.
    destruct (Yaml.as_array (Yaml.get (Some item) "topology")) as [edges|] eqn:Eedges;
      [|apply Normal_returns].
    apply map_completion_returns. intros edge Hedge.
    pose proof (as_array_plain _ edges Htopology Eedges edge Hedge) as Hplain.
    repeat returns_step. }
  apply bind_returns; [|intros connects; apply Normal_returns].
  unfold Parser.extractConnects. repeat returns_step.
Qed.

End PlainCells.

(** X15. The parser accepts every document with a [cell] mapping, unless
    a [toString] key is in the way.  When the loaded document is an
    object, its [cell] entry is an object, and no mapping in the document
    has a key [toString], [parseFC] returns a parsed cell: missing and
    ill-typed sections are defaulted, never rejected. *)
Theorem parseFC_accepts_plain_documents (Number_toString : Js.number -> string)
    (doc : option Yaml.value) :
  Yaml.is_object doc = true ->
  Yaml.is_object (Yaml.get doc "cell") = true ->
  Document.plain_opt doc = true ->
  exists cell, Parser.parseFC_document Number_toString doc = Normal cell.
Proof.
  intros Hdoc Hcell Hplain. unfold Parser.parseFC_document.
  rewrite Hdoc, Hcell. cbn [negb].
  apply extractCell_returns, get_plain, Hplain.
Qed.

(** A document whose cell holds only a number where the identity should
    be: every section is defaulted. *)
Lemma parseFC_plain_witness :
  exists cell,
    Parser.parseFC_document Sample.Number_toString
      (Some (Yaml.Obj [("cell", Yaml.Obj [("identity", Yaml.Num (Js.of_Z 7))])])) =
    Normal cell.
Proof.
  apply (parseFC_accepts_plain_documents Sample.Number_toString
           (Some (Yaml.Obj [("cell", Yaml.Obj [("identity", Yaml.Num (Js.of_Z 7))])])));
    reflexivity.
Defined.

(** A name that is a mapping with a [toString] key: [String(name)] finds
    a [toString] that is not callable and throws. *)
Example parseFC_toString_key_throws :
  Parser.parseFC_document Sample.Number_toString
    (Some (Yaml.Obj
       [("cell",
         Yaml.Obj [("identity",
                    Yaml.Obj [("name", Yaml.Obj [("toString", Yaml.Str "x")])])])])) =
  Throw (TypeError "Cannot convert object to primitive value").
Proof. reflexivity. Qed.

(* ===================================================================== *)
(** * Further properties of the skill loader and its commands             *)
(* ===================================================================== *)

Lemma validateCell_result (Number_toString : Js.number -> string)
    (cell : Parser.ParsedCell.t) (filePath : option string)
    (knownTypes : option (string -> bool)) (result : Parser.ValidationResult.t) :
  Validate.validateCell Number_toString cell filePath knownTypes = Normal result ->
  Parser.ValidationResult.valid result =
    Nat.eqb (List.length (Parser.ValidationResult.violations result)) 0 /\
  (forall v, In v (Validate.validateSignature cell) ->
             In v (Parser.ValidationResult.violations result)) /\
  (forall v, In v (Validate.validateComposition cell) ->
             In v (Parser.ValidationResult.violations result)).
Proof.
  unfold Validate.validateCell. intros H.
  apply bind_Normal_inv in H as (refs & _ & H). injection H as <-.
  cbn [Parser.ValidationResult.valid Parser.ValidationResult.violations].
  split; [reflexivity|]. split; intros v Hin; rewrite !in_app_iff; tauto.
Qed.

(** X16. An unsigned skill does not get past the loader.  For a skill
    that came out of the parser with an empty declared signature, stage 4
    of the loader compares nothing and pushes nothing, whatever the
    computed signature; but stage 2, run with the parser's
    [validateCell], reports that the signature is required, so the
    verdict rejects the skill.  The loader gives no verdict only when the
    signature computation throws. *)
Theorem unsigned_skill_is_rejected {Schema : Type}
    (JSON_stringify : Schema -> string) (Number_toString : Js.number -> string)
    (empty_schema : Schema)
    (resolveTypeSchema : option string -> string -> Completion Schema)
    (discoverTypes : string -> string -> bool)
    (scanLogicBody : string -> option Parser.CellLogic.t -> ScanResult.t)
    (doc : option Yaml.value) (parsed : Parser.ParsedCell.t) (filePath projectRoot : string) :
  Parser.parseFC_document Number_toString doc = Normal parsed ->
  Parser.ParsedCell.signature parsed = "" ->
  (forall computedSig,
     FractalClaw.signatureStage computedSig (Parser.ParsedCell.signature parsed) = []) /\
  match FractalClaw.loadParsedSkill JSON_stringify Number_toString empty_schema
          resolveTypeSchema discoverTypes (Document.validateCell Number_toString)
          scanLogicBody parsed filePath projectRoot with
  | Normal verdict =>
      In {| SkillViolation.principle := "Structure";
            SkillViolation.message := "signature: signature is required (hex string)" |}
         (SkillVerdict.allViolationMessages verdict) /\
      SkillVerdict.accepted verdict = false
  | Throw e =>
      FractalClaw.computeExpectedSignature JSON_stringify empty_schema resolveTypeSchema
        parsed projectRoot = Throw e
  end.
Proof.
  intros Hparse Hsig.
  split; [intros computedSig; rewrite Hsig; reflexivity|].
  destruct (parsed_cell_normal_validate Number_toString doc parsed (Some filePath)
              (Some (discoverTypes projectRoot)) Hparse) as (result & Hresult).
  destruct (validateCell_result _ _ _ _ _ Hresult) as (Hvalid & Hsigs & _).
  assert (Hin : In (Validate.violation "signature" "signature is required (hex string)")
                   (Parser.ValidationResult.violations result)).
  { apply Hsigs. unfold Validate.validateSignature. rewrite Hsig. left. reflexivity. }
  assert (Hstage : In {| SkillViolation.principle := "Structure";
                         SkillViolation.message :=
                           "signature: signature is required (hex string)" |}
                      (FractalClaw.structureStage discoverTypes
                         (Document.validateCell Number_toString)
                         parsed filePath projectRoot)).
  { unfold FractalClaw.structureStage, Document.validateCell. rewrite Hresult, Hvalid.
    destruct (Parser.ValidationResult.violations result) as [|v vs]; [destruct Hin|].
    cbn [List.length Nat.eqb negb].
    apply (in_map (fun v => {| SkillViolation.principle := "Structure";
                               SkillViolation.message :=
                                 Parser.ValidationViolation.field v ++ ": " ++
                                 Parser.ValidationViolation.message v |})) in Hin.
    exact Hin. }
  unfold FractalClaw.loadParsedSkill.
  destruct (FractalClaw.computeExpectedSignature JSON_stringify empty_schema
              resolveTypeSchema parsed projectRoot) as [sig|e]; [|reflexivity].
  cbn [bind SkillVerdict.allViolationMessages SkillVerdict.accepted].
  assert (Hall : forall rest,
            In {| SkillViolation.principle := "Structure";
                  SkillViolation.message :=
                    "signature: signature is required (hex string)" |}
               (app (FractalClaw.structureStage discoverTypes
                       (Document.validateCell Number_toString)
                       parsed filePath projectRoot) rest)).
  { intros rest. apply in_or_app. left. exact Hstage. }
  split; [apply Hall|].
  specialize (Hall (app (FractalClaw.scanStage scanLogicBody
                           (Parser.CellIdentity.name (Parser.ParsedCell.identity parsed))
                           parsed)
                        (app (FractalClaw.signatureStage sig
                                (Parser.ParsedCell.signature parsed))
                             (FractalClaw.checkBudget Number_toString parsed)))).
  destruct (app _ _); [destruct Hall|reflexivity].
Qed.

(** The cell parsed from the document [{cell: {}}], which declares no
    signature. *)
Lemma unsigned_skill_witness :
  let parsed :=
    {| Parser.ParsedCell.identity :=
         {| Parser.CellIdentity.name := ""; Parser.CellIdentity.version := "";
            Parser.CellIdentity.type := "Transformer" |};
       Parser.ParsedCell.contract :=
         Some (Parser.CellContract.TransformerContract "" ""
                 (Some {| Parser.CircuitBreaker.complexity_budget := Js.of_Z 0;
                          Parser.CircuitBreaker.safe_mode_action := "halt" |}));
       Parser.ParsedCell.lineage :=
         {| Parser.CellLineage.source := ""; Parser.CellLineage.trigger := "";
            Parser.CellLineage.justification := "";
            Parser.CellLineage.parent_context_hash := "" |};
       Parser.ParsedCell.logic := None;
       Parser.ParsedCell.signature := "";
       Parser.ParsedCell.children := None;
       Parser.ParsedCell.channels := None;
       Parser.ParsedCell.connects := None |} in
  (forall computedSig,
     FractalClaw.signatureStage computedSig (Parser.ParsedCell.signature parsed) = []) /\
  match FractalClaw.loadParsedSkill Sample.JSON_stringify Sample.Number_toString "{}"
          Sample.resolveTypeSchema (fun _ _ => false)
          (Document.validateCell Sample.Number_toString)
          Sample.scanLogicBody parsed "skills/empty.transformer.fc" "." with
  | Normal verdict =>
      In {| SkillViolation.principle := "Structure";
            SkillViolation.message := "signature: signature is required (hex string)" |}
         (SkillVerdict.allViolationMessages verdict) /\
      SkillVerdict.accepted verdict = false
  | Throw e =>
      FractalClaw.computeExpectedSignature Sample.JSON_stringify "{}"
        Sample.resolveTypeSchema parsed "." = Throw e
  end.
Proof.
  intros parsed.
  apply (unsigned_skill_is_rejected Sample.JSON_stringify Sample.Number_toString "{}"
           Sample.resolveTypeSchema (fun _ _ => false) Sample.scanLogicBody
           (Some (Yaml.Obj [("cell", Yaml.Obj [])])) parsed
           "skills/empty.transformer.fc" ".").
  - reflexivity.
  - reflexivity.
Defined.

(** ** The budget spec under the contract validation and the loader *)

Lemma non_positive_integer_caught (budget : Js.number) :
  ~ Spec.positive_integer budget ->
  negb (Js.isInteger budget) || Js.le_zero budget = true.
Proof.
  intros Hbad. destruct budget as [| | |q]; try reflexivity.
  destruct (Js.isInteger (Js.Finite q)) eqn:Hint; [|reflexivity].
  destruct (Js.le_zero (Js.Finite q)) eqn:Hle; [reflexivity|].
  exfalso. apply Hbad. apply isInteger_iff in Hint. destruct Hint as [z Hz].
  exists z. split; [|exact Hz].
  assert (Hpos : ~ (q <= 0)%Q).
  { intros H. apply le_zero_iff in H. congruence. }
  rewrite Hz in Hpos. change 0%Q with (inject_Z 0) in Hpos.
  rewrite <- Zle_Qle in Hpos. lia.
Qed.

(** The contract validation returns on every cell that has a contract,
    and what [validateCircuitBreaker] pushes is in its result. *)
Lemma validateCell_breaker (Number_toString : Js.number -> string)
    (cell : Parser.ParsedCell.t) (filePath : option string)
    (knownTypes : option (string -> bool)) :
  Parser.ParsedCell.contract cell <> None ->
  exists result,
    Validate.validateCell Number_toString cell filePath knownTypes = Normal result /\
    Parser.ValidationResult.valid result =
      Nat.eqb (List.length (Parser.ValidationResult.violations result)) 0 /\
    forall v, In v (Parser.validateCircuitBreaker Number_toString cell) ->
              In v (Parser.ValidationResult.violations result).
Proof.
  intros Hcontract. unfold Validate.validateCell.
  assert (Hrefs : exists refs, Validate.validateTypeRefs cell knownTypes = Normal refs).
  { unfold Validate.validateTypeRefs, Validate.collectTypeRefsFromContract.
    destruct knownTypes as [has|]; [|eexists; reflexivity].
    destruct (Parser.ParsedCell.contract cell) as [contract|]; [|congruence].
    repeat match goal with
           | |- context [if ?b then _ else _] => destruct b
           end; eexists; reflexivity. }
  destruct Hrefs as [refs ->]. cbn [bind]. eexists. split; [reflexivity|].
  cbn [Parser.ValidationResult.valid Parser.ValidationResult.violations].
  split; [reflexivity|]. intros v Hin. rewrite !in_app_iff. tauto.
Qed.

Lemma In_not_valid {A} (v : A) (xs : list A) :
  In v xs -> Nat.eqb (List.length xs) 0 = false.
Proof. destruct xs; [intros []|reflexivity]. Qed.

(** C6. Budget-spec completeness on a parsed cell.  On a cell with a
    contract (as every cell out of the parser has) the contract
    validation [validateCell] returns a result, and the result is invalid
    and holds the violation of the circuit breaker whenever the circuit
    breaker is missing, whenever the complexity budget is not a positive
    integer, and, for a cell of one of the four kinds, whenever the
    safe-mode action is not the one of its kind (halt for Transformer and
    Reactor, read_only for Keeper, drop_newest for Channel).  The bound
    of 1,000,000 is not part of that validation: it is enforced by the
    budget stage of the skill loader, which runs after it, so that the
    loader never accepts a skill whose budget is not a positive integer
    of at most 1,000,000. *)
Theorem budget_spec_completeness {Schema : Type}
    (JSON_stringify : Schema -> string) (Number_toString : Js.number -> string)
    (empty_schema : Schema)
    (resolveTypeSchema : option string -> string -> Completion Schema)
    (discoverTypes : string -> string -> bool)
    (scanLogicBody : string -> option Parser.CellLogic.t -> ScanResult.t)
    (cell : Parser.ParsedCell.t) (filePath : option string)
    (knownTypes : option (string -> bool)) (path projectRoot : string) :
  Parser.ParsedCell.contract cell <> None ->
  let type := cell.(Parser.ParsedCell.identity).(Parser.CellIdentity.type) in
  exists result,
    Validate.validateCell Number_toString cell filePath knownTypes = Normal result /\
    (Parser.ParsedCell.circuit_breaker cell = None ->
       In (Validate.violation "contract.circuit_breaker"
             "circuit_breaker configuration is required")
          (Parser.ValidationResult.violations result) /\
       Parser.ValidationResult.valid result = false) /\
    (forall cb, Parser.ParsedCell.circuit_breaker cell = Some cb ->
       let budget := Parser.CircuitBreaker.complexity_budget cb in
       let action := Parser.CircuitBreaker.safe_mode_action cb in
       (~ Spec.positive_integer budget ->
          In (Validate.violation "contract.circuit_breaker.complexity_budget"
                ("complexity_budget must be a positive integer, got " ++
                 Number_toString budget))
             (Parser.ValidationResult.violations result) /\
          Parser.ValidationResult.valid result = false) /\
       (forall expected,
          In (type, expected) Spec.kind_actions ->
          action <> expected ->
          In (Validate.violation "contract.circuit_breaker.safe_mode_action"
                ("safe_mode_action for " ++ type ++ " must be " ++ quote ++ expected ++
                 quote ++ ", got " ++ quote ++ action ++ quote))
             (Parser.ValidationResult.violations result) /\
          Parser.ValidationResult.valid result = false) /\
       (~ Spec.admissible_budget budget ->
          match FractalClaw.loadParsedSkill JSON_stringify Number_toString empty_schema
                  resolveTypeSchema discoverTypes (Document.validateCell Number_toString)
                  scanLogicBody cell path projectRoot with
          | Normal verdict =>
              SkillVerdict.accepted verdict = false /\
              exists v, In v (SkillVerdict.allViolationMessages verdict) /\
                        (SkillViolation.principle v = "Structure" \/
                         SkillViolation.principle v = "Circuit Breaker")
          | Throw e =>
              FractalClaw.computeExpectedSignature JSON_stringify empty_schema
                resolveTypeSchema cell projectRoot = Throw e
          end)).
Proof.
  intros Hcontract type.
  destruct (validateCell_breaker Number_toString cell filePath knownTypes Hcontract)
    as (result & Hresult & Hvalid & Hbreaker).
  exists result. split; [exact Hresult|].
  assert (Hreport : forall v, In v (Parser.validateCircuitBreaker Number_toString cell) ->
                      In v (Parser.ValidationResult.violations result) /\
                      Parser.ValidationResult.valid result = false).
  { intros v Hin. split; [apply Hbreaker, Hin|].
    rewrite Hvalid. apply (In_not_valid v), Hbreaker, Hin. }
  split.
  - intros Hnone. apply Hreport. unfold Parser.validateCircuitBreaker.
    rewrite Hnone. left. reflexivity.
  - intros cb Hcb budget action. split; [|split].
    + intros Hbad. apply Hreport. unfold Parser.validateCircuitBreaker.
      rewrite Hcb. cbv zeta. fold budget.
      rewrite (non_positive_integer_caught budget Hbad).
      apply in_or_app. left. left. reflexivity.
    + intros expected Hkind Hdiff. apply Hreport.
      unfold Parser.validateCircuitBreaker. rewrite Hcb. cbv zeta. fold type action.
      assert (Hexp : Parser.SAFE_MODE_ACTIONS type = Some expected).
      { unfold Spec.kind_actions in Hkind. cbn [In] in Hkind.
        destruct Hkind as [H|[H|[H|[H|[]]]]]; injection H as Ht He;
          rewrite <- Ht, <- He; reflexivity. }
      rewrite Hexp. apply String.eqb_neq in Hdiff. rewrite Hdiff. cbn [negb].
      apply in_or_app. right. apply in_or_app. left. left. reflexivity.
    + intros Hbad. unfold FractalClaw.loadParsedSkill.
      destruct (FractalClaw.computeExpectedSignature JSON_stringify empty_schema
                  resolveTypeSchema cell projectRoot) as [sig|e]; [|reflexivity].
      cbn [bind SkillVerdict.accepted SkillVerdict.allViolationMessages].
      assert (Hfound : exists v,
                In v (app (FractalClaw.structureStage discoverTypes
                             (Document.validateCell Number_toString)
                             cell path projectRoot)
                          (app (FractalClaw.scanStage scanLogicBody
                                  (Parser.CellIdentity.name (Parser.ParsedCell.identity cell))
                                  cell)
                               (app (FractalClaw.signatureStage sig
                                       (Parser.ParsedCell.signature cell))
                                    (FractalClaw.checkBudget Number_toString cell)))) /\
                (SkillViolation.principle v = "Structure" \/
                 SkillViolation.principle v = "Circuit Breaker")).
      { destruct (inadmissible_budget_caught _ Hbad) as [Hv|Hl].
        - destruct (validateCell_breaker Number_toString cell (Some path)
                      (Some (discoverTypes projectRoot)) Hcontract)
            as (loaded & Hloaded & Hinvalid & Hin).
          assert (Hv' : In (Validate.violation "contract.circuit_breaker.complexity_budget"
                              ("complexity_budget must be a positive integer, got " ++
                               Number_toString budget))
                           (Parser.ValidationResult.violations loaded)).
          { apply Hin. unfold Parser.validateCircuitBreaker. rewrite Hcb. cbv zeta.
            fold budget. rewrite Hv. apply in_or_app. left. left. reflexivity. }
          pose proof (In_not_valid _ _ Hv') as Hlen.
          apply (in_map (fun v => {| SkillViolation.principle := "Structure";
                                     SkillViolation.message :=
                                       Parser.ValidationViolation.field v ++ ": " ++
                                       Parser.ValidationViolation.message v |})) in Hv'.
          eexists. split; [|left].
          { apply in_or_app. left.
            unfold FractalClaw.structureStage, Document.validateCell.
            rewrite Hloaded, Hinvalid, Hlen. cbn [negb].
            exact Hv'. }
          reflexivity.
        - eexists. split; [|right].
          { apply in_or_app. right. apply in_or_app. right. apply in_or_app. right.
            unfold FractalClaw.checkBudget. rewrite Hcb. cbv zeta. fold budget. rewrite Hl.
            apply in_or_app. left. left. reflexivity. }
          reflexivity. }
      destruct Hfound as (v & Hin & Hprinciple).
      split; [apply (In_not_valid v), Hin|].
      exists v. split; assumption.
Qed.

(** A keeper skill that declares the action of a transformer and a
    budget of two million. *)
Lemma budget_spec_witness :
  let cell := Sample.skill "Keeper" (Sample.breaker (Js.of_Z 2000000) "halt") "0xdef" in
  exists result,
    Validate.validateCell Sample.Number_toString cell None None = Normal result /\
    (Parser.ParsedCell.circuit_breaker cell = None ->
       In (Validate.violation "contract.circuit_breaker"
             "circuit_breaker configuration is required")
          (Parser.ValidationResult.violations result) /\
       Parser.ValidationResult.valid result = false) /\
    (forall cb, Parser.ParsedCell.circuit_breaker cell = Some cb ->
       let budget := Parser.CircuitBreaker.complexity_budget cb in
       let action := Parser.CircuitBreaker.safe_mode_action cb in
       (~ Spec.positive_integer budget ->
          In (Validate.violation "contract.circuit_breaker.complexity_budget"
                ("complexity_budget must be a positive integer, got " ++
                 Sample.Number_toString budget))
             (Parser.ValidationResult.violations result) /\
          Parser.ValidationResult.valid result = false) /\
       (forall expected,
          In ("Keeper", expected) Spec.kind_actions ->
          action <> expected ->
          In (Validate.violation "contract.circuit_breaker.safe_mode_action"
                ("safe_mode_action for " ++ "Keeper" ++ " must be " ++ quote ++ expected ++
                 quote ++ ", got " ++ quote ++ action ++ quote))
             (Parser.ValidationResult.violations result) /\
          Parser.ValidationResult.valid result = false) /\
       (~ Spec.admissible_budget budget ->
          match FractalClaw.loadParsedSkill Sample.JSON_stringify Sample.Number_toString
                  "{}" Sample.resolveTypeSchema (fun _ _ => false)
                  (Document.validateCell Sample.Number_toString)
                  Sample.scanLogicBody cell "skills/weather-lookup.keeper.fc" "." with
          | Normal verdict =>
              SkillVerdict.accepted verdict = false /\
              exists v, In v (SkillVerdict.allViolationMessages verdict) /\
                        (SkillViolation.principle v = "Structure" \/
                         SkillViolation.principle v = "Circuit Breaker")
          | Throw e =>
              FractalClaw.computeExpectedSignature Sample.JSON_stringify "{}"
                Sample.resolveTypeSchema cell "." = Throw e
          end)).
Proof.
  intros cell.
  apply (budget_spec_completeness Sample.JSON_stringify Sample.Number_toString "{}"
           Sample.resolveTypeSchema (fun _ _ => false) Sample.scanLogicBody cell None None
           "skills/weather-lookup.keeper.fc" ".").
  discriminate.
Defined.

(** The claim with the bound fails on the contract validation: a complete
    Transformer skill with a budget of two million, which is not a
    positive integer of at most 1,000,000, is valid for [validateCell],
    with no violation at all. *)
Lemma contract_validation_accepts_two_million :
  let cell := Sample.complete_skill (Js.of_Z 2000000) in
  ~ Spec.admissible_budget (Js.of_Z 2000000) /\
  Validate.validateCell Sample.Number_toString cell
    (Some "skills/weather-lookup.transformer.fc") (Some (fun _ => false)) =
  Normal {| Parser.ValidationResult.valid := true;
            Parser.ValidationResult.violations := [];
            Parser.ValidationResult.cell := Some cell |}.
Proof.
  split; [|vm_compute; reflexivity].
  intros [z [Hz Heq]]. unfold Qeq in Heq. cbn in Heq. lia.
Qed.

(** The loader rejects the same skill in its budget stage. *)
Example loader_rejects_two_million :
  exists verdict,
    FractalClaw.loadParsedSkill Sample.JSON_stringify Sample.Number_toString "{}"
      Sample.resolveTypeSchema (fun _ _ => false)
      (Document.validateCell Sample.Number_toString) Sample.scanLogicBody
      (Sample.complete_skill (Js.of_Z 2000000))
      "skills/weather-lookup.transformer.fc" "." = Normal verdict /\
    SkillVerdict.accepted verdict = false /\
    In {| SkillViolation.principle := "Circuit Breaker";
          SkillViolation.message := "complexity_budget 2000000 exceeds safe maximum" |}
       (SkillVerdict.allViolationMessages verdict).
Proof.
  eexists. split; [vm_compute; reflexivity|]. split; [reflexivity|].
  vm_compute. tauto.
Qed.

(** A type that names a member of [Object.prototype] is held to an action
    that no string can be. *)
Example inherited_action_is_reported :
  map Parser.ValidationViolation.message
    (Parser.validateCircuitBreaker Sample.Number_toString
       (Sample.skill "constructor" (Sample.breaker (Js.of_Z 5) "halt") "0xdef"))
  = ["safe_mode_action for constructor must be " ++ quote ++
     "function Object() { [native code] }" ++ quote ++ ", got " ++ quote ++ "halt" ++ quote].
Proof. vm_compute. reflexivity. Qed.

(** ** The budget rules of the loader and of the verify command *)

Lemma gt_million_false_iff (q : Q) :
  Js.gt (Js.Finite q) FractalClaw.MAX_SAFE_BUDGET = false <-> (q <= 1000000)%Q.
Proof.
  unfold Js.gt, FractalClaw.MAX_SAFE_BUDGET, Js.of_Z. rewrite negb_false_iff.
  apply Qle_bool_iff.
Qed.

Lemma le_zero_false_iff (q : Q) : Js.le_zero (Js.Finite q) = false <-> (0 < q)%Q.
Proof.
  unfold Js.le_zero. split.
  - intros H. apply Qnot_le_lt. intros Hle. apply Qle_bool_iff in Hle. congruence.
  - intros H. destruct (Qle_bool q 0) eqn:E; [|reflexivity].
    apply Qle_bool_iff in E. exfalso. exact (Qlt_not_le _ _ H E).
Qed.

(** X17. What the loader's budget stage lets through.  [checkBudget] is
    silent exactly when the cell has no circuit breaker, or its budget is
    NaN, or its budget is a finite number above 0 and at most 1,000,000,
    integer or not. *)
Theorem checkBudget_silent_iff (Number_toString : Js.number -> string)
    (cell : Parser.ParsedCell.t) :
  FractalClaw.checkBudget Number_toString cell = [] <->
  match Parser.ParsedCell.circuit_breaker cell with
  | None => True
  | Some cb =>
      match Parser.CircuitBreaker.complexity_budget cb with
      | Js.NaN => True
      | Js.Finite q => (0 < q)%Q /\ (q <= 1000000)%Q
      | Js.PosInfinity | Js.NegInfinity => False
      end
  end.
Proof.
  unfold FractalClaw.checkBudget.
  destruct (Parser.ParsedCell.circuit_breaker cell) as [cb|]; [|tauto].
  destruct (Parser.CircuitBreaker.complexity_budget cb) as [ | | |q] eqn:E.
  - cbn. tauto.
  - cbn. split; [discriminate|tauto].
  - cbn. split; [discriminate|tauto].
  - cbn [Js.is_Infinity orb].
    rewrite app_nil_iff, !if_singleton_nil_iff, gt_million_false_iff, le_zero_false_iff.
    tauto.
Qed.

Lemma isCellType_cases (type : string) :
  Verify.isCellType type = true ->
  type = "Transformer" \/ type = "Reactor" \/ type = "Keeper" \/ type = "Channel".
Proof.
  unfold Verify.isCellType, Js_array.includes, Verify.VALID_CELL_TYPES. cbn [existsb].
  rewrite !orb_true_iff, !String.eqb_eq. intros [H|[H|[H|[H|H]]]]; auto. discriminate H.
Qed.

(** X18. The verify command and the loader agree on the circuit breaker.
    For a parsed cell of one of the four types, the Circuit Breaker check
    of [fractalclaw verify] passes exactly when the loader finds nothing:
    neither [validateCircuitBreaker] in stage 2 nor [checkBudget] in
    stage 5 reports a violation. *)
Theorem verify_circuit_breaker_agrees_with_loader (Number_toString : Js.number -> string)
    (parsed : Parser.ParsedCell.t) :
  Verify.isCellType (Parser.CellIdentity.type (Parser.ParsedCell.identity parsed)) = true ->
  (Verify.CheckResult.passed (Verify.checkCircuitBreaker Number_toString parsed) = true <->
   Parser.validateCircuitBreaker Number_toString parsed = [] /\
   FractalClaw.checkBudget Number_toString parsed = []).
Proof.
  intros Htype. apply isCellType_cases in Htype.
  unfold Verify.checkCircuitBreaker, Parser.validateCircuitBreaker, FractalClaw.checkBudget.
  destruct (Parser.ParsedCell.circuit_breaker parsed) as [[budget action]|];
    [|cbn; split; [discriminate|intros [H _]; discriminate H]].
  cbn [Parser.CircuitBreaker.complexity_budget Parser.CircuitBreaker.safe_mode_action].
  change (Js.of_Z 1000000) with FractalClaw.MAX_SAFE_BUDGET.
  assert (Haction :
    forall expected,
      (expected = "halt" \/ expected = "read_only" \/ expected = "drop_newest") ->
      String.eqb action expected = true ->
      Js.falsy action || Js.falsy (Js.trim action) = false).
  { intros expected Hexp Heq. apply String.eqb_eq in Heq. subst action.
    destruct Hexp as [->|[->| ->]]; reflexivity. }
  assert (Hint : Js.is_Infinity budget = true -> Js.isInteger budget = false).
  { destruct budget; cbn; congruence. }
  destruct Htype as [->|[->|[->| ->]]];
    cbn [Verify.isCellType Verify.EXPECTED_SAFE_MODE Parser.SAFE_MODE_ACTIONS
         Js_array.includes Verify.VALID_CELL_TYPES existsb String.eqb Ascii.eqb
         Bool.eqb orb andb];
    match goal with
    | |- context [String.eqb action ?e] =>
        specialize (Haction e); destruct (String.eqb action e)
    end;
    try (rewrite Haction by (auto; fail));
    destruct (Js.isInteger budget); cbn [negb orb];
    destruct (Js.le_zero budget); cbn [orb];
    destruct (Js.gt budget FractalClaw.MAX_SAFE_BUDGET); cbn [orb];
    destruct (Js.is_Infinity budget);
    cbn;
    try (specialize (Hint eq_refl); discriminate Hint);
    split; try discriminate; try reflexivity;
    try (intros [H1 H2]; discriminate H1 || discriminate H2);
    try (intros _; split; reflexivity).
Qed.

(** The weather skill with a budget of 2,000,000: both sides fail. *)
Lemma verify_circuit_breaker_witness :
  let parsed := Sample.skill "Transformer" (Sample.breaker (Js.of_Z 2000000) "halt") "" in
  Verify.CheckResult.passed (Verify.checkCircuitBreaker Sample.Number_toString parsed) = true <->
  Parser.validateCircuitBreaker Sample.Number_toString parsed = [] /\
  FractalClaw.checkBudget Sample.Number_toString parsed = [].
Proof.
  intros parsed.
  apply (verify_circuit_breaker_agrees_with_loader Sample.Number_toString parsed).
  reflexivity.
Defined.

Example verify_rejects_two_million :
  Verify.CheckResult.details
    (Verify.checkCircuitBreaker Sample.Number_toString
       (Sample.skill "Transformer" (Sample.breaker (Js.of_Z 2000000) "halt") "")) =
  ["complexity_budget 2000000 exceeds maximum of 1,000,000"].
Proof. vm_compute. reflexivity. Qed.

(** ** Signatures of skills: sign, verify and the loader *)

Section SkillSignatures.

Context {Schema : Type}.
Variable JSON_stringify : Schema -> string.
Variable Number_toString : Js.number -> string.
Variable empty_schema : Schema.
Variable resolveTypeSchema : option string -> string -> Completion Schema.
Variable readFileSync : string -> Completion string.
Variable yaml_load : string -> Completion (option Yaml.value).

(** The signer and the loader compute the signature of a parsed cell by
    the same steps. *)
Lemma computeSignature_result (filePath projectRoot : string) (result : SignatureResult.t) :
  Signer.computeSignature JSON_stringify Number_toString empty_schema resolveTypeSchema
    readFileSync yaml_load filePath projectRoot = Normal result ->
  (exists content doc,
     readFileSync filePath = Normal content /\ yaml_load content = Normal doc /\
     Parser.parseFC_document Number_toString doc = Normal (SignatureResult.parsed result)) /\
  FractalClaw.computeExpectedSignature JSON_stringify empty_schema resolveTypeSchema
    (SignatureResult.parsed result) projectRoot =
    Normal (SignatureResult.computed result) /\
  SignatureResult.declared result = Parser.ParsedCell.signature (SignatureResult.parsed result).
Proof.
  unfold Signer.computeSignature. intros H.
  apply bind_Normal_inv in H as (content & Hread & H).
  apply bind_Normal_inv in H as (parsed & Hparse & H).
  unfold Parser.parseFC in Hparse.
  apply bind_Normal_inv in Hparse as (doc & Hload & Hparse).
  apply bind_Normal_inv in H as (schemas & Hschemas & H).
  injection H as <-.
  cbn [SignatureResult.parsed SignatureResult.computed SignatureResult.declared].
  split; [exists content, doc; repeat split; assumption|].
  split; [|reflexivity].
  unfold FractalClaw.computeExpectedSignature.
  change (@Signer.contract_key) with (@FractalClaw.contract_key) in Hschemas.
  rewrite Hschemas. reflexivity.
Qed.

Lemma computeExpectedSignature_truthy (cell : Parser.ParsedCell.t) (projectRoot sig : string) :
  FractalClaw.computeExpectedSignature JSON_stringify empty_schema
    resolveTypeSchema cell projectRoot = Normal sig ->
  Js.falsy sig = false.
Proof.
  unfold FractalClaw.computeExpectedSignature. intros H.
  apply bind_Normal_inv in H as (schemas & _ & H). injection H as <-.
  apply sha256_truthy.
Qed.

End SkillSignatures.

(** X19. [sign], [verify] and the loader compute the same signature, and
    the loader is the most lenient of the three.  When the signer
    computes a signature for a skill file, the hash is the one stage 4 of
    the loader computes for the parsed cell; the Structural Signature
    check of [verify] passes exactly when [sign] calls the signature
    valid (the declared one, without an "0x" prefix, is the computed
    one); whatever [sign] calls valid passes stage 4; and a skill with an
    empty declared signature, which stage 4 lets through, is not valid
    for [sign] and [verify]. *)
Theorem sign_verify_and_loader_agree {Schema : Type}
    (JSON_stringify : Schema -> string) (Number_toString : Js.number -> string)
    (empty_schema : Schema)
    (resolveTypeSchema : option string -> string -> Completion Schema)
    (readFileSync : string -> Completion string)
    (yaml_load : string -> Completion (option Yaml.value))
    (toUpperCase : string -> string)
    (filePath projectRoot : string) (result : SignatureResult.t) :
  Signer.computeSignature JSON_stringify Number_toString empty_schema resolveTypeSchema
    readFileSync yaml_load filePath projectRoot = Normal result ->
  FractalClaw.computeExpectedSignature JSON_stringify empty_schema resolveTypeSchema
    (SignatureResult.parsed result) projectRoot =
    Normal (SignatureResult.computed result) /\
  Verify.CheckResult.passed
    (Verify.checkStructuralSignature JSON_stringify Number_toString empty_schema
       resolveTypeSchema readFileSync yaml_load toUpperCase filePath projectRoot) =
    Signer.isValid result /\
  (Signer.isValid result = true ->
   FractalClaw.signatureStage (SignatureResult.computed result)
     (SignatureResult.declared result) = []) /\
  (SignatureResult.declared result = "" ->
   Signer.isValid result = false /\
   FractalClaw.signatureStage (SignatureResult.computed result)
     (SignatureResult.declared result) = []).
Proof.
  intros Hsign.
  destruct (computeSignature_result JSON_stringify Number_toString empty_schema
              resolveTypeSchema readFileSync yaml_load filePath projectRoot result Hsign)
    as (_ & Hcomputed & _).
  split; [exact Hcomputed|]. split; [|split].
  - unfold Verify.checkStructuralSignature. rewrite Hsign. unfold Signer.isValid.
    destruct (String.eqb _ (SignatureResult.computed result)); reflexivity.
  - unfold Signer.isValid, FractalClaw.signatureStage. intros Hvalid.
    destruct (Js.truthy _ && negb _); [|reflexivity].
    rewrite Hvalid. reflexivity.
  - intros Hempty. unfold Signer.isValid, FractalClaw.signatureStage. rewrite Hempty.
    split; [|reflexivity]. cbn [Js.startsWith].
    pose proof (computeExpectedSignature_truthy JSON_stringify empty_schema
                  resolveTypeSchema _ _ _ Hcomputed) as Htruthy.
    destruct (SignatureResult.computed result); [discriminate Htruthy|reflexivity].
Qed.

(** A skill file holding the document [{cell: {}}]. *)
Lemma sign_verify_witness :
  let parsed :=
    {| Parser.ParsedCell.identity :=
         {| Parser.CellIdentity.name := ""; Parser.CellIdentity.version := "";
            Parser.CellIdentity.type := "Transformer" |};
       Parser.ParsedCell.contract :=
         Some (Parser.CellContract.TransformerContract "" ""
                 (Some {| Parser.CircuitBreaker.complexity_budget := Js.of_Z 0;
                          Parser.CircuitBreaker.safe_mode_action := "halt" |}));
       Parser.ParsedCell.lineage :=
         {| Parser.CellLineage.source := ""; Parser.CellLineage.trigger := "";
            Parser.CellLineage.justification := "";
            Parser.CellLineage.parent_context_hash := "" |};
       Parser.ParsedCell.logic := None;
       Parser.ParsedCell.signature := "";
       Parser.ParsedCell.children := None;
       Parser.ParsedCell.channels := None;
       Parser.ParsedCell.connects := None |} in
  let computed :=
    match FractalClaw.computeExpectedSignature Sample.JSON_stringify "{}"
            Sample.resolveTypeSchema parsed "." with
    | Normal sig => sig
    | Throw _ => ""
    end in
  let result :=
    {| SignatureResult.parsed := parsed; SignatureResult.computed := computed;
       SignatureResult.declared := "" |} in
  let readFileSync (_ : string) := Normal "cell: {}" in
  let yaml_load (_ : string) := Normal (Some (Yaml.Obj [("cell", Yaml.Obj [])])) in
  FractalClaw.computeExpectedSignature Sample.JSON_stringify "{}"
    Sample.resolveTypeSchema parsed "." = Normal (SignatureResult.computed result) /\
  Verify.CheckResult.passed
    (Verify.checkStructuralSignature Sample.JSON_stringify Sample.Number_toString "{}"
       Sample.resolveTypeSchema readFileSync yaml_load (fun s => s)
       "skills/empty.transformer.fc" ".") = Signer.isValid result /\
  (Signer.isValid result = true ->
   FractalClaw.signatureStage (SignatureResult.computed result)
     (SignatureResult.declared result) = []) /\
  (SignatureResult.declared result = "" ->
   Signer.isValid result = false /\
   FractalClaw.signatureStage (SignatureResult.computed result)
     (SignatureResult.declared result) = []).
Proof.
  intros parsed computed result readFileSync yaml_load.
  apply (sign_verify_and_loader_agree Sample.JSON_stringify Sample.Number_toString "{}"
           Sample.resolveTypeSchema readFileSync yaml_load (fun s => s)
           "skills/empty.transformer.fc" "." result).
  reflexivity.
Defined.

(** ** The directory loader *)

Lemma fold_left_sum_zero {A} (f : A -> nat) (xs : list A) (start : nat) :
  fold_left (fun sum x => sum + f x)%nat xs start = 0%nat <->
  start = 0%nat /\ forall x, In x xs -> f x = 0%nat.
Proof.
  revert start. induction xs as [|x xs IH]; intros start; cbn [fold_left].
  - split; [intros H; split; [exact H|intros x []]|intros [H _]; exact H].
  - rewrite IH. split.
    + intros [Hsum Hall]. split; [lia|]. intros y [<-|Hy]; [lia|apply Hall, Hy].
    + intros [Hstart Hall]. split.
      * rewrite Hstart, (Hall x (or_introl eq_refl)). reflexivity.
      * intros y Hy. apply Hall. right. exact Hy.
Qed.

Lemma filter_none_iff {A} (p : A -> bool) (xs : list A) :
  List.length (List.filter p xs) = 0%nat <-> forall x, In x xs -> p x = false.
Proof.
  induction xs as [|x xs IH]; cbn [List.filter].
  - split; [intros _ x []|reflexivity].
  - destruct (p x) eqn:E; cbn [List.length].
    + split; [discriminate|]. intros H. rewrite (H x (or_introl eq_refl)) in E. discriminate E.
    + rewrite IH. split.
      * intros H y [<-|Hy]; [exact E|apply H, Hy].
      * intros H y Hy. apply H. right. exact Hy.
Qed.

Lemma filter_split_length {A} (p : A -> bool) (xs : list A) :
  (List.length (List.filter p xs) +
   List.length (List.filter (fun x => negb (p x)) xs))%nat = List.length xs.
Proof.
  induction xs as [|x xs IH]; [reflexivity|].
  cbn [List.filter]. destruct (p x); cbn [negb List.length]; lia.
Qed.

Section DirectoryLoader.

Context {Schema KnownTypes : Type}.
Variable JSON_stringify : Schema -> string.
Variable Number_toString : Js.number -> string.
Variable empty_schema : Schema.
Variable resolveTypeSchema : option string -> string -> Completion Schema.
Variable readFileSync : string -> Completion string.
Variable basename : string -> string -> string.
Variable yaml_load : string -> Completion (option Yaml.value).
Variable discoverTypes : string -> KnownTypes.
Variable validateCell :
  Parser.ParsedCell.t -> string -> KnownTypes -> Parser.ValidationResult.t.
Variable scanLogicBody : string -> option Parser.CellLogic.t -> ScanResult.t.
Variable join : string -> string -> string.

Local Abbreviation loadSingleSkill :=
  (FractalClaw.loadSingleSkill JSON_stringify Number_toString empty_schema
     resolveTypeSchema readFileSync basename yaml_load discoverTypes validateCell
     scanLogicBody).

Local Abbreviation load_each :=
  (Skills.load_each JSON_stringify Number_toString empty_schema
     resolveTypeSchema readFileSync basename yaml_load discoverTypes validateCell
     scanLogicBody join).

(** A verdict accepts the skill exactly when the pipeline has no
    violation for it. *)
Lemma loadSingleSkill_accepted_iff (filePath projectRoot : string)
    (verdict : SkillVerdict.t) :
  loadSingleSkill filePath projectRoot = Normal verdict ->
  (SkillVerdict.accepted verdict = true <-> SkillVerdict.allViolationMessages verdict = []).
Proof.
  unfold FractalClaw.loadSingleSkill.
  destruct (bind (readFileSync filePath) _) as [parsed|err].
  - unfold FractalClaw.loadParsedSkill. intros H.
    apply bind_Normal_inv in H as (sig & _ & H). injection H as <-.
    cbn [SkillVerdict.accepted SkillVerdict.allViolationMessages].
    apply passed_iff_nil.
  - intros H. injection H as <-. cbn. split; discriminate.
Qed.

(** The only throw of [loadSingleSkill] is that of the signature
    computation on a file that parsed. *)
Lemma loadSingleSkill_returns_iff (filePath projectRoot : string) :
  Document.returns (loadSingleSkill filePath projectRoot) <->
  forall content parsed,
    readFileSync filePath = Normal content ->
    Parser.parseFC Number_toString yaml_load content = Normal parsed ->
    Document.returns
      (FractalClaw.computeExpectedSignature JSON_stringify empty_schema
         resolveTypeSchema parsed projectRoot).
Proof.
  unfold FractalClaw.loadSingleSkill, Document.returns.
  destruct (readFileSync filePath) as [content|err]; cbn [bind].
  - destruct (Parser.parseFC Number_toString yaml_load content) as [parsed|err] eqn:Hparse.
    + unfold FractalClaw.loadParsedSkill.
      destruct (FractalClaw.computeExpectedSignature JSON_stringify empty_schema
                  resolveTypeSchema parsed projectRoot) as [sig|err] eqn:Hsig; cbn [bind].
      * split; [|intros _; eexists; reflexivity].
        intros _ content' parsed' Hc Hp. injection Hc as <-.
        rewrite Hparse in Hp. injection Hp as <-.
        rewrite Hsig. eexists. reflexivity.
      * split; [intros [verdict H]; discriminate H|].
        intros H. destruct (H content parsed eq_refl Hparse) as [sig Hs].
        rewrite Hsig in Hs. discriminate Hs.
    + split; [|intros _; eexists; reflexivity].
      intros _ content' parsed' Hc Hp. injection Hc as <-.
      rewrite Hparse in Hp. discriminate Hp.
  - split; [|intros _; eexists; reflexivity].
    intros _ content parsed Hc. discriminate Hc.
Qed.

Lemma load_each_returns_iff (projectRoot dir : string) (files : list string) :
  Document.returns (load_each files projectRoot dir) <->
  forall file, In file files -> Document.returns (loadSingleSkill (join dir file) projectRoot).
Proof.
  unfold Document.returns. induction files as [|file rest IH]; cbn [Skills.load_each].
  - split; [intros _ file []|intros _; eexists; reflexivity].
  - destruct (loadSingleSkill (join dir file) projectRoot) as [verdict|err] eqn:Hfile;
      cbn [bind].
    + destruct (load_each rest projectRoot dir) as [verdicts|err] eqn:Hrest; cbn [bind].
      * split; [|intros _; eexists; reflexivity].
        intros _ f [<-|Hf]; [rewrite Hfile; eexists; reflexivity|].
        apply (proj1 IH); [eexists; reflexivity|exact Hf].
      * split; [intros [vs H]; discriminate H|].
        intros H. destruct (proj2 IH) as [vs Hvs]; [|discriminate Hvs].
        intros f Hf. apply H. right. exact Hf.
    + split; [intros [vs H]; discriminate H|].
      intros H. destruct (H file (or_introl eq_refl)) as [v Hv].
      rewrite Hfile in Hv. discriminate Hv.
Qed.

Lemma load_each_verdicts (projectRoot dir : string) (files : list string) :
  forall skills,
    load_each files projectRoot dir = Normal skills ->
    List.length skills = List.length files /\
    forall verdict, In verdict skills ->
      exists file, In file files /\
                   loadSingleSkill (join dir file) projectRoot = Normal verdict.
Proof.
  induction files as [|file rest IH]; cbn [Skills.load_each]; intros skills H.
  - injection H as <-. split; [reflexivity|intros verdict []].
  - apply bind_Normal_inv in H as (verdict & Hfile & H).
    apply bind_Normal_inv in H as (verdicts & Hrest & H). injection H as <-.
    destruct (IH verdicts Hrest) as [Hlen Hall]. split; [cbn; lia|].
    intros v [<-|Hv]; [exists file; split; [left; reflexivity|exact Hfile]|].
    destruct (Hall v Hv) as (f & Hf & Hload). exists f. split; [right; exact Hf|exact Hload].
Qed.

End DirectoryLoader.

(** X20. The summary of [loadSkills], and when there is none.  When the
    directory does not exist the result is empty.  Otherwise [loadSkills]
    returns a result exactly when [readdirSync] lists the directory and
    [loadSingleSkill] returns a verdict for each listed file whose name
    ends in ".fc"; and [loadSingleSkill] fails to return only on a file
    that parses and whose signature computation throws (a schema file
    that cannot be read or parsed).  A result that is returned holds one
    verdict for each such file; each verdict is accepted exactly when it
    carries no violation; the accepted and rejected counts add up to the
    number of verdicts; and no skill is rejected exactly when the total
    number of violations is zero. *)
Theorem loadSkills_summary_consistent {Schema KnownTypes : Type}
    (JSON_stringify : Schema -> string) (Number_toString : Js.number -> string)
    (empty_schema : Schema)
    (resolveTypeSchema : option string -> string -> Completion Schema)
    (readFileSync : string -> Completion string) (basename : string -> string -> string)
    (yaml_load : string -> Completion (option Yaml.value))
    (discoverTypes : string -> KnownTypes)
    (validateCell : Parser.ParsedCell.t -> string -> KnownTypes -> Parser.ValidationResult.t)
    (scanLogicBody : string -> option Parser.CellLogic.t -> ScanResult.t)
    (existsSync : string -> bool) (readdirSync : string -> Completion (list string))
    (join : string -> string -> string) (dir projectRoot : string) :
  let loadSingleSkill :=
    FractalClaw.loadSingleSkill JSON_stringify Number_toString empty_schema
      resolveTypeSchema readFileSync basename yaml_load discoverTypes validateCell
      scanLogicBody in
  let loaded :=
    Skills.loadSkills JSON_stringify Number_toString empty_schema resolveTypeSchema
      readFileSync basename yaml_load discoverTypes validateCell scanLogicBody
      existsSync readdirSync join dir projectRoot in
  (existsSync dir = false ->
   loaded = Normal {| LoadResult.skills := []; LoadResult.accepted := 0;
                      LoadResult.rejected := 0; LoadResult.totalViolations := 0 |}) /\
  (existsSync dir = true ->
   (Document.returns loaded <->
    exists entries,
      readdirSync dir = Normal entries /\
      forall file, In file entries -> Js_split.endsWith file ".fc" = true ->
        Document.returns (loadSingleSkill (join dir file) projectRoot))) /\
  (forall filePath,
     Document.returns (loadSingleSkill filePath projectRoot) <->
     forall content parsed,
       readFileSync filePath = Normal content ->
       Parser.parseFC Number_toString yaml_load content = Normal parsed ->
       Document.returns
         (FractalClaw.computeExpectedSignature JSON_stringify empty_schema
            resolveTypeSchema parsed projectRoot)) /\
  (forall result entries,
     existsSync dir = true ->
     readdirSync dir = Normal entries ->
     loaded = Normal result ->
     List.length (LoadResult.skills result) =
       List.length (List.filter (fun f => Js_split.endsWith f ".fc") entries) /\
     (forall verdict, In verdict (LoadResult.skills result) ->
        (SkillVerdict.accepted verdict = true <->
         SkillVerdict.allViolationMessages verdict = [])) /\
     (LoadResult.accepted result + LoadResult.rejected result)%nat =
       List.length (LoadResult.skills result) /\
     (LoadResult.rejected result = 0%nat <-> LoadResult.totalViolations result = 0%nat)).
Proof.
  intros loadSingleSkill loaded.
  assert (Hsorted : forall (entries : list string) (file : string),
            In file (Js.sort (List.filter (fun f => Js_split.endsWith f ".fc") entries)) <->
            In file entries /\ Js_split.endsWith file ".fc" = true).
  { intros entries file.
    rewrite <- (List.filter_In (fun f => Js_split.endsWith f ".fc") file entries).
    split; intros H.
    - exact (Permutation_in _ (sort_permutation _) H).
    - exact (Permutation_in _ (Permutation_sym (sort_permutation _)) H). }
  split; [|split; [|split]].
  - intros Hdir. unfold loaded, Skills.loadSkills. rewrite Hdir. reflexivity.
  - intros Hdir. unfold loaded, Skills.loadSkills. rewrite Hdir. cbn [negb].
    destruct (readdirSync dir) as [entries|err]; cbn [bind].
    + split.
      * intros [result Hresult]. exists entries. split; [reflexivity|].
        intros file Hin Hfc.
        apply bind_Normal_inv in Hresult as (skills & Hskills & _).
        apply (proj1 (load_each_returns_iff JSON_stringify Number_toString empty_schema
                        resolveTypeSchema readFileSync basename yaml_load
                        discoverTypes validateCell scanLogicBody join projectRoot dir
                        (Js.sort (List.filter (fun f => Js_split.endsWith f ".fc")
                                    entries))));
          [eexists; exact Hskills|].
        apply Hsorted. split; assumption.
      * intros (entries' & Heq & Hall). injection Heq as <-.
        destruct (proj2 (load_each_returns_iff JSON_stringify Number_toString empty_schema
                           resolveTypeSchema readFileSync basename yaml_load
                           discoverTypes validateCell scanLogicBody join projectRoot dir
                           (Js.sort (List.filter (fun f => Js_split.endsWith f ".fc")
                                       entries))))
          as [skills Hskills].
        { intros file Hin. apply Hsorted in Hin as [Hin Hfc]. apply Hall; assumption. }
        rewrite Hskills. cbn [bind]. eexists. reflexivity.
    + split; [intros [result H]; discriminate H|].
      intros (entries & Heq & _). discriminate Heq.
  - intros filePath. apply loadSingleSkill_returns_iff.
  - intros result entries Hdir Hentries Hresult.
    unfold loaded, Skills.loadSkills in Hresult. rewrite Hdir, Hentries in Hresult.
    cbn [negb bind] in Hresult.
    apply bind_Normal_inv in Hresult as (skills & Hskills & Hresult).
    injection Hresult as <-.
    cbn [LoadResult.skills LoadResult.accepted LoadResult.rejected
         LoadResult.totalViolations].
    destruct (load_each_verdicts _ _ _ _ _ _ _ _ _ _ _ _ _ _ _ Hskills) as [Hlen Hfrom].
    assert (Hverdict : forall verdict, In verdict skills ->
              (SkillVerdict.accepted verdict = true <->
               SkillVerdict.allViolationMessages verdict = [])).
    { intros verdict Hin. destruct (Hfrom verdict Hin) as (file & _ & Hload).
      exact (loadSingleSkill_accepted_iff _ _ _ _ _ _ _ _ _ _ _ _ _ Hload). }
    split; [rewrite Hlen, sort_length; reflexivity|].
    split; [exact Hverdict|].
    split; [apply filter_split_length|].
    rewrite filter_none_iff, fold_left_sum_zero. split.
    + intros H. split; [reflexivity|]. intros verdict Hin.
      specialize (H verdict Hin). apply negb_false_iff in H.
      apply Hverdict in H; [|exact Hin]. rewrite H. reflexivity.
    + intros [_ H] verdict Hin. apply negb_false_iff. apply Hverdict; [exact Hin|].
      apply List.length_zero_iff_nil, H, Hin.
Qed.

(** A directory of two skills loads; with schema files that do not parse
    it does not, and nothing is returned for the skill that would have
    been rejected either. *)
Example loadSkills_corrupt_schema :
  let readFileSync (_ : string) := Normal "cell: {}" in
  let yaml_load (_ : string) := Normal (Some (Yaml.Obj [("cell", Yaml.Obj [])])) in
  let loadSkills resolveTypeSchema :=
    Skills.loadSkills Sample.JSON_stringify Sample.Number_toString "{}" resolveTypeSchema
      readFileSync (fun path _ => path) yaml_load Sample.discoverTypes Sample.validateCell
      Sample.scanLogicBody (fun _ => true)
      (fun _ => Normal ["b.transformer.fc"; "notes.txt"; "a.transformer.fc"])
      (fun dir file => dir ++ "/" ++ file) "skills" "." in
  (exists result,
     loadSkills Sample.resolveTypeSchema = Normal result /\
     List.length (LoadResult.skills result) = 2%nat /\
     LoadResult.rejected result = 2%nat) /\
  loadSkills Sample.corrupt_schema = Throw (SyntaxError "Unexpected end of JSON input").
Proof.
  split; [eexists; split; [vm_compute; reflexivity|split; reflexivity]|].
  vm_compute. reflexivity.
Qed.

(** ** Version strings *)

(** X21. The three semver tests nest.  A version the verify command
    accepts (digits.digits.digits and nothing else) is accepted by the
    parser's [validateCell] (which also allows a pre-release and a build
    tag), and a version the parser accepts is accepted by the SDK and the
    validator (whose pattern only anchors the start); neither converse
    holds, as "1.0.0-rc.1" and "1.0.0 beta" show. *)
Theorem semver_tests_nest :
  (forall s, Verify.SEMVER_RE_test s = true -> Validate.SEMVER_RE_test s = true) /\
  (forall s, Validate.SEMVER_RE_test s = true -> Js_regex.SEMVER_REGEX_test s = true) /\
  (Validate.SEMVER_RE_test "1.0.0-rc.1" = true /\ Verify.SEMVER_RE_test "1.0.0-rc.1" = false) /\
  (Js_regex.SEMVER_REGEX_test "1.0.0 beta" = true /\
   Validate.SEMVER_RE_test "1.0.0 beta" = false).
Proof.
  split; [|split; [|split; split; reflexivity]].
  - intros s. unfold Verify.SEMVER_RE_test, Validate.SEMVER_RE_test.
    destruct (Js_regex.semver_core s) as [rest|]; [|discriminate].
    destruct rest; [reflexivity|discriminate].
  - intros s. unfold Validate.SEMVER_RE_test, Js_regex.SEMVER_REGEX_test.
    destruct (Js_regex.semver_core s); [reflexivity|discriminate].
Qed.

(** ** Composition and file names in the parser's validation *)

(** X22. The parser's composition rule.  A parsed cell with two or more
    children whose file reference does not contain ".channel." and with
    no channel declaration is invalid: [validateCell] reports the missing
    channel under the field [channels]. *)
Theorem validateCell_requires_channel (Number_toString : Js.number -> string)
    (cell : Parser.ParsedCell.t) (children : list Parser.ChildRef.t)
    (filePath : option string) (knownTypes : option (string -> bool))
    (result : Parser.ValidationResult.t) :
  Parser.ParsedCell.children cell = Some children ->
  (2 <= List.length
          (List.filter (fun c => negb (Js.includes (Parser.ChildRef.ref c) ".channel."))
                       children))%nat ->
  Js_array.or_empty (Parser.ParsedCell.channels cell) = [] ->
  Validate.validateCell Number_toString cell filePath knownTypes = Normal result ->
  In (Validate.violation "channels"
        "Composed cell with 2+ non-channel children must declare at least one channel for inter-cell communication (Principle III)")
     (Parser.ValidationResult.violations result) /\
  Parser.ValidationResult.valid result = false.
Proof.
  intros Hkids Hcount Hchannels Hresult.
  destruct (validateCell_result _ _ _ _ _ Hresult) as (Hvalid & _ & Hcomp).
  assert (Hin : In (Validate.violation "channels"
                      "Composed cell with 2+ non-channel children must declare at least one channel for inter-cell communication (Principle III)")
                   (Parser.ValidationResult.violations result)).
  { apply Hcomp. unfold Validate.validateComposition. rewrite Hkids.
    destruct children as [|child children]; [cbn in Hcount; lia|].
    apply in_or_app. right. apply in_or_app. left.
    apply Nat.leb_le in Hcount. rewrite Hcount.
    destruct (Parser.ParsedCell.channels cell) as [[|ch chs]|];
      [left; reflexivity|discriminate Hchannels|left; reflexivity]. }
  split; [exact Hin|]. rewrite Hvalid.
  destruct (Parser.ValidationResult.violations result); [destruct Hin|reflexivity].
Qed.

(** The weather skill composed of two transformers with no channel. *)
Lemma validateCell_requires_channel_witness :
  let base := Sample.skill "Transformer" (Sample.breaker (Js.of_Z 1000) "halt") "0xabc" in
  let children :=
    [ {| Parser.ChildRef.ref := "./fetch.transformer.fc"; Parser.ChildRef.as_ := "fetch" |};
      {| Parser.ChildRef.ref := "./format.transformer.fc"; Parser.ChildRef.as_ := "format" |} ] in
  let cell :=
    {| Parser.ParsedCell.identity := Parser.ParsedCell.identity base;
       Parser.ParsedCell.contract := Parser.ParsedCell.contract base;
       Parser.ParsedCell.lineage := Parser.ParsedCell.lineage base;
       Parser.ParsedCell.logic := Parser.ParsedCell.logic base;
       Parser.ParsedCell.signature := Parser.ParsedCell.signature base;
       Parser.ParsedCell.children := Some children;
       Parser.ParsedCell.channels := None;
       Parser.ParsedCell.connects := None |} in
  let result :=
    Document.validateCell Sample.Number_toString cell "skills/weather.transformer.fc"
      (fun _ => false) in
  In (Validate.violation "channels"
        "Composed cell with 2+ non-channel children must declare at least one channel for inter-cell communication (Principle III)")
     (Parser.ValidationResult.violations result) /\
  Parser.ValidationResult.valid result = false.
Proof.
  intros base children cell result.
  apply (validateCell_requires_channel Sample.Number_toString cell children
           (Some "skills/weather.transformer.fc") (Some (fun _ => false)) result).
  - reflexivity.
  - vm_compute. lia.
  - reflexivity.
  - vm_compute. reflexivity.
Defined.

Lemma endsWith_app (a p : string) : Js_split.endsWith (a ++ p) p = true.
Proof.
  unfold Js_split.endsWith. rewrite append_length.
  replace (String.length a + String.length p - String.length p)%nat
    with (String.length a) by lia.
  rewrite drop_app_length, String.eqb_refl, andb_true_r.
  apply Nat.leb_le. lia.
Qed.

Lemma take_app_length (a p : string) : Js.take (String.length a) (a ++ p) = a.
Proof.
  induction a as [|c a IH]; [destruct p; reflexivity|].
  cbn [String.length String.append Js.take]. rewrite IH. reflexivity.
Qed.

Lemma strip_fc_app (a : string) : Validate.strip_fc (a ++ ".fc") = a.
Proof.
  unfold Validate.strip_fc. rewrite endsWith_app, append_length. cbn [String.length].
  replace (String.length a + 3 - 3)%nat with (String.length a) by lia.
  apply take_app_length.
Qed.

(** X23. Skill files must be named after their type.  For a skill file
    [dir/stem.t.fc] (no slash in the file name, no dot in [t]),
    [validateFileName] is silent exactly when [t] is the cell's declared
    type in lower case; the loader, which always passes the file path,
    rejects any other name. *)
Theorem validateFileName_silent_iff (cell : Parser.ParsedCell.t) (dir stem t : string) :
  Js_split.no_separator "." t ->
  Js_split.no_separator "/" (stem ++ "." ++ t ++ ".fc") ->
  (Validate.validateFileName cell (dir ++ "/" ++ stem ++ "." ++ t ++ ".fc") = [] <->
   t = Js_string.toLowerCase (Parser.CellIdentity.type (Parser.ParsedCell.identity cell))).
Proof.
  intros Ht Hname. unfold Validate.validateFileName, Validate.fileName_of.
  change (dir ++ "/" ++ stem ++ "." ++ t ++ ".fc")
    with (dir ++ String "/" (stem ++ "." ++ t ++ ".fc")).
  rewrite split_at_separator, (split_no_separator "/" _ Hname).
  rewrite (pop_last (app (Js_split.split "/" dir) [stem ++ "." ++ t ++ ".fc"]))
    by (destruct (Js_split.split "/" dir); discriminate).
  rewrite last_last.
  replace (stem ++ "." ++ t ++ ".fc") with ((stem ++ "." ++ t) ++ ".fc")
    by (rewrite !append_assoc; reflexivity).
  rewrite endsWith_app, strip_fc_app. cbn [negb].
  change (stem ++ "." ++ t) with (stem ++ String "." t).
  rewrite split_at_separator, (split_no_separator "." t Ht).
  rewrite length_app, last_last. cbn [List.length].
  pose proof (split_nonempty "." stem) as Hne.
  destruct (Js_split.split "." stem) as [|piece pieces]; [congruence|].
  cbn [List.length Nat.add Nat.ltb Nat.leb].
  replace (Nat.leb (List.length pieces + 1) 0) with false
    by (symmetry; apply Nat.leb_gt; lia).
  destruct (String.eqb_spec t
              (Js_string.toLowerCase
                 (Parser.CellIdentity.type (Parser.ParsedCell.identity cell)))) as [E|E];
    cbn [negb]; split; intros H; congruence.
Qed.

(** The weather skill, a Transformer, stored as a keeper file. *)
Lemma validateFileName_witness :
  Validate.validateFileName
    (Sample.skill "Transformer" (Sample.breaker (Js.of_Z 1000) "halt") "")
    ("skills" ++ "/" ++ "weather-lookup" ++ "." ++ "keeper" ++ ".fc") = [] <->
  "keeper" =
    Js_string.toLowerCase
      (Parser.CellIdentity.type
         (Parser.ParsedCell.identity
            (Sample.skill "Transformer" (Sample.breaker (Js.of_Z 1000) "halt") ""))).
Proof.
  apply (validateFileName_silent_iff
           (Sample.skill "Transformer" (Sample.breaker (Js.of_Z 1000) "halt") "")
           "skills" "weather-lookup" "keeper"); reflexivity.
Defined.

Example validateFileName_keeper_file :
  map Parser.ValidationViolation.message
    (Validate.validateFileName
       (Sample.skill "Transformer" (Sample.breaker (Js.of_Z 1000) "halt") "")
       "skills/weather-lookup.keeper.fc") =
  ["File name type " ++ quote ++ "keeper" ++ quote ++
   " does not match declared type " ++ quote ++ "Transformer" ++ quote].
Proof. vm_compute. reflexivity. Qed.

(* ===================================================================== *)
(** * Further properties of the Reactor's health report                   *)
(* ===================================================================== *)

Lemma has_false_iff {V} (o : list (string * V)) (key : string) :
  Js_object.has o key = false <-> ~ In key (map fst o).
Proof.
  unfold Js_object.has. induction o as [|[k v] o IH]; cbn [existsb map fst In].
  - split; [intros _ []|reflexivity].
  - rewrite orb_false_iff, IH, String.eqb_neq. tauto.
Qed.

Lemma insert_index_permutation {V} (o : list (string * V)) (i : N) (key : string) (v : V) :
  Permutation (Js_object.insert_index o i key v) ((key, v) :: o).
Proof.
  induction o as [|[k w] o IH]; cbn [Js_object.insert_index]; [reflexivity|].
  destruct (Js_object.array_index k) as [j|]; [|reflexivity].
  destruct (N.ltb j i); [|reflexivity].
  rewrite IH. apply perm_swap.
Qed.

Lemma set_fresh_permutation {V} (o : list (string * V)) (key : string) (v : V) :
  key <> "__proto__" -> ~ In key (map fst o) ->
  Permutation (Js_object.set o key v) ((key, v) :: o).
Proof.
  intros Hproto Hfresh. unfold Js_object.set.
  apply String.eqb_neq in Hproto. rewrite Hproto.
  apply has_false_iff in Hfresh. rewrite Hfresh.
  destruct (Js_object.array_index key) as [i|].
  - apply insert_index_permutation.
  - symmetry. apply Permutation_cons_append.
Qed.

Lemma includes_permutation (xs ys : list string) (s : string) :
  Permutation xs ys -> Js_array.includes xs s = Js_array.includes ys s.
Proof.
  intros Hperm. unfold Js_array.includes.
  destruct (existsb (String.eqb s) xs) eqn:Ex; symmetry.
  - apply existsb_exists in Ex as (x & Hin & Hx). apply existsb_exists.
    exists x. split; [|exact Hx]. apply (Permutation_in _ Hperm), Hin.
  - destruct (existsb (String.eqb s) ys) eqn:Ey; [|reflexivity].
    apply existsb_exists in Ey as (y & Hin & Hy).
    assert (Hex : existsb (String.eqb s) xs = true).
    { apply existsb_exists. exists y. split; [|exact Hy].
      apply (Permutation_in _ (Permutation_sym Hperm)), Hin. }
    congruence.
Qed.

Section ReactorChildren.

Context {Schema : Type}.
Variable child_health : nat -> CellHealth.t.

Local Abbreviation name_of :=
  (fun c : UniversalContract.t Schema => c.(UniversalContract.identity).(CellIdentity.name)).

Lemma collect_health_permutation (children : list (UniversalContract.t Schema)) :
  forall (i : nat) (acc : list (string * CellHealth.t)),
    List.NoDup (map name_of children) ->
    ~ In "__proto__" (map name_of children) ->
    (forall n, In n (map name_of children) -> ~ In n (map fst acc)) ->
    Permutation (map fst (ReactorCell.collect_health child_health i children acc))
                (app (map fst acc) (map name_of children)) /\
    Permutation (map snd (ReactorCell.collect_health child_health i children acc))
                (app (map snd acc) (map child_health (seq i (List.length children)))).
Proof.
  induction children as [|c rest IH]; intros i acc Hdup Hproto Hfresh.
  - cbn. rewrite !app_nil_r. split; reflexivity.
  - cbn [ReactorCell.collect_health map List.length seq] in *.
    apply List.NoDup_cons_iff in Hdup as [Hc Hdup].
    assert (Hset : Permutation (Js_object.set acc (name_of c) (child_health i))
                               ((name_of c, child_health i) :: acc)).
    { apply set_fresh_permutation.
      - intros E. apply Hproto. left. exact E.
      - apply Hfresh. left. reflexivity. }
    destruct (IH (S i) (Js_object.set acc (name_of c) (child_health i)) Hdup) as [Hk Hv].
    + intros Hin. apply Hproto. right. exact Hin.
    + intros n Hn Hin.
      apply (Permutation_in _ (Permutation_map fst Hset)) in Hin.
      cbn [map fst In] in Hin. destruct Hin as [<-|Hin]; [exact (Hc Hn)|].
      exact (Hfresh n (or_intror Hn) Hin).
    + split.
      * rewrite Hk, (Permutation_map fst Hset). cbn [map fst].
        rewrite <- Permutation_middle. reflexivity.
      * rewrite Hv, (Permutation_map snd Hset). cbn [map snd].
        rewrite <- Permutation_middle. reflexivity.
Qed.

End ReactorChildren.

(** X24. The status of a Reactor with children.  When the children of a
    reactor have different names, none of them "__proto__", [health()]
    reports every child, and its status is "safe-mode" if the budget is
    used up, else "unhealthy" if a child reports unhealthy, else
    "degraded" if a child reports degraded or safe-mode, else "healthy". *)
Theorem reactor_health_reflects_children {Schema TEvent TResponse World : Type}
    (child_health : nat -> CellHealth.t)
    (r : @Reactor.t Schema TEvent TResponse World) :
  let names :=
    map (fun c => c.(UniversalContract.identity).(CellIdentity.name)) (Reactor._children r) in
  let reports := map child_health (seq 0 (List.length (Reactor._children r))) in
  let statuses := map CellHealth.status reports in
  List.NoDup names ->
  ~ In "__proto__" names ->
  let report := ReactorCell.health child_health r in
  CellHealth.status report =
    (if Js.le_zero (Reactor._complexityBudget r) then "safe-mode"
     else if Js_array.includes statuses "unhealthy" then "unhealthy"
     else if Js_array.includes statuses "degraded" ||
             Js_array.includes statuses "safe-mode" then "degraded"
     else "healthy") /\
  match CellHealth.children report with
  | Some recorded =>
      Permutation (map fst recorded) names /\ Permutation (map snd recorded) reports
  | None => Reactor._children r = []
  end.
Proof.
  intros names reports statuses Hdup Hproto report.
  unfold report, ReactorCell.health.
  destruct (Reactor._children r) as [|c rest] eqn:Hkids.
  - cbn. split; [|reflexivity]. destruct (Js.le_zero _); reflexivity.
  - cbn [CellHealth.status CellHealth.children].
    destruct (collect_health_permutation child_health (c :: rest) 0 [] Hdup Hproto)
      as [Hk Hv]; [intros n _ []|].
    cbn [map app] in Hk, Hv.
    split; [|split; assumption].
    unfold Js_object.values.
    assert (Hs : Permutation
                   (map CellHealth.status
                      (map snd (ReactorCell.collect_health child_health 0 (c :: rest) [])))
                   statuses).
    { unfold statuses, reports. apply Permutation_map. exact Hv. }
    rewrite !(includes_permutation _ _ _ Hs). reflexivity.
Qed.

(** The doubling reactor over the greeter, which reports degraded, and a
    logger, which reports healthy. *)
Lemma reactor_health_children_witness :
  let logger :=
    UniversalContract.make
      {| CellIdentity.name := "logger"; CellIdentity.cellType := "transformer";
         CellIdentity.version := "1.0.0" |}
      (UniversalContract.input Sample.greeter) (UniversalContract.output Sample.greeter)
      Sample.lineage (UniversalContract.signature Sample.greeter) in
  let r := Reactor.constructor Sample.JSON_stringify
             (Sample.doubling None (Some [Sample.greeter; logger])) Sample.now in
  let child_health (i : nat) :=
    {| CellHealth.status := if Nat.eqb i 0 then "degraded" else "healthy";
       CellHealth.message := None; CellHealth.budgetRemaining := None;
       CellHealth.children := None |} in
  let report := ReactorCell.health child_health r in
  CellHealth.status report = "degraded" /\
  match CellHealth.children report with
  | Some recorded =>
      Permutation (map fst recorded) ["greeter"; "logger"] /\
      Permutation (map snd recorded) [child_health 0%nat; child_health 1%nat]
  | None => Reactor._children r = []
  end.
Proof.
  intros logger r child_health.
  apply (reactor_health_reflects_children child_health r).
  - repeat constructor; cbn; intuition discriminate.
  - cbn. intuition discriminate.
Defined.

(** Two children under one name: the report of the first is overwritten
    by that of the second, and the reactor calls itself healthy although
    its first child is unhealthy. *)
Example reactor_health_shadowed_child :
  let r := Reactor.constructor Sample.JSON_stringify
             (Sample.doubling None (Some [Sample.greeter; Sample.greeter])) Sample.now in
  let child_health (i : nat) :=
    {| CellHealth.status := if Nat.eqb i 0 then "unhealthy" else "healthy";
       CellHealth.message := None; CellHealth.budgetRemaining := None;
       CellHealth.children := None |} in
  CellHealth.status (ReactorCell.health child_health r) = "healthy".
Proof. reflexivity. Qed.

(* ===================================================================== *)
(** * A composed Reactor under the context map and self-similarity checks *)
(* ===================================================================== *)

Lemma contextMapCheck_cell_unfold {Schema} (cell : DiscoveredCell.t Schema) :
  Checks.contextMapCheck_cell cell =
  let ctx msg principle :=
    {| Violation.cell := Checks.cell_name cell; Violation.file := DiscoveredCell.filePath cell;
       Violation.message := msg; Violation.principle := principle |} in
  if negb (DiscoveredCell.hasToMapMethod cell) then
    [ctx "Cell lacks toMap() method — context map is a first-class element (Principle V)" "V"]
  else
    let map := DiscoveredCell.contextMap cell in
    app (if Js.falsy map.(ContextMapEntry.identity).(CellIdentity.name)
         then [ctx "Context map missing identity — holographic principle requires self-contained identity (Principle IX)" "IX"]
         else [])
   (app (if Js.falsy map.(ContextMapEntry.signature)
         then [ctx "Context map missing signature reference" "V"]
         else [])
   (app (match DiscoveredCell.children cell with
         | [] => []
         | _ :: _ =>
             app (match map.(ContextMapEntry.children) with
                  | Some (_ :: _) => []
                  | _ => [ctx "Composed cell's context map does not list children — holographic principle violated" "IX"]
                  end)
                 (if Nat.ltb 0 (List.length
                                  (List.filter (fun c => String.eqb (Checks.cell_type c) "channel")
                                               (DiscoveredCell.children cell))) &&
                     match map.(ContextMapEntry.channels) with
                     | Some (_ :: _) => false
                     | _ => true
                     end
                  then [ctx "Composed cell has Channel children but context map does not list channels" "V"]
                  else [])
         end)
        (flat_map Checks.contextMapCheck_cell (DiscoveredCell.children cell)))).
Proof. destruct cell as [fp id i o l s m kids hh ht hr]; destruct kids; reflexivity. Qed.

Lemma selfSimilarityCheck_cell_unfold {Schema} (cell : DiscoveredCell.t Schema) :
  Checks.selfSimilarityCheck_cell cell =
  let ctx msg :=
    {| Violation.cell := Checks.cell_name cell; Violation.file := DiscoveredCell.filePath cell;
       Violation.message := msg; Violation.principle := "IV" |} in
  match DiscoveredCell.children cell with
  | [] => []
  | _ :: _ =>
      app (if Checks.blank (Checks.cell_name cell)
           then [ctx "Composed cell lacks its own identity.name"]
           else [])
     (app (if Js.falsy cell.(DiscoveredCell.input).(CellInput.description)
           then [ctx "Composed cell lacks its own input declaration — scale must be invisible from outside"]
           else [])
     (app (if Js.falsy cell.(DiscoveredCell.output).(CellOutput.description)
           then [ctx "Composed cell lacks its own output declaration — scale must be invisible from outside"]
           else [])
     (app (match cell.(DiscoveredCell.signature).(CellSignature.children) with
           | Some (_ :: _) => []
           | _ => [ctx "Composed cell's signature does not include child signatures — violates self-similarity"]
           end)
     (app (flat_map (Checks.selfSimilarity_child cell) (DiscoveredCell.children cell))
          (flat_map Checks.selfSimilarityCheck_cell (DiscoveredCell.children cell))))))
  end.
Proof. destruct cell; reflexivity. Qed.

(** X25. A Reactor fresh from its constructor is self-similar.  For a
    reactor built by the SDK and discovered with the instances it holds
    as children, [contextMapCheck] reports for the reactor itself at most
    a missing name (its map carries the signature and lists children and
    channels), and [selfSimilarityCheck] at most a missing name or
    description: the signature of a composed reactor always includes the
    hashes of its children.  What is left are the reports about the
    children. *)
Theorem constructed_reactor_is_self_similar {Schema TEvent TResponse World : Type}
    (JSON_stringify : Schema -> string) (child_health : nat -> CellHealth.t)
    (config : ReactorConfig.t Schema TEvent TResponse World) (now filePath : string)
    (children : list (LiveCell.t Schema)) :
  map LiveCell.contract children = Js_array.or_empty (ReactorConfig.children config) ->
  let r := Reactor.constructor JSON_stringify config now in
  let cell :=
    Discovery.cellToDiscovered (Discovery.of_reactor child_health r children) filePath in
  let ctx msg principle :=
    {| Violation.cell := ReactorConfig.name config; Violation.file := filePath;
       Violation.message := msg; Violation.principle := principle |} in
  Checks.contextMapCheck_cell cell =
    app (if Js.falsy (ReactorConfig.name config)
         then [ctx "Context map missing identity — holographic principle requires self-contained identity (Principle IX)" "IX"]
         else [])
        (flat_map Checks.contextMapCheck_cell (DiscoveredCell.children cell)) /\
  Checks.selfSimilarityCheck_cell cell =
    match DiscoveredCell.children cell with
    | [] => []
    | _ :: _ =>
        app (if Checks.blank (ReactorConfig.name config)
             then [ctx "Composed cell lacks its own identity.name" "IV"] else [])
       (app (if Js.falsy (CellInput.description (ReactorConfig.input config))
             then [ctx "Composed cell lacks its own input declaration — scale must be invisible from outside" "IV"]
             else [])
       (app (if Js.falsy (CellOutput.description (ReactorConfig.output config))
             then [ctx "Composed cell lacks its own output declaration — scale must be invisible from outside" "IV"]
             else [])
       (app (flat_map (Checks.selfSimilarity_child cell) (DiscoveredCell.children cell))
            (flat_map Checks.selfSimilarityCheck_cell (DiscoveredCell.children cell)))))
    end.
Proof.
  intros Hcoh r cell ctx.
  assert (Hkids : Reactor._children r = Js_array.or_empty (ReactorConfig.children config))
    by reflexivity.
  assert (Hchildren : DiscoveredCell.children cell =
            map (fun child =>
                   Discovery.cellToDiscovered child
                     (filePath ++ "#" ++
                      (LiveCell.contract child).(UniversalContract.identity).(CellIdentity.name)))
                children).
  { unfold cell. rewrite cellToDiscovered_children. reflexivity. }
  assert (Hmap : DiscoveredCell.contextMap cell = ReactorCell.toMap r) by reflexivity.
  assert (Htomap : DiscoveredCell.hasToMapMethod cell = true) by reflexivity.
  assert (Hname : Checks.cell_name cell = ReactorConfig.name config) by reflexivity.
  assert (Hfile : DiscoveredCell.filePath cell = filePath) by reflexivity.
  assert (Hin : DiscoveredCell.input cell = ReactorConfig.input config) by reflexivity.
  assert (Hout : DiscoveredCell.output cell = ReactorConfig.output config) by reflexivity.
  assert (Hsig : DiscoveredCell.signature cell = Reactor.signature r) by reflexivity.
  assert (Hhash : Js.falsy (CellSignature.hash (Reactor.signature r)) = false).
  { unfold r, Reactor.constructor, Reactor.computeSignature.
    cbn [Reactor.with_signature Reactor.signature Reactor._children].
    destruct (match ReactorConfig.children config with Some cs => cs | None => [] end);
      apply sha256_truthy. }
  assert (Hsigkids : forall c rest, Reactor._children r = c :: rest ->
            exists h hs, CellSignature.children (Reactor.signature r) = Some (h :: hs)).
  { intros c rest E. unfold r, Reactor.constructor, Reactor.computeSignature in *.
    cbn [Reactor.with_signature Reactor.signature Reactor._children] in *.
    rewrite E. cbn [Signature.computeComposedSignature CellSignature.children].
    pose proof (sort_length (map CellSignature.hash
                               (map UniversalContract.signature (c :: rest)))) as Hlen.
    destruct (Js.sort _) as [|h hs]; [discriminate Hlen|]. exists h, hs. reflexivity. }
  clearbody cell. split.
  - rewrite contextMapCheck_cell_unfold. cbv zeta.
    rewrite Htomap, Hmap, Hname, Hfile. cbn [negb].
    unfold ReactorCell.toMap at 1 2.
    cbn [ContextMapEntry.identity ContextMapEntry.signature].
    rewrite Hhash. cbn [app]. f_equal.
    destruct (DiscoveredCell.children cell) as [|k kids] eqn:Hshape; [reflexivity|].
    unfold ReactorCell.toMap. cbn [ContextMapEntry.children ContextMapEntry.channels].
    rewrite Hkids, <- Hcoh.
    destruct children as [|child rest]; [discriminate Hchildren|].
    pose proof (discovered_channel_names (child :: rest) filePath) as Hchan.
    rewrite <- Hchildren in Hchan.
    change (List.filter (fun c => String.eqb (Checks.cell_type c) "channel") (k :: kids))
      with (List.filter Validator.is_channel (k :: kids)).
    apply (f_equal (@List.length string)) in Hchan. rewrite !List.length_map in Hchan.
    rewrite Hchan.
    set (channels := List.filter _ (map LiveCell.contract (child :: rest))).
    destruct channels; reflexivity.
  - rewrite selfSimilarityCheck_cell_unfold. cbv zeta.
    rewrite Hname, Hfile, Hin, Hout, Hsig.
    destruct (DiscoveredCell.children cell) as [|k kids] eqn:Hshape; [reflexivity|].
    destruct children as [|child rest]; [discriminate Hchildren|].
    destruct (Hsigkids (LiveCell.contract child) (map LiveCell.contract rest))
      as (h & hs & Hsome); [rewrite Hkids, <- Hcoh; reflexivity|].
    rewrite Hsome. reflexivity.
Qed.

(** The doubling reactor built over the greeter. *)
Lemma constructed_reactor_witness :
  let health := {| CellHealth.status := "healthy"; CellHealth.message := None;
                   CellHealth.budgetRemaining := Some (Js.PNumber (Js.of_Z 10));
                   CellHealth.children := None |} in
  let greeter :=
    {| LiveCell.contract := Sample.greeter;
       LiveCell.health := Normal health;
       LiveCell.toMap :=
         {| ContextMapEntry.identity := UniversalContract.identity Sample.greeter;
            ContextMapEntry.parent := Some "doubler";
            ContextMapEntry.children := Some [];
            ContextMapEntry.channels := Some [];
            ContextMapEntry.signature := "" |};
       LiveCell.getChildren := None |} in
  let config := Sample.doubling None (Some [Sample.greeter]) in
  let r := Reactor.constructor Sample.JSON_stringify config Sample.now in
  let cell :=
    Discovery.cellToDiscovered (Discovery.of_reactor (fun _ => health) r [greeter])
      "dist/app.js" in
  let ctx msg principle :=
    {| Violation.cell := ReactorConfig.name config; Violation.file := "dist/app.js";
       Violation.message := msg; Violation.principle := principle |} in
  Checks.contextMapCheck_cell cell =
    app (if Js.falsy (ReactorConfig.name config)
         then [ctx "Context map missing identity — holographic principle requires self-contained identity (Principle IX)" "IX"]
         else [])
        (flat_map Checks.contextMapCheck_cell (DiscoveredCell.children cell)) /\
  Checks.selfSimilarityCheck_cell cell =
    match DiscoveredCell.children cell with
    | [] => []
    | _ :: _ =>
        app (if Checks.blank (ReactorConfig.name config)
             then [ctx "Composed cell lacks its own identity.name" "IV"] else [])
       (app (if Js.falsy (CellInput.description (ReactorConfig.input config))
             then [ctx "Composed cell lacks its own input declaration — scale must be invisible from outside" "IV"]
             else [])
       (app (if Js.falsy (CellOutput.description (ReactorConfig.output config))
             then [ctx "Composed cell lacks its own output declaration — scale must be invisible from outside" "IV"]
             else [])
       (app (flat_map (Checks.selfSimilarity_child cell) (DiscoveredCell.children cell))
            (flat_map Checks.selfSimilarityCheck_cell (DiscoveredCell.children cell)))))
    end.
Proof.
  intros health greeter config r cell ctx.
  exact (constructed_reactor_is_self_similar Sample.JSON_stringify (fun _ => health)
           config Sample.now "dist/app.js" [greeter] eq_refl).
Defined.

(* ===================================================================== *)
(** * Further properties of the Keeper                                    *)
(* ===================================================================== *)

Section LeafCells.

Context {Schema : Type}.
Variable Schema_truthy : Schema -> bool.
Variable JSON_stringify : Schema -> string.
Variable Number_toString : Js.number -> string.

(** A leaf cell of the SDK under the eight checks: what the checks need
    of the instance. *)
Lemma leaf_live_cell_checks (live : LiveCell.t Schema) (p : string) :
  Js_array.or_empty (LiveCell.getChildren live) = [] ->
  Contract.validateContract Schema_truthy (LiveCell.contract live) = [] ->
  CellSignature.hash (UniversalContract.signature (LiveCell.contract live)) =
    Signature.sha256 (Signature.cellContent JSON_stringify (LiveCell.contract live)) ->
  Js.falsy (LiveCell.toMap live).(ContextMapEntry.identity).(CellIdentity.name) = false ->
  Js.falsy (LiveCell.toMap live).(ContextMapEntry.signature) = false ->
  Validator.check Number_toString (Discovery.cellToDiscovered live (p ++ ".js")) = [] ->
  Checks.allPassed Schema_truthy JSON_stringify Number_toString
    [Discovery.cellToDiscovered live (p ++ ".js")] = true.
Proof.
  intros Hleaf Hvalid Hhash Hmapname Hmapsig Hc7.
  unfold Contract.validateContract, Contract.validateIdentity, Contract.validateInput,
    Contract.validateOutput, Contract.validateLineage, Contract.validateSignature in Hvalid.
  split_nil.
  destruct live as [[id inp out lin sig] health toMap getChildren].
  cbn [LiveCell.contract LiveCell.toMap LiveCell.getChildren
       UniversalContract.identity UniversalContract.input UniversalContract.output
       UniversalContract.lineage UniversalContract.signature] in *.
  unfold Checks.allPassed, Checks.all_checks.
  set (cell := Discovery.cellToDiscovered _ _) in *.
  assert (Hkids : DiscoveredCell.children cell = []).
  { unfold cell. cbn. destruct getChildren as [kids|]; [|reflexivity].
    cbn in Hleaf. subst kids. reflexivity. }
  assert (Hpath : DiscoveredCell.filePath cell = p ++ ".js") by reflexivity.
  pose proof (fileName_violation_js cell p Hpath) as Hfile.
  unfold Contract.blank in *. unfold Contract.CELL_TYPES in *.
  apply negb_false_iff in H10, H0, H1.
  apply orb_false_iff in H11 as [Hv1 Hv2], H3 as [Hs1 Hs2].
  apply negb_false_iff in Hv2, Hs2.
  unfold Checks.cellTypeCheck, Checks.contractCheck, Validator.compositionCheck,
    Checks.selfSimilarityCheck, Checks.contextMapCheck, Validator.signatureCheck,
    Validator.circuitBreakerCheck, Checks.lineageCheck.
  cbn [forallb CheckResult.passed flat_map].
  rewrite !app_nil_r.
  assert (Hc1 : Checks.cellTypeCheck_cell cell = []).
  { assert (E : Checks.cellTypeCheck_cell cell =
                app (if negb (Js_array.includes Checks.VALID_CELL_TYPES (Checks.cell_type cell))
                     then [{| Violation.cell := Checks.cell_name cell;
                              Violation.file := DiscoveredCell.filePath cell;
                              Violation.message :=
                                "Invalid cellType " ++ quote ++ Checks.cell_type cell ++ quote ++
                                ". Must be one of: " ++ Checks.VALID_CELL_TYPES_joined;
                              Violation.principle := "I" |}]
                     else [])
                    (app (Checks.fileName_violation cell)
                         (flat_map Checks.cellTypeCheck_cell (DiscoveredCell.children cell)))).
    { destruct cell as [fp i0 i1 o l s m kids hh ht hr]; destruct kids; reflexivity. }
    rewrite E, Hfile, Hkids.
    replace (Checks.cell_type cell) with (CellIdentity.cellType id) by reflexivity.
    unfold Checks.VALID_CELL_TYPES. rewrite H10. reflexivity. }
  assert (Hc2 : Checks.contractCheck_cell Schema_truthy cell = []).
  { rewrite contractCheck_cell_unfold, Hkids. cbv zeta.
    unfold Checks.blank, Checks.cell_name.
    replace (DiscoveredCell.identity cell) with id by reflexivity.
    replace (DiscoveredCell.input cell) with inp by reflexivity.
    replace (DiscoveredCell.output cell) with out by reflexivity.
    replace (DiscoveredCell.signature cell) with sig by reflexivity.
    replace (DiscoveredCell.hasHealthMethod cell) with true by reflexivity.
    rewrite H, Hv1, Hv2, H0, H9, H1, H8, Hs1, Hs2, H4. reflexivity. }
  assert (Hc3 : Validator.compositionCheck_cell cell = []).
  { rewrite compositionCheck_cell_unfold, Hkids. reflexivity. }
  assert (Hc4 : Checks.selfSimilarityCheck_cell cell = []).
  { rewrite selfSimilarityCheck_cell_unfold, Hkids. reflexivity. }
  assert (Hc5 : Checks.contextMapCheck_cell cell = []).
  { rewrite contextMapCheck_cell_unfold, Hkids. cbv zeta.
    replace (DiscoveredCell.hasToMapMethod cell) with true by reflexivity.
    replace (DiscoveredCell.contextMap cell) with toMap by reflexivity.
    rewrite Hmapname, Hmapsig. reflexivity. }
  assert (Hc6 : Validator.signatureCheck_cell JSON_stringify cell = []).
  { rewrite signatureCheck_cell_unfold, Hkids. cbv zeta.
    replace (DiscoveredCell.signature cell) with sig by reflexivity.
    rewrite Hs1, Hs2, H4. cbn [orb negb app].
    assert (E : Validator.recomputeHash JSON_stringify cell = CellSignature.hash sig).
    { unfold Validator.recomputeHash. rewrite Hkids. rewrite Hhash. reflexivity. }
    rewrite E, String.eqb_refl. reflexivity. }
  assert (Hc8 : Checks.lineage_check cell = []).
  { rewrite lineage_check_unfold, Hkids. cbv zeta. unfold Checks.blank.
    replace (DiscoveredCell.lineage cell) with lin by reflexivity.
    rewrite H2, H5, H6, H7. reflexivity. }
  rewrite Hc1, Hc2, Hc3, Hc4, Hc5, Hc6, Hc7, Hc8. reflexivity.
Qed.

End LeafCells.

Lemma last_cons_default {A} (x : A) (xs : list A) (d d' : A) :
  List.last (x :: xs) d = List.last (x :: xs) d'.
Proof.
  revert x. induction xs as [|y xs IH]; intros x; [reflexivity|].
  cbn [List.last] in *. apply IH.
Qed.

Lemma keeper_sets {Schema TState : Type} (states : list TState) :
  forall k : @Keeper.t Schema TState,
    fold_left (fun keeper state => snd (Keeper.set keeper state)) states k =
    Keeper.make (Keeper.identity k) (Keeper.input k) (Keeper.output k) (Keeper.lineage k)
                (Keeper.signature k) (List.last states (Keeper._state k))
                (Keeper._children k) (Keeper._parent k).
Proof.
  induction states as [|s states IH]; intros k.
  - destruct k; reflexivity.
  - cbn [fold_left]. rewrite IH. cbn.
    destruct states as [|t states]; [reflexivity|].
    f_equal. apply last_cons_default.
Qed.

(** X26. A Keeper keeps what it was last given and stays valid.  After
    any sequence of [set]s on a keeper fresh from its constructor, [get]
    returns the last state set (the initial state if there was none);
    and if the keeper has no children and the SDK's [validateContract]
    accepts it, the keeper discovered from a compiled file passes all
    eight constitutional checks, whatever state it holds: the circuit
    breaker check asks nothing of a keeper. *)
Theorem sdk_leaf_keeper_passes_validator {Schema TState : Type}
    (Schema_truthy : Schema -> bool) (JSON_stringify : Schema -> string)
    (Number_toString : Js.number -> string) (child_health : nat -> CellHealth.t)
    (config : KeeperConfig.t Schema TState) (now p : string) (states : list TState) :
  Js_array.or_empty (KeeperConfig.children config) = [] ->
  Contract.validateContract Schema_truthy
    (Keeper.contract (Keeper.constructor JSON_stringify config now)) = [] ->
  let fresh := Keeper.constructor JSON_stringify config now in
  let used := fold_left (fun keeper state => snd (Keeper.set keeper state)) states fresh in
  fst (Keeper.get used) = Resolved (List.last states (KeeperConfig.initialState config)) /\
  Checks.allPassed Schema_truthy JSON_stringify Number_toString
    [Discovery.cellToDiscovered (Discovery.of_keeper child_health used []) (p ++ ".js")] = true.
Proof.
  intros Hleaf Hvalid fresh used.
  unfold used. rewrite keeper_sets. split; [reflexivity|].
  pose proof (proj1 (validateContract_nil_iff Schema_truthy _) Hvalid) as Hparts.
  destruct Hparts as ((Hname & _) & _).
  apply leaf_live_cell_checks.
  - reflexivity.
  - exact Hvalid.
  - unfold fresh, Keeper.constructor, Keeper.computeSignature.
    cbn [Discovery.of_keeper LiveCell.contract Keeper.contract Keeper.with_signature
         Keeper.identity Keeper.input Keeper.output Keeper.lineage Keeper.signature
         Keeper._children UniversalContract.signature].
    rewrite Hleaf. reflexivity.
  - unfold Contract.blank in Hname. apply orb_false_iff in Hname as [Hname _].
    exact Hname.
  - unfold fresh, Keeper.constructor, Keeper.computeSignature.
    cbn [Discovery.of_keeper LiveCell.toMap Keeper.toMap Keeper.with_signature
         Keeper.signature Keeper._children ContextMapEntry.signature].
    rewrite Hleaf. apply sha256_truthy.
  - rewrite check_exempt; [reflexivity|discriminate|discriminate].
Qed.

(** A keeper of a counter, set to 1, 2 and then 3. *)
Lemma sdk_leaf_keeper_witness :
  let config :=
    {| KeeperConfig.name := "memory"; KeeperConfig.version := "1.0.0";
       KeeperConfig.input := {| CellInput.schema := Sample.string_schema;
                                CellInput.description := "a count" |};
       KeeperConfig.output := {| CellOutput.schema := Sample.string_schema;
                                 CellOutput.description := "the count" |};
       KeeperConfig.lineage := Sample.lineage;
       KeeperConfig.parent := None;
       KeeperConfig.initialState := 0%nat;
       KeeperConfig.children := None |} in
  let fresh := Keeper.constructor Sample.JSON_stringify config Sample.now in
  let used :=
    fold_left (fun keeper state => snd (Keeper.set keeper state)) [1; 2; 3]%nat fresh in
  fst (Keeper.get used) = Resolved 3%nat /\
  Checks.allPassed (fun _ => true) Sample.JSON_stringify Sample.Number_toString
    [Discovery.cellToDiscovered
       (Discovery.of_keeper
          (fun _ => {| CellHealth.status := "healthy"; CellHealth.message := None;
                       CellHealth.budgetRemaining := None; CellHealth.children := None |})
          used [])
       ("dist/memory.keeper" ++ ".js")] = true.
Proof.
  intros config.
  apply (sdk_leaf_keeper_passes_validator (fun _ => true) Sample.JSON_stringify
           Sample.Number_toString _ config Sample.now "dist/memory.keeper" [1; 2; 3]%nat).
  - reflexivity.
  - vm_compute. reflexivity.
Defined.
